(** * anim5s coordination server (V45): room engine, reservations, handlers

    A shallow embedding of the persistent WebSocket server
    (spec 2026-01-15, Phase4 V45): identifier mint, reservation sweep,
    phase normalisation, room (de)serialisation, the room cache with its
    eviction, best-effort persistence, backup rotation and the [ws]
    message handler.

    Conventions of the embedding.
    - JS strings are [string]s of ASCII code units; [trim], [toUpperCase]
      and the default [sort] order are the ASCII ones.
    - JS numbers that the server itself produces (frame indexes, clocks,
      counters) are [Z]; a number read from a client keeps the cases the
      code distinguishes ([jsnum]).
    - A JS [Map], [Set] or plain object used as a dictionary is an
      insertion-ordered association list with unique keys ([JsMap]).
    - [Date.now()] is read once per handler run ([now] of the oracle);
      [Math.random()] draws, and the outcome of each disk write, are inputs
      of the run ([Oracle]).
    - Metrics counters and log lines are not part of the model. *)

From Stdlib Require Import String Ascii List ZArith Lia Bool Arith PeanoNat.
From Stdlib Require Import Permutation Sorted.
Import ListNotations.

Local Open Scope string_scope.
Local Open Scope list_scope.
Local Open Scope Z_scope.

Set Implicit Arguments.

(** ** JS strings *)

Module JsString.

Definition code (c : ascii) : nat := nat_of_ascii c.

Definition is_digit (c : ascii) : bool :=
  (48 <=? code c)%nat && (code c <=? 57)%nat.
Definition is_lower (c : ascii) : bool :=
  (97 <=? code c)%nat && (code c <=? 122)%nat.
Definition is_upper (c : ascii) : bool :=
  (65 <=? code c)%nat && (code c <=? 90)%nat.

(** [\s] restricted to ASCII: space, TAB, LF, VT, FF, CR. *)
Definition is_space (c : ascii) : bool :=
  (code c =? 32)%nat || ((9 <=? code c)%nat && (code c <=? 13)%nat).

Definition upper_char (c : ascii) : ascii :=
  if is_lower c then ascii_of_nat (code c - 32) else c.

Fixpoint map_chars (f : ascii -> ascii) (s : string) : string :=
  match s with
  | EmptyString => EmptyString
  | String c r => String (f c) (map_chars f r)
  end.

Fixpoint all_chars (p : ascii -> bool) (s : string) : bool :=
  match s with
  | EmptyString => true
  | String c r => p c && all_chars p r
  end.

Definition toUpperCase (s : string) : string := map_chars upper_char s.

Fixpoint trimStart (s : string) : string :=
  match s with
  | EmptyString => EmptyString
  | String c r => if is_space c then trimStart r else s
  end.

Fixpoint rev_string (acc s : string) : string :=
  match s with
  | EmptyString => acc
  | String c r => rev_string (String c acc) r
  end.

Definition trim (s : string) : string :=
  rev_string "" (trimStart (rev_string "" (trimStart s))).

(** [s.slice(a)] and [s.slice(a, b)] for [0 <= a <= b]. *)
Definition slice_from (a : nat) (s : string) : string :=
  substring a (String.length s - a) s.
Definition slice (a b : nat) (s : string) : string :=
  substring a (b - a) s.

Definition startsWith (p s : string) : bool := prefix p s.

(** [Boolean(s)] for a string. *)
Definition truthy (s : string) : bool :=
  match s with EmptyString => false | _ => true end.

End JsString.
Import JsString.

(** ** Insertion-ordered maps (JS [Map], [Set], dictionary objects) *)

Module JsMap.
Section JsMap.
Variables (K V : Type) (eqb : K -> K -> bool).

Definition t := list (K * V).

Fixpoint get (k : K) (m : t) : option V :=
  match m with
  | [] => None
  | (k', v) :: r => if eqb k k' then Some v else get k r
  end.

Definition has (k : K) (m : t) : bool :=
  match get k m with Some _ => true | None => false end.

(** [m.set(k, v)]: an existing key keeps its place. *)
Fixpoint set (k : K) (v : V) (m : t) : t :=
  match m with
  | [] => [(k, v)]
  | (k', v') :: r => if eqb k k' then (k, v) :: r else (k', v') :: set k v r
  end.

Definition delete (k : K) (m : t) : t :=
  filter (fun kv => negb (eqb k (fst kv))) m.

Definition keys (m : t) : list K := map fst m.
Definition size (m : t) : Z := Z.of_nat (List.length m).

End JsMap.
End JsMap.

(** A JS [Set] of strings, in insertion order. *)
Module JsSet.
Definition t := list string.
Definition has (x : string) (s : t) : bool :=
  existsb (String.eqb x) s.
Definition add (x : string) (s : t) : t :=
  if has x s then s else s ++ [x].
Definition delete (x : string) (s : t) : t :=
  filter (fun y => negb (String.eqb x y)) s.
Definition size (s : t) : Z := Z.of_nat (List.length s).
End JsSet.

(** ** Identifier and token mint

    [Math.random().toString(36)] is an input of the mint: the base-36
    rendering [r] of a double of [0, 1), which is ["0"] for zero and
    ["0."] followed by at least one digit of [0-9a-z] otherwise
    ([(0.5).toString(36)] is ["0.i"]). *)

Definition is_base36 (c : ascii) : bool := is_digit c || is_lower c.
Definition is_upper_alnum (c : ascii) : bool := is_upper c || is_digit c.

Definition rendering36 (r : string) : bool :=
  String.eqb r "0" ||
  (prefix "0." r && negb (String.eqb r "0.") && all_chars is_base36 (slice_from 2 r)).

Definition id7 (r : string) : string := toUpperCase (slice 2 9 r).

Definition token (r1 r2 : string) : string :=
  slice_from 2 r1 ++ "-" ++ slice_from 2 r2.

Definition ROOM_ID_RE (id : string) : bool :=
  all_chars is_upper_alnum id &&
  (6 <=? String.length id)%nat && (String.length id <=? 12)%nat.

(** The argument is [String(x || "")]: the empty string stands for any
    falsy [x]. *)
Definition normalizeRoomId (x : string) : string :=
  let id := toUpperCase (trim x) in
  if ROOM_ID_RE id then id else "".

(** [None] is a value that is not a string. *)
Definition validatePngDataUrl (s : option string) : bool :=
  match s with
  | None => false
  | Some s =>
      startsWith "data:image/" s &&
      negb (1500000 <? Z.of_nat (String.length s))
  end.

Definition THEME_POOL : list string :=
  ["走る犬";"くるま";"宇宙人";"おにぎり";"雨の日";"ジャンプ";"落下";"変身";"ねこパンチ";
   "通勤時間";"料理";"かくれんぼ";"風船";"雪だるま";"電車";"魔法";"釣り";"ダンス"].

(** [u] stands for the draw [Math.floor(Math.random()*THEME_POOL.length)]. *)
Definition randTheme (u : nat) : string :=
  nth (u mod List.length THEME_POOL) THEME_POOL "".

(** ** Rooms *)

(** A reservation holds a whole frame number, as every reservation
    that [assign_frame] makes does. A room file edited by hand to carry a reservation on a finite fraction in
    [0, 60), which [deserializeRoom] would take in as it is, lies
    outside the rooms described here. *)
Record Reservation := mkReservation { frameIndex : Z; expiresAt : Z }.

Definition Reservations := JsMap.t string Reservation.
Definition ReservedByFrame := JsMap.t Z string.

Record Room := mkRoom {
  roomId : string;
  theme : string;
  frames : list (option string);
  committed : list bool;
  createdAt : Z;
  updatedAt : Z;
  phase : string;
  reservations : Reservations;
  reservedByFrame : ReservedByFrame
}.

Definition with_phase (p : string) (r : Room) : Room :=
  mkRoom (roomId r) (theme r) (frames r) (committed r) (createdAt r)
         (updatedAt r) p (reservations r) (reservedByFrame r).
Definition with_updatedAt (u : Z) (r : Room) : Room :=
  mkRoom (roomId r) (theme r) (frames r) (committed r) (createdAt r)
         u (phase r) (reservations r) (reservedByFrame r).
Definition with_frames (f : list (option string)) (r : Room) : Room :=
  mkRoom (roomId r) (theme r) f (committed r) (createdAt r)
         (updatedAt r) (phase r) (reservations r) (reservedByFrame r).
Definition with_committed (c : list bool) (r : Room) : Room :=
  mkRoom (roomId r) (theme r) (frames r) c (createdAt r)
         (updatedAt r) (phase r) (reservations r) (reservedByFrame r).
Definition with_reservations (m : Reservations) (b : ReservedByFrame) (r : Room) : Room :=
  mkRoom (roomId r) (theme r) (frames r) (committed r) (createdAt r)
         (updatedAt r) (phase r) m b.

(** [a[i]] on an array of booleans read through [Boolean(...)]: a missing
    element is falsy. *)
Definition at_bool (a : list bool) (i : Z) : bool :=
  if i <? 0 then false else nth (Z.to_nat i) a false.

(** [a[i] = x] for an index inside the array. The handlers only write at
    an index checked against [0 <= i < 60] into arrays of length 60, so
    the out-of-range case (where JS would extend the array) leaves the
    list as it is. *)
Fixpoint set_nth {A : Type} (i : nat) (x : A) (a : list A) : list A :=
  match a, i with
  | [], _ => []
  | _ :: r, O => x :: r
  | y :: r, S j => y :: set_nth j x r
  end.
Definition set_at {A : Type} (a : list A) (i : Z) (x : A) : list A :=
  if i <? 0 then a else set_nth (Z.to_nat i) x a.

Definition PLAYBACK : string := "PLAYBACK".
Definition DRAWING : string := "DRAWING".

Definition in_range (fi : Z) : bool := (0 <=? fi) && (fi <? 60).

(** The test [expired || committed || invalid] of the sweep, for one
    entry at clock [t]. *)
Definition swept (t : Z) (room : Room) (r : Reservation) : bool :=
  let fi := frameIndex r in
  let ex := expiresAt r in
  let expired := ex <=? t in
  let invalid := negb (in_range fi) in
  let committed := if negb invalid then at_bool (committed room) fi else false in
  expired || committed || invalid.

Definition cleanupReservations (t : Z) (room : Room) : Room :=
  let unmap (rbf : ReservedByFrame) (e : string * Reservation) : ReservedByFrame :=
    let '(tok, r) := e in
    if swept t room r then
      if in_range (frameIndex r) then
        match JsMap.get Z.eqb (frameIndex r) rbf with
        | Some curTok =>
            if String.eqb curTok tok then JsMap.delete Z.eqb (frameIndex r) rbf else rbf
        | None => rbf
        end
      else rbf
    else rbf in
  with_reservations
    (filter (fun e => negb (swept t room (snd e))) (reservations room))
    (fold_left unmap (reservations room) (reservedByFrame room))
    room.

Definition normalizePhase (room : Room) : Room :=
  let done := forallb (fun b => b) (committed room) in
  if done then with_phase PLAYBACK room else with_phase DRAWING room.

(** The parsed content of [rooms/<ROOMID>.json]. [j_roomId], [j_theme] and
    [j_phase] are the [String(...)] of the fields (empty when falsy),
    [j_committed] holds the truthiness of the elements of [obj.committed]
    (empty when it is not an array), and a number field is 0 when absent. *)
Record RoomJson := mkRoomJson {
  j_roomId : string;
  j_theme : string;
  j_frames : list (option string);
  j_committed : list bool;
  j_createdAt : Z;
  j_updatedAt : Z;
  j_phase : string;
  j_reservations : list (string * Reservation)
}.

Definition pad60 {A : Type} (d : A) (a : list A) : list A :=
  let a := firstn 60 a in
  a ++ repeat d (60 - List.length a)%nat.

Definition deserializeRoom (t : Z) (u : nat) (obj : RoomJson) : option Room :=
  let roomId := normalizeRoomId (j_roomId obj) in
  if negb (truthy roomId) then None else
  let frames := pad60 None (j_frames obj) in
  let committed := pad60 false (j_committed obj) in
  let accept (m : Reservations) (pair : string * Reservation) : Reservations :=
    let '(tok, r) := pair in
    if negb (truthy tok) then m
    else if negb (in_range (frameIndex r)) then m
    else if expiresAt r <=? 0 then m
    else JsMap.set String.eqb tok (mkReservation (frameIndex r) (expiresAt r)) m in
  let reservations := fold_left accept (j_reservations obj) [] in
  let rebuild (rbf : ReservedByFrame) (e : string * Reservation) : ReservedByFrame :=
    let '(tok, r) := e in
    if at_bool committed (frameIndex r) then rbf
    else JsMap.set Z.eqb (frameIndex r) tok rbf in
  let room :=
    mkRoom roomId
      (if truthy (trim (j_theme obj)) then trim (j_theme obj) else randTheme u)
      frames committed
      (if j_createdAt obj =? 0 then t else j_createdAt obj)
      (if j_updatedAt obj =? 0 then t else j_updatedAt obj)
      (if truthy (j_phase obj) then j_phase obj else DRAWING)
      reservations
      (fold_left rebuild reservations []) in
  Some (normalizePhase (cleanupReservations t room)).

(** [serializeRoom], [roomState] and [firstYoungestEmpty] sweep and
    normalise the room they are given: they return it along with their
    result. *)
Definition serializeRoom (t : Z) (room : Room) : RoomJson * Room :=
  let room := normalizePhase (cleanupReservations t room) in
  (mkRoomJson (roomId room) (theme room) (frames room) (committed room)
              (createdAt room) (updatedAt room) (phase room)
              (reservations room),
   room).

Record RoomState := mkRoomState {
  rs_roomId : string;
  rs_theme : string;
  rs_frameCount : Z;
  rs_fps : Z;
  rs_phase : string;
  rs_createdAt : Z;
  rs_updatedAt : Z;
  rs_filled : list bool;
  rs_completed : bool
}.

Definition roomState (t : Z) (room : Room) : RoomState * Room :=
  let room := normalizePhase (cleanupReservations t room) in
  (mkRoomState (roomId room) (theme room) 60 12 (phase room)
               (createdAt room) (updatedAt room) (committed room)
               (String.eqb (phase room) PLAYBACK),
   room).

Fixpoint firstEmptyFrom (room : Room) (i : Z) (fuel : nat) : Z :=
  match fuel with
  | O => -1
  | S fuel =>
      if at_bool (committed room) i then firstEmptyFrom room (i + 1) fuel
      else if JsMap.has Z.eqb i (reservedByFrame room) then firstEmptyFrom room (i + 1) fuel
      else i
  end.

Definition firstYoungestEmpty (t : Z) (room : Room) : Z * Room :=
  let room := cleanupReservations t room in
  (firstEmptyFrom room 0 60, room).

(** ** Process-wide state: cache, index, files, quarantine, rate buckets *)

Record Config := mkConfig {
  ROOM_CACHE_MAX : Z;
  ROOM_CACHE_IDLE_MS : Z;
  RESERVATION_MS : Z;
  BACKUP_INTERVAL_MS : Z;
  BACKUP_KEEP : Z
}.

Definition default_config : Config :=
  mkConfig 80 (5 * 60 * 1000) (3 * 60 * 1000) (30 * 60 * 1000) 24.

Record IndexMeta := mkIndexMeta {
  m_roomId : string;
  m_theme : string;
  m_createdAt : Z;
  m_updatedAt : Z;
  m_filledCount : Z;
  m_completed : bool
}.

Record CacheEntry := mkCacheEntry { room : Room; lastAccess : Z }.

(** A rate bucket; [resetAt] is [None] when it is [NaN]. *)
Record Bucket := mkBucket { count : Z; resetAt : option Z }.

Definition Index := JsMap.t string IndexMeta.

(** [roomFiles] maps [<ROOMID>] to the parsed content of
    [rooms/<ROOMID>.json]; [indexFile] is the last [rooms_index.json]
    written; [backups] lists the entries of [backups/]. *)
Record Server := mkServer {
  cache : JsMap.t string CacheEntry;
  roomFiles : JsMap.t string RoomJson;
  index : Index;
  indexFile : option Index;
  quarantineSet : JsSet.t;
  dirtyRoomIds : JsSet.t;
  lastBackupAt : Z;
  backups : list string;
  RATE_BUCKETS : JsMap.t string Bucket
}.

Definition with_cache (c : JsMap.t string CacheEntry) (s : Server) : Server :=
  mkServer c (roomFiles s) (index s) (indexFile s) (quarantineSet s)
           (dirtyRoomIds s) (lastBackupAt s) (backups s) (RATE_BUCKETS s).
Definition with_roomFiles (f : JsMap.t string RoomJson) (s : Server) : Server :=
  mkServer (cache s) f (index s) (indexFile s) (quarantineSet s)
           (dirtyRoomIds s) (lastBackupAt s) (backups s) (RATE_BUCKETS s).
Definition with_index (i : Index) (s : Server) : Server :=
  mkServer (cache s) (roomFiles s) i (indexFile s) (quarantineSet s)
           (dirtyRoomIds s) (lastBackupAt s) (backups s) (RATE_BUCKETS s).
Definition with_indexFile (i : option Index) (s : Server) : Server :=
  mkServer (cache s) (roomFiles s) (index s) i (quarantineSet s)
           (dirtyRoomIds s) (lastBackupAt s) (backups s) (RATE_BUCKETS s).
Definition with_quarantineSet (q : JsSet.t) (s : Server) : Server :=
  mkServer (cache s) (roomFiles s) (index s) (indexFile s) q
           (dirtyRoomIds s) (lastBackupAt s) (backups s) (RATE_BUCKETS s).
Definition with_dirtyRoomIds (d : JsSet.t) (s : Server) : Server :=
  mkServer (cache s) (roomFiles s) (index s) (indexFile s) (quarantineSet s)
           d (lastBackupAt s) (backups s) (RATE_BUCKETS s).
Definition with_backup (d : JsSet.t) (l : Z) (b : list string) (s : Server) : Server :=
  mkServer (cache s) (roomFiles s) (index s) (indexFile s) (quarantineSet s)
           d l b (RATE_BUCKETS s).
Definition with_RATE_BUCKETS (r : JsMap.t string Bucket) (s : Server) : Server :=
  mkServer (cache s) (roomFiles s) (index s) (indexFile s) (quarantineSet s)
           (dirtyRoomIds s) (lastBackupAt s) (backups s) r.

(** A process started on a data directory holding [files], with the index
    [idx] and the quarantine list [q] it loaded. *)
Definition boot (files : JsMap.t string RoomJson) (idx : Index) (q : JsSet.t) : Server :=
  mkServer [] files idx None q [] 0 [] [].

(** The inputs of one handler run: the clock, the [Math.random()] draws
    (as base-36 renderings for the mint, as the floored index for a pick)
    and, for the [k]-th file write of the run, whether it succeeds. *)
Record Oracle := mkOracle {
  now : Z;
  rnd_theme : nat;
  rnd_id : string;
  rnd_tok1 : string;
  rnd_tok2 : string;
  rnd_pick : nat;
  write_ok : nat -> bool
}.

(** ** Rate limiting *)

Record RateCfg := mkRateCfg { windowMs : Z; max : Z }.

Definition RATE_DEFAULT : RateCfg := mkRateCfg 10000 50.

Definition RATE_BY_OP (op : string) : option RateCfg :=
  if String.eqb op "hello" then Some (mkRateCfg 10000 120)
  else if String.eqb op "get_frame" then Some (mkRateCfg 10000 90)
  else if String.eqb op "join_room" then Some (mkRateCfg 10000 40)
  else if String.eqb op "resync" then Some (mkRateCfg 10000 30)
  else if String.eqb op "join_random" then Some (mkRateCfg 10000 18)
  else if String.eqb op "join_by_id" then Some (mkRateCfg 10000 18)
  else if String.eqb op "create_public_and_submit" then Some (mkRateCfg 60000 12)
  else if String.eqb op "submit_frame" then Some (mkRateCfg 60000 10)
  else None.

(** [RATE_BY_OP] is an object literal: a lookup under a name that it
    does not define itself finds the member of that name that every
    object inherits from [Object.prototype], a function or, under
    [__proto__], the prototype itself. Such a member is truthy and has
    neither [windowMs] nor [max]. *)
Definition OBJECT_MEMBERS : list string :=
  ["constructor"; "hasOwnProperty"; "isPrototypeOf"; "propertyIsEnumerable";
   "toLocaleString"; "toString"; "valueOf"; "__proto__";
   "__defineGetter__"; "__defineSetter__"; "__lookupGetter__"; "__lookupSetter__"].

Definition inherited (op : string) : bool := existsb (String.eqb op) OBJECT_MEMBERS.

(** [RATE_BY_OP[op] || RATE_DEFAULT]; [None] is an inherited member,
    whose [windowMs] and [max] are [undefined]. *)
Definition rateConfig (op : string) : option RateCfg :=
  match RATE_BY_OP op with
  | Some c => Some c
  | None => if inherited op then None else Some RATE_DEFAULT
  end.

Definition or_unknown (s : string) : string :=
  if truthy s then s else "unknown".

(** With an inherited member for [cfg], a new bucket gets
    [t + undefined], which is [NaN], and [e.count > undefined] is false:
    the request passes. A bucket whose [resetAt] is not finite is opened
    anew. Under a configuration the bucket in hand has a finite
    [resetAt] when the request is refused. *)
Definition checkRateLimit (ip op : string) (t : Z) (b : JsMap.t string Bucket)
  : (bool * Z) * JsMap.t string Bucket :=
  let cfg := rateConfig op in
  let key := (or_unknown ip ++ "|" ++ or_unknown op)%string in
  let opened := mkBucket 0 (option_map (fun c => t + windowMs c) cfg) in
  let e :=
    match JsMap.get String.eqb key b with
    | Some e =>
        match resetAt e with
        | Some r => if r <=? t then opened else e
        | None => opened
        end
    | None => opened
    end in
  let e := mkBucket (count e + 1) (resetAt e) in
  let b := JsMap.set String.eqb key e b in
  match cfg with
  | Some c =>
      if max c <? count e
      then ((false, match resetAt e with Some r => Z.max 0 (r - t) | None => 0 end), b)
      else ((true, 0), b)
  | None => ((true, 0), b)
  end.

(** The timer that deletes the buckets whose [resetAt] is not finite or
    has passed. *)
Definition sweepRateBuckets (t : Z) (b : JsMap.t string Bucket) : JsMap.t string Bucket :=
  filter (fun ke =>
            match resetAt (snd ke) with
            | Some r => negb (r <=? t)
            | None => false
            end) b.

(** ** Persistence and cache *)

(** [roomFile] throws on an id that does not normalise: [None]. The path
    is identified with the normalised id. *)
Definition roomFile (roomId : string) : option string :=
  let id := normalizeRoomId roomId in
  if truthy id then Some id else None.

Definition filledCountOf (c : list bool) : Z :=
  fold_left (fun a b => a + (if b : bool then 1 else 0)) c 0.

Definition updateIndexFromRoom (room : Room) (s : Server) : Server :=
  with_index
    (JsMap.set String.eqb (roomId room)
       (mkIndexMeta (roomId room) (theme room) (createdAt room) (updatedAt room)
                    (filledCountOf (committed room))
                    (String.eqb (phase room) PLAYBACK))
       (index s)) s.

(** [saveIndex] swallows a failed write. *)
Definition saveIndex (ok : bool) (s : Server) : Server :=
  if ok then with_indexFile (Some (index s)) s else s.

Definition touch (t : Z) (roomId : string) (s : Server) : Server :=
  match JsMap.get String.eqb roomId (cache s) with
  | Some e => with_cache (JsMap.set String.eqb roomId (mkCacheEntry (room e) t) (cache s)) s
  | None => s
  end.

(** [getRoom] returns the room object held by the cache entry, together
    with the key of that entry. *)
Definition getRoom (o : Oracle) (roomId : string) (s : Server)
  : option (string * Room) * Server :=
  let id := normalizeRoomId roomId in
  if negb (truthy id) then (None, s) else
  match JsMap.get String.eqb id (cache s) with
  | Some e => (Some (id, room e), touch (now o) id s)
  | None =>
      match roomFile id with
      | None => (None, s)
      | Some fp =>
          match JsMap.get String.eqb fp (roomFiles s) with
          | None => (None, s)
          | Some obj =>
              match deserializeRoom (now o) (rnd_theme o) obj with
              | None => (None, s)
              | Some room =>
                  (Some (id, room),
                   with_cache (JsMap.set String.eqb id (mkCacheEntry room (now o)) (cache s)) s)
              end
          end
      end
  end.

(** The handlers mutate the room object that the cache entry holds: the
    handler's final room is written back under the entry's key, the entry
    keeping its [lastAccess]. *)
Definition putRoom (key : string) (r : Room) (s : Server) : Server :=
  match JsMap.get String.eqb key (cache s) with
  | Some e => with_cache (JsMap.set String.eqb key (mkCacheEntry r (lastAccess e)) (cache s)) s
  | None => s
  end.

(** [saveRoom]: everything sits in one [try { ... } catch(e){}]. [k] is
    the number of the room-file write among the writes of the run, [k+1]
    that of the index write. A throw of [roomFile] or of the room-file
    write skips the rest; nothing is reported to the caller. *)
Definition saveRoom (o : Oracle) (k : nat) (room : Room) (s : Server) : Room * Server :=
  let room := normalizePhase room in
  let room := cleanupReservations (now o) room in
  let s := updateIndexFromRoom room s in
  match roomFile (roomId room) with
  | None => (room, s)
  | Some fp =>
      let '(json, room) := serializeRoom (now o) room in
      if write_ok o k then
        let s := with_roomFiles (JsMap.set String.eqb fp json (roomFiles s)) s in
        let s := with_dirtyRoomIds (JsSet.add (roomId room) (dirtyRoomIds s)) s in
        (room, saveIndex (write_ok o (S k)) s)
      else (room, s)
  end.

Fixpoint insert_by_lastAccess (e : string * CacheEntry) (l : list (string * CacheEntry)) :=
  match l with
  | [] => [e]
  | x :: r =>
      if lastAccess (snd e) <=? lastAccess (snd x) then e :: l
      else x :: insert_by_lastAccess e r
  end.

(** [arr.sort((a,b) => a[1].lastAccess - b[1].lastAccess)], a stable sort. *)
Definition sort_by_lastAccess (l : list (string * CacheEntry)) :=
  fold_right insert_by_lastAccess [] l.

Section WithConfig.
Variable cfg : Config.

(** [evictCache]: drop every entry idle for longer than
    [ROOM_CACHE_IDLE_MS], then, if the cache is still over
    [ROOM_CACHE_MAX], the oldest entries beyond it. *)
Definition evictCache (t : Z) (s : Server) : Server :=
  let drop_idle (c : JsMap.t string CacheEntry) (ke : string * CacheEntry) :=
    if ROOM_CACHE_IDLE_MS cfg <? t - lastAccess (snd ke)
    then JsMap.delete String.eqb (fst ke) c else c in
  let c := fold_left drop_idle (cache s) (cache s) in
  if ROOM_CACHE_MAX cfg <? JsMap.size c then
    let arr := sort_by_lastAccess c in
    let over := JsMap.size c - ROOM_CACHE_MAX cfg in
    with_cache
      (fold_left (fun c ke => JsMap.delete String.eqb (fst ke) c)
                 (firstn (Z.to_nat over) arr) c) s
  else with_cache c s.

Definition makeRoom (o : Oracle) (th : string) (s : Server) : Room * Server :=
  let id := id7 (rnd_id o) in
  let room :=
    mkRoom id
      (if truthy (trim th) then trim th else randTheme (rnd_theme o))
      (repeat None 60) (repeat false 60)
      (now o) (now o) DRAWING [] [] in
  let s := with_cache (JsMap.set String.eqb id (mkCacheEntry room (now o)) (cache s)) s in
  let s := updateIndexFromRoom room s in
  let '(room, s) := saveRoom o 0 room s in
  (room, putRoom id room s).

Definition findRandomOpenRoomId (o : Oracle) (s : Server) : option string :=
  let candidates :=
    map fst
      (filter (fun km =>
                 negb (JsSet.has (fst km) (quarantineSet s)) &&
                 negb (m_completed (snd km)) &&
                 negb (60 <=? m_filledCount (snd km)))
              (index s)) in
  match candidates with
  | [] => None
  | c :: _ => Some (nth (rnd_pick o mod List.length candidates) candidates c)
  end.

End WithConfig.

(** ** Wire protocol *)

(** [Number(d.frameIndex)]: an integer, a finite non-integer lying
    strictly between [fl] and [fl + 1], or a value that is not finite. *)
Inductive jsnum := NInt (z : Z) | NFrac (fl : Z) | NNaN.

Definition is_fraction (n : jsnum) : bool :=
  match n with NFrac _ => true | _ => false end.

(** The [data] object of an inbound message. A field read through
    [String(x || "")] is that string (empty for a falsy [x]); [d_view]
    is [d.view === true]; [d_reservationToken] is [None] for a falsy
    value and otherwise its [String(...)]; [d_dataUrl] is [None] for a
    value that is not a string. *)
Record MsgData := mkMsgData {
  d_roomId : string;
  d_theme : string;
  d_dataUrl : option string;
  d_view : bool;
  d_reservationToken : option string;
  d_frameIndex : jsnum
}.

(** JSON can carry a value that [String()] and [Number()] cannot
    convert: an object whose own [toString] and [valueOf] are not
    functions, alone or inside an array; the conversion throws a
    TypeError. The flags tell which of the fields that the handlers
    convert hold such a value (a truthy one). *)
Record Unconvertible := mkUnconvertible {
  u_roomId : bool;
  u_theme : bool;
  u_reservationToken : bool;
  u_frameIndex : bool
}.

(** An inbound frame: text that is not JSON; a frame whose type [t] and
    data fields [d] all convert; a frame without a type to read (it
    parses to [null], or [m.t] cannot be converted), on which the
    listener throws at [String(m.t || "")]; a frame of type [t] whose
    data has the unconvertible fields [u], its other fields being those
    of [d]. *)
Inductive Inbound :=
| BadJson
| Parsed (t : string) (d : MsgData)
| NoType
| Faulty (t : string) (d : MsgData) (u : Unconvertible).

Inductive Payload :=
| PError (code : option string) (message : string) (retryAfterMs : option Z)
| PWelcome (protocol : Z) (serverTime : Z)
| PRoomState (rs : RoomState)
| PRoomJoined (roomId theme : string) (assignedFrame : Z)
              (reservationToken : string) (reservationExpiresAt : Z)
              (filled : list bool)
| PFrameData (roomId : string) (frameIndex : Z) (dataUrl : string)
| PFrame (roomId : string) (frameIndex : Z)
| PRoom (roomId : string).

Record Envelope := mkEnvelope { e_v : Z; e_t : string; e_ts : Z; e_data : Payload }.

(** [send(ws, obj)] and [broadcast(roomId, obj)]. *)
Inductive Action :=
| Send (e : Envelope)
| Broadcast (roomId : string) (e : Envelope).

Record Conn := mkConn { _roomId : string; remoteAddr : string }.

Definition attach (rid : string) (ws : Conn) : Conn := mkConn rid (remoteAddr ws).

Definition Outcome := (Server * Conn * list Action)%type.

Definition MSG_BAD_ROOM_ID : string := "roomId が不正です".
Definition MSG_NOT_FOUND : string := "部屋が見つからない".
Definition MSG_BAD_DATAURL : string := "dataUrl が不正/大きすぎる".
Definition MSG_BAD_FRAME : string := "frameIndex が不正".
Definition MSG_NOT_EDITABLE : string := "この部屋は編集できません（完成済み）".
Definition MSG_JOIN_RESERVATION : string := "予約が無効/期限切れです。もう一度参加してね".
Definition MSG_NOT_ACCEPTING : string := "この部屋は提出を受け付けていません（完成済み）".
Definition MSG_TOKEN_REQUIRED : string := "reservationToken が必要".
Definition MSG_RESERVATION : string := "予約が無効/期限切れです".
Definition MSG_MISMATCH : string := "担当コマが一致しません".
Definition MSG_ALREADY : string := "すでに提出済みです".

Section Handlers.
Variable cfg : Config.
Variable o : Oracle.

Definition envelope (t : string) (data : Payload) : Envelope :=
  mkEnvelope 1 t (now o) data.

Definition error (message : string) : Action :=
  Send (envelope "error" (PError None message None)).

Definition requestedRoomId (d : MsgData) (ws : Conn) : string :=
  normalizeRoomId (if truthy (d_roomId d) then d_roomId d else _roomId ws).

Definition on_hello (ws : Conn) (s : Server) : Outcome :=
  (s, ws, [Send (envelope "welcome" (PWelcome 1 (now o)))]).

Definition on_resync (d : MsgData) (ws : Conn) (s : Server) : Outcome :=
  let rid := requestedRoomId d ws in
  if negb (truthy rid) then (s, ws, [error MSG_BAD_ROOM_ID]) else
  if JsSet.has rid (quarantineSet s) then (s, ws, [error MSG_NOT_FOUND]) else
  match getRoom o rid s with
  | (None, s) => (s, ws, [error MSG_NOT_FOUND])
  | (Some (key, room), s) =>
      let ws := attach (roomId room) ws in
      let '(rs, room) := roomState (now o) room in
      (putRoom key room s, ws, [Send (envelope "room_state" (PRoomState rs))])
  end.

Definition on_create_public_and_submit (d : MsgData) (ws : Conn) (s : Server) : Outcome :=
  let th :=
    if truthy (trim (d_theme d)) then trim (d_theme d) else randTheme (rnd_theme o) in
  let dataUrl := d_dataUrl d in
  if negb (validatePngDataUrl dataUrl) then (s, ws, [error MSG_BAD_DATAURL]) else
  let '(room, s) := makeRoom o th s in
  let key := roomId room in
  let room := with_frames (set_at (frames room) 0 dataUrl) room in
  let room := with_committed (set_at (committed room) 0 true) room in
  let room := with_updatedAt (now o) room in
  let '(room, s) := saveRoom o 2 room s in
  let ws := attach (roomId room) ws in
  let '(rs, room) := roomState (now o) room in
  (putRoom key room s, ws,
   [Send (envelope "created_public" (PRoomState rs));
    Broadcast (roomId room)
      (envelope "frame_committed" (PFrame (roomId room) 0))]).

(** [join_random] and [join_by_id] share their text from
    [firstYoungestEmpty] on, up to the message of the "no empty frame"
    error. *)
Definition assign_frame (noEmpty : string) (key : string) (room : Room)
                        (ws : Conn) (s : Server) : Outcome :=
  let '(idx, room) := firstYoungestEmpty (now o) room in
  if idx <? 0 then
    let s := updateIndexFromRoom room s in
    let '(room, s) := saveRoom o 0 room s in
    (putRoom key room s, ws, [error noEmpty])
  else
    let tok := token (rnd_tok1 o) (rnd_tok2 o) in
    let expiresAt := now o + RESERVATION_MS cfg in
    let room :=
      with_reservations
        (JsMap.set String.eqb tok (mkReservation idx expiresAt) (reservations room))
        (JsMap.set Z.eqb idx tok (reservedByFrame room)) room in
    let room := with_updatedAt (now o) room in
    let '(room, s) := saveRoom o 0 room s in
    let ws := attach (roomId room) ws in
    let '(rs, room') := roomState (now o) room in
    (putRoom key room' s, ws,
     [Send (envelope "room_joined"
              (PRoomJoined (roomId room) (theme room) idx tok
                           expiresAt (rs_filled rs)))]).

Definition on_join_random (ws : Conn) (s : Server) : Outcome :=
  match findRandomOpenRoomId o s with
  | None =>
      (s, ws, [error "参加できる公開作品がありません（まず誰かが公開で1コマ目を提出してね）"])
  | Some rid =>
      match getRoom o rid s with
      | (None, s) =>
          let s := with_index (JsMap.delete String.eqb rid (index s)) s in
          let s := saveIndex (write_ok o 0) s in
          (s, ws, [error "部屋が見つからない（再試行してね）"])
      | (Some (key, room), s) =>
          let room := normalizePhase room in
          if negb (String.eqb (phase room) DRAWING) then
            let s := updateIndexFromRoom room s in
            let s := saveIndex (write_ok o 0) s in
            (putRoom key room s, ws, [error "参加できる部屋がありません（再試行してね）"])
          else assign_frame "空きコマがありません（再試行してね）" key room ws s
      end
  end.

Definition on_join_by_id (d : MsgData) (ws : Conn) (s : Server) : Outcome :=
  let rid := normalizeRoomId (d_roomId d) in
  if negb (truthy rid) then (s, ws, [error MSG_BAD_ROOM_ID]) else
  if JsSet.has rid (quarantineSet s) then (s, ws, [error MSG_NOT_FOUND]) else
  match getRoom o rid s with
  | (None, s) => (s, ws, [error MSG_NOT_FOUND])
  | (Some (key, room), s) =>
      let room := normalizePhase room in
      if negb (String.eqb (phase room) DRAWING) then
        (putRoom key room s, ws, [error MSG_NOT_FOUND])
      else assign_frame "空きコマがありません" key room ws s
  end.

Definition on_join_room (d : MsgData) (ws : Conn) (s : Server) : Outcome :=
  let rid := requestedRoomId d ws in
  if negb (truthy rid) then (s, ws, [error MSG_BAD_ROOM_ID]) else
  if JsSet.has rid (quarantineSet s) then (s, ws, [error MSG_NOT_FOUND]) else
  match getRoom o rid s with
  | (None, s) => (s, ws, [error MSG_NOT_FOUND])
  | (Some (key, room), s) =>
      let ws := attach (roomId room) ws in
      let room := normalizePhase room in
      let answer (room : Room) : Outcome :=
        let '(rs, room) := roomState (now o) room in
        (putRoom key room s, ws, [Send (envelope "room_state" (PRoomState rs))]) in
      match d_view d, d_reservationToken d with
      | false, Some tok =>
          if negb (String.eqb (phase room) DRAWING) then
            (putRoom key room s, ws, [error MSG_NOT_EDITABLE])
          else
            let room := cleanupReservations (now o) room in
            match JsMap.get String.eqb tok (reservations room) with
            | None => (putRoom key room s, ws, [error MSG_JOIN_RESERVATION])
            | Some r =>
                if expiresAt r <=? now o
                then (putRoom key room s, ws, [error MSG_JOIN_RESERVATION])
                else answer room
            end
      | _, _ => answer room
      end
  end.

(** [Boolean(room.frames[idx])]: a stored, non-empty payload. *)
Definition frame_at (room : Room) (i : Z) : option string :=
  if i <? 0 then None else
  match nth (Z.to_nat i) (frames room) None with
  | Some u => if truthy u then Some u else None
  | None => None
  end.

Definition on_get_frame (d : MsgData) (ws : Conn) (s : Server) : Outcome :=
  let rid := requestedRoomId d ws in
  if negb (truthy rid) then (s, ws, [error MSG_BAD_ROOM_ID]) else
  if JsSet.has rid (quarantineSet s) then (s, ws, [error MSG_NOT_FOUND]) else
  match getRoom o rid s with
  | (None, s) => (s, ws, [error MSG_NOT_FOUND])
  | (Some (key, room), s) =>
      match d_frameIndex d with
      | NNaN => (s, ws, [error MSG_BAD_FRAME])
      | NFrac fl =>
          if negb (in_range fl) then (s, ws, [error MSG_BAD_FRAME])
          else (s, ws, [])
      | NInt idx =>
          if negb (in_range idx) then (s, ws, [error MSG_BAD_FRAME]) else
          if negb (at_bool (committed room) idx) then (s, ws, []) else
          match frame_at room idx with
          | None => (s, ws, [])
          | Some u =>
              (s, ws, [Send (envelope "frame_data"
                               (PFrameData (roomId room) idx u))])
          end
      end
  end.

Definition on_submit_frame (d : MsgData) (ws : Conn) (s : Server) : Outcome :=
  let rid := requestedRoomId d ws in
  if negb (truthy rid) then (s, ws, [error MSG_BAD_ROOM_ID]) else
  if JsSet.has rid (quarantineSet s) then (s, ws, [error MSG_NOT_FOUND]) else
  match getRoom o rid s with
  | (None, s) => (s, ws, [error MSG_NOT_FOUND])
  | (Some (key, room), s) =>
      let room := normalizePhase room in
      let room := cleanupReservations (now o) room in
      let s := putRoom key room s in
      if negb (String.eqb (phase room) DRAWING) then (s, ws, [error MSG_NOT_ACCEPTING]) else
      let tok := match d_reservationToken d with Some u => u | None => "" end in
      let dataUrl := d_dataUrl d in
      match d_frameIndex d with
      | NNaN => (s, ws, [error MSG_BAD_FRAME])
      | NFrac fl =>
          if negb (in_range fl) then (s, ws, [error MSG_BAD_FRAME]) else
          if negb (truthy tok) then (s, ws, [error MSG_TOKEN_REQUIRED]) else
          match JsMap.get String.eqb tok (reservations room) with
          | None => (s, ws, [error MSG_RESERVATION])
          | Some r =>
              if expiresAt r <=? now o then (s, ws, [error MSG_RESERVATION])
              else (s, ws, [error MSG_MISMATCH])
          end
      | NInt idx =>
          if negb (in_range idx) then (s, ws, [error MSG_BAD_FRAME]) else
          if negb (truthy tok) then (s, ws, [error MSG_TOKEN_REQUIRED]) else
          match JsMap.get String.eqb tok (reservations room) with
          | None => (s, ws, [error MSG_RESERVATION])
          | Some r =>
              if expiresAt r <=? now o then (s, ws, [error MSG_RESERVATION]) else
              if negb (frameIndex r =? idx) then (s, ws, [error MSG_MISMATCH]) else
              if at_bool (committed room) idx then (s, ws, [error MSG_ALREADY]) else
              if negb (validatePngDataUrl dataUrl) then (s, ws, [error MSG_BAD_DATAURL]) else
              let room := with_frames (set_at (frames room) idx dataUrl) room in
              let room := with_committed (set_at (committed room) idx true) room in
              let room := with_updatedAt (now o) room in
              let room :=
                with_reservations
                  (JsMap.delete String.eqb tok (reservations room))
                  (JsMap.delete Z.eqb idx (reservedByFrame room)) room in
              let '(room, s) := saveRoom o 0 room s in
              let id := roomId room in
              let committedOut :=
                [Broadcast id (envelope "frame_committed" (PFrame id idx));
                 Send (envelope "submitted" (PFrame id idx))] in
              if forallb (fun b => b) (committed room) then
                let room := with_phase PLAYBACK room in
                let room := with_updatedAt (now o) room in
                let '(room, s) := saveRoom o 2 room s in
                let '(rs, room) := roomState (now o) room in
                (putRoom key room s, ws,
                 committedOut ++
                 [Broadcast id (envelope "start_playback" (PRoom id));
                  Broadcast id (envelope "room_state" (PRoomState rs))])
              else (putRoom key room s, ws, committedOut)
          end
      end
  end.

(** A handler that throws sends nothing more: the listener has no
    [catch], and what the handler did before the throw stays done. *)
Definition thrown (ws : Conn) (s : Server) : Outcome := (s, ws, []).

(** The handlers on a frame with unconvertible fields. [normalizeRoomId]
    and the [theme] of a creation are converted first of all;
    [Number(d.frameIndex)] and [String(d.reservationToken)] only once the
    room is in hand. *)
Definition on_resync_u (u : Unconvertible) (d : MsgData) (ws : Conn) (s : Server)
  : Outcome :=
  if u_roomId u then thrown ws s else on_resync d ws s.

Definition on_create_public_and_submit_u (u : Unconvertible) (d : MsgData)
                                         (ws : Conn) (s : Server) : Outcome :=
  if u_theme u then thrown ws s else on_create_public_and_submit d ws s.

Definition on_join_by_id_u (u : Unconvertible) (d : MsgData) (ws : Conn) (s : Server)
  : Outcome :=
  if u_roomId u then thrown ws s else on_join_by_id d ws s.

Definition on_join_room_u (u : Unconvertible) (d : MsgData) (ws : Conn) (s : Server)
  : Outcome :=
  if u_roomId u then thrown ws s else
  if negb (u_reservationToken u) then on_join_room d ws s else
  let rid := requestedRoomId d ws in
  if negb (truthy rid) then (s, ws, [error MSG_BAD_ROOM_ID]) else
  if JsSet.has rid (quarantineSet s) then (s, ws, [error MSG_NOT_FOUND]) else
  match getRoom o rid s with
  | (None, s) => (s, ws, [error MSG_NOT_FOUND])
  | (Some (key, room), s) =>
      let ws := attach (roomId room) ws in
      let room := normalizePhase room in
      if d_view d then
        let '(rs, room) := roomState (now o) room in
        (putRoom key room s, ws, [Send (envelope "room_state" (PRoomState rs))])
      else if negb (String.eqb (phase room) DRAWING) then
        (putRoom key room s, ws, [error MSG_NOT_EDITABLE])
      else thrown ws (putRoom key (cleanupReservations (now o) room) s)
  end.

Definition on_get_frame_u (u : Unconvertible) (d : MsgData) (ws : Conn) (s : Server)
  : Outcome :=
  if u_roomId u then thrown ws s else
  if negb (u_frameIndex u) then on_get_frame d ws s else
  let rid := requestedRoomId d ws in
  if negb (truthy rid) then (s, ws, [error MSG_BAD_ROOM_ID]) else
  if JsSet.has rid (quarantineSet s) then (s, ws, [error MSG_NOT_FOUND]) else
  match getRoom o rid s with
  | (None, s) => (s, ws, [error MSG_NOT_FOUND])
  | (Some _, s) => thrown ws s
  end.

Definition on_submit_frame_u (u : Unconvertible) (d : MsgData) (ws : Conn) (s : Server)
  : Outcome :=
  if u_roomId u then thrown ws s else
  if negb (u_frameIndex u || u_reservationToken u) then on_submit_frame d ws s else
  let rid := requestedRoomId d ws in
  if negb (truthy rid) then (s, ws, [error MSG_BAD_ROOM_ID]) else
  if JsSet.has rid (quarantineSet s) then (s, ws, [error MSG_NOT_FOUND]) else
  match getRoom o rid s with
  | (None, s) => (s, ws, [error MSG_NOT_FOUND])
  | (Some (key, room), s) =>
      let room := normalizePhase room in
      let room := cleanupReservations (now o) room in
      let s := putRoom key room s in
      if negb (String.eqb (phase room) DRAWING) then (s, ws, [error MSG_NOT_ACCEPTING])
      else thrown ws s
  end.

(** The [message] listener: parse, rate-limit, dispatch on [t]. *)
Definition onMessage (ws : Conn) (s : Server) (buf : Inbound) : Outcome :=
  match buf with
  | BadJson => (s, ws, [])
  | NoType => thrown ws s
  | Faulty t d u =>
      let ip := or_unknown (remoteAddr ws) in
      let '((ok, retryAfterMs), b) :=
        checkRateLimit ip (or_unknown t) (now o) (RATE_BUCKETS s) in
      let s := with_RATE_BUCKETS b s in
      if negb ok then
        (s, ws,
         [Send (envelope "error"
                  (PError (Some "RATE_LIMIT") "操作が早すぎます。少し待ってね"
                          (Some retryAfterMs)))])
      else if String.eqb t "hello" then on_hello ws s
      else if String.eqb t "resync" then on_resync_u u d ws s
      else if String.eqb t "create_public_and_submit"
           then on_create_public_and_submit_u u d ws s
      else if String.eqb t "join_random" then on_join_random ws s
      else if String.eqb t "join_by_id" then on_join_by_id_u u d ws s
      else if String.eqb t "join_room" then on_join_room_u u d ws s
      else if String.eqb t "get_frame" then on_get_frame_u u d ws s
      else if String.eqb t "submit_frame" then on_submit_frame_u u d ws s
      else (s, ws, [error ("unknown message type: " ++ t)])
  | Parsed t d =>
      let ip := or_unknown (remoteAddr ws) in
      let '((ok, retryAfterMs), b) :=
        checkRateLimit ip (or_unknown t) (now o) (RATE_BUCKETS s) in
      let s := with_RATE_BUCKETS b s in
      if negb ok then
        (s, ws,
         [Send (envelope "error"
                  (PError (Some "RATE_LIMIT") "操作が早すぎます。少し待ってね"
                          (Some retryAfterMs)))])
      else if String.eqb t "hello" then on_hello ws s
      else if String.eqb t "resync" then on_resync d ws s
      else if String.eqb t "create_public_and_submit" then on_create_public_and_submit d ws s
      else if String.eqb t "join_random" then on_join_random ws s
      else if String.eqb t "join_by_id" then on_join_by_id d ws s
      else if String.eqb t "join_room" then on_join_room d ws s
      else if String.eqb t "get_frame" then on_get_frame d ws s
      else if String.eqb t "submit_frame" then on_submit_frame d ws s
      else (s, ws, [error ("unknown message type: " ++ t)])
  end.

End Handlers.

(** ** Backups *)

(** [new Date(t).toISOString().replace(/[:.]/g, "-")], by the civil
    calendar from the day count: ["2026-01-15T09-30-00-000Z"]. *)
Definition digit (n : Z) : ascii :=
  match n mod 10 with
  | 0 => "0" | 1 => "1" | 2 => "2" | 3 => "3" | 4 => "4"
  | 5 => "5" | 6 => "6" | 7 => "7" | 8 => "8" | _ => "9"
  end%char.

Fixpoint digits (k : nat) (n : Z) (acc : string) : string :=
  match k with
  | O => acc
  | S k => digits k (n / 10) (String (digit n) acc)
  end.

Definition civil_year_month_day (days : Z) : Z * Z * Z :=
  let z := days + 719468 in
  let era := z / 146097 in
  let doe := z mod 146097 in
  let yoe := (doe - doe / 1460 + doe / 36524 - doe / 146096) / 365 in
  let doy := doe - (365 * yoe + yoe / 4 - yoe / 100) in
  let mp := (5 * doy + 2) / 153 in
  let d := doy - (153 * mp + 2) / 5 + 1 in
  let m := if mp <? 10 then mp + 3 else mp - 9 in
  let y := yoe + era * 400 + (if m <=? 2 then 1 else 0) in
  (y, m, d).

Definition isoYear (y : Z) : string :=
  if (0 <=? y) && (y <=? 9999) then digits 4 y ""
  else if y <? 0 then String "-" (digits 6 (- y) "")
  else String "+" (digits 6 y "").

Definition isoStamp (t : Z) : string :=
  let '(y, m, d) := civil_year_month_day (t / 86400000) in
  let ms := t mod 86400000 in
  (isoYear y ++ "-" ++ digits 2 m "" ++ "-" ++ digits 2 d "" ++ "T" ++
   digits 2 (ms / 3600000) "" ++ "-" ++ digits 2 (ms / 60000 mod 60) "" ++ "-" ++
   digits 2 (ms / 1000 mod 60) "" ++ "-" ++ digits 3 (ms mod 1000) "" ++ "Z")%string.

(** [dirs.sort()]: the default order compares code units. *)
Fixpoint insert_name (x : string) (l : list string) : list string :=
  match l with
  | [] => [x]
  | y :: r => if String.leb x y then x :: l else y :: insert_name x r
  end.
Definition sort_names (l : list string) : list string :=
  fold_right insert_name [] l.

Definition hidden (n : string) : bool := startsWith "." n.

(** The outcome of the file operations of one backup: the [mkdirSync]
    throws, a later write throws, or the [try] block reaches
    [pruneBackups], whose [rmFailsAt]-th [rmSync], if any, throws. *)
Inductive BackupIo :=
| BackupMkdirFails
| BackupWriteFails
| BackupCompletes (rmFailsAt : option nat).

Definition mkdir (name : string) (dir : list string) : list string :=
  if JsSet.has name dir then dir else dir ++ [name].

Section Backup.
Variable cfg : Config.

Definition pruneBackups (rmFailsAt : option nat) (dir : list string) : list string :=
  let dirs := sort_names (filter (fun n => negb (hidden n)) dir) in
  let over := Z.of_nat (List.length dirs) - BACKUP_KEEP cfg in
  let n := match rmFailsAt with
           | Some k => Nat.min k (Z.to_nat over)
           | None => Z.to_nat over
           end in
  let removed := firstn n dirs in
  filter (fun x => negb (JsSet.has x removed)) dir.

Definition doBackup (t : Z) (io : BackupIo) (s : Server) : Server :=
  if t - lastBackupAt s <? BACKUP_INTERVAL_MS cfg then s else
  if JsSet.size (dirtyRoomIds s) =? 0 then s else
  let stamp := isoStamp t in
  match io with
  | BackupMkdirFails => s
  | BackupWriteFails =>
      with_backup (dirtyRoomIds s) (lastBackupAt s) (mkdir stamp (backups s)) s
  | BackupCompletes rmFailsAt =>
      with_backup [] t (pruneBackups rmFailsAt (mkdir stamp (backups s))) s
  end.

(** Whether [doBackup] at [t] passes both of its gates. *)
Definition backupDue (t : Z) (s : Server) : bool :=
  negb (t - lastBackupAt s <? BACKUP_INTERVAL_MS cfg) &&
  negb (JsSet.size (dirtyRoomIds s) =? 0).

(** A sequence of backup cycles: room [rid] is saved (and so marked
    dirty), then the timer fires at [t] and the backup runs to its end. *)
Fixpoint backup_cycles (s : Server) (cs : list (string * Z)) : Server :=
  match cs with
  | [] => s
  | (rid, t) :: cs =>
      backup_cycles
        (doBackup t (BackupCompletes None)
                  (with_dirtyRoomIds (JsSet.add rid (dirtyRoomIds s)) s)) cs
  end.

(** Every cycle of the sequence passes the gates of [doBackup]. *)
Fixpoint cycles_due (s : Server) (cs : list (string * Z)) : bool :=
  match cs with
  | [] => true
  | (rid, t) :: cs =>
      let s1 := with_dirtyRoomIds (JsSet.add rid (dirtyRoomIds s)) s in
      backupDue t s1 && cycles_due (doBackup t (BackupCompletes None) s1) cs
  end.

End Backup.

(** The entries of [backups/] that [pruneBackups] looks at, and the [k]
    last elements of a list. *)
Definition visible (dir : list string) : list string :=
  filter (fun n => negb (hidden n)) dir.
Definition lastk {A : Type} (k : nat) (l : list A) : list A :=
  skipn (List.length l - k) l.
Definition str_le (a b : string) : Prop := String.leb a b = true.

(** ** The process: connections and events *)

Record World := mkWorld { server : Server; clients : list Conn }.

Inductive QMode := QOn | QOff | QToggle.

(** What can happen to the process: a connection opens, a connection
    sends a frame, a timer fires ([evictCache], [doBackup], the bucket
    sweep), or an authorised [/admin/quarantine] request arrives. *)
Inductive Event :=
| EConnect (addr : string)
| EMessage (c : nat) (o : Oracle) (buf : Inbound)
| EEvict (t : Z)
| EBackup (t : Z) (io : BackupIo)
| ERateSweep (t : Z)
| EQuarantine (roomId : string) (mode : QMode).

Definition adminQuarantine (roomId : string) (mode : QMode) (s : Server) : Server :=
  let id := normalizeRoomId roomId in
  if negb (truthy id) then s else
  let quarantined :=
    match mode with
    | QOn => true
    | QOff => false
    | QToggle => negb (JsSet.has id (quarantineSet s))
    end in
  if quarantined then with_quarantineSet (JsSet.add id (quarantineSet s)) s
  else with_quarantineSet (JsSet.delete id (quarantineSet s)) s.

Section Process.
Variable cfg : Config.

Definition step (w : World) (e : Event) : World * list Action :=
  match e with
  | EConnect addr => (mkWorld (server w) (clients w ++ [mkConn "" addr]), [])
  | EMessage c o buf =>
      match nth_error (clients w) c with
      | None => (w, [])
      | Some ws =>
          let '(s, ws, out) := onMessage cfg o ws (server w) buf in
          (mkWorld s (set_nth c ws (clients w)), out)
      end
  | EEvict t => (mkWorld (evictCache cfg t (server w)) (clients w), [])
  | EBackup t io => (mkWorld (doBackup cfg t io (server w)) (clients w), [])
  | ERateSweep t =>
      (mkWorld (with_RATE_BUCKETS (sweepRateBuckets t (RATE_BUCKETS (server w))) (server w))
               (clients w), [])
  | EQuarantine rid mode =>
      (mkWorld (adminQuarantine rid mode (server w)) (clients w), [])
  end.

Fixpoint run (w : World) (es : list Event) : World :=
  match es with
  | [] => w
  | e :: es => run (fst (step w e)) es
  end.

(** The actions of each event of a run, in order. *)
Fixpoint outputs (w : World) (es : list Event) : list (list Action) :=
  match es with
  | [] => []
  | e :: es => snd (step w e) :: outputs (fst (step w e)) es
  end.

End Process.

(** A [submit_frame] succeeded for frame [i] of room [rid] when the run
    sent [submitted { roomId: rid, frameIndex: i }]. *)
Definition is_submitted (rid : string) (i : Z) (a : Action) : bool :=
  match a with
  | Send (mkEnvelope _ t _ (PFrame r j)) =>
      String.eqb t "submitted" && String.eqb r rid && (j =? i)
  | _ => false
  end.

Definition submitted (rid : string) (i : Z) (out : list Action) : bool :=
  existsb (is_submitted rid i) out.

Definition fresh_world : World := mkWorld (boot [] [] []) [].

(** ** Invariants of the room store

    [derived_phase] is the phase that [normalizePhase] assigns.
    A cached room is well-formed at a handler boundary when it has 60
    [committed] flags and carries its derived phase. The levels add what
    the exactly-once argument needs about one room id [rid]: every cached
    room sits under its own id and saves to its own file, each room file
    holds the room of its name, and ([LCommitted]) frame [i] of room [rid]
    is committed in memory and on disk. *)
Definition derived_phase (r : Room) : string :=
  if forallb (fun b => b) (committed r) then PLAYBACK else DRAWING.

Definition phase_ok (r : Room) : Prop :=
  List.length (committed r) = 60%nat /\ phase r = derived_phase r.

Inductive Level :=
| LPhase
| LKeys (rid : string)
| LCommitted (rid : string) (i : Z).

Definition room_ok (g : Level) (k : string) (r : Room) : Prop :=
  List.length (committed r) = 60%nat /\
  match g with
  | LPhase => True
  | LKeys rid => roomId r = k /\ (k <> rid -> roomFile k <> Some rid)
  | LCommitted rid i =>
      roomId r = k /\ (k <> rid -> roomFile k <> Some rid) /\
      (k = rid -> at_bool (committed r) i = true)
  end.

Definition entry_ok (g : Level) (k : string) (r : Room) : Prop :=
  room_ok g k r /\ phase r = derived_phase r.

Definition file_ok (g : Level) (fp : string) (obj : RoomJson) : Prop :=
  match g with
  | LPhase => True
  | LKeys rid => normalizeRoomId (j_roomId obj) = fp
  | LCommitted rid i =>
      normalizeRoomId (j_roomId obj) = fp /\
      (fp = rid -> at_bool (pad60 false (j_committed obj)) i = true)
  end.

Definition InvC (g : Level) (s : Server) : Prop :=
  forall k e, JsMap.get String.eqb k (cache s) = Some e -> entry_ok g k (room e).

Definition InvF (g : Level) (s : Server) : Prop :=
  forall fp obj, JsMap.get String.eqb fp (roomFiles s) = Some obj -> file_ok g fp obj.

Definition Inv (g : Level) (s : Server) : Prop := InvC g s /\ InvF g s.

(** What a level asks of an id that [makeRoom] mints. *)
Definition mint_ok (g : Level) (id : string) : Prop :=
  match g with
  | LPhase => True
  | LKeys rid => id <> rid -> roomFile id <> Some rid
  | LCommitted rid i => id <> rid /\ roomFile id <> Some rid
  end.

(** What a level asks of an event: only a mint matters. *)
Definition event_ok (g : Level) (e : Event) : Prop :=
  match e with
  | EMessage _ o (Parsed t _) | EMessage _ o (Faulty t _ _) =>
      t = "create_public_and_submit" -> mint_ok g (id7 (rnd_id o))
  | _ => True
  end.

(** The draw of the event is a base-36 rendering. *)
Definition genuine (e : Event) : bool :=
  match e with
  | EMessage _ o _ => rendering36 (rnd_id o)
  | _ => true
  end.

(** The event is a creation whose draw mints the id [rid]. *)
Definition mints (rid : string) (e : Event) : bool :=
  match e with
  | EMessage _ o (Parsed t _) | EMessage _ o (Faulty t _ _) =>
      String.eqb t "create_public_and_submit" && String.eqb (id7 (rnd_id o)) rid
  | _ => false
  end.

(** Every room file of the data directory holds the room of its name. *)
Definition files_named (files : JsMap.t string RoomJson) : bool :=
  forallb (fun kf => String.eqb (normalizeRoomId (j_roomId (snd kf))) (fst kf)) files.

(** The oracle [o] with the outcomes [w] of its disk writes. *)
Definition with_writes (w : nat -> bool) (o : Oracle) : Oracle :=
  mkOracle (now o) (rnd_theme o) (rnd_id o) (rnd_tok1 o) (rnd_tok2 o) (rnd_pick o) w.

(** The reservation tokens that a run hands out in [room_joined]. *)
Definition minted_tokens (out : list Action) : list string :=
  flat_map (fun a =>
              match a with
              | Send (mkEnvelope _ _ _ (PRoomJoined _ _ _ tok _ _)) => [tok]
              | _ => []
              end) out.

(** The directory names of a list of backup cycles [(roomId, time)]. *)
Definition cycle_stamps (cs : list (string * Z)) : list string :=
  map (fun c => isoStamp (snd c)) cs.

(** An [error] envelope, sent or broadcast. *)
Definition is_error (a : Action) : bool :=
  match a with
  | Send (mkEnvelope _ _ _ (PError _ _ _)) => true
  | Broadcast _ (mkEnvelope _ _ _ (PError _ _ _)) => true
  | _ => false
  end.

(** ** Sample inputs *)

Module Sample.

Definition all_ok : nat -> bool := fun _ => true.
Definition disk_down : nat -> bool := fun _ => false.

Definition oracle (t : Z) (id tok1 tok2 : string) (w : nat -> bool) : Oracle :=
  mkOracle t 0 id tok1 tok2 0 w.

Definition png : option string := Some "data:image/png;base64,AAAA".

Definition data (rid : string) (tok : option string) (fi : jsnum) : MsgData :=
  mkMsgData rid "" png false tok fi.

(** Connection 0 creates a room; the draw renders as [id]. *)
Definition create (t : Z) (id : string) : Event :=
  EMessage 0 (oracle t id "0.x" "0.y" all_ok)
           (Parsed "create_public_and_submit" (data "" None NNaN)).

Definition join_by_id (t : Z) (rid tok1 tok2 : string) : Event :=
  EMessage 0 (oracle t "0.zzzzzzzzz" tok1 tok2 all_ok)
           (Parsed "join_by_id" (data rid None NNaN)).

Definition submit (t : Z) (rid tok : string) (i : Z) (w : nat -> bool) : Event :=
  EMessage 0 (oracle t "0.zzzzzzzzz" "0.x" "0.y" w)
           (Parsed "submit_frame" (data rid (Some tok) (NInt i))).

(** A process with one connection and the room [ABCDEFG], frame 0
    committed. *)
Definition one_room : World :=
  run default_config fresh_world [EConnect "203.0.113.7"; create 1000 "0.abcdefghij"].

(** A file of a completed room. *)
Definition completed_json (rid : string) : RoomJson :=
  mkRoomJson rid "走る犬" (repeat png 60) (repeat true 60) 1000 2000 "PLAYBACK" [].

(** Two tokens for frame 5, as a room file can list them. *)
Definition two_tokens_json : RoomJson :=
  mkRoomJson "ABCDEFG" "走る犬" (repeat None 60) (repeat false 60) 1000 2000 "DRAWING"
             [("A", mkReservation 5 900000); ("B", mkReservation 5 900000)].

(** Frame 1 of [ABCDEFG] is reserved and submitted while no write reaches
    the disk. *)
Definition failed_save : list Event :=
  [ EConnect "203.0.113.7";
    create 1000 "0.abcdefghij";
    join_by_id 2000 "ABCDEFG" "0.tok1aaaaaa" "0.tok2bbbbbb";
    submit 3000 "ABCDEFG" "tok1aaaaaa-tok2bbbbbb" 1 disk_down ].

(** ... then the idle room leaves the cache, is loaded again from its file
    by a second join, and frame 1 is submitted again. *)
Definition lost_write : list Event :=
  failed_save ++
  [ EEvict 400000;
    join_by_id 400001 "ABCDEFG" "0.tok3cccccc" "0.tok4dddddd";
    submit 400002 "ABCDEFG" "tok3cccccc-tok4dddddd" 1 all_ok ].

(** Frame 1 of [ABCDEFG] is submitted, a second [create] draws the same id,
    and frame 1 of the room it installs is submitted. *)
Definition reminted : list Event :=
  [ EConnect "203.0.113.7";
    create 1000 "0.abcdefghij";
    join_by_id 2000 "ABCDEFG" "0.tok1aaaaaa" "0.tok2bbbbbb";
    submit 3000 "ABCDEFG" "tok1aaaaaa-tok2bbbbbb" 1 all_ok;
    create 5000 "0.abcdefghij";
    join_by_id 6000 "ABCDEFG" "0.tok3cccccc" "0.tok4dddddd";
    submit 7000 "ABCDEFG" "tok3cccccc-tok4dddddd" 1 all_ok ].

(** A data directory whose file [ABCDEFG.json] holds a room that calls
    itself [HIJKLMN]: the room is cached under the id asked for and saved
    under its own. Frame 0 is reserved and submitted through [ABCDEFG],
    the room leaves the cache, is loaded again from [ABCDEFG.json], and
    frame 0 is submitted again; every write succeeds. *)
Definition misnamed_file : World :=
  mkWorld (boot [("ABCDEFG",
                  mkRoomJson "HIJKLMN" "walking dog" (repeat None 60) (repeat false 60)
                             1000 2000 "DRAWING" [])] [] []) [].

Definition misnamed : list Event :=
  [ EConnect "203.0.113.7";
    join_by_id 2000 "ABCDEFG" "0.tok1aaaaaa" "0.tok2bbbbbb";
    submit 3000 "ABCDEFG" "tok1aaaaaa-tok2bbbbbb" 0 all_ok;
    EEvict 400000;
    join_by_id 400001 "ABCDEFG" "0.tok3cccccc" "0.tok4dddddd";
    submit 400002 "ABCDEFG" "tok3cccccc-tok4dddddd" 0 all_ok ].

End Sample.

(** ** Well-formed reservations

    A reservation is live at clock [t] when it has not expired, names a
    frame of 0..59 and that frame is not committed. [reservedByFrame] is
    backed when each of its entries names a token of [reservations]
    held for that frame. *)
Definition live (t : Z) (room : Room) (e : Reservation) : Prop :=
  t < expiresAt e /\ in_range (frameIndex e) = true /\
  at_bool (committed room) (frameIndex e) = false.

Definition backed (room : Room) : Prop :=
  forall fi tok,
    JsMap.get Z.eqb fi (reservedByFrame room) = Some tok ->
    exists e, In (tok, e) (reservations room) /\ frameIndex e = fi.

(** The order of [evictCache]'s sort: by [lastAccess]. *)
Definition older (a b : string * CacheEntry) : Prop :=
  lastAccess (snd a) <= lastAccess (snd b).

(** The answers of [checkRateLimit] to one client's requests of one type
    at the clocks [ts], in order. *)
Fixpoint rate_run (ip op : string) (ts : list Z) (b : JsMap.t string Bucket)
  : list (bool * Z) * JsMap.t string Bucket :=
  match ts with
  | [] => ([], b)
  | t :: ts =>
      let '(r, b) := checkRateLimit ip op t b in
      let '(rs, b) := rate_run ip op ts b in
      (r :: rs, b)
  end.

Definition rate_cfg (op : string) : RateCfg :=
  match RATE_BY_OP op with Some c => c | None => RATE_DEFAULT end.

Definition rate_key (ip op : string) : string :=
  (or_unknown ip ++ "|" ++ or_unknown op)%string.

(** An envelope sent to the requester itself. *)
Definition is_send (a : Action) : bool :=
  match a with
  | Send _ => true
  | Broadcast _ _ => false
  end.

(** What a handler may change outside the cache: nothing. *)
Definition only_cache (s s' : Server) : Prop := with_cache (cache s) s' = s.

(** ** More sample inputs *)

Module Cases.

(** The room [ABCDEFG] with no frame committed and two reservations:
    token [A] holds frame 5 until 900000, token [B] held frame 7 until
    2500. *)
Definition reserved_room : Room :=
  mkRoom "ABCDEFG" "walking dog" (repeat None 60) (repeat false 60) 1000 2000 "DRAWING"
         [("A", mkReservation 5 900000); ("B", mkReservation 7 2500)]
         [(5, "A"); (7, "B")].

(** A process that holds only that room, in its cache. *)
Definition one_cached : Server :=
  with_cache [("ABCDEFG", mkCacheEntry reserved_room 1000)] (boot [] [] []).

Definition ws : Conn := mkConn "" "203.0.113.7".

(** A cache of four rooms for a process that keeps two: at 400000,
    [ROOMAAA] has been idle for longer than five minutes, and of the
    other three [ROOMCCC] was used least recently. *)
Definition small_cache : Config := mkConfig 2 300000 180000 1800000 24.

Definition four_cached : Server :=
  with_cache [("ROOMAAA", mkCacheEntry reserved_room 1000);
              ("ROOMBBB", mkCacheEntry reserved_room 390000);
              ("ROOMCCC", mkCacheEntry reserved_room 380000);
              ("ROOMDDD", mkCacheEntry reserved_room 395000)] (boot [] [] []).

Definition oracle (t : Z) : Oracle :=
  Sample.oracle t "0.zzzzzzzzz" "0.tok1aaaaaa" "0.tok2bbbbbb" Sample.all_ok.

(** Requests on the room: a join, and the submission of frame [i] under
    token [tok]. *)
Definition join : MsgData := Sample.data "abcdefg" None NNaN.
Definition submit (tok : string) (i : Z) : MsgData :=
  Sample.data "ABCDEFG" (Some tok) (NInt i).

End Cases.

(** ** Operations tooling: quarantine file and admin endpoint *)

(** [loadQuarantineSet]: [ids] are the elements of the array found in
    [quarantine.json] ([obj.roomIds], or [obj] itself when it is an
    array; none otherwise), each as [String(x || "")]. *)
Definition loadQuarantineSet (ids : list string) : JsSet.t :=
  fold_left (fun (set : JsSet.t) x =>
               let rid := normalizeRoomId x in
               if truthy rid then JsSet.add rid set else set)
            ids [].

(** [saveQuarantineSet] writes [Array.from(quarantineSet)] as [roomIds];
    a failed write is swallowed and leaves the file as it was. *)
Definition saveQuarantineSet (ok : bool) (q : JsSet.t) (file : list string) : list string :=
  if ok then q else file.

Definition isLocalAddress (addr : string) : bool :=
  String.eqb addr "127.0.0.1" || String.eqb addr "::1" ||
  String.eqb addr "::ffff:127.0.0.1".

(** An HTTP request to an admin endpoint: the [key] query parameter, the
    [x-admin-key] header, the peer address (each as [String(x || "")]),
    and the [roomId] and [mode] query parameters. *)
Record AdminRequest := mkAdminRequest {
  a_key : string;
  a_header : string;
  a_remote : string;
  a_roomId : string;
  a_mode : string
}.

Definition isAdminAuthorized (ADMIN_KEY : string) (req : AdminRequest) : bool :=
  if truthy ADMIN_KEY then
    (truthy (a_key req) && String.eqb (a_key req) ADMIN_KEY) ||
    (truthy (a_header req) && String.eqb (a_header req) ADMIN_KEY)
  else isLocalAddress (a_remote req).

Definition lower_char (c : ascii) : ascii :=
  if is_upper c then ascii_of_nat (code c + 32) else c.
Definition toLowerCase (s : string) : string := map_chars lower_char s.

Inductive HttpReply :=
| Reply404
| Reply400 (code message : string)
| Reply200 (roomId : string) (quarantined : bool) (quarantineCount : Z).

(** The [/admin/quarantine] endpoint; [ok] tells whether the write of
    [quarantine.json] succeeds. It answers with the reply, the server and
    the content of the file. *)
Definition admin_quarantine (ADMIN_KEY : string) (ok : bool) (req : AdminRequest)
                            (s : Server) (file : list string)
  : HttpReply * Server * list string :=
  if negb (isAdminAuthorized ADMIN_KEY req) then (Reply404, s, file) else
  let roomId := normalizeRoomId (a_roomId req) in
  let mode := toLowerCase (if truthy (a_mode req) then a_mode req else "toggle") in
  if negb (truthy roomId) then
    (Reply400 "INVALID_ROOM_ID" MSG_BAD_ROOM_ID, s, file)
  else
    let quarantined :=
      if String.eqb mode "on" then true
      else if String.eqb mode "off" then false
      else negb (JsSet.has roomId (quarantineSet s)) in
    let q :=
      if quarantined then JsSet.add roomId (quarantineSet s)
      else JsSet.delete roomId (quarantineSet s) in
    (Reply200 roomId quarantined (JsSet.size q),
     with_quarantineSet q s, saveQuarantineSet ok q file).

(** The ids of a quarantine list are room ids, each once. *)
Definition quarantine_ok (q : JsSet.t) : Prop :=
  NoDup q /\ Forall (fun id => ROOM_ID_RE id = true) q.

(** ** Rebuilding the index from the room files *)

Definition endsWith (suf s : string) : bool :=
  let n := String.length s in
  let m := String.length suf in
  (m <=? n)%nat && String.eqb (substring (n - m) m s) suf.

(** An entry of [rooms/]: its name, the parsed content ([None] when the
    file cannot be read or parsed, or parses to a falsy value), and the
    truthiness of the elements of [obj.filled] for a file where
    [obj.committed] is not an array and [obj.filled] is one. *)
Record DiskFile := mkDiskFile {
  f_name : string;
  f_json : option RoomJson;
  f_filled : option (list bool)
}.

Definition rebuildIndexFromDisk (files : list DiskFile) : Index :=
  fold_left
    (fun (out : Index) (f : DiskFile) =>
       if negb (endsWith ".json" (f_name f)) then out else
       match f_json f with
       | None => out
       | Some obj =>
           let base := slice 0 (String.length (f_name f) - 5) (f_name f) in
           let rid :=
             normalizeRoomId (if truthy (j_roomId obj) then j_roomId obj else base) in
           if negb (truthy rid) then out else
           let th := trim (j_theme obj) in
           let committedArr :=
             match f_filled f with Some l => l | None => j_committed obj end in
           let filledCount := filledCountOf committedArr in
           let completed := String.eqb (j_phase obj) PLAYBACK || (60 <=? filledCount) in
           JsMap.set String.eqb rid
             (mkIndexMeta rid th (j_createdAt obj) (j_updatedAt obj)
                          filledCount completed) out
       end)
    files [].

(** The index at start: the loaded [rooms_index.json] unless it is
    empty and the room files give a non-empty one. *)
Definition startIndex (loaded : Index) (files : list DiskFile) : Index :=
  if (List.length loaded =? 0)%nat then
    let rebuilt := rebuildIndexFromDisk files in
    if negb (List.length rebuilt =? 0)%nat then rebuilt else loaded
  else loaded.

(** What every entry of a rebuilt index satisfies. *)
Definition rebuilt_ok (km : string * IndexMeta) : Prop :=
  ROOM_ID_RE (fst km) = true /\ m_roomId (snd km) = fst km /\
  0 <= m_filledCount (snd km) /\
  (60 <= m_filledCount (snd km) -> m_completed (snd km) = true).

(** ** Monitoring: metric names, counters, timings *)

Definition is_metric_char (c : ascii) : bool :=
  is_lower c || is_upper c || is_digit c || (code c =? 95)%nat.

Definition metric_char_of (c : ascii) : ascii :=
  if is_metric_char c then c else "_"%char.

(** [String(s || "unknown").replace(/[^a-zA-Z0-9_]/g, "_")]. *)
Definition metricKey (s : string) : string :=
  map_chars metric_char_of (or_unknown s).

Definition Counters := JsMap.t string Z.

Definition counter (k : string) (c : Counters) : Z :=
  match JsMap.get String.eqb k c with Some v => v | None => 0 end.

Definition inc (name : string) (n : Z) (c : Counters) : Counters :=
  let k := metricKey name in
  JsMap.set String.eqb k (counter k c + n) c.

Record MsStat := mkMsStat { ms_count : Z; ms_sum : Z; ms_max : Z }.

Definition observeMs (op : string) (ms : Z) (m : JsMap.t string MsStat)
  : JsMap.t string MsStat :=
  let k := metricKey op in
  let o := match JsMap.get String.eqb k m with
           | Some o => o
           | None => mkMsStat 0 0 0
           end in
  JsMap.set String.eqb k
    (mkMsStat (ms_count o + 1) (ms_sum o + ms)
              (if ms_max o <? ms then ms else ms_max o)) m.

Record Metrics := mkMetrics {
  counters : Counters;
  timings : JsMap.t string MsStat;
  LAST_ERROR : Z * string * string
}.

(** The bookkeeping of [send(ws, obj)] for an envelope with a truthy [t]. *)
Definition meter_send (t : Z) (e : Envelope) (M : Metrics) : Metrics :=
  if negb (truthy (e_t e)) then M else
  let k := metricKey (e_t e) in
  let c := inc "ws_send_total" 1 (counters M) in
  let c := inc ("ws_send_type_" ++ k) 1 c in
  if String.eqb k "error" then
    let '(code, message) :=
      match e_data e with
      | PError code message _ =>
          (match code with Some c => c | None => "" end, message)
      | _ => ("", "")
      end in
    mkMetrics (inc "errors_total" 1 c) (timings M) (t, code, message)
  else mkMetrics c (timings M) (LAST_ERROR M).

Definition meter_action (t : Z) (M : Metrics) (a : Action) : Metrics :=
  match a with
  | Send e => meter_send t e M
  | Broadcast _ _ => M
  end.

(** The type of a frame that has one to read. *)
Definition frame_type (buf : Inbound) : option string :=
  match buf with
  | Parsed t _ | Faulty t _ _ => Some t
  | BadJson | NoType => None
  end.

(** The [message] listener with its bookkeeping; [elapsed] is the time
    that the [finally] block measures. *)
Definition onMessageMetered (cfg : Config) (o : Oracle) (elapsed : Z) (ws : Conn)
                            (s : Server) (M : Metrics) (buf : Inbound)
  : Outcome * Metrics :=
  match buf with
  | BadJson =>
      (onMessage cfg o ws s buf,
       mkMetrics (inc "ws_bad_json_total" 1 (counters M))
                 (observeMs "ws_unknown" elapsed (timings M)) (LAST_ERROR M))
  | NoType =>
      (onMessage cfg o ws s buf,
       mkMetrics (counters M)
                 (observeMs "ws_unknown" elapsed (timings M)) (LAST_ERROR M))
  | Parsed t _ | Faulty t _ _ =>
      let opName := metricKey (or_unknown t) in
      let c := inc "ws_messages_total" 1 (counters M) in
      let c := inc ("ws_msg_type_" ++ opName) 1 c in
      let ip := or_unknown (remoteAddr ws) in
      let allowed := fst (fst (checkRateLimit ip (or_unknown t) (now o) (RATE_BUCKETS s))) in
      let c := if allowed then c else inc "rate_limited_total" 1 c in
      let out := onMessage cfg o ws s buf in
      let M := fold_left (meter_action (now o))
                         (snd out) (mkMetrics c (timings M) (LAST_ERROR M)) in
      (out, mkMetrics (counters M)
                      (observeMs ("ws_" ++ opName) elapsed (timings M))
                      (LAST_ERROR M))
  end.

Definition error_sent (a : Action) : bool :=
  match a with
  | Send e => String.eqb (e_t e) "error"
  | Broadcast _ _ => false
  end.

(** The observations [l] of one operation, in order, on a fresh table. *)
Definition observe_all (op : string) (l : list Z) : JsMap.t string MsStat :=
  fold_left (fun m ms => observeMs op ms m) l [].

(** A [send] that the bookkeeping counts: [obj.t] is truthy. *)
Definition typed_send (a : Action) : bool :=
  match a with
  | Send e => truthy (e_t e)
  | Broadcast _ _ => false
  end.

Definition count_actions (p : Action -> bool) (l : list Action) : Z :=
  Z.of_nat (List.length (filter p l)).

(** ** The health page: HTML escaping *)

Definition dquote : ascii := ascii_of_nat 34.

(** The replacement of one of the five characters of the pattern by
    its entity: amp, lt, gt, quot and #39. *)
Definition esc_char (c : ascii) : string :=
  if Ascii.eqb c "&" then "&amp;"
  else if Ascii.eqb c "<" then "&lt;"
  else if Ascii.eqb c ">" then "&gt;"
  else if Ascii.eqb c dquote then "&quot;"
  else if Ascii.eqb c "'" then "&#39;"
  else String c "".

(** [esc(s)] on a string: every character of the pattern is replaced. *)
Fixpoint esc (s : string) : string :=
  match s with
  | EmptyString => EmptyString
  | String c r => esc_char c ++ esc r
  end.

(** A character that closes or opens markup or an attribute value. *)
Definition is_markup (c : ascii) : bool :=
  Ascii.eqb c "<" || Ascii.eqb c ">" || Ascii.eqb c dquote || Ascii.eqb c "'".

Definition is_special (c : ascii) : bool := Ascii.eqb c "&" || is_markup c.

(** An event that is not a request to [/admin/quarantine]. *)
Definition not_admin (e : Event) : bool :=
  match e with
  | EQuarantine _ _ => false
  | _ => true
  end.

(** * Properties *)

(** ** Evaluations *)

Example id7_typical : id7 "0.4fzyo82mvyr" = "4FZYO82".
Proof. reflexivity. Qed.
Example id7_half : id7 "0.i" = "I".
Proof. reflexivity. Qed.
Example token_half : token "0.i" "0.i" = "i-i".
Proof. reflexivity. Qed.
Example normalizeRoomId_ok : normalizeRoomId "  ab12cd " = "AB12CD".
Proof. reflexivity. Qed.
Example normalizeRoomId_short : normalizeRoomId "I" = "".
Proof. reflexivity. Qed.
Example isoStamp_epoch : isoStamp 0 = "1970-01-01T00-00-00-000Z".
Proof. reflexivity. Qed.
Example isoStamp_2026 : isoStamp 1767225600000 = "2026-01-01T00-00-00-000Z".
Proof. vm_compute. reflexivity. Qed.
Example isoStamp_leap : isoStamp 1709210096789 = "2024-02-29T12-34-56-789Z".
Proof. vm_compute. reflexivity. Qed.
Example isoStamp_before : isoStamp (-1) = "1969-12-31T23-59-59-999Z".
Proof. vm_compute. reflexivity. Qed.

(** ** Strings *)

Lemma upper_char_base36 c :
  is_base36 c = true -> is_upper_alnum (upper_char c) = true.
Proof.
  destruct c as [[] [] [] [] [] [] [] []]; vm_compute; intro H;
    first [reflexivity | discriminate H].
Qed.

Lemma upper_char_upper_alnum c :
  is_upper_alnum c = true -> upper_char c = c.
Proof.
  destruct c as [[] [] [] [] [] [] [] []]; vm_compute; intro H;
    first [reflexivity | discriminate H].
Qed.

Lemma upper_alnum_not_space c :
  is_upper_alnum c = true -> is_space c = false.
Proof.
  destruct c as [[] [] [] [] [] [] [] []]; vm_compute; intro H;
    first [reflexivity | discriminate H].
Qed.

Lemma all_chars_impl (p q : ascii -> bool) s :
  (forall c, p c = true -> q c = true) ->
  all_chars p s = true -> all_chars q s = true.
Proof.
  intros Hpq; induction s as [|c s IH]; simpl; auto.
  rewrite !andb_true_iff; intros [H1 H2]; auto.
Qed.

Lemma all_chars_toUpperCase s :
  all_chars is_base36 s = true ->
  all_chars is_upper_alnum (toUpperCase s) = true.
Proof.
  unfold toUpperCase.
  induction s as [|c s IH]; simpl; auto.
  rewrite !andb_true_iff; intros [H1 H2]; split; auto using upper_char_base36.
Qed.

Lemma toUpperCase_fixed s :
  all_chars is_upper_alnum s = true -> toUpperCase s = s.
Proof.
  unfold toUpperCase.
  induction s as [|c s IH]; simpl; auto.
  rewrite andb_true_iff; intros [H1 H2].
  rewrite IH, upper_char_upper_alnum; auto.
Qed.

Lemma length_toUpperCase s : String.length (toUpperCase s) = String.length s.
Proof. unfold toUpperCase. induction s; simpl; auto. Qed.

Lemma all_chars_substring p s : forall n m,
  all_chars p s = true -> all_chars p (substring n m s) = true.
Proof.
  induction s as [|c s IH]; intros n m H.
  - destruct n, m; reflexivity.
  - simpl in H. apply andb_true_iff in H as [H1 H2].
    destruct n; simpl.
    + destruct m; simpl; auto. rewrite H1; simpl; auto.
    + auto.
Qed.

Lemma substring_shorter p s : forall n m m',
  (m' <= m)%nat ->
  all_chars p (substring n m s) = true -> all_chars p (substring n m' s) = true.
Proof.
  induction s as [|c s IH]; intros n m m' Hle H.
  - destruct n, m'; reflexivity.
  - destruct n; simpl in *.
    + destruct m'; simpl; auto. destruct m; [lia|]. simpl in H.
      apply andb_true_iff in H as [H1 H2]. rewrite H1; simpl.
      apply IH with (m := m); auto; lia.
    + eauto.
Qed.

Lemma length_substring s : forall n m,
  (String.length (substring n m s) <= m)%nat.
Proof.
  induction s as [|c s IH]; intros n m.
  - destruct n, m; simpl; lia.
  - destruct n; simpl.
    + destruct m; simpl; [lia|]. specialize (IH 0%nat m). lia.
    + apply IH.
Qed.

Lemma length_append (a b : string) :
  String.length (a ++ b) = (String.length a + String.length b)%nat.
Proof. induction a; simpl; auto. Qed.

Lemma rev_string_twice s : forall a b,
  rev_string a (rev_string b s) = rev_string (s ++ a)%string b.
Proof.
  induction s as [|c s IH]; intros a b; simpl; [reflexivity | apply IH].
Qed.

Lemma append_empty (s : string) : (s ++ "")%string = s.
Proof. induction s; simpl; congruence. Qed.

Lemma all_chars_rev_string p s : forall acc,
  all_chars p (rev_string acc s) = all_chars p s && all_chars p acc.
Proof.
  induction s as [|c s IH]; intros acc; simpl; auto.
  rewrite IH. simpl. rewrite andb_assoc, (andb_comm (all_chars p s)). reflexivity.
Qed.

Lemma trimStart_fixed s :
  all_chars (fun c => negb (is_space c)) s = true -> trimStart s = s.
Proof.
  destruct s as [|c s]; simpl; auto.
  rewrite andb_true_iff; intros [H _].
  destruct (is_space c); [discriminate H | reflexivity].
Qed.

Lemma trim_fixed s :
  all_chars (fun c => negb (is_space c)) s = true -> trim s = s.
Proof.
  intros H. unfold trim. rewrite (trimStart_fixed _ H).
  rewrite trimStart_fixed.
  - rewrite rev_string_twice. simpl. apply append_empty.
  - rewrite all_chars_rev_string, H. reflexivity.
Qed.

Lemma normalizeRoomId_fixed id :
  ROOM_ID_RE id = true -> normalizeRoomId id = id.
Proof.
  intros H. unfold normalizeRoomId.
  assert (Ha : all_chars is_upper_alnum id = true).
  { unfold ROOM_ID_RE in H. rewrite !andb_true_iff in H. tauto. }
  rewrite trim_fixed.
  - rewrite (toUpperCase_fixed _ Ha), H. reflexivity.
  - apply all_chars_impl with (p := is_upper_alnum); auto.
    intros c Hc. rewrite (upper_alnum_not_space _ Hc). reflexivity.
Qed.

(** Normalising is idempotent: [roomFile] applied to a normalised id
    does not throw and names the file of that id. *)
Lemma normalizeRoomId_idempotent x :
  normalizeRoomId (normalizeRoomId x) = normalizeRoomId x.
Proof.
  unfold normalizeRoomId at 2 3.
  destruct (ROOM_ID_RE (toUpperCase (trim x))) eqn:E.
  - apply normalizeRoomId_fixed; assumption.
  - reflexivity.
Qed.

Lemma rendering36_slice r m :
  rendering36 r = true -> all_chars is_base36 (substring 2 m r) = true.
Proof.
  unfold rendering36. rewrite orb_true_iff, !andb_true_iff.
  intros [H | [[_ _] H]].
  - apply String.eqb_eq in H. subst r. destruct m; reflexivity.
  - unfold slice_from in H.
    destruct (Nat.le_gt_cases m (String.length r - 2)) as [Hle | Hgt].
    + eapply substring_shorter; eauto.
    + clear - H Hgt.
      destruct r as [|c0 [|c1 r]]; try (destruct m; reflexivity).
      simpl in *. rewrite Nat.sub_0_r in *.
      revert m Hgt H. induction r as [|c r IH]; intros m Hgt H.
      * destruct m; reflexivity.
      * destruct m; [reflexivity|]. simpl in *.
        apply andb_true_iff in H as [H1 H2]. rewrite H1. simpl.
        apply IH; auto. lia.
Qed.

Lemma id7_upper_alnum r :
  rendering36 r = true -> all_chars is_upper_alnum (id7 r) = true.
Proof.
  intros H. unfold id7, slice. apply all_chars_toUpperCase.
  apply rendering36_slice; assumption.
Qed.

Lemma id7_length r : (String.length (id7 r) <= 7)%nat.
Proof.
  unfold id7, slice. rewrite length_toUpperCase.
  apply (length_substring r 2 7).
Qed.

(** A minted id either names its own room file or none at all. *)
Lemma id7_roomFile r :
  rendering36 r = true ->
  roomFile (id7 r) = Some (id7 r) \/ roomFile (id7 r) = None.
Proof.
  intros H. unfold roomFile.
  destruct (ROOM_ID_RE (id7 r)) eqn:E.
  - rewrite (normalizeRoomId_fixed _ E).
    destruct (id7 r) eqn:E'; [discriminate E | left; reflexivity].
  - right. unfold normalizeRoomId.
    pose proof (id7_upper_alnum _ H) as Ha.
    rewrite trim_fixed.
    + rewrite (toUpperCase_fixed _ Ha), E. reflexivity.
    + apply all_chars_impl with (p := is_upper_alnum); auto.
      intros c Hc. rewrite (upper_alnum_not_space _ Hc). reflexivity.
Qed.

(** ** Maps *)

Section JsMapFacts.
Variables (K V : Type) (eqb : K -> K -> bool).
Hypothesis eqb_eq : forall a b, eqb a b = true <-> a = b.

Lemma eqb_same k : eqb k k = true.
Proof. apply eqb_eq; reflexivity. Qed.

Lemma eqb_diff k k' : k <> k' -> eqb k k' = false.
Proof.
  intros H. destruct (eqb k k') eqn:E; auto.
  apply eqb_eq in E. contradiction.
Qed.

Lemma get_set_eq k (v : V) m : JsMap.get eqb k (JsMap.set eqb k v m) = Some v.
Proof.
  induction m as [|[k' v'] m IH]; simpl.
  - rewrite eqb_same; reflexivity.
  - destruct (eqb k k') eqn:E; simpl; rewrite ?eqb_same, ?E; auto.
Qed.

Lemma get_set_ne k k' (v : V) m :
  k <> k' -> JsMap.get eqb k' (JsMap.set eqb k v m) = JsMap.get eqb k' m.
Proof.
  intros Hne. induction m as [|[k0 v0] m IH]; simpl.
  - rewrite eqb_diff; auto.
  - destruct (eqb k k0) eqn:E; simpl.
    + apply eqb_eq in E. subst k0. rewrite !eqb_diff; auto.
    + rewrite IH. reflexivity.
Qed.

Lemma get_delete_eq k (m : JsMap.t K V) : JsMap.get eqb k (JsMap.delete eqb k m) = None.
Proof.
  unfold JsMap.delete.
  induction m as [|[k0 v0] m IH]; simpl; auto.
  destruct (eqb k k0) eqn:E; simpl; rewrite ?E; auto.
Qed.

Lemma get_delete_ne k k' (m : JsMap.t K V) :
  k <> k' -> JsMap.get eqb k' (JsMap.delete eqb k m) = JsMap.get eqb k' m.
Proof.
  intros Hne. unfold JsMap.delete.
  induction m as [|[k0 v0] m IH]; simpl; auto.
  destruct (eqb k k0) eqn:E; simpl.
  - apply eqb_eq in E. subst k0. rewrite eqb_diff; auto.
  - rewrite IH. reflexivity.
Qed.

Lemma get_In k (v : V) m : JsMap.get eqb k m = Some v -> In (k, v) m.
Proof.
  induction m as [|[k0 v0] m IH]; simpl; [discriminate|].
  destruct (eqb k k0) eqn:E.
  - apply eqb_eq in E. subst k0. intros [= ->]. left; reflexivity.
  - intros H. right. auto.
Qed.

Lemma In_set k (v : V) m e :
  In e (JsMap.set eqb k v m) -> e = (k, v) \/ In e m.
Proof.
  induction m as [|[k0 v0] m IH]; simpl.
  - intros [H | []]; auto.
  - destruct (eqb k k0); simpl; intros [H | H]; auto.
    destruct (IH H); auto.
Qed.

Lemma Forall_set (P : K * V -> Prop) k v m :
  Forall P m -> P (k, v) -> Forall P (JsMap.set eqb k v m).
Proof.
  intros Hm Hkv. apply Forall_forall. intros e He.
  destruct (In_set _ _ _ _ He) as [-> | Hin]; auto.
  rewrite Forall_forall in Hm. auto.
Qed.

Lemma Forall_get (P : K * V -> Prop) k v m :
  Forall P m -> JsMap.get eqb k m = Some v -> P (k, v).
Proof.
  intros Hm Hg. rewrite Forall_forall in Hm. apply Hm, get_In, Hg.
Qed.

End JsMapFacts.

Lemma sget_set_eq {V : Type} k (v : V) m :
  JsMap.get String.eqb k (JsMap.set String.eqb k v m) = Some v.
Proof. apply get_set_eq, String.eqb_eq. Qed.

Lemma sget_set_ne {V : Type} k k' (v : V) m :
  k <> k' ->
  JsMap.get String.eqb k' (JsMap.set String.eqb k v m) = JsMap.get String.eqb k' m.
Proof. intros H. apply get_set_ne; [apply String.eqb_eq | exact H]. Qed.

Lemma sget_delete_eq {V : Type} k (m : JsMap.t string V) :
  JsMap.get String.eqb k (JsMap.delete String.eqb k m) = None.
Proof. apply get_delete_eq. Qed.

Lemma sget_delete_ne {V : Type} k k' (m : JsMap.t string V) :
  k <> k' ->
  JsMap.get String.eqb k' (JsMap.delete String.eqb k m) = JsMap.get String.eqb k' m.
Proof. intros H. apply get_delete_ne; [apply String.eqb_eq | exact H]. Qed.

Lemma Forall_filter_keep {A : Type} (P : A -> Prop) (f : A -> bool) l :
  Forall P l -> Forall P (filter f l).
Proof.
  intros H. apply Forall_forall. intros x Hx.
  apply filter_In in Hx as [Hx _]. rewrite Forall_forall in H. auto.
Qed.

(** ** Room operations *)

Lemma committed_cleanupReservations t r :
  committed (cleanupReservations t r) = committed r.
Proof. reflexivity. Qed.

Lemma phase_cleanupReservations t r :
  phase (cleanupReservations t r) = phase r.
Proof. reflexivity. Qed.

Lemma roomId_cleanupReservations t r :
  roomId (cleanupReservations t r) = roomId r.
Proof. reflexivity. Qed.

Lemma committed_normalizePhase r : committed (normalizePhase r) = committed r.
Proof. unfold normalizePhase. destruct (forallb _ _); reflexivity. Qed.

Lemma roomId_normalizePhase r : roomId (normalizePhase r) = roomId r.
Proof. unfold normalizePhase. destruct (forallb _ _); reflexivity. Qed.

Lemma reservations_normalizePhase r :
  reservations (normalizePhase r) = reservations r.
Proof. unfold normalizePhase. destruct (forallb _ _); reflexivity. Qed.

Lemma phase_normalizePhase r :
  phase (normalizePhase r) =
  if forallb (fun b => b) (committed r) then PLAYBACK else DRAWING.
Proof. unfold normalizePhase. destruct (forallb _ _); reflexivity. Qed.

Lemma normalizePhase_eq r :
  normalizePhase r =
  with_phase (if forallb (fun b => b) (committed r) then PLAYBACK else DRAWING) r.
Proof. unfold normalizePhase. destruct (forallb _ _); reflexivity. Qed.

Lemma saveRoom_cache o k r s : cache (snd (saveRoom o k r s)) = cache s.
Proof.
  unfold saveRoom.
  destruct (roomFile _); [|reflexivity].
  unfold serializeRoom.
  destruct (write_ok o k); [|reflexivity].
  unfold saveIndex. destruct (write_ok o (S k)); reflexivity.
Qed.

(** [saveRoom] leaves the room as it was, up to the sweep and the
    normalised phase. *)
Lemma saveRoom_room o k r s :
  let r' := fst (saveRoom o k r s) in
  roomId r' = roomId r /\ theme r' = theme r /\ frames r' = frames r /\
  committed r' = committed r /\ createdAt r' = createdAt r /\
  updatedAt r' = updatedAt r /\
  phase r' = (if forallb (fun b => b) (committed r) then PLAYBACK else DRAWING).
Proof.
  unfold saveRoom.
  destruct (roomFile _).
  - unfold serializeRoom. destruct (write_ok o k); simpl;
      rewrite !normalizePhase_eq; simpl; repeat split; reflexivity.
  - simpl. rewrite !normalizePhase_eq; simpl; repeat split; reflexivity.
Qed.

Lemma cache_putRoom_hit key r s e :
  JsMap.get String.eqb key (cache s) = Some e ->
  cache (putRoom key r s) =
  JsMap.set String.eqb key (mkCacheEntry r (lastAccess e)) (cache s).
Proof. intros H. unfold putRoom. rewrite H. reflexivity. Qed.

Lemma get_putRoom key r s e :
  JsMap.get String.eqb key (cache s) = Some e ->
  JsMap.get String.eqb key (cache (putRoom key r s)) =
  Some (mkCacheEntry r (lastAccess e)).
Proof.
  intros H. rewrite (cache_putRoom_hit _ _ _ H).
  apply get_set_eq, String.eqb_eq.
Qed.

(** ** Reservation tokens (C7) *)

Lemma assign_frame_tokens cfg o noEmpty key r ws s tok :
  In tok (minted_tokens (snd (assign_frame cfg o noEmpty key r ws s))) ->
  tok = token (rnd_tok1 o) (rnd_tok2 o).
Proof.
  unfold assign_frame.
  destruct (firstYoungestEmpty (now o) r) as [idx r1].
  destruct (idx <? 0).
  - destruct (saveRoom _ _ _ _) as [r2 s2]. simpl. intros [].
  - destruct (saveRoom _ _ _ _) as [r2 s2].
    destruct (roomState _ _) as [rs r3]. simpl. intros [H | []]. auto.
Qed.

Lemma on_join_random_tokens cfg o ws s tok :
  In tok (minted_tokens (snd (on_join_random cfg o ws s))) ->
  tok = token (rnd_tok1 o) (rnd_tok2 o).
Proof.
  unfold on_join_random.
  destruct (findRandomOpenRoomId o s) as [rid|]; [|intros []].
  destruct (getRoom o rid s) as [[[key r]|] s1]; [|intros []].
  destruct (negb _); [intros [] | apply assign_frame_tokens].
Qed.

Lemma on_join_by_id_tokens cfg o d ws s tok :
  In tok (minted_tokens (snd (on_join_by_id cfg o d ws s))) ->
  tok = token (rnd_tok1 o) (rnd_tok2 o).
Proof.
  unfold on_join_by_id.
  destruct (negb (truthy _)); [intros []|].
  destruct (JsSet.has _ _); [intros []|].
  destruct (getRoom o _ s) as [[[key r]|] s1]; [|intros []].
  destruct (negb _); [intros [] | apply assign_frame_tokens].
Qed.

(** C7, as the code has it: a join handler hands out
    [token()], the fraction digits of one draw, a hyphen, and the fraction
    digits of another; its length is the two digit counts plus one, so at
    least 1, and nothing makes it 16. *)
Theorem minted_token_shape cfg o d ws s tok :
  In tok (minted_tokens (snd (on_join_random cfg o ws s)) ++
          minted_tokens (snd (on_join_by_id cfg o d ws s))) ->
  tok = token (rnd_tok1 o) (rnd_tok2 o) /\
  String.length tok =
    (String.length (slice_from 2 (rnd_tok1 o)) + 1 +
     String.length (slice_from 2 (rnd_tok2 o)))%nat /\
  (1 <= String.length tok)%nat.
Proof.
  intros H.
  assert (E : tok = token (rnd_tok1 o) (rnd_tok2 o)).
  { apply in_app_or in H as [H | H];
      eauto using on_join_random_tokens, on_join_by_id_tokens. }
  split; [exact E|].
  assert (L : String.length tok =
              (String.length (slice_from 2 (rnd_tok1 o)) + 1 +
               String.length (slice_from 2 (rnd_tok2 o)))%nat).
  { subst tok. unfold token. rewrite !length_append. simpl. lia. }
  split; [exact L | lia].
Qed.

Lemma minted_token_shape_witness :
  String.length "4fzyo82mvyr-k1x9q0c7d2" = 22%nat.
Proof.
  pose proof (minted_token_shape default_config
                (Sample.oracle 2000 "0.zzzzzzzzz" "0.4fzyo82mvyr" "0.k1x9q0c7d2" Sample.all_ok)
                (Sample.data "ABCDEFG" None NNaN)
                (mkConn "" "203.0.113.7") (server Sample.one_room)
                "4fzyo82mvyr-k1x9q0c7d2") as H.
  assert (Hin : In "4fzyo82mvyr-k1x9q0c7d2"
            (minted_tokens
               (snd (on_join_random default_config
                       (Sample.oracle 2000 "0.zzzzzzzzz" "0.4fzyo82mvyr" "0.k1x9q0c7d2"
                                      Sample.all_ok)
                       (mkConn "" "203.0.113.7") (server Sample.one_room))) ++
             minted_tokens
               (snd (on_join_by_id default_config
                       (Sample.oracle 2000 "0.zzzzzzzzz" "0.4fzyo82mvyr" "0.k1x9q0c7d2"
                                      Sample.all_ok)
                       (Sample.data "ABCDEFG" None NNaN)
                       (mkConn "" "203.0.113.7") (server Sample.one_room))))).
  { vm_compute. left. reflexivity. }
  destruct (H Hin) as (_ & L & _). exact L.
Defined.

(** C7 as stated fails: with both draws [0.5], [join_by_id] on room
    [ABCDEFG] hands out the three-character token ["i-i"]. *)
Lemma minted_token_counterexample :
  rendering36 "0.i" = true /\
  minted_tokens
    (snd (step default_config Sample.one_room
               (Sample.join_by_id 2000 "ABCDEFG" "0.i" "0.i"))) = ["i-i"] /\
  (String.length "i-i" < 16)%nat.
Proof. vm_compute. repeat split; try reflexivity. lia. Qed.

(** ** join_by_id: one answer for quarantined, absent and completed (C4) *)

Lemma phase_normalizePhase_done r :
  forallb (fun b => b) (committed r) = true ->
  phase (normalizePhase r) = PLAYBACK.
Proof. intros H. rewrite phase_normalizePhase, H. reflexivity. Qed.

(** C4: for one requested id, [join_by_id] sends the same
    single envelope, [error] with the message of "room not found", when
    the room is quarantined, when no room resolves and when the room is
    completed; the connection stays as it was in all three cases. *)
Theorem join_by_id_not_found_uniform cfg o d ws s1 s2 s3 key r s3' :
  let rid := normalizeRoomId (d_roomId d) in
  truthy rid = true ->
  JsSet.has rid (quarantineSet s1) = true ->
  JsSet.has rid (quarantineSet s2) = false ->
  fst (getRoom o rid s2) = None ->
  JsSet.has rid (quarantineSet s3) = false ->
  getRoom o rid s3 = (Some (key, r), s3') ->
  forallb (fun b => b) (committed r) = true ->
  let answer :=
    [Send (mkEnvelope 1 "error" (now o) (PError None "部屋が見つからない" None))] in
  (snd (on_join_by_id cfg o d ws s1) = answer /\
   snd (on_join_by_id cfg o d ws s2) = answer /\
   snd (on_join_by_id cfg o d ws s3) = answer) /\
  (snd (fst (on_join_by_id cfg o d ws s1)) = ws /\
   snd (fst (on_join_by_id cfg o d ws s2)) = ws /\
   snd (fst (on_join_by_id cfg o d ws s3)) = ws).
Proof.
  intros rid Hrid Hq1 Hq2 Hnone Hq3 Hget Hdone answer.
  unfold on_join_by_id. fold rid.
  rewrite Hrid, Hq1, Hq2, Hq3, Hget. simpl.
  destruct (getRoom o rid s2) as [[[k2 r2]|] s2'] eqn:E2; [discriminate Hnone|].
  rewrite (phase_normalizePhase_done _ Hdone). simpl.
  repeat split; reflexivity.
Qed.

Lemma join_by_id_not_found_uniform_witness :
  let o := Sample.oracle 9000 "0.zzzzzzzzz" "0.x" "0.y" Sample.all_ok in
  let d := Sample.data "hijklmn" None NNaN in
  let ws := mkConn "" "203.0.113.7" in
  let s1 := boot [] [] ["HIJKLMN"] in
  let s2 := boot [] [] [] in
  let s3 := boot [("HIJKLMN", Sample.completed_json "HIJKLMN")] [] [] in
  snd (on_join_by_id default_config o d ws s1) = snd (on_join_by_id default_config o d ws s2) /\
  snd (on_join_by_id default_config o d ws s2) = snd (on_join_by_id default_config o d ws s3).
Proof.
  intros o d ws s1 s2 s3.
  destruct (getRoom o "HIJKLMN" s3) as [[[key r]|] s3'] eqn:E; [|discriminate E].
  assert (Hdone : forallb (fun b => b) (committed r) = true).
  { vm_compute in E. injection E as _ <- _. reflexivity. }
  pose proof (join_by_id_not_found_uniform default_config o d ws s1 s2 s3
                eq_refl eq_refl eq_refl eq_refl eq_refl E Hdone) as [(H1 & H2 & H3) _].
  split; congruence.
Defined.

(** ** join_room: attachment and answer (C8, C10) *)

(** C8, as the code has it: [join_room] sets the
    connection's [_roomId] as soon as the room resolves, before the editing
    checks. When the room resolves, the attachment after the handler is
    the resolved room's id whatever the answer: [room_state], the "not
    editable" error or the reservation error. When the id is invalid,
    quarantined or resolves to no room, the attachment is left as it was
    and the answer is the invalid-id or the not-found error. *)
Theorem join_room_attachment o d ws s :
  let rid := requestedRoomId d ws in
  let ws' := snd (fst (on_join_room o d ws s)) in
  let out := snd (on_join_room o d ws s) in
  remoteAddr ws' = remoteAddr ws /\
  match
    (if truthy rid && negb (JsSet.has rid (quarantineSet s))
     then fst (getRoom o rid s) else None)
  with
  | Some (_, r) =>
      _roomId ws' = roomId r /\
      ((exists rs, out = [Send (envelope o "room_state" (PRoomState rs))]) \/
       out = [error o MSG_NOT_EDITABLE] \/
       out = [error o MSG_JOIN_RESERVATION])
  | None =>
      _roomId ws' = _roomId ws /\
      (out = [error o MSG_BAD_ROOM_ID] \/ out = [error o MSG_NOT_FOUND])
  end.
Proof.
  intros rid. cbv zeta. unfold on_join_room. fold rid.
  destruct (truthy rid); cbn [negb andb fst snd];
    [|split; [reflexivity | split; [reflexivity | left; reflexivity]]].
  destruct (JsSet.has rid (quarantineSet s)); cbn [negb fst snd];
    [split; [reflexivity | split; [reflexivity | right; reflexivity]]|].
  destruct (getRoom o rid s) as [[[key r]|] s1]; cbn [fst snd];
    [|split; [reflexivity | split; [reflexivity | right; reflexivity]]].
  destruct (d_view d), (d_reservationToken d) as [tok|]; cbv beta iota zeta;
    try (destruct (roomState _ _) as [rs r3]; cbn [fst snd];
         split; [reflexivity | split; [reflexivity
                                      | left; exists rs; reflexivity]]).
  destruct (negb _); cbn [fst snd];
    [split; [reflexivity | split; [reflexivity
                                  | right; left; reflexivity]]|].
  destruct (JsMap.get _ _ _) as [e|]; cbn [fst snd];
    [|split; [reflexivity | split; [reflexivity
                                   | right; right; reflexivity]]].
  destruct (expiresAt e <=? now o); cbn [fst snd];
    [split; [reflexivity | split; [reflexivity
                                  | right; right; reflexivity]]|].
  destruct (roomState _ _) as [rs r3]; cbn [fst snd].
  split; [reflexivity | split; [reflexivity
                               | left; exists rs; reflexivity]].
Qed.

(** C8 as stated fails: connection 1, attached to nothing, asks to join
    room [ABCDEFG] with a token that was never issued; it is answered with
    the reservation error and is left attached to [ABCDEFG]. The same
    happens with the "not editable" error on a completed room. *)
Lemma join_room_attachment_counterexample :
  (let w := fst (step default_config Sample.one_room (EConnect "198.51.100.9")) in
   let e := EMessage 1 (Sample.oracle 2000 "0.zzzzzzzzz" "0.x" "0.y" Sample.all_ok)
                     (Parsed "join_room" (Sample.data "ABCDEFG" (Some "bogus") NNaN)) in
   option_map _roomId (nth_error (clients w) 1) = Some "" /\
   snd (step default_config w e) =
     [Send (mkEnvelope 1 "error" 2000
              (PError None "予約が無効/期限切れです。もう一度参加してね" None))] /\
   option_map _roomId (nth_error (clients (fst (step default_config w e))) 1) =
     Some "ABCDEFG") /\
  (let w := mkWorld (boot [("HIJKLMN", Sample.completed_json "HIJKLMN")] [] [])
                    [mkConn "" "198.51.100.9"] in
   let e := EMessage 0 (Sample.oracle 2000 "0.zzzzzzzzz" "0.x" "0.y" Sample.all_ok)
                     (Parsed "join_room" (Sample.data "HIJKLMN" (Some "bogus") NNaN)) in
   snd (step default_config w e) =
     [Send (mkEnvelope 1 "error" 2000
              (PError None "この部屋は編集できません（完成済み）" None))] /\
   option_map _roomId (nth_error (clients (fst (step default_config w e))) 0) =
     Some "HIJKLMN").
Proof. vm_compute. repeat split; reflexivity. Qed.

(** C10: on a room that resolves and is not quarantined, a
    [join_room] that carries no reservation token is answered with
    [room_state] and attaches the connection, whatever the phase; for a
    completed room the state reads [PLAYBACK], [completed: true]. *)
Theorem join_room_without_token o d ws s key r s1 :
  let rid := requestedRoomId d ws in
  truthy rid = true ->
  JsSet.has rid (quarantineSet s) = false ->
  getRoom o rid s = (Some (key, r), s1) ->
  d_reservationToken d = None ->
  let rs := fst (roomState (now o) (normalizePhase r)) in
  on_join_room o d ws s =
    (putRoom key (snd (roomState (now o) (normalizePhase r))) s1,
     attach (roomId r) ws,
     [Send (mkEnvelope 1 "room_state" (now o) (PRoomState rs))]) /\
  _roomId (snd (fst (on_join_room o d ws s))) = roomId r /\
  remoteAddr (snd (fst (on_join_room o d ws s))) = remoteAddr ws /\
  rs_roomId rs = roomId r /\
  (forallb (fun b => b) (committed r) = true ->
   rs_phase rs = "PLAYBACK" /\ rs_completed rs = true).
Proof.
  intros rid Hrid Hq Hget Htok rs.
  assert (E : on_join_room o d ws s =
    (putRoom key (snd (roomState (now o) (normalizePhase r))) s1,
     attach (roomId r) ws,
     [Send (mkEnvelope 1 "room_state" (now o) (PRoomState rs))])).
  { unfold on_join_room. fold rid. rewrite Hrid, Hq, Hget, Htok. simpl.
    rewrite <- (roomId_normalizePhase r).
    destruct (d_view d); reflexivity. }
  split; [exact E|]. rewrite E. cbn [fst snd attach _roomId remoteAddr].
  split; [reflexivity|]. split; [reflexivity|]. split.
  - unfold rs, roomState. simpl. rewrite ?normalizePhase_eq. reflexivity.
  - intros Hdone. unfold rs, roomState. simpl.
    rewrite !normalizePhase_eq. simpl. rewrite Hdone. simpl.
    split; reflexivity.
Qed.

Lemma join_room_without_token_witness :
  let w := mkWorld (boot [("HIJKLMN", Sample.completed_json "HIJKLMN")] [] [])
                   [mkConn "" "198.51.100.9"] in
  let o := Sample.oracle 2000 "0.zzzzzzzzz" "0.x" "0.y" Sample.all_ok in
  let d := Sample.data "HIJKLMN" None NNaN in
  _roomId (snd (fst (on_join_room o d (mkConn "" "198.51.100.9") (server w)))) =
    "HIJKLMN" /\
  exists rs,
    snd (on_join_room o d (mkConn "" "198.51.100.9") (server w)) =
      [Send (mkEnvelope 1 "room_state" 2000 (PRoomState rs))] /\
    rs_roomId rs = "HIJKLMN" /\
    rs_phase rs = "PLAYBACK" /\ rs_completed rs = true.
Proof.
  intros w o d.
  destruct (getRoom o "HIJKLMN" (server w)) as [[[key r]|] s1] eqn:E; [|discriminate E].
  assert (Hdone : forallb (fun b => b) (committed r) = true).
  { vm_compute in E. injection E as _ <- _. reflexivity. }
  assert (Hid : roomId r = "HIJKLMN").
  { vm_compute in E. injection E as _ <- _. reflexivity. }
  pose proof (join_room_without_token o d (mkConn "" "198.51.100.9")
                (server w) eq_refl eq_refl E eq_refl) as (H1 & H2 & _ & H3 & H4).
  split; [rewrite H2; exact Hid|].
  eexists. split; [rewrite H1; reflexivity|].
  split; [rewrite H3; exact Hid | exact (H4 Hdone)].
Defined.

(** ** Backup rotation (C9) *)

Section NameOrder.

Lemma str_le_trans a : forall b c, str_le a b -> str_le b c -> str_le a c.
Proof.
  unfold str_le, String.leb.
  induction a as [|x a IH]; intros [|y b] [|z c]; simpl; try congruence.
  unfold Ascii.compare.
  destruct (N.compare_spec (N_of_ascii x) (N_of_ascii y)) as [Exy|Lxy|Gxy];
    destruct (N.compare_spec (N_of_ascii y) (N_of_ascii z)) as [Eyz|Lyz|Gyz];
    destruct (N.compare_spec (N_of_ascii x) (N_of_ascii z)) as [Exz|Lxz|Gxz];
    try congruence; try lia.
  apply IH.
Qed.

Lemma str_le_total a b : str_le a b \/ str_le b a.
Proof. apply String.leb_total. Qed.

Lemma str_le_antisym a b : str_le a b -> str_le b a -> a = b.
Proof. apply String.leb_antisym. Qed.

Lemma insert_name_perm x l : Permutation (insert_name x l) (x :: l).
Proof.
  induction l as [|y l IH]; simpl; auto.
  destruct (String.leb x y); auto.
  rewrite IH. apply perm_swap.
Qed.

Lemma sort_names_perm l : Permutation (sort_names l) l.
Proof.
  induction l as [|x l IH]; simpl; auto.
  rewrite insert_name_perm. auto.
Qed.

Lemma insert_name_sorted x l :
  StronglySorted str_le l -> StronglySorted str_le (insert_name x l).
Proof.
  induction 1 as [|y l Hl IH Hy]; simpl.
  - repeat constructor.
  - destruct (String.leb x y) eqn:E.
    + constructor; [constructor; assumption|].
      constructor; [exact E|].
      rewrite Forall_forall in *. intros z Hz.
      eapply str_le_trans; [exact E | auto].
    + constructor; auto.
      assert (Hyx : str_le y x).
      { destruct (str_le_total x y) as [H | H]; [unfold str_le in H; congruence | exact H]. }
      rewrite Forall_forall in *. intros z Hz.
      apply (Permutation_in _ (insert_name_perm x l)) in Hz.
      destruct Hz as [<- | Hz]; auto.
Qed.

Lemma sort_names_sorted l : StronglySorted str_le (sort_names l).
Proof.
  induction l as [|x l IH]; simpl; [constructor | apply insert_name_sorted, IH].
Qed.

Lemma sorted_perm_eq l1 : forall l2,
  StronglySorted str_le l1 -> StronglySorted str_le l2 ->
  Permutation l1 l2 -> l1 = l2.
Proof.
  induction l1 as [|a l1 IH]; intros l2 H1 H2 P.
  - apply Permutation_nil in P. auto.
  - destruct l2 as [|b l2]; [apply Permutation_sym, Permutation_nil in P; discriminate|].
    inversion H1 as [|? ? H1' Ha]; subst. inversion H2 as [|? ? H2' Hb]; subst.
    rewrite Forall_forall in Ha, Hb.
    assert (a = b).
    { assert (Hab : str_le a b).
      { assert (Hin : In b (a :: l1))
          by (apply (Permutation_in _ (Permutation_sym P)); left; reflexivity).
        destruct Hin as [-> | Hin]; [|auto].
        destruct (str_le_total b b); assumption. }
      assert (Hba : str_le b a).
      { assert (Hin : In a (b :: l2)) by (apply (Permutation_in _ P); left; reflexivity).
        destruct Hin as [-> | Hin]; [|auto].
        destruct (str_le_total a a); assumption. }
      apply str_le_antisym; assumption. }
    subst b. f_equal. apply IH; auto.
    apply Permutation_cons_inv in P. exact P.
Qed.

Lemma sort_names_snoc l x :
  sort_names (l ++ [x]) = insert_name x (sort_names l).
Proof.
  apply sorted_perm_eq.
  - apply sort_names_sorted.
  - apply insert_name_sorted, sort_names_sorted.
  - rewrite sort_names_perm, insert_name_perm, sort_names_perm.
    rewrite Permutation_app_comm. reflexivity.
Qed.

Lemma StronglySorted_skipn n : forall l,
  StronglySorted str_le l -> StronglySorted str_le (skipn n l).
Proof.
  induction n as [|n IH]; intros l H; simpl; auto.
  destruct l as [|x l]; auto.
  inversion H; subst. auto.
Qed.

End NameOrder.

Lemma has_In x l : JsSet.has x l = true <-> In x l.
Proof.
  unfold JsSet.has. rewrite existsb_exists. split.
  - intros (y & Hy & E). apply String.eqb_eq in E. subst. exact Hy.
  - intros H. exists x. split; [exact H | apply String.eqb_refl].
Qed.

Lemma has_false x l : JsSet.has x l = false <-> ~ In x l.
Proof.
  rewrite <- has_In. destruct (JsSet.has x l); split; congruence.
Qed.

Lemma filter_comm {A : Type} (f g : A -> bool) l :
  filter f (filter g l) = filter g (filter f l).
Proof.
  induction l as [|x l IH]; simpl; auto.
  destruct (g x) eqn:G, (f x) eqn:F; simpl; rewrite ?G, ?F, IH; reflexivity.
Qed.

Lemma perm_filter {A : Type} (f : A -> bool) l l' :
  Permutation l l' -> Permutation (filter f l) (filter f l').
Proof.
  induction 1 as [|x l l' _ IH|x y l|l l' l'' _ IH1 _ IH2]; simpl; auto.
  - destruct (f x); auto.
  - destruct (f x), (f y); auto. apply perm_swap.
  - etransitivity; eauto.
Qed.

Lemma filter_none {A : Type} (f : A -> bool) l :
  (forall x, In x l -> f x = false) -> filter f l = [].
Proof.
  induction l as [|x l IH]; simpl; intros H; auto.
  rewrite (H x) by auto. auto.
Qed.

Lemma filter_all {A : Type} (f : A -> bool) l :
  (forall x, In x l -> f x = true) -> filter f l = l.
Proof.
  induction l as [|x l IH]; simpl; intros H; auto.
  rewrite (H x) by auto. f_equal. auto.
Qed.

Lemma filter_drop_prefix a b :
  NoDup (a ++ b) ->
  filter (fun x => negb (JsSet.has x a)) (a ++ b) = b.
Proof.
  intros Hnd.
  rewrite filter_app, filter_none, filter_all; auto.
  - intros x Hx. apply negb_true_iff, has_false.
    intros Hin. clear - Hnd Hin Hx.
    induction a as [|y a IH]; [contradiction|].
    simpl in Hnd. apply NoDup_cons_iff in Hnd as [Hy Hnd].
    destruct Hin as [-> | Ha]; [apply Hy, in_or_app; auto | auto].
  - intros x Hx. apply negb_false_iff, has_In. exact Hx.
Qed.

(** Removing the [n] first elements by name leaves the rest. *)
Lemma filter_drop_firstn n l :
  NoDup l ->
  filter (fun x => negb (JsSet.has x (firstn n l))) l = skipn n l.
Proof.
  intros Hnd.
  pose proof (filter_drop_prefix (firstn n l) (skipn n l)) as H.
  rewrite (firstn_skipn n l) in H. auto.
Qed.

Lemma in_firstn {A : Type} n (l : list A) x : In x (firstn n l) -> In x l.
Proof.
  intros H. rewrite <- (firstn_skipn n l). apply in_or_app. left. exact H.
Qed.

Lemma NoDup_filter_keep {A : Type} (f : A -> bool) l : NoDup l -> NoDup (filter f l).
Proof.
  induction 1 as [|x l Hx Hl IH]; simpl; [constructor|].
  destruct (f x); auto. constructor; auto.
  intros Hin. apply filter_In in Hin as [Hin _]. contradiction.
Qed.

Lemma length_lastk {A : Type} k (l : list A) :
  List.length (lastk k l) = Nat.min k (List.length l).
Proof. unfold lastk. rewrite length_skipn. lia. Qed.

Lemma lastk_cons {A : Type} k (x : A) l :
  (k <= List.length l)%nat -> lastk k (x :: l) = lastk k l.
Proof.
  intros H. unfold lastk. simpl List.length.
  replace (S (List.length l) - k)%nat with (S (List.length l - k)) by lia.
  reflexivity.
Qed.

Lemma lastk_all {A : Type} k (l : list A) :
  (List.length l <= k)%nat -> lastk k l = l.
Proof.
  intros H. unfold lastk. replace (List.length l - k)%nat with 0%nat by lia.
  reflexivity.
Qed.

Lemma length_insert_name x l : List.length (insert_name x l) = S (List.length l).
Proof. apply (Permutation_length (insert_name_perm x l)). Qed.

Lemma insert_name_below x l :
  Forall (str_le x) l -> insert_name x l = x :: l.
Proof.
  destruct l as [|y l]; simpl; auto.
  intros H. inversion H as [|? ? Hy _]; subst.
  unfold str_le in Hy. rewrite Hy. reflexivity.
Qed.

(** Keeping the [k] greatest commutes with a further insertion. *)
Lemma lastk_insert_name k x l :
  StronglySorted str_le l ->
  lastk k (insert_name x (lastk k l)) = lastk k (insert_name x l).
Proof.
  induction 1 as [|y l Hl IH Hy].
  - reflexivity.
  - destruct (Nat.le_gt_cases (List.length (y :: l)) k) as [Hle | Hgt].
    + rewrite (@lastk_all string k (y :: l) Hle). reflexivity.
    + simpl in Hgt. assert (Hk : (k <= List.length l)%nat) by lia.
      rewrite (@lastk_cons string k y l Hk). simpl.
      destruct (String.leb x y) eqn:E.
      * rewrite insert_name_below.
        -- rewrite !lastk_cons.
           ++ apply lastk_all. rewrite length_lastk. lia.
           ++ exact Hk.
           ++ simpl. lia.
           ++ rewrite length_lastk. lia.
        -- unfold lastk. apply Forall_forall. intros z Hz.
           assert (Hin : In z l).
           { rewrite <- (firstn_skipn (List.length l - k) l).
             apply in_or_app. right. exact Hz. }
           rewrite Forall_forall in Hy.
           eapply str_le_trans; [exact E | auto].
      * rewrite IH. rewrite lastk_cons; auto.
        rewrite length_insert_name. lia.
Qed.

Lemma visible_filter f dir : visible (filter f dir) = filter f (visible dir).
Proof. apply filter_comm. Qed.

Lemma visible_snoc dir x :
  hidden x = false -> visible (dir ++ [x]) = visible dir ++ [x].
Proof.
  intros H. unfold visible. rewrite filter_app. simpl. rewrite H. reflexivity.
Qed.

Section PruneFacts.
Variable cfg : Config.
Variable K : nat.
Hypothesis keep : BACKUP_KEEP cfg = Z.of_nat K.

(** One prune: the visible entries that remain are the [K] greatest. *)
Lemma pruneBackups_sorted dir :
  NoDup dir ->
  sort_names (visible (pruneBackups cfg None dir)) =
  lastk K (sort_names (visible dir)).
Proof.
  intros Hnd. unfold pruneBackups. fold (visible dir).
  rewrite keep.
  set (S := sort_names (visible dir)).
  replace (Z.to_nat (Z.of_nat (List.length S) - Z.of_nat K))
    with (List.length S - K)%nat by lia.
  rewrite visible_filter.
  apply sorted_perm_eq.
  - apply sort_names_sorted.
  - apply StronglySorted_skipn, sort_names_sorted.
  - rewrite sort_names_perm. unfold lastk.
    rewrite <- (@filter_drop_firstn (List.length S - K)%nat S).
    + apply perm_filter, Permutation_sym, sort_names_perm.
    + apply (Permutation_NoDup (Permutation_sym (sort_names_perm _))).
      apply NoDup_filter_keep, Hnd.
Qed.

Lemma pruneBackups_subset dir x :
  In x (pruneBackups cfg None dir) -> In x dir.
Proof. unfold pruneBackups. intros H. apply filter_In in H. tauto. Qed.

Lemma pruneBackups_NoDup dir : NoDup dir -> NoDup (pruneBackups cfg None dir).
Proof. apply NoDup_filter_keep. Qed.

(** A prune never touches a hidden entry. *)
Lemma pruneBackups_hidden dir :
  filter hidden (pruneBackups cfg None dir) = filter hidden dir.
Proof.
  unfold pruneBackups. rewrite filter_comm. apply filter_all.
  intros x Hx. apply filter_In in Hx as [_ Hh].
  apply negb_true_iff, has_false. intros Hin.
  apply in_firstn in Hin.
  apply (Permutation_in _ (sort_names_perm _)) in Hin.
  apply filter_In in Hin as [_ Hv]. rewrite Hh in Hv. discriminate.
Qed.

End PruneFacts.

Lemma digit_not_dot z : digit z <> "."%char.
Proof.
  unfold digit. destruct (z mod 10) as [|p|p]; try discriminate.
  do 5 (try (destruct p as [p|p|]; try discriminate)).
Qed.

Lemma hidden_digit z r : hidden (String (digit z) r) = false.
Proof.
  unfold hidden, startsWith.
  change (prefix "." (String (digit z) r))
    with (match ascii_dec "." (digit z) with
          | left _ => prefix "" r
          | right _ => false
          end).
  destruct (ascii_dec "." (digit z)) as [E | _]; [|reflexivity].
  exfalso. apply (digit_not_dot z). symmetry. exact E.
Qed.

Lemma digits_head k : forall n acc,
  exists m rest, digits (S k) n acc = String (digit m) rest.
Proof.
  induction k as [|k IH]; intros n acc.
  - exists n, acc. reflexivity.
  - destruct (IH (n / 10) (String (digit n) acc)) as (m & rest & E).
    exists m, rest. exact E.
Qed.

(** A backup directory is never named like a hidden entry. *)
Lemma isoStamp_visible t : hidden (isoStamp t) = false.
Proof.
  unfold isoStamp.
  destruct (civil_year_month_day (t / 86400000)) as [[y m] d].
  unfold isoYear.
  destruct ((0 <=? y) && (y <=? 9999)).
  - destruct (digits_head 3 y "") as (m0 & rest & E). rewrite E.
    apply hidden_digit.
  - destruct (y <? 0); reflexivity.
Qed.

Lemma fold_insert_sort ns : forall l,
  fold_left (fun S n => insert_name n S) ns (sort_names l) = sort_names (l ++ ns).
Proof.
  induction ns as [|n ns IH]; intros l; simpl.
  - rewrite app_nil_r. reflexivity.
  - rewrite <- sort_names_snoc, IH, <- app_assoc. reflexivity.
Qed.

Section Rotation.
Variable cfg : Config.
Variable K : nat.
Hypothesis keep : BACKUP_KEEP cfg = Z.of_nat K.

Lemma backup_cycle_step s rid t :
  let s1 := with_dirtyRoomIds (JsSet.add rid (dirtyRoomIds s)) s in
  let s2 := doBackup cfg t (BackupCompletes None) s1 in
  backupDue cfg t s1 = true ->
  NoDup (backups s) ->
  ~ In (isoStamp t) (backups s) ->
  sort_names (visible (backups s2)) =
    lastk K (insert_name (isoStamp t) (sort_names (visible (backups s)))) /\
  NoDup (backups s2) /\
  (forall x, In x (backups s2) -> In x (backups s) \/ x = isoStamp t) /\
  filter hidden (backups s2) = filter hidden (backups s).
Proof.
  intros s1 s2 Hdue Hnd Hfresh.
  unfold backupDue in Hdue. apply andb_true_iff in Hdue as [G1 G2].
  apply negb_true_iff in G1, G2.
  assert (E : backups s2 = pruneBackups cfg None (backups s ++ [isoStamp t])).
  { unfold s2, doBackup. rewrite G1, G2. simpl. unfold mkdir.
    apply has_false in Hfresh. rewrite Hfresh. reflexivity. }
  assert (Hnd' : NoDup (backups s ++ [isoStamp t])).
  { apply NoDup_app; auto.
    - repeat constructor. intros [].
    - intros a Ha [<- | []]. contradiction. }
  rewrite E. repeat split.
  - rewrite (pruneBackups_sorted cfg K keep Hnd').
    rewrite visible_snoc by apply isoStamp_visible.
    rewrite sort_names_snoc. reflexivity.
  - apply pruneBackups_NoDup, Hnd'.
  - intros x Hx. apply pruneBackups_subset, in_app_or in Hx.
    destruct Hx as [Hx | [<- | []]]; auto.
  - rewrite pruneBackups_hidden, filter_app. simpl.
    rewrite isoStamp_visible, app_nil_r. reflexivity.
Qed.

Lemma backup_cycles_sorted cs : forall c s U,
  cycles_due cfg s (c :: cs) = true ->
  NoDup (backups s) ->
  NoDup (cycle_stamps (c :: cs)) ->
  (forall x, In x (cycle_stamps (c :: cs)) -> ~ In x (backups s)) ->
  StronglySorted str_le U ->
  sort_names (visible (backups s)) = U \/
  sort_names (visible (backups s)) = lastk K U ->
  let s' := backup_cycles cfg s (c :: cs) in
  sort_names (visible (backups s')) =
    lastk K (fold_left (fun S n => insert_name n S) (cycle_stamps (c :: cs)) U) /\
  filter hidden (backups s') = filter hidden (backups s).
Proof.
  induction cs as [|c' cs IH]; intros [rid t] s U Hdue Hnd Hst Hfresh HU HV.
  - simpl in Hdue. rewrite andb_true_r in Hdue.
    destruct (backup_cycle_step s rid t Hdue Hnd) as (E & _ & _ & Hh).
    { apply Hfresh. left. reflexivity. }
    simpl. split; [|exact Hh]. rewrite E.
    destruct HV as [-> | ->]; [reflexivity | apply lastk_insert_name, HU].
  - change (cycles_due cfg s ((rid, t) :: c' :: cs)) with
      (backupDue cfg t (with_dirtyRoomIds (JsSet.add rid (dirtyRoomIds s)) s) &&
       cycles_due cfg
         (doBackup cfg t (BackupCompletes None)
                   (with_dirtyRoomIds (JsSet.add rid (dirtyRoomIds s)) s))
         (c' :: cs)) in Hdue.
    apply andb_true_iff in Hdue as [Hdue1 Hdue2].
    destruct (backup_cycle_step s rid t Hdue1 Hnd) as (E & Hnd1 & Hsub & Hh).
    { apply Hfresh. left. reflexivity. }
    change (cycle_stamps ((rid, t) :: c' :: cs))
      with (isoStamp t :: cycle_stamps (c' :: cs)) in *.
    apply NoDup_cons_iff in Hst as [Hnew Hst].
    specialize (IH c' _ (insert_name (isoStamp t) U) Hdue2 Hnd1 Hst).
    destruct IH as [IH1 IH2].
    + intros x Hx Hin. apply Hsub in Hin as [Hin | ->].
      * apply (Hfresh x); [right; exact Hx | exact Hin].
      * contradiction.
    + apply insert_name_sorted, HU.
    + right. rewrite E.
      destruct HV as [-> | ->]; [reflexivity | apply lastk_insert_name, HU].
    + split; [exact IH1 | rewrite <- Hh; exact IH2].
Qed.

End Rotation.

Lemma sorted_app_le (l1 l2 : list string) x y :
  StronglySorted str_le (l1 ++ l2) -> In x l1 -> In y l2 -> str_le x y.
Proof.
  induction l1 as [|a l1 IH]; intros Hs Hx Hy; [destruct Hx|].
  cbn [app] in Hs. inversion Hs as [|a' l' Hs' Ha]; subst.
  destruct Hx as [<- | Hx].
  - rewrite Forall_forall in Ha. apply Ha, in_or_app. right. exact Hy.
  - apply IH; assumption.
Qed.

(** In a sorted list, what is not among the [K] last elements is below
    each of them. *)
Lemma lastk_greatest K (L : list string) x y :
  StronglySorted str_le L ->
  In x L -> ~ In x (lastk K L) -> In y (lastk K L) -> str_le x y.
Proof.
  unfold lastk. set (n := (List.length L - K)%nat).
  intros Hs Hx Hnx Hy.
  rewrite <- (firstn_skipn n L) in Hs, Hx.
  apply in_app_or in Hx. destruct Hx as [Hx | Hx]; [|contradiction].
  exact (@sorted_app_le _ _ _ _ Hs Hx Hy).
Qed.



(** ** Invariants of the room store: the operations *)

Lemma length_set_nth {A : Type} (x : A) l : forall i,
  List.length (set_nth i x l) = List.length l.
Proof.
  induction l as [|y l IH]; intros [|i]; simpl; auto.
Qed.

Lemma length_set_at {A : Type} (l : list A) i x :
  List.length (set_at l i x) = List.length l.
Proof. unfold set_at. destruct (i <? 0); auto using length_set_nth. Qed.

Lemma nth_set_nth_mono l : forall i j,
  nth j l false = true -> nth j (set_nth i true l) false = true.
Proof.
  induction l as [|y l IH]; intros [|i] [|j]; simpl; auto.
Qed.

Lemma nth_set_nth_same l : forall i,
  (i < List.length l)%nat -> nth i (set_nth i true l) false = true.
Proof.
  induction l as [|y l IH]; intros [|i] H; simpl in *; try lia; auto.
  apply IH. lia.
Qed.

Lemma at_bool_set_at_mono c idx i :
  at_bool c i = true -> at_bool (set_at c idx true) i = true.
Proof.
  unfold at_bool, set_at. destruct (i <? 0); [discriminate|].
  destruct (idx <? 0); auto using nth_set_nth_mono.
Qed.

Lemma at_bool_set_at_same c idx :
  in_range idx = true -> List.length c = 60%nat ->
  at_bool (set_at c idx true) idx = true.
Proof.
  unfold in_range, at_bool, set_at. rewrite andb_true_iff.
  intros [H0 H60] Hl. apply Z.leb_le in H0. apply Z.ltb_lt in H60.
  destruct (idx <? 0) eqn:E; [apply Z.ltb_lt in E; lia|].
  apply nth_set_nth_same. lia.
Qed.

Lemma length_pad60 {A : Type} (d : A) l : List.length (pad60 d l) = 60%nat.
Proof.
  unfold pad60. rewrite length_app, repeat_length, length_firstn. lia.
Qed.

Lemma pad60_fixed {A : Type} (d : A) l :
  List.length l = 60%nat -> pad60 d l = l.
Proof.
  intros H. unfold pad60.
  rewrite firstn_all2 by lia. rewrite H.
  change (60 - 60)%nat with 0%nat. simpl. apply app_nil_r.
Qed.

Lemma room_ok_same g k r r' :
  roomId r' = roomId r -> committed r' = committed r ->
  room_ok g k r -> room_ok g k r'.
Proof. intros Hi Hc. unfold room_ok. rewrite Hi, Hc. auto. Qed.

Lemma room_ok_commit g k r r' idx :
  roomId r' = roomId r -> committed r' = set_at (committed r) idx true ->
  room_ok g k r -> room_ok g k r'.
Proof.
  intros Hi Hc. unfold room_ok. rewrite Hi, Hc, length_set_at.
  intros [Hl H]. split; [exact Hl|].
  destruct g; auto.
  destruct H as (H1 & H2 & H3). repeat split; auto.
  intros E. apply at_bool_set_at_mono. auto.
Qed.

Lemma derived_phase_same r r' :
  committed r' = committed r -> derived_phase r' = derived_phase r.
Proof. unfold derived_phase. intros ->. reflexivity. Qed.

Lemma entry_ok_normalize g k r : room_ok g k r -> entry_ok g k (normalizePhase r).
Proof.
  intros H. split.
  - eapply room_ok_same; eauto using roomId_normalizePhase, committed_normalizePhase.
  - rewrite phase_normalizePhase.
    rewrite (derived_phase_same _ _ (committed_normalizePhase r)). reflexivity.
Qed.

Lemma entry_ok_same g k r r' :
  roomId r' = roomId r -> committed r' = committed r -> phase r' = phase r ->
  entry_ok g k r -> entry_ok g k r'.
Proof.
  intros Hi Hc Hp [H1 H2]. split.
  - eapply room_ok_same; eauto.
  - rewrite Hp, (derived_phase_same _ _ Hc). exact H2.
Qed.

Lemma entry_ok_cleanup g k t r :
  entry_ok g k r -> entry_ok g k (cleanupReservations t r).
Proof. apply entry_ok_same; reflexivity. Qed.

Lemma Inv_frame g s s' :
  cache s' = cache s -> roomFiles s' = roomFiles s -> Inv g s -> Inv g s'.
Proof. unfold Inv, InvC, InvF. intros -> ->. auto. Qed.

Lemma Inv_cache_set g key e s :
  Inv g s -> entry_ok g key (room e) ->
  Inv g (with_cache (JsMap.set String.eqb key e (cache s)) s).
Proof.
  intros [Hc Hf] He. split; [|exact Hf].
  unfold InvC in *. simpl. intros k e' Hget.
  destruct (String.eqb_spec key k) as [<- | Hne].
  - rewrite sget_set_eq in Hget. injection Hget as <-. exact He.
  - rewrite sget_set_ne in Hget by exact Hne. eauto.
Qed.

Lemma Inv_files_set g fp obj s :
  Inv g s -> file_ok g fp obj ->
  Inv g (with_roomFiles (JsMap.set String.eqb fp obj (roomFiles s)) s).
Proof.
  intros [Hc Hf] Ho. split; [exact Hc|].
  unfold InvF in *. simpl. intros k o' Hget.
  destruct (String.eqb_spec fp k) as [<- | Hne].
  - rewrite sget_set_eq in Hget. injection Hget as <-. exact Ho.
  - rewrite sget_set_ne in Hget by exact Hne. eauto.
Qed.

Lemma Inv_putRoom g key r s :
  Inv g s -> entry_ok g key r -> Inv g (putRoom key r s).
Proof.
  intros H He. unfold putRoom.
  destruct (JsMap.get String.eqb key (cache s)) as [e|]; [|exact H].
  apply Inv_cache_set; assumption.
Qed.

Lemma roomFile_some x fp : roomFile x = Some fp -> fp = normalizeRoomId x.
Proof.
  unfold roomFile. destruct (truthy (normalizeRoomId x)); [|discriminate].
  intros [= <-]. reflexivity.
Qed.

Lemma roomFile_normalized x :
  truthy (normalizeRoomId x) = true ->
  roomFile (normalizeRoomId x) = Some (normalizeRoomId x).
Proof.
  intros H. unfold roomFile. rewrite normalizeRoomId_idempotent, H. reflexivity.
Qed.

Lemma deserializeRoom_spec t u obj r :
  deserializeRoom t u obj = Some r ->
  roomId r = normalizeRoomId (j_roomId obj) /\
  committed r = pad60 false (j_committed obj) /\
  phase r = derived_phase r /\
  truthy (roomId r) = true.
Proof.
  unfold deserializeRoom.
  destruct (truthy (normalizeRoomId (j_roomId obj))) eqn:E; [|discriminate].
  cbn [negb]. intros [= <-].
  rewrite normalizePhase_eq.
  cbn [roomId committed phase with_phase cleanupReservations with_reservations].
  unfold derived_phase.
  cbn [roomId committed phase with_phase cleanupReservations with_reservations].
  auto.
Qed.

(** The file written for a well-formed room is well-formed. *)
Lemma file_ok_of_room g fp key r obj :
  room_ok g key r -> roomFile (roomId r) = Some fp ->
  j_roomId obj = roomId r -> j_committed obj = committed r ->
  file_ok g fp obj.
Proof.
  intros [Hl Hg] Ef Hid Hc.
  pose proof (roomFile_some _ Ef) as Efp.
  destruct g as [|rid|rid i]; simpl; rewrite ?Hid, ?Hc.
  - exact I.
  - auto.
  - destruct Hg as (Hk & Hw & Hcm). split; [auto|].
    intros Hrid. rewrite (pad60_fixed _ _ Hl). apply Hcm.
    destruct (String.eqb_spec key rid) as [E | Hne]; [exact E|].
    exfalso. apply (Hw Hne). rewrite <- Hk, Ef, Hrid. reflexivity.
Qed.

Lemma saveRoom_okF g o k key r s :
  InvF g s -> room_ok g key r -> InvF g (snd (saveRoom o k r s)).
Proof.
  intros HF Hr. unfold saveRoom.
  destruct (roomFile (roomId (cleanupReservations (now o) (normalizePhase r))))
    as [fp|] eqn:Ef; [|exact HF].
  unfold serializeRoom. destruct (write_ok o k); [|exact HF].
  cbn [roomId cleanupReservations with_reservations] in Ef.
  rewrite roomId_normalizePhase in Ef.
  unfold updateIndexFromRoom. cbn [fst snd roomFiles cache with_index].
  assert (Hfile : forall json,
            j_roomId json = roomId r -> j_committed json = committed r ->
            file_ok g fp json)
    by (intros json; apply (@file_ok_of_room g fp key r json Hr Ef)).
  match goal with
  | |- InvF g (saveIndex ?b (with_dirtyRoomIds _ (with_roomFiles (JsMap.set _ _ ?json _) _))) =>
      assert (Hj : file_ok g fp json)
        by (apply Hfile; cbn [j_roomId j_committed];
            rewrite !normalizePhase_eq; reflexivity);
      destruct b
  end;
    unfold InvF, saveIndex; cbn [roomFiles with_indexFile with_dirtyRoomIds with_roomFiles];
    intros k0 o' Hget;
    (destruct (String.eqb_spec fp k0) as [<- | Hne];
     [rewrite sget_set_eq in Hget; injection Hget as <-; exact Hj
     |rewrite sget_set_ne in Hget by exact Hne; exact (HF _ _ Hget)]).
Qed.

Lemma saveRoom_entry g o k key r s :
  room_ok g key r -> entry_ok g key (fst (saveRoom o k r s)).
Proof.
  intros Hr.
  destruct (saveRoom_room o k r s) as (Hid & _ & _ & Hc & _ & _ & Hp).
  split.
  - eapply room_ok_same; eauto.
  - rewrite Hp. unfold derived_phase. rewrite Hc. reflexivity.
Qed.

Lemma saveRoom_ok g o k key r s :
  Inv g s -> room_ok g key r ->
  Inv g (snd (saveRoom o k r s)) /\ entry_ok g key (fst (saveRoom o k r s)).
Proof.
  intros [HC HF] Hr. split; [split|].
  - unfold InvC. rewrite saveRoom_cache. exact HC.
  - eapply saveRoom_okF; eauto.
  - apply saveRoom_entry, Hr.
Qed.

Lemma getRoom_none o x s s1 : getRoom o x s = (None, s1) -> s1 = s.
Proof.
  unfold getRoom.
  destruct (negb (truthy (normalizeRoomId x))); [intros [= <-]; reflexivity|].
  destruct (JsMap.get String.eqb (normalizeRoomId x) (cache s)); [discriminate|].
  destruct (roomFile (normalizeRoomId x)); [|intros [= <-]; reflexivity].
  destruct (JsMap.get String.eqb s0 (roomFiles s)); [|intros [= <-]; reflexivity].
  destruct (deserializeRoom _ _ _); [discriminate | intros [= <-]; reflexivity].
Qed.

Lemma getRoom_ok g o x s key r s1 :
  Inv g s -> getRoom o x s = (Some (key, r), s1) ->
  Inv g s1 /\ entry_ok g key r /\ truthy key = true /\ key = normalizeRoomId x.
Proof.
  intros HI. unfold getRoom.
  destruct (truthy (normalizeRoomId x)) eqn:Et; cbn [negb]; [|discriminate].
  destruct (JsMap.get String.eqb (normalizeRoomId x) (cache s)) as [e|] eqn:Ec.
  - intros [= <- <- <-].
    assert (He : entry_ok g (normalizeRoomId x) (room e)) by (apply (proj1 HI); exact Ec).
    split; [|split; [exact He | split; [exact Et | reflexivity]]].
    unfold touch. rewrite Ec. apply Inv_cache_set; assumption.
  - rewrite (roomFile_normalized _ Et).
    destruct (JsMap.get String.eqb (normalizeRoomId x) (roomFiles s)) as [obj|] eqn:Ef;
      [|discriminate].
    destruct (deserializeRoom (now o) (rnd_theme o) obj) as [r0|] eqn:Ed; [|discriminate].
    intros [= <- <- <-].
    destruct (deserializeRoom_spec _ _ _ Ed) as (Hid & Hc & Hp & _).
    assert (He : entry_ok g (normalizeRoomId x) r0).
    { apply (proj2 HI) in Ef. split; [|exact Hp]. split.
      - rewrite Hc. apply length_pad60.
      - destruct g as [|rid|rid i]; auto.
        + simpl in Ef. split; [congruence|].
          intros Hne. rewrite (roomFile_normalized _ Et). congruence.
        + simpl in Ef. destruct Ef as [Ef1 Ef2]. split; [congruence|]. split.
          * intros Hne. rewrite (roomFile_normalized _ Et). congruence.
          * intros E. rewrite Hc. auto. }
    split; [|split; [exact He | split; [exact Et | reflexivity]]].
    apply Inv_cache_set; assumption.
Qed.

Lemma entry_ok_roomState g k t r :
  room_ok g k r -> entry_ok g k (snd (roomState t r)).
Proof.
  intros H. unfold roomState. cbn [snd]. apply entry_ok_normalize.
  eapply room_ok_same; [| |exact H]; reflexivity.
Qed.

Lemma makeRoom_ok g o th s :
  Inv g s -> mint_ok g (id7 (rnd_id o)) ->
  Inv g (snd (makeRoom o th s)) /\
  entry_ok g (roomId (fst (makeRoom o th s))) (fst (makeRoom o th s)) /\
  roomId (fst (makeRoom o th s)) = id7 (rnd_id o).
Proof.
  intros HI Hm. unfold makeRoom.
  set (id := id7 (rnd_id o)).
  set (room0 := mkRoom id _ _ _ _ _ _ _ _).
  assert (H0 : room_ok g id room0).
  { split; [apply repeat_length|].
    destruct g as [|rid|rid i]; simpl; auto.
    destruct Hm as [Hne Hf]. split; [reflexivity|]. split; [intros _; exact Hf|].
    intros E. contradiction. }
  assert (E0 : entry_ok g id room0) by (split; [exact H0 | reflexivity]).
  match goal with
  | |- context [saveRoom o 0 room0 ?s0] =>
      assert (HI0 : Inv g s0);
        [ apply Inv_frame with
            (s := with_cache (JsMap.set String.eqb id (mkCacheEntry room0 (now o)) (cache s)) s);
          [reflexivity | reflexivity | apply Inv_cache_set; assumption]
        | destruct (@saveRoom_ok g o 0 id room0 s0 HI0 H0) as [HI1 He1];
          pose proof (saveRoom_room o 0 room0 s0) as Hroom;
          destruct (saveRoom o 0 room0 s0) as [r1 s1] ]
  end.
  cbn [fst snd] in *. destruct Hroom as (Hid & _).
  split; [apply Inv_putRoom; assumption|].
  split; [rewrite Hid; exact He1 | exact Hid].
Qed.

(** ** Invariants of the room store: the handlers *)

Ltac saved g key HI Hr :=
  match goal with
  | |- context [saveRoom ?o ?k ?r ?s] =>
      let HI' := fresh "HI" in
      let He' := fresh "He" in
      let Hc' := fresh "Hc" in
      destruct (@saveRoom_ok g o k key r s HI Hr) as [HI' He'];
      pose proof (saveRoom_cache o k r s) as Hc';
      destruct (saveRoom o k r s) as [? ?];
      cbn [fst snd] in HI', He', Hc' |- *
  end.

Lemma room_ok_of_entry g k r : entry_ok g k r -> room_ok g k r.
Proof. intros [H _]. exact H. Qed.

Lemma on_resync_Inv g o d ws s :
  Inv g s -> Inv g (fst (fst (on_resync o d ws s))).
Proof.
  intros HI. unfold on_resync.
  destruct (negb (truthy _)); [exact HI|].
  destruct (JsSet.has _ _); [exact HI|].
  destruct (getRoom o _ s) as [[[key r]|] s1] eqn:Eg.
  - destruct (@getRoom_ok g o _ s key r s1 HI Eg) as (HI1 & He & _).
    unfold roomState. cbn [fst snd].
    apply Inv_putRoom; [exact HI1|]. apply entry_ok_normalize.
    eapply room_ok_same; [| |apply He]; reflexivity.
  - apply getRoom_none in Eg. subst. exact HI.
Qed.

Lemma on_create_public_and_submit_Inv g o d ws s :
  Inv g s -> mint_ok g (id7 (rnd_id o)) ->
  Inv g (fst (fst (on_create_public_and_submit o d ws s))).
Proof.
  intros HI Hm. unfold on_create_public_and_submit.
  destruct (negb (validatePngDataUrl _)); [exact HI|].
  match goal with
  | |- context [makeRoom o ?th s] =>
      destruct (@makeRoom_ok g o th s HI Hm) as (HI1 & He1 & _);
      destruct (makeRoom o th s) as [r1 s1]
  end.
  cbn [fst snd] in *.
  match goal with
  | |- context [saveRoom o 2 ?r2 s1] =>
      assert (H2 : room_ok g (roomId r1) r2)
        by (eapply room_ok_commit with (r := r1) (idx := 0);
            [reflexivity | reflexivity | apply He1])
  end.
  saved g (roomId r1) HI1 H2.
  unfold roomState. cbn [fst snd].
  apply Inv_putRoom; [assumption|]. apply entry_ok_normalize.
  eapply room_ok_same; [| |apply He]; reflexivity.
Qed.

Lemma assign_frame_Inv g cfg o noEmpty key r ws s :
  Inv g s -> entry_ok g key r ->
  Inv g (fst (fst (assign_frame cfg o noEmpty key r ws s))).
Proof.
  intros HI He0. unfold assign_frame, firstYoungestEmpty.
  assert (H1 : room_ok g key (cleanupReservations (now o) r)).
  { eapply room_ok_same; [| |apply He0]; reflexivity. }
  destruct (_ <? 0).
  - assert (HI1 : Inv g (updateIndexFromRoom (cleanupReservations (now o) r) s))
      by (eapply Inv_frame; [| |exact HI]; reflexivity).
    saved g key HI1 H1.
    apply Inv_putRoom; assumption.
  - match goal with
    | |- context [saveRoom o 0 ?r2 s] =>
        assert (H2 : room_ok g key r2)
          by (eapply room_ok_same; [| |apply H1]; reflexivity)
    end.
    saved g key HI H2.
    unfold roomState. cbn [fst snd].
    apply Inv_putRoom; [assumption|]. apply entry_ok_normalize.
    eapply room_ok_same; [| |apply He]; reflexivity.
Qed.

Lemma on_join_random_Inv g cfg o ws s :
  Inv g s -> Inv g (fst (fst (on_join_random cfg o ws s))).
Proof.
  intros HI. unfold on_join_random.
  destruct (findRandomOpenRoomId o s) as [rid|]; [|exact HI].
  destruct (getRoom o rid s) as [[[key r]|] s1] eqn:Eg.
  - destruct (@getRoom_ok g o _ s key r s1 HI Eg) as (HI1 & He & _).
    assert (He' : entry_ok g key (normalizePhase r))
      by (apply entry_ok_normalize, He).
    destruct (negb _).
    + cbn [fst]. apply Inv_putRoom; [|exact He'].
      eapply Inv_frame; [| |exact HI1];
        unfold saveIndex; destruct (write_ok o 0); reflexivity.
    + apply assign_frame_Inv; assumption.
  - apply getRoom_none in Eg. subst s1. cbn [fst].
    eapply Inv_frame; [| |exact HI];
      unfold saveIndex; destruct (write_ok o 0); reflexivity.
Qed.

Lemma on_join_by_id_Inv g cfg o d ws s :
  Inv g s -> Inv g (fst (fst (on_join_by_id cfg o d ws s))).
Proof.
  intros HI. unfold on_join_by_id.
  destruct (negb (truthy _)); [exact HI|].
  destruct (JsSet.has _ _); [exact HI|].
  destruct (getRoom o _ s) as [[[key r]|] s1] eqn:Eg.
  - destruct (@getRoom_ok g o _ s key r s1 HI Eg) as (HI1 & He & _).
    assert (He' : entry_ok g key (normalizePhase r))
      by (apply entry_ok_normalize, He).
    destruct (negb _).
    + cbn [fst]. apply Inv_putRoom; assumption.
    + apply assign_frame_Inv; assumption.
  - apply getRoom_none in Eg. subst s1. exact HI.
Qed.

Lemma on_join_room_Inv g o d ws s :
  Inv g s -> Inv g (fst (fst (on_join_room o d ws s))).
Proof.
  intros HI. unfold on_join_room.
  destruct (negb (truthy _)); [exact HI|].
  destruct (JsSet.has _ _); [exact HI|].
  destruct (getRoom o _ s) as [[[key r]|] s1] eqn:Eg.
  - destruct (@getRoom_ok g o _ s key r s1 HI Eg) as (HI1 & He & _).
    assert (He' : entry_ok g key (normalizePhase r))
      by (apply entry_ok_normalize, He).
    assert (Hst : forall r', room_ok g key r' ->
              Inv g (putRoom key (normalizePhase (cleanupReservations (now o) r')) s1)).
    { intros r' Hr'. apply Inv_putRoom; [exact HI1|]. apply entry_ok_normalize.
      eapply room_ok_same; [| |exact Hr']; reflexivity. }
    unfold roomState. cbn [fst snd].
    destruct (d_view d), (d_reservationToken d) as [tok|];
      try (apply Hst; apply He').
    destruct (negb _); [apply Inv_putRoom; assumption|].
    destruct (JsMap.get _ _ _) as [e|].
    + destruct (expiresAt e <=? now o).
      * apply Inv_putRoom; [assumption|]. apply entry_ok_cleanup, He'.
      * apply Hst. eapply room_ok_same; [| |apply He']; reflexivity.
    + apply Inv_putRoom; [assumption|]. apply entry_ok_cleanup, He'.
  - apply getRoom_none in Eg. subst s1. exact HI.
Qed.

Lemma on_get_frame_Inv g o d ws s :
  Inv g s -> Inv g (fst (fst (on_get_frame o d ws s))).
Proof.
  intros HI. unfold on_get_frame.
  destruct (negb (truthy _)); [exact HI|].
  destruct (JsSet.has _ _); [exact HI|].
  destruct (getRoom o _ s) as [[[key r]|] s1] eqn:Eg.
  - destruct (@getRoom_ok g o _ s key r s1 HI Eg) as (HI1 & He & _).
    destruct (d_frameIndex d) as [idx|fl|].
    + destruct (negb (in_range idx)); [exact HI1|].
      destruct (negb (at_bool _ _)); [exact HI1|].
      destruct (frame_at r idx); exact HI1.
    + destruct (negb (in_range fl)); exact HI1.
    + exact HI1.
  - apply getRoom_none in Eg. subst s1. exact HI.
Qed.

Lemma on_submit_frame_Inv g o d ws s :
  Inv g s -> Inv g (fst (fst (on_submit_frame o d ws s))).
Proof.
  intros HI. unfold on_submit_frame.
  destruct (negb (truthy _)); [exact HI|].
  destruct (JsSet.has _ _); [exact HI|].
  destruct (getRoom o _ s) as [[[key r]|] s1] eqn:Eg;
    [|apply getRoom_none in Eg; subst s1; exact HI].
  destruct (@getRoom_ok g o _ s key r s1 HI Eg) as (HI1 & He & _).
  set (r1 := cleanupReservations (now o) (normalizePhase r)).
  assert (He1 : entry_ok g key r1)
    by (apply entry_ok_cleanup, entry_ok_normalize, He).
  assert (HI2 : Inv g (putRoom key r1 s1)) by (apply Inv_putRoom; assumption).
  destruct (negb (String.eqb (phase r1) DRAWING)); [exact HI2|].
  destruct (d_frameIndex d) as [idx|fl|]; [| |exact HI2].
  - destruct (negb (in_range idx)); [exact HI2|].
    destruct (negb (truthy _)); [exact HI2|].
    destruct (JsMap.get _ _ _) as [e|]; [|exact HI2].
    destruct (expiresAt e <=? now o); [exact HI2|].
    destruct (negb (frameIndex e =? idx)); [exact HI2|].
    destruct (at_bool (committed r1) idx); [exact HI2|].
    destruct (negb (validatePngDataUrl _)); [exact HI2|].
    match goal with
    | |- context [saveRoom o 0 ?r2 _] =>
        assert (H2 : room_ok g key r2)
          by (eapply room_ok_commit with (r := r1) (idx := idx);
              [reflexivity | reflexivity | apply He1])
    end.
    saved g key HI2 H2.
    destruct (forallb _ _).
    + match goal with
      | |- context [saveRoom o 2 ?r3 _] =>
          assert (H3 : room_ok g key r3)
            by (eapply room_ok_same; [| |apply He0]; reflexivity)
      end.
      saved g key HI0 H3.
      unfold roomState. cbn [fst snd].
      apply Inv_putRoom; [assumption|]. apply entry_ok_normalize.
      eapply room_ok_same; [| |apply He2]; reflexivity.
    + cbn [fst]. apply Inv_putRoom; assumption.
  - destruct (negb (in_range fl)); [exact HI2|].
    destruct (negb (truthy _)); [exact HI2|].
    destruct (JsMap.get _ _ _) as [e|]; [|exact HI2].
    destruct (expiresAt e <=? now o); exact HI2.
Qed.

(** A throw leaves the store well-formed: what the handler did before
    it was a whole step of its own. *)
Lemma on_join_room_u_Inv g o u d ws s :
  Inv g s -> Inv g (fst (fst (on_join_room_u o u d ws s))).
Proof.
  intros HI. unfold on_join_room_u, thrown.
  destruct (u_roomId u); [exact HI|].
  destruct (negb (u_reservationToken u)); [apply on_join_room_Inv, HI|].
  destruct (negb (truthy _)); [exact HI|].
  destruct (JsSet.has _ _); [exact HI|].
  destruct (getRoom o _ s) as [[[key r]|] s1] eqn:Eg.
  - destruct (@getRoom_ok g o _ s key r s1 HI Eg) as (HI1 & He & _).
    assert (He' : entry_ok g key (normalizePhase r))
      by (apply entry_ok_normalize, He).
    destruct (d_view d).
    + unfold roomState. cbn [fst snd].
      apply Inv_putRoom; [exact HI1|]. apply entry_ok_normalize.
      eapply room_ok_same; [| |apply He']; reflexivity.
    + destruct (negb _); cbn [fst]; apply Inv_putRoom; try assumption;
        apply entry_ok_cleanup, He'.
  - apply getRoom_none in Eg. subst s1. exact HI.
Qed.

Lemma on_get_frame_u_Inv g o u d ws s :
  Inv g s -> Inv g (fst (fst (on_get_frame_u o u d ws s))).
Proof.
  intros HI. unfold on_get_frame_u, thrown.
  destruct (u_roomId u); [exact HI|].
  destruct (negb (u_frameIndex u)); [apply on_get_frame_Inv, HI|].
  destruct (negb (truthy _)); [exact HI|].
  destruct (JsSet.has _ _); [exact HI|].
  destruct (getRoom o _ s) as [[[key r]|] s1] eqn:Eg.
  - destruct (@getRoom_ok g o _ s key r s1 HI Eg) as (HI1 & _). exact HI1.
  - apply getRoom_none in Eg. subst s1. exact HI.
Qed.

Lemma on_submit_frame_u_Inv g o u d ws s :
  Inv g s -> Inv g (fst (fst (on_submit_frame_u o u d ws s))).
Proof.
  intros HI. unfold on_submit_frame_u, thrown.
  destruct (u_roomId u); [exact HI|].
  destruct (negb (u_frameIndex u || u_reservationToken u));
    [apply on_submit_frame_Inv, HI|].
  destruct (negb (truthy _)); [exact HI|].
  destruct (JsSet.has _ _); [exact HI|].
  destruct (getRoom o _ s) as [[[key r]|] s1] eqn:Eg;
    [|apply getRoom_none in Eg; subst s1; exact HI].
  destruct (@getRoom_ok g o _ s key r s1 HI Eg) as (HI1 & He & _).
  assert (HI2 : Inv g (putRoom key (cleanupReservations (now o) (normalizePhase r)) s1)).
  { apply Inv_putRoom; [exact HI1|]. apply entry_ok_cleanup, entry_ok_normalize, He. }
  destruct (negb _); exact HI2.
Qed.

Lemma onMessage_Inv g cfg o ws s buf :
  Inv g s -> mint_ok g (id7 (rnd_id o)) ->
  Inv g (fst (fst (onMessage cfg o ws s buf))).
Proof.
  intros HI Hm. unfold onMessage.
  destruct buf as [|t d| |t d u]; [exact HI| |exact HI|].
  2:{ destruct (checkRateLimit _ _ _ _) as [[ok retry] b].
      assert (HI' : Inv g (with_RATE_BUCKETS b s))
        by (eapply Inv_frame; [| |exact HI]; reflexivity).
      destruct (negb ok); [exact HI'|].
      destruct (String.eqb t "hello"); [exact HI'|].
      destruct (String.eqb t "resync").
      { unfold on_resync_u, thrown. destruct (u_roomId u);
          [exact HI' | apply on_resync_Inv, HI']. }
      destruct (String.eqb t "create_public_and_submit").
      { unfold on_create_public_and_submit_u, thrown. destruct (u_theme u);
          [exact HI' | apply on_create_public_and_submit_Inv; assumption]. }
      destruct (String.eqb t "join_random"); [apply on_join_random_Inv, HI'|].
      destruct (String.eqb t "join_by_id").
      { unfold on_join_by_id_u, thrown. destruct (u_roomId u);
          [exact HI' | apply on_join_by_id_Inv, HI']. }
      destruct (String.eqb t "join_room"); [apply on_join_room_u_Inv, HI'|].
      destruct (String.eqb t "get_frame"); [apply on_get_frame_u_Inv, HI'|].
      destruct (String.eqb t "submit_frame"); [apply on_submit_frame_u_Inv, HI'|].
      exact HI'. }
  destruct (checkRateLimit _ _ _ _) as [[ok retry] b].
  assert (HI' : Inv g (with_RATE_BUCKETS b s))
    by (eapply Inv_frame; [| |exact HI]; reflexivity).
  destruct (negb ok); [exact HI'|].
  destruct (String.eqb t "hello"); [exact HI'|].
  destruct (String.eqb t "resync"); [apply on_resync_Inv, HI'|].
  destruct (String.eqb t "create_public_and_submit");
    [apply on_create_public_and_submit_Inv; assumption|].
  destruct (String.eqb t "join_random"); [apply on_join_random_Inv, HI'|].
  destruct (String.eqb t "join_by_id"); [apply on_join_by_id_Inv, HI'|].
  destruct (String.eqb t "join_room"); [apply on_join_room_Inv, HI'|].
  destruct (String.eqb t "get_frame"); [apply on_get_frame_Inv, HI'|].
  destruct (String.eqb t "submit_frame"); [apply on_submit_frame_Inv, HI'|].
  exact HI'.
Qed.

Lemma sget_delete_some {V : Type} k k' (m : JsMap.t string V) e :
  JsMap.get String.eqb k (JsMap.delete String.eqb k' m) = Some e ->
  JsMap.get String.eqb k m = Some e.
Proof.
  destruct (String.eqb_spec k' k) as [<- | Hne].
  - rewrite sget_delete_eq. discriminate.
  - rewrite sget_delete_ne by exact Hne. auto.
Qed.

(** A loop of [delete]s only takes bindings away. *)
Lemma get_fold_delete {V : Type}
      (f : JsMap.t string V -> string * V -> JsMap.t string V) l :
  (forall c ke, f c ke = c \/ f c ke = JsMap.delete String.eqb (fst ke) c) ->
  forall c k e,
    JsMap.get String.eqb k (fold_left f l c) = Some e ->
    JsMap.get String.eqb k c = Some e.
Proof.
  intros Hf. induction l as [|ke l IH]; intros c k e H; simpl in H; [exact H|].
  apply IH in H. destruct (Hf c ke) as [E | E]; rewrite E in H; [exact H|].
  eapply sget_delete_some; eauto.
Qed.

Lemma evictCache_get cfg t s k e :
  JsMap.get String.eqb k (cache (evictCache cfg t s)) = Some e ->
  JsMap.get String.eqb k (cache s) = Some e.
Proof.
  unfold evictCache.
  set (drop_idle := fun (c : JsMap.t string CacheEntry) (ke : string * CacheEntry) =>
                      if ROOM_CACHE_IDLE_MS cfg <? t - lastAccess (snd ke)
                      then JsMap.delete String.eqb (fst ke) c else c).
  assert (Hidle : forall k e,
            JsMap.get String.eqb k (fold_left drop_idle (cache s) (cache s)) = Some e ->
            JsMap.get String.eqb k (cache s) = Some e).
  { intros k0 e0. apply get_fold_delete. intros c ke. unfold drop_idle.
    destruct (_ <? _); auto. }
  destruct (ROOM_CACHE_MAX cfg <? _); cbn [cache with_cache]; intros H.
  - apply Hidle. revert H. apply get_fold_delete. auto.
  - apply Hidle, H.
Qed.

Lemma evictCache_Inv g cfg t s : Inv g s -> Inv g (evictCache cfg t s).
Proof.
  intros [Hc Hf]. split.
  - intros k e H. apply evictCache_get in H. auto.
  - assert (E : roomFiles (evictCache cfg t s) = roomFiles s)
      by (unfold evictCache; destruct (_ <? _); reflexivity).
    unfold InvF. rewrite E. exact Hf.
Qed.

Lemma doBackup_frame cfg t io s :
  cache (doBackup cfg t io s) = cache s /\
  roomFiles (doBackup cfg t io s) = roomFiles s.
Proof.
  unfold doBackup.
  destruct (_ <? _); [split; reflexivity|].
  destruct (_ =? _); [split; reflexivity|].
  destruct io; split; reflexivity.
Qed.

Lemma adminQuarantine_frame rid mode s :
  cache (adminQuarantine rid mode s) = cache s /\
  roomFiles (adminQuarantine rid mode s) = roomFiles s.
Proof.
  unfold adminQuarantine.
  destruct (negb _); [split; reflexivity|].
  destruct mode; try destruct (negb _); split; reflexivity.
Qed.

Lemma onMessage_Inv_event g cfg c o ws s buf :
  Inv g s -> event_ok g (EMessage c o buf) ->
  Inv g (fst (fst (onMessage cfg o ws s buf))).
Proof.
  intros HI Hev.
  destruct buf as [|t d| |t d u]; [exact HI| |exact HI|].
  2:{ destruct (String.eqb_spec t "create_public_and_submit") as [E | Hne].
      - apply onMessage_Inv; [exact HI | apply Hev, E].
      - unfold onMessage.
        destruct (checkRateLimit _ _ _ _) as [[ok retry] b].
        assert (HI' : Inv g (with_RATE_BUCKETS b s))
          by (eapply Inv_frame; [| |exact HI]; reflexivity).
        destruct (negb ok); [exact HI'|].
        destruct (String.eqb t "hello"); [exact HI'|].
        destruct (String.eqb t "resync").
        { unfold on_resync_u, thrown. destruct (u_roomId u);
            [exact HI' | apply on_resync_Inv, HI']. }
        destruct (String.eqb_spec t "create_public_and_submit"); [contradiction|].
        destruct (String.eqb t "join_random"); [apply on_join_random_Inv, HI'|].
        destruct (String.eqb t "join_by_id").
        { unfold on_join_by_id_u, thrown. destruct (u_roomId u);
            [exact HI' | apply on_join_by_id_Inv, HI']. }
        destruct (String.eqb t "join_room"); [apply on_join_room_u_Inv, HI'|].
        destruct (String.eqb t "get_frame"); [apply on_get_frame_u_Inv, HI'|].
        destruct (String.eqb t "submit_frame"); [apply on_submit_frame_u_Inv, HI'|].
        exact HI'. }
  destruct (String.eqb_spec t "create_public_and_submit") as [E | Hne].
  - apply onMessage_Inv; [exact HI | apply Hev, E].
  - unfold onMessage.
    destruct (checkRateLimit _ _ _ _) as [[ok retry] b].
    assert (HI' : Inv g (with_RATE_BUCKETS b s))
      by (eapply Inv_frame; [| |exact HI]; reflexivity).
    destruct (negb ok); [exact HI'|].
    destruct (String.eqb t "hello"); [exact HI'|].
    destruct (String.eqb t "resync"); [apply on_resync_Inv, HI'|].
    destruct (String.eqb_spec t "create_public_and_submit"); [contradiction|].
    destruct (String.eqb t "join_random"); [apply on_join_random_Inv, HI'|].
    destruct (String.eqb t "join_by_id"); [apply on_join_by_id_Inv, HI'|].
    destruct (String.eqb t "join_room"); [apply on_join_room_Inv, HI'|].
    destruct (String.eqb t "get_frame"); [apply on_get_frame_Inv, HI'|].
    destruct (String.eqb t "submit_frame"); [apply on_submit_frame_Inv, HI'|].
    exact HI'.
Qed.

Lemma step_Inv g cfg w e :
  Inv g (server w) -> event_ok g e -> Inv g (server (fst (step cfg w e))).
Proof.
  intros HI Hev. destruct e as [addr|c o buf|t|t io|t|rid mode]; cbn [step].
  - exact HI.
  - destruct (nth_error (clients w) c) as [ws|]; [|exact HI].
    pose proof (@onMessage_Inv_event g cfg c o ws (server w) buf HI Hev) as H.
    destruct (onMessage cfg o ws (server w) buf) as [[s' ws'] out]. exact H.
  - apply evictCache_Inv, HI.
  - destruct (doBackup_frame cfg t io (server w)) as [E1 E2].
    eapply Inv_frame; [exact E1 | exact E2 | exact HI].
  - eapply Inv_frame; [| |exact HI]; reflexivity.
  - destruct (adminQuarantine_frame rid mode (server w)) as [E1 E2].
    eapply Inv_frame; [exact E1 | exact E2 | exact HI].
Qed.

Lemma run_Inv g cfg es : forall w,
  Inv g (server w) -> Forall (event_ok g) es -> Inv g (server (run cfg w es)).
Proof.
  induction es as [|e es IH]; intros w HI Hev; simpl; [exact HI|].
  inversion Hev; subst. apply IH; [apply step_Inv|]; assumption.
Qed.

(** ** Phase and committed flags (C2) *)

Lemma event_ok_LPhase e : event_ok LPhase e.
Proof. destruct e as [| c o [|t d| |t d u] | | | |]; simpl; auto. Qed.

Lemma Inv_boot_LPhase files idx q : Inv LPhase (boot files idx q).
Proof.
  split.
  - intros k e H. discriminate H.
  - intros fp obj _. exact I.
Qed.

(** C2: [normalizePhase] sets the phase to [PLAYBACK] exactly
    when every [committed] flag is true and to [DRAWING] otherwise,
    leaving the flags alone; a deserialised room has 60 flags and carries
    that phase; and in every state that a process reaches from any data
    directory, by any events, every cached room has 60 [committed] flags
    and its phase is [PLAYBACK] if and only if all of them are true, and
    [DRAWING] otherwise. *)
Theorem phase_iff_all_committed :
  (forall r,
      committed (normalizePhase r) = committed r /\
      phase (normalizePhase r) =
        (if forallb (fun b => b) (committed r) then "PLAYBACK" else "DRAWING")) /\
  (forall t u obj r,
      deserializeRoom t u obj = Some r ->
      List.length (committed r) = 60%nat /\
      (phase r = "PLAYBACK" <-> forallb (fun b => b) (committed r) = true)) /\
  (forall cfg files idx q cl es k e,
      JsMap.get String.eqb k
        (cache (server (run cfg (mkWorld (boot files idx q) cl) es))) = Some e ->
      List.length (committed (room e)) = 60%nat /\
      (phase (room e) = "PLAYBACK" <-> forallb (fun b => b) (committed (room e)) = true) /\
      (phase (room e) = "PLAYBACK" \/ phase (room e) = "DRAWING")).
Proof.
  assert (Hiff : forall r, phase r = derived_phase r ->
            (phase r = "PLAYBACK" <-> forallb (fun b => b) (committed r) = true) /\
            (phase r = "PLAYBACK" \/ phase r = "DRAWING")).
  { intros r ->. unfold derived_phase.
    destruct (forallb (fun b => b) (committed r)); split; auto;
      split; auto; discriminate. }
  split; [|split].
  - intros r. split; [apply committed_normalizePhase | apply phase_normalizePhase].
  - intros t u obj r H.
    destruct (deserializeRoom_spec _ _ _ H) as (_ & Hc & Hp & _).
    split; [rewrite Hc; apply length_pad60 | apply Hiff, Hp].
  - intros cfg files idx q cl es k e H.
    assert (HI : Inv LPhase (server (run cfg (mkWorld (boot files idx q) cl) es))).
    { apply run_Inv; [apply Inv_boot_LPhase|].
      apply Forall_forall. intros ev _. apply event_ok_LPhase. }
    apply (proj1 HI) in H. destruct H as [[Hl _] Hp].
    split; [exact Hl | apply Hiff, Hp].
Qed.

Lemma phase_iff_all_committed_witness :
  exists e,
    JsMap.get String.eqb "ABCDEFG"
      (cache (server (run default_config (mkWorld (boot [] [] []) [])
                          [EConnect "203.0.113.7"; Sample.create 1000 "0.abcdefghij"]))) =
      Some e /\
    List.length (committed (room e)) = 60%nat /\
    phase (room e) = "DRAWING".
Proof.
  destruct (JsMap.get String.eqb "ABCDEFG"
              (cache (server (run default_config (mkWorld (boot [] [] []) [])
                                  [EConnect "203.0.113.7";
                                   Sample.create 1000 "0.abcdefghij"]))))
    as [e|] eqn:E; [|vm_compute in E; discriminate E].
  exists e. split; [reflexivity|].
  destruct (proj2 (proj2 phase_iff_all_committed) _ _ _ _ _ _ _ _ E) as (Hl & Hiff & Hor).
  split; [exact Hl|].
  destruct Hor as [Hp | Hd]; [|exact Hd].
  apply Hiff in Hp. vm_compute in E. injection E as <-.
  vm_compute in Hp. discriminate Hp.
Defined.

(** ** Exactly-once submission (C1) *)

Lemma assign_frame_quiet rid i cfg o noEmpty key r ws s :
  submitted rid i (snd (assign_frame cfg o noEmpty key r ws s)) = false.
Proof.
  unfold assign_frame.
  destruct (firstYoungestEmpty (now o) r) as [idx r1].
  destruct (idx <? 0).
  - destruct (saveRoom _ _ _ _) as [r2 s2]. reflexivity.
  - destruct (saveRoom _ _ _ _) as [r2 s2].
    destruct (roomState _ _) as [rs r3]. reflexivity.
Qed.

Lemma on_resync_quiet rid i o d ws s :
  submitted rid i (snd (on_resync o d ws s)) = false.
Proof.
  unfold on_resync.
  destruct (negb (truthy _)); [reflexivity|].
  destruct (JsSet.has _ _); [reflexivity|].
  destruct (getRoom o _ s) as [[[key r]|] s1]; [|reflexivity].
  destruct (roomState _ _) as [rs r3]. reflexivity.
Qed.

Lemma on_create_public_and_submit_quiet rid i o d ws s :
  submitted rid i (snd (on_create_public_and_submit o d ws s)) = false.
Proof.
  unfold on_create_public_and_submit.
  destruct (negb (validatePngDataUrl _)); [reflexivity|].
  destruct (makeRoom _ _ _) as [r1 s1].
  destruct (saveRoom _ _ _ _) as [r2 s2].
  destruct (roomState _ _) as [rs r3]. reflexivity.
Qed.

Lemma on_join_random_quiet rid i cfg o ws s :
  submitted rid i (snd (on_join_random cfg o ws s)) = false.
Proof.
  unfold on_join_random.
  destruct (findRandomOpenRoomId o s) as [x|]; [|reflexivity].
  destruct (getRoom o x s) as [[[key r]|] s1]; [|reflexivity].
  destruct (negb _); [reflexivity | apply assign_frame_quiet].
Qed.

Lemma on_join_by_id_quiet rid i cfg o d ws s :
  submitted rid i (snd (on_join_by_id cfg o d ws s)) = false.
Proof.
  unfold on_join_by_id.
  destruct (negb (truthy _)); [reflexivity|].
  destruct (JsSet.has _ _); [reflexivity|].
  destruct (getRoom o _ s) as [[[key r]|] s1]; [|reflexivity].
  destruct (negb _); [reflexivity | apply assign_frame_quiet].
Qed.

Lemma on_join_room_quiet rid i o d ws s :
  submitted rid i (snd (on_join_room o d ws s)) = false.
Proof.
  unfold on_join_room.
  destruct (negb (truthy _)); [reflexivity|].
  destruct (JsSet.has _ _); [reflexivity|].
  destruct (getRoom o _ s) as [[[key r]|] s1]; [|reflexivity].
  destruct (d_view d), (d_reservationToken d) as [tok|];
    try (cbv zeta; destruct (roomState _ _) as [rs r3]; reflexivity).
  cbv zeta.
  destruct (negb _); [reflexivity|].
  destruct (JsMap.get _ _ _) as [e|]; [|reflexivity].
  destruct (expiresAt e <=? now o); [reflexivity|].
  destruct (roomState _ _) as [rs r3]. reflexivity.
Qed.

Lemma on_get_frame_quiet rid i o d ws s :
  submitted rid i (snd (on_get_frame o d ws s)) = false.
Proof.
  unfold on_get_frame.
  destruct (negb (truthy _)); [reflexivity|].
  destruct (JsSet.has _ _); [reflexivity|].
  destruct (getRoom o _ s) as [[[key r]|] s1]; [|reflexivity].
  destruct (d_frameIndex d) as [idx|fl|]; [| |reflexivity].
  - destruct (negb (in_range idx)); [reflexivity|].
    destruct (negb (at_bool _ _)); [reflexivity|].
    destruct (frame_at r idx); reflexivity.
  - destruct (negb (in_range fl)); reflexivity.
Qed.

Lemma on_join_room_u_quiet rid i o u d ws s :
  submitted rid i (snd (on_join_room_u o u d ws s)) = false.
Proof.
  unfold on_join_room_u, thrown.
  destruct (u_roomId u); [reflexivity|].
  destruct (negb (u_reservationToken u)); [apply on_join_room_quiet|].
  destruct (negb (truthy _)); [reflexivity|].
  destruct (JsSet.has _ _); [reflexivity|].
  destruct (getRoom o _ s) as [[[key r]|] s1]; [|reflexivity].
  destruct (d_view d).
  - destruct (roomState _ _) as [rs r3]. reflexivity.
  - destruct (negb _); reflexivity.
Qed.

Lemma on_get_frame_u_quiet rid i o u d ws s :
  submitted rid i (snd (on_get_frame_u o u d ws s)) = false.
Proof.
  unfold on_get_frame_u, thrown.
  destruct (u_roomId u); [reflexivity|].
  destruct (negb (u_frameIndex u)); [apply on_get_frame_quiet|].
  destruct (negb (truthy _)); [reflexivity|].
  destruct (JsSet.has _ _); [reflexivity|].
  destruct (getRoom o _ s) as [[[key r]|] s1]; reflexivity.
Qed.

(** [on_submit_frame_u] answers [submitted] only where it runs the
    handler of a frame whose fields convert. *)
Lemma on_submit_frame_u_cases rid i o u d ws s :
  on_submit_frame_u o u d ws s = on_submit_frame o d ws s \/
  submitted rid i (snd (on_submit_frame_u o u d ws s)) = false.
Proof.
  unfold on_submit_frame_u, thrown.
  destruct (u_roomId u); [right; reflexivity|].
  destruct (negb (u_frameIndex u || u_reservationToken u)); [left; reflexivity|].
  right.
  destruct (negb (truthy _)); [reflexivity|].
  destruct (JsSet.has _ _); [reflexivity|].
  destruct (getRoom o _ s) as [[[key r]|] s1]; [|reflexivity].
  destruct (negb _); reflexivity.
Qed.

(** Only [submit_frame] answers [submitted]. *)
Lemma submitted_only_submit_frame rid i cfg o ws s buf :
  submitted rid i (snd (onMessage cfg o ws s buf)) = true ->
  exists d b,
    (buf = Parsed "submit_frame" d \/ exists u, buf = Faulty "submit_frame" d u) /\
    onMessage cfg o ws s buf = on_submit_frame o d ws (with_RATE_BUCKETS b s).
Proof.
  unfold onMessage. destruct buf as [|t d| |t d u]; [discriminate| |discriminate|].
  2:{ destruct (checkRateLimit _ _ _ _) as [[ok retry] b].
      destruct (negb ok); [discriminate|].
      destruct (String.eqb t "hello"); [discriminate|].
      destruct (String.eqb t "resync").
      { unfold on_resync_u, thrown. destruct (u_roomId u);
          [discriminate | rewrite on_resync_quiet; discriminate]. }
      destruct (String.eqb t "create_public_and_submit").
      { unfold on_create_public_and_submit_u, thrown. destruct (u_theme u);
          [discriminate | rewrite on_create_public_and_submit_quiet; discriminate]. }
      destruct (String.eqb t "join_random"); [rewrite on_join_random_quiet; discriminate|].
      destruct (String.eqb t "join_by_id").
      { unfold on_join_by_id_u, thrown. destruct (u_roomId u);
          [discriminate | rewrite on_join_by_id_quiet; discriminate]. }
      destruct (String.eqb t "join_room"); [rewrite on_join_room_u_quiet; discriminate|].
      destruct (String.eqb t "get_frame"); [rewrite on_get_frame_u_quiet; discriminate|].
      destruct (String.eqb_spec t "submit_frame") as [-> | _].
      - destruct (on_submit_frame_u_cases rid i o u d ws (with_RATE_BUCKETS b s))
          as [E | E].
        + intros _. exists d, b. split; [right; exists u; reflexivity | exact E].
        + rewrite E. discriminate.
      - unfold submitted, error. simpl. discriminate. }
  destruct (checkRateLimit _ _ _ _) as [[ok retry] b].
  destruct (negb ok); [discriminate|].
  destruct (String.eqb t "hello"); [discriminate|].
  destruct (String.eqb t "resync"); [rewrite on_resync_quiet; discriminate|].
  destruct (String.eqb t "create_public_and_submit");
    [rewrite on_create_public_and_submit_quiet; discriminate|].
  destruct (String.eqb t "join_random"); [rewrite on_join_random_quiet; discriminate|].
  destruct (String.eqb t "join_by_id"); [rewrite on_join_by_id_quiet; discriminate|].
  destruct (String.eqb t "join_room"); [rewrite on_join_room_quiet; discriminate|].
  destruct (String.eqb t "get_frame"); [rewrite on_get_frame_quiet; discriminate|].
  destruct (String.eqb_spec t "submit_frame") as [-> | _].
  - intros _. exists d, b. split; [left; reflexivity | reflexivity].
  - unfold submitted, error. simpl. discriminate.
Qed.

Lemma roomFiles_putRoom key r s : roomFiles (putRoom key r s) = roomFiles s.
Proof. unfold putRoom. destruct (JsMap.get _ _ _); reflexivity. Qed.

Lemma saveRoom_written o k r s fp :
  write_ok o k = true -> roomFile (roomId r) = Some fp ->
  exists json,
    roomFiles (snd (saveRoom o k r s)) = JsMap.set String.eqb fp json (roomFiles s) /\
    j_roomId json = roomId r /\ j_committed json = committed r.
Proof.
  intros Hw Hf. unfold saveRoom.
  cbn [roomId cleanupReservations with_reservations].
  rewrite roomId_normalizePhase, Hf.
  unfold serializeRoom. rewrite Hw.
  eexists. split; [|split].
  - cbn [snd]. unfold saveIndex. destruct (write_ok o (S k)); reflexivity.
  - cbn [j_roomId]. rewrite ?normalizePhase_eq. try reflexivity.
  - cbn [j_committed]. rewrite ?normalizePhase_eq. try reflexivity.
Qed.

(** ** Identifier mint (C6) *)

Lemma length_substring_exact s : forall n m,
  (n + m <= String.length s)%nat -> String.length (substring n m s) = m.
Proof.
  induction s as [|c s IH]; intros n m H.
  - cbn in H. destruct n, m; try lia; reflexivity.
  - cbn [String.length] in H. destruct n; cbn [substring].
    + destruct m; [reflexivity|]. cbn [String.length]. rewrite (IH 0%nat m); lia.
    + apply IH. lia.
Qed.

(** C6, as the code has it: the id that [makeRoom] mints is
    [id7] of the draw: characters of [A-Z0-9], seven of them when the
    draw has at least seven digits after ["0."]. It is installed without
    a look at the rooms that exist: whatever the cache held under that
    id, it holds the blank new room afterwards, and so does the room file
    of that id when the write succeeds. *)
Theorem makeRoom_mints_unchecked o th s :
  rendering36 (rnd_id o) = true ->
  let r := fst (makeRoom o th s) in
  let s' := snd (makeRoom o th s) in
  roomId r = id7 (rnd_id o) /\
  all_chars is_upper_alnum (roomId r) = true /\
  ((9 <= String.length (rnd_id o))%nat -> String.length (roomId r) = 7%nat) /\
  option_map (fun e => (committed (room e), frames (room e)))
             (JsMap.get String.eqb (roomId r) (cache s')) =
  Some (repeat false 60, repeat None 60) /\
  ((9 <= String.length (rnd_id o))%nat -> write_ok o 0 = true ->
   option_map j_committed (JsMap.get String.eqb (roomId r) (roomFiles s')) =
   Some (repeat false 60)).
Proof.
  intros Hr.
  assert (Hlen : (9 <= String.length (rnd_id o))%nat ->
                 String.length (id7 (rnd_id o)) = 7%nat).
  { intros H9. unfold id7, slice. rewrite length_toUpperCase.
    apply length_substring_exact. lia. }
  assert (Hfile : (9 <= String.length (rnd_id o))%nat ->
                  roomFile (id7 (rnd_id o)) = Some (id7 (rnd_id o))).
  { intros H9.
    assert (E : ROOM_ID_RE (id7 (rnd_id o)) = true).
    { unfold ROOM_ID_RE. rewrite (id7_upper_alnum _ Hr), (Hlen H9). reflexivity. }
    unfold roomFile. rewrite (normalizeRoomId_fixed _ E).
    destruct (id7 (rnd_id o)); [discriminate E | reflexivity]. }
  unfold makeRoom.
  match goal with
  | |- context [saveRoom o 0 ?r0 ?s0] =>
      pose proof (saveRoom_room o 0 r0 s0) as Hroom;
      pose proof (saveRoom_cache o 0 r0 s0) as Hcache;
      pose proof (fun Hw Hf => @saveRoom_written o 0 r0 s0 (id7 (rnd_id o)) Hw Hf)
        as Hwritten;
      destruct (saveRoom o 0 r0 s0) as [r1 s1] eqn:Es
  end.
  simpl in Hroom, Hcache. cbn [fst snd roomId] in Hwritten |- *.
  destruct Hroom as (Hid & _ & Hf & Hc & _).
  rewrite Hid. split; [reflexivity|].
  split; [apply id7_upper_alnum, Hr|].
  split; [exact Hlen|].
  split.
  - erewrite get_putRoom.
    + simpl. rewrite Hc, Hf. reflexivity.
    + rewrite Hcache. apply get_set_eq, String.eqb_eq.
  - intros H9 Hw. rewrite roomFiles_putRoom.
    destruct (Hwritten Hw (Hfile H9)) as (json & Ej & _ & Hj).
    rewrite Ej, sget_set_eq. cbn [option_map]. rewrite Hj. reflexivity.
Qed.

Lemma makeRoom_mints_unchecked_witness :
  rendering36 "0.4fzyo82mvyr" = true /\
  roomId (fst (makeRoom (Sample.oracle 5000 "0.4fzyo82mvyr" "0.x" "0.y" Sample.all_ok)
                        "" (server Sample.one_room))) = "4FZYO82" /\
  String.length
    (roomId (fst (makeRoom (Sample.oracle 5000 "0.4fzyo82mvyr" "0.x" "0.y" Sample.all_ok)
                           "" (server Sample.one_room)))) = 7%nat.
Proof.
  split; [reflexivity|].
  pose proof (makeRoom_mints_unchecked
                (Sample.oracle 5000 "0.4fzyo82mvyr" "0.x" "0.y" Sample.all_ok)
                "" (server Sample.one_room) eq_refl) as (H1 & _ & H3 & _).
  split; [exact H1|]. apply H3. cbn. lia.
Defined.

(** C6 as stated fails twice over: the draw [0.5] renders as ["0.i"] and
    mints the one-character id ["I"]; and a draw that renders like the one
    that made room [ABCDEFG] mints [ABCDEFG] again, the new blank room
    taking the place of the room whose frame 0 was committed. *)
Lemma makeRoom_collision_counterexample :
  (rendering36 "0.i" = true /\
   roomId (fst (makeRoom (Sample.oracle 5000 "0.i" "0.x" "0.y" Sample.all_ok)
                         "" (server fresh_world))) = "I") /\
  (let s := server Sample.one_room in
   let o := Sample.oracle 5000 "0.abcdefghij" "0.x" "0.y" Sample.all_ok in
   JsMap.has String.eqb "ABCDEFG" (roomFiles s) = true /\
   option_map (fun e => at_bool (committed (room e)) 0)
              (JsMap.get String.eqb "ABCDEFG" (cache s)) = Some true /\
   roomId (fst (makeRoom o "" s)) = "ABCDEFG" /\
   option_map (fun e => at_bool (committed (room e)) 0)
              (JsMap.get String.eqb "ABCDEFG" (cache (snd (makeRoom o "" s)))) = Some false /\
   option_map (fun j => at_bool (j_committed j) 0)
              (JsMap.get String.eqb "ABCDEFG" (roomFiles (snd (makeRoom o "" s)))) = Some false).
Proof. vm_compute. repeat split; reflexivity. Qed.

Lemma entry_ok_lift rid i k r :
  k <> rid -> entry_ok (LKeys rid) k r -> entry_ok (LCommitted rid i) k r.
Proof.
  intros Hne [[Hl (Hid & Hw)] Hp]. split; [|exact Hp].
  split; [exact Hl|]. split; [exact Hid|]. split; [exact Hw|].
  intros E. contradiction.
Qed.

Lemma file_ok_lift rid i fp obj :
  fp <> rid -> file_ok (LKeys rid) fp obj -> file_ok (LCommitted rid i) fp obj.
Proof. intros Hne H. split; [exact H | intros E; contradiction]. Qed.

Lemma InvC_lift_putRoom rid i r s :
  InvC (LKeys rid) s -> entry_ok (LCommitted rid i) rid r ->
  InvC (LCommitted rid i) (putRoom rid r s).
Proof.
  intros HC He k e Hget.
  destruct (String.eqb_spec rid k) as [<- | Hne].
  - unfold putRoom in Hget.
    destruct (JsMap.get String.eqb rid (cache s)) as [e0|] eqn:E0.
    + cbn [cache with_cache] in Hget. rewrite sget_set_eq in Hget.
      injection Hget as <-. exact He.
    + congruence.
  - apply entry_ok_lift; [congruence|]. apply HC.
    unfold putRoom in Hget.
    destruct (JsMap.get String.eqb rid (cache s)) as [e0|]; [|exact Hget].
    cbn [cache with_cache] in Hget. rewrite sget_set_ne in Hget by exact Hne.
    exact Hget.
Qed.

Lemma InvF_lift_set rid i json s s' :
  InvF (LKeys rid) s ->
  roomFiles s' = JsMap.set String.eqb rid json (roomFiles s) ->
  file_ok (LCommitted rid i) rid json ->
  InvF (LCommitted rid i) s'.
Proof.
  intros HF E Hj fp obj Hget. rewrite E in Hget.
  destruct (String.eqb_spec rid fp) as [<- | Hne].
  - rewrite sget_set_eq in Hget. injection Hget as <-. exact Hj.
  - rewrite sget_set_ne in Hget by exact Hne.
    apply file_ok_lift; [congruence | apply HF, Hget].
Qed.

Lemma InvC_same_cache g s s' : cache s' = cache s -> InvC g s -> InvC g s'.
Proof. unfold InvC. intros ->. auto. Qed.

Lemma InvF_same_files g s s' : roomFiles s' = roomFiles s -> InvF g s -> InvF g s'.
Proof. unfold InvF. intros ->. auto. Qed.

Lemma submitted_pair rid i o id idx rest :
  (forall a, In a rest -> is_submitted rid i a = false) ->
  submitted rid i
    ([Broadcast id (envelope o "frame_committed" (PFrame id idx));
      Send (envelope o "submitted" (PFrame id idx))] ++ rest) =
  String.eqb id rid && (idx =? i).
Proof.
  intros Hrest. unfold submitted. rewrite existsb_app.
  assert (E : existsb (is_submitted rid i) rest = false).
  { apply not_true_is_false. intros H. apply existsb_exists in H as (a & Ha & H).
    rewrite (Hrest a Ha) in H. discriminate. }
  rewrite E, orb_false_r. cbn [existsb is_submitted envelope].
  rewrite orb_false_r. reflexivity.
Qed.

(** The answers of a successful [submit_frame] carry [submitted] for the
    room's id and the requested frame, and for nothing else. *)
Lemma submitted_success rid i o id idx (completed : bool) rs :
  submitted rid i
    (if completed
     then [Broadcast id (envelope o "frame_committed" (PFrame id idx));
           Send (envelope o "submitted" (PFrame id idx))] ++
          [Broadcast id (envelope o "start_playback" (PRoom id));
           Broadcast id (envelope o "room_state" (PRoomState rs))]
     else [Broadcast id (envelope o "frame_committed" (PFrame id idx));
           Send (envelope o "submitted" (PFrame id idx))]) =
  String.eqb id rid && (idx =? i).
Proof.
  destruct completed.
  - apply submitted_pair. intros a [<- | [<- | []]]; reflexivity.
  - rewrite <- (app_nil_r [_; _]). apply submitted_pair. intros a [].
Qed.

(** Once frame [i] of room [rid] is committed in memory and on disk, no
    [submit_frame] answers [submitted] for it. *)
Lemma on_submit_frame_blocked rid i o d ws s :
  Inv (LCommitted rid i) s ->
  submitted rid i (snd (on_submit_frame o d ws s)) = false.
Proof.
  intros HI. unfold on_submit_frame.
  destruct (negb (truthy _)); [reflexivity|].
  destruct (JsSet.has _ _); [reflexivity|].
  destruct (getRoom o _ s) as [[[key r]|] s1] eqn:Eg; [|reflexivity].
  destruct (@getRoom_ok (LCommitted rid i) o _ s key r s1 HI Eg) as (HI1 & He & _).
  set (r1 := cleanupReservations (now o) (normalizePhase r)).
  assert (He1 : entry_ok (LCommitted rid i) key r1)
    by (apply entry_ok_cleanup, entry_ok_normalize, He).
  destruct (negb (String.eqb (phase r1) DRAWING)); [reflexivity|].
  destruct (d_frameIndex d) as [idx|fl|]; [| |reflexivity].
  - destruct (negb (in_range idx)); [reflexivity|].
    destruct (negb (truthy _)); [reflexivity|].
    destruct (JsMap.get _ _ _) as [e|]; [|reflexivity].
    destruct (expiresAt e <=? now o); [reflexivity|].
    destruct (negb (frameIndex e =? idx)); [reflexivity|].
    destruct (at_bool (committed r1) idx) eqn:Ec; [reflexivity|].
    destruct (negb (validatePngDataUrl _)); [reflexivity|].
    match goal with
    | |- context [saveRoom o 0 ?r2 ?s2] =>
        pose proof (saveRoom_room o 0 r2 s2) as Hroom;
        destruct (saveRoom o 0 r2 s2) as [r3 s3]
    end.
    cbn [fst snd roomId with_reservations with_updatedAt with_committed with_frames]
      in Hroom.
    destruct Hroom as (Hid & _).
    assert (Hno : String.eqb (roomId r3) rid && (idx =? i) = false).
    { destruct (String.eqb_spec (roomId r3) rid) as [E1|]; [|reflexivity].
      destruct (Z.eqb_spec idx i) as [E2|]; [|reflexivity].
      exfalso. destruct He1 as [(_ & Hk & _ & Hcm) _].
      rewrite <- E2 in Hcm. rewrite Hcm in Ec; [discriminate|].
      unfold r1 in Hk, Hid.
      cbn [roomId cleanupReservations with_reservations] in Hk, Hid.
      congruence. }
    destruct (forallb _ _).
    + destruct (saveRoom o 2 _ _) as [r5 s5].
      destruct (roomState _ _) as [rs r6]. cbn [snd].
      rewrite submitted_pair; [exact Hno|].
      intros a [<- | [<- | []]]; reflexivity.
    + cbn [snd]. rewrite <- (app_nil_r [_; _]).
      rewrite submitted_pair; [exact Hno | intros a []].
  - destruct (negb (in_range fl)); [reflexivity|].
    destruct (negb (truthy _)); [reflexivity|].
    destruct (JsMap.get _ _ _) as [e|]; [|reflexivity].
    destruct (expiresAt e <=? now o); reflexivity.
Qed.

(** The first [submitted] for frame [i] of room [rid], when its room-file
    write succeeds, leaves the frame committed in memory and on disk. *)
Lemma on_submit_frame_first rid i o d ws s :
  Inv (LKeys rid) s ->
  write_ok o 0 = true ->
  submitted rid i (snd (on_submit_frame o d ws s)) = true ->
  Inv (LCommitted rid i) (fst (fst (on_submit_frame o d ws s))).
Proof.
  intros HI Hw. unfold on_submit_frame.
  destruct (negb (truthy _)); [discriminate|].
  destruct (JsSet.has _ _); [discriminate|].
  destruct (getRoom o _ s) as [[[key r]|] s1] eqn:Eg; [|discriminate].
  destruct (@getRoom_ok (LKeys rid) o _ s key r s1 HI Eg) as (HI1 & He & Hkt & Hkn).
  set (r1 := cleanupReservations (now o) (normalizePhase r)).
  assert (He1 : entry_ok (LKeys rid) key r1)
    by (apply entry_ok_cleanup, entry_ok_normalize, He).
  assert (HI2 : Inv (LKeys rid) (putRoom key r1 s1)) by (apply Inv_putRoom; assumption).
  destruct (negb (String.eqb (phase r1) DRAWING)); [discriminate|].
  destruct (d_frameIndex d) as [idx|fl|]; [| |discriminate].
  - destruct (negb (in_range idx)) eqn:Er; [discriminate|].
    apply negb_false_iff in Er.
    destruct (negb (truthy _)); [discriminate|].
    destruct (JsMap.get _ _ _) as [e|]; [|discriminate].
    destruct (expiresAt e <=? now o); [discriminate|].
    destruct (negb (frameIndex e =? idx)); [discriminate|].
    destruct (at_bool (committed r1) idx) eqn:Ec; [discriminate|].
    destruct (negb (validatePngDataUrl _)); [discriminate|].
    match goal with
    | |- context [saveRoom o 0 ?r2' ?s2'] => set (r2 := r2'); set (s2 := s2')
    end.
    assert (Hid1 : roomId r1 = key) by (destruct He1 as [(_ & Hk & _) _]; exact Hk).
    assert (Hid2 : roomId r2 = key) by exact Hid1.
    assert (Hfile : roomFile (roomId r2) = Some key).
    { rewrite Hid2, Hkn. apply roomFile_normalized. rewrite <- Hkn. exact Hkt. }
    assert (Hgoal : key = rid -> idx = i ->
              Inv (LCommitted rid i)
                  (fst (fst
                     (let '(room, s) := saveRoom o 0 r2 s2 in
                      let id := roomId room in
                      let committedOut :=
                        [Broadcast id (envelope o "frame_committed" (PFrame id idx));
                         Send (envelope o "submitted" (PFrame id idx))] in
                      if forallb (fun b => b) (committed room) then
                        let room := with_phase PLAYBACK room in
                        let room := with_updatedAt (now o) room in
                        let '(room, s) := saveRoom o 2 room s in
                        let '(rs, room) := roomState (now o) room in
                        (putRoom key room s, ws,
                         committedOut ++
                         [Broadcast id (envelope o "start_playback" (PRoom id));
                          Broadcast id (envelope o "room_state" (PRoomState rs))])
                      else (putRoom key room s, ws, committedOut))))).
    { intros Ek Ei. subst rid. subst i.
      assert (H2 : room_ok (LCommitted key idx) key r2).
      { destruct He1 as [(Hl & Hk & Hw3) _]. split.
        - unfold r2. cbn [committed with_reservations with_updatedAt with_committed].
          rewrite length_set_at. exact Hl.
        - split; [exact Hid2|]. split; [exact Hw3|]. intros _.
          unfold r2. cbn [committed with_reservations with_updatedAt with_committed].
          apply at_bool_set_at_same; assumption. }
      destruct (@saveRoom_written o 0 r2 s2 key Hw Hfile) as (json & Ej & Hj1 & Hj2).
      pose proof (saveRoom_cache o 0 r2 s2) as Hc3.
      pose proof (@saveRoom_entry (LCommitted key idx) o 0 key r2 s2 H2) as He3.
      destruct (saveRoom o 0 r2 s2) as [r3 s3]. cbn [fst snd] in *.
      assert (HF3 : InvF (LCommitted key idx) s3).
      { apply InvF_lift_set with (json := json) (s := s2).
        - exact (proj2 HI2).
        - exact Ej.
        - eapply file_ok_of_room; eauto. }
      assert (HC3 : InvC (LKeys key) s3)
        by (apply InvC_same_cache with (s := s2); [exact Hc3 | exact (proj1 HI2)]).
      destruct (forallb _ _).
      - match goal with
        | |- context [saveRoom o 2 ?r4' s3] => set (r4 := r4')
        end.
        assert (H4 : room_ok (LCommitted key idx) key r4)
          by (eapply room_ok_same; [| |apply He3]; reflexivity).
        pose proof (@saveRoom_okF (LCommitted key idx) o 2 key r4 s3 HF3 H4) as HF5.
        pose proof (saveRoom_cache o 2 r4 s3) as Hc5.
        pose proof (@saveRoom_entry (LCommitted key idx) o 2 key r4 s3 H4) as He5.
        destruct (saveRoom o 2 r4 s3) as [r5 s5]. cbn [fst snd] in *.
        unfold roomState. cbn [fst snd]. split.
        + apply InvC_lift_putRoom.
          * apply InvC_same_cache with (s := s3); assumption.
          * apply entry_ok_normalize.
            eapply room_ok_same; [| |apply He5]; reflexivity.
        + apply InvF_same_files with (s := s5); [apply roomFiles_putRoom | exact HF5].
      - cbn [fst snd]. split.
        + apply InvC_lift_putRoom; assumption.
        + apply InvF_same_files with (s := s3); [apply roomFiles_putRoom | exact HF3]. }
    pose proof (saveRoom_room o 0 r2 s2) as Hroom.
    destruct (saveRoom o 0 r2 s2) as [r3 s3]. cbn [fst snd] in Hroom.
    destruct Hroom as (Hid3 & _).
    cbv zeta in Hgoal |- *.
    destruct (forallb (fun b => b) (committed r3)).
    + destruct (saveRoom o 2 _ _) as [r5 s5].
      destruct (roomState _ _) as [rs r6]. cbn [fst snd] in Hgoal |- *.
      rewrite submitted_pair by (intros a [<- | [<- | []]]; reflexivity).
      intros Hs. apply andb_true_iff in Hs as [E1 E2].
      apply String.eqb_eq in E1. apply Z.eqb_eq in E2.
      apply Hgoal; congruence.
    + cbn [fst snd] in Hgoal |- *. rewrite <- (app_nil_r [_; _]).
      rewrite submitted_pair by (intros a []).
      intros Hs. apply andb_true_iff in Hs as [E1 E2].
      apply String.eqb_eq in E1. apply Z.eqb_eq in E2.
      apply Hgoal; congruence.
  - destruct (negb (in_range fl)); [discriminate|].
    destruct (negb (truthy _)); [discriminate|].
    destruct (JsMap.get _ _ _) as [e|]; [|discriminate].
    destruct (expiresAt e <=? now o); discriminate.
Qed.

Lemma saveRoom_keeps_file o k r s fp :
  JsMap.get String.eqb fp (roomFiles s) <> None ->
  JsMap.get String.eqb fp (roomFiles (snd (saveRoom o k r s))) <> None.
Proof.
  intros H. unfold saveRoom.
  destruct (roomFile _) as [fp'|]; [|exact H].
  unfold serializeRoom. destruct (write_ok o k); [|exact H].
  cbn [snd]. unfold saveIndex.
  destruct (write_ok o (S k)); cbn [roomFiles with_indexFile with_dirtyRoomIds with_roomFiles];
    (destruct (String.eqb_spec fp' fp) as [-> | Hne];
     [rewrite sget_set_eq; discriminate | rewrite sget_set_ne by exact Hne; exact H]).
Qed.

(** After the first [submitted] for frame [i] of room [rid] with its
    write done, the room file of [rid] is there. *)
Lemma on_submit_frame_file rid i o d ws s :
  Inv (LKeys rid) s ->
  write_ok o 0 = true ->
  submitted rid i (snd (on_submit_frame o d ws s)) = true ->
  JsMap.get String.eqb rid (roomFiles (fst (fst (on_submit_frame o d ws s)))) <> None.
Proof.
  intros HI Hw. unfold on_submit_frame.
  destruct (negb (truthy _)); [discriminate|].
  destruct (JsSet.has _ _); [discriminate|].
  destruct (getRoom o _ s) as [[[key r]|] s1] eqn:Eg; [|discriminate].
  destruct (@getRoom_ok (LKeys rid) o _ s key r s1 HI Eg) as (HI1 & He & Hkt & Hkn).
  set (r1 := cleanupReservations (now o) (normalizePhase r)).
  assert (He1 : entry_ok (LKeys rid) key r1)
    by (apply entry_ok_cleanup, entry_ok_normalize, He).
  destruct (negb (String.eqb (phase r1) DRAWING)); [discriminate|].
  destruct (d_frameIndex d) as [idx|fl|]; [| |discriminate].
  - destruct (negb (in_range idx)); [discriminate|].
    destruct (negb (truthy _)); [discriminate|].
    destruct (JsMap.get _ _ _) as [e|]; [|discriminate].
    destruct (expiresAt e <=? now o); [discriminate|].
    destruct (negb (frameIndex e =? idx)); [discriminate|].
    destruct (at_bool (committed r1) idx); [discriminate|].
    destruct (negb (validatePngDataUrl _)); [discriminate|].
    match goal with
    | |- context [saveRoom o 0 ?r2' ?s2'] => set (r2 := r2'); set (s2 := s2')
    end.
    assert (Hid1 : roomId r1 = key) by (destruct He1 as [(_ & Hk & _) _]; exact Hk).
    assert (Hid2 : roomId r2 = key) by exact Hid1.
    assert (Hfile : roomFile (roomId r2) = Some key).
    { rewrite Hid2, Hkn. apply roomFile_normalized. rewrite <- Hkn. exact Hkt. }
    destruct (@saveRoom_written o 0 r2 s2 key Hw Hfile) as (json & Ej & _).
    pose proof (saveRoom_room o 0 r2 s2) as Hroom.
    destruct (saveRoom o 0 r2 s2) as [r3 s3]. cbn [fst snd] in Hroom, Ej.
    destruct Hroom as (Hid3 & _).
    assert (Hthere : JsMap.get String.eqb key (roomFiles s3) <> None)
      by (rewrite Ej, sget_set_eq; discriminate).
    cbv zeta.
    destruct (forallb (fun b => b) (committed r3)).
    + match goal with
      | |- context [saveRoom o 2 ?r4 s3] =>
          pose proof (@saveRoom_keeps_file o 2 r4 s3 key Hthere) as Hk5;
          destruct (saveRoom o 2 r4 s3) as [r5 s5]
      end.
      destruct (roomState _ _) as [rs r6]. cbn [fst snd] in Hk5 |- *.
      rewrite submitted_pair by (intros a [<- | [<- | []]]; reflexivity).
      intros Hs. apply andb_true_iff in Hs as [E1 _].
      apply String.eqb_eq in E1.
      rewrite roomFiles_putRoom. replace rid with key by congruence. exact Hk5.
    + cbn [fst snd]. rewrite <- (app_nil_r [_; _]).
      rewrite submitted_pair by (intros a []).
      intros Hs. apply andb_true_iff in Hs as [E1 _].
      apply String.eqb_eq in E1.
      rewrite roomFiles_putRoom. replace rid with key by congruence. exact Hthere.
  - destruct (negb (in_range fl)); [discriminate|].
    destruct (negb (truthy _)); [discriminate|].
    destruct (JsMap.get _ _ _) as [e|]; [|discriminate].
    destruct (expiresAt e <=? now o); discriminate.
Qed.

(** What a [submitted] answer tells of the request and of the room it
    found: the frame was not committed and the token presented held a
    live reservation for it. *)
Lemma on_submit_frame_needs rid i o d ws s :
  submitted rid i (snd (on_submit_frame o d ws s)) = true ->
  exists key r s1 tok e,
    getRoom o (requestedRoomId d ws) s = (Some (key, r), s1) /\
    roomId r = rid /\
    d_frameIndex d = NInt i /\ in_range i = true /\
    at_bool (committed r) i = false /\
    d_reservationToken d = Some tok /\
    JsMap.get String.eqb tok
      (reservations (cleanupReservations (now o) (normalizePhase r))) = Some e /\
    frameIndex e = i /\ now o < expiresAt e /\
    validatePngDataUrl (d_dataUrl d) = true.
Proof.
  unfold on_submit_frame.
  destruct (negb (truthy _)); [discriminate|].
  destruct (JsSet.has _ _); [discriminate|].
  destruct (getRoom o _ s) as [[[key r]|] s1] eqn:Eg; [|discriminate].
  set (r1 := cleanupReservations (now o) (normalizePhase r)).
  destruct (negb (String.eqb (phase r1) DRAWING)); [discriminate|].
  destruct (d_frameIndex d) as [idx|fl|] eqn:Ei; [| |discriminate].
  - destruct (negb (in_range idx)) eqn:Er; [discriminate|].
    apply negb_false_iff in Er.
    destruct (d_reservationToken d) as [tok|] eqn:Et; [|discriminate].
    destruct (negb (truthy tok)); [discriminate|].
    destruct (JsMap.get String.eqb tok (reservations r1)) as [e|] eqn:Ee; [|discriminate].
    destruct (expiresAt e <=? now o) eqn:Ex; [discriminate|].
    apply Z.leb_gt in Ex.
    destruct (negb (frameIndex e =? idx)) eqn:Ef; [discriminate|].
    apply negb_false_iff, Z.eqb_eq in Ef.
    destruct (at_bool (committed r1) idx) eqn:Ec; [discriminate|].
    destruct (negb (validatePngDataUrl _)) eqn:Ev; [discriminate|].
    apply negb_false_iff in Ev.
    match goal with
    | |- context [saveRoom o 0 ?r2 ?s2] =>
        pose proof (saveRoom_room o 0 r2 s2) as Hroom;
        destruct (saveRoom o 0 r2 s2) as [r3 s3]
    end.
    cbn [fst snd roomId with_reservations with_updatedAt with_committed with_frames]
      in Hroom.
    destruct Hroom as (Hid & _).
    assert (Hsub : String.eqb (roomId r3) rid && (idx =? i) = true ->
              exists key0 r0 s0 tok0 e0,
                (Some (key, r), s1) = (Some (key0, r0), s0) /\
                roomId r0 = rid /\ NInt idx = NInt i /\ in_range i = true /\
                at_bool (committed r0) i = false /\
                Some tok = Some tok0 /\
                JsMap.get String.eqb tok0
                  (reservations (cleanupReservations (now o) (normalizePhase r0))) =
                  Some e0 /\
                frameIndex e0 = i /\ now o < expiresAt e0 /\
                validatePngDataUrl (d_dataUrl d) = true).
    { intros Hs. apply andb_true_iff in Hs as [E1 E2].
      apply String.eqb_eq in E1. apply Z.eqb_eq in E2. subst i.
      exists key, r, s1, tok, e.
      split; [reflexivity|].
      split; [rewrite <- E1, Hid; unfold r1; symmetry; apply roomId_normalizePhase|].
      split; [reflexivity|]. split; [exact Er|].
      split; [rewrite <- Ec; unfold r1; rewrite committed_cleanupReservations,
                committed_normalizePhase; reflexivity|].
      split; [reflexivity|]. split; [exact Ee|]. auto. }
    destruct (forallb (fun b => b) (committed r3)).
    + destruct (saveRoom o 2 _ _) as [r5 s5].
      destruct (roomState _ _) as [rs r6]. cbn [fst snd].
      rewrite submitted_pair by (intros a [<- | [<- | []]]; reflexivity).
      exact Hsub.
    + cbn [fst snd]. rewrite <- (app_nil_r [_; _]).
      rewrite submitted_pair by (intros a []).
      exact Hsub.
  - destruct (negb (in_range fl)); [discriminate|].
    destruct (negb (truthy _)); [discriminate|].
    destruct (JsMap.get _ _ _) as [e|]; [|discriminate].
    destruct (expiresAt e <=? now o); discriminate.
Qed.

Lemma mint_ok_LKeys rid r : rendering36 r = true -> mint_ok (LKeys rid) (id7 r).
Proof.
  intros H Hne Hf.
  destruct (id7_roomFile _ H) as [E | E]; rewrite E in Hf;
    [injection Hf as Hf; contradiction | discriminate].
Qed.

Lemma event_ok_LKeys rid e : genuine e = true -> event_ok (LKeys rid) e.
Proof.
  destruct e as [| c o [|t d| |t d u] | | | |]; simpl; auto;
    intros H _; apply mint_ok_LKeys, H.
Qed.

Lemma event_ok_LCommitted rid i e :
  genuine e = true -> mints rid e = false -> event_ok (LCommitted rid i) e.
Proof.
  destruct e as [| c o [|t d| |t d u] | | | |]; simpl; auto;
    intros Hg Hm ->; simpl in Hm; apply String.eqb_neq in Hm;
    (split; [exact Hm|]); intros Hf;
    apply (@mint_ok_LKeys rid (rnd_id o) Hg); assumption.
Qed.

Lemma Inv_boot_LKeys rid files idx q :
  files_named files = true -> Inv (LKeys rid) (boot files idx q).
Proof.
  intros H. split.
  - intros k e Hget. discriminate Hget.
  - intros fp obj Hget. apply get_In in Hget; [|apply String.eqb_eq].
    unfold files_named in H. rewrite forallb_forall in H.
    apply H in Hget. apply String.eqb_eq in Hget. exact Hget.
Qed.

Lemma Forall_event_ok g es :
  (forall e, In e es -> event_ok g e) -> Forall (event_ok g) es.
Proof. intros H. apply Forall_forall. exact H. Qed.

(** C1, as the code has it. A process starts on a data
    directory whose room files hold the rooms of their names, and runs
    any events whose draws are base-36 renderings. If a [submit_frame]
    is answered [submitted] for frame [i] of room [rid] and its room-file
    write succeeds, then: the request met the conditions of the handler
    (the frame is in range and was not committed, and the token
    presented has, after the sweep, a reservation for frame [i] that has
    not expired); the room file is written; whatever events follow, as
    long as no creation mints [rid] again, [committed[i]] is true in the
    cached room and in the room file, across evictions and reloads, and
    no later [submit_frame] is answered [submitted] for that frame. *)
Theorem submit_frame_at_most_once cfg files idx q cl es0 c o buf es e' rid i :
  let w := run cfg (mkWorld (boot files idx q) cl) es0 in
  let w1 := fst (step cfg w (EMessage c o buf)) in
  let w2 := run cfg w1 es in
  files_named files = true ->
  forallb genuine (es0 ++ EMessage c o buf :: es ++ [e']) = true ->
  submitted rid i (snd (step cfg w (EMessage c o buf))) = true ->
  write_ok o 0 = true ->
  forallb (fun e => negb (mints rid e)) (es ++ [e']) = true ->
  (exists ws d b key r s1 tok e,
      nth_error (clients w) c = Some ws /\
      (buf = Parsed "submit_frame" d \/ exists u, buf = Faulty "submit_frame" d u) /\
      getRoom o (requestedRoomId d ws) (with_RATE_BUCKETS b (server w)) =
        (Some (key, r), s1) /\
      roomId r = rid /\
      d_frameIndex d = NInt i /\ in_range i = true /\
      at_bool (committed r) i = false /\
      d_reservationToken d = Some tok /\
      JsMap.get String.eqb tok
        (reservations (cleanupReservations (now o) (normalizePhase r))) = Some e /\
      frameIndex e = i /\ now o < expiresAt e) /\
  JsMap.get String.eqb rid (roomFiles (server w1)) <> None /\
  (forall e, JsMap.get String.eqb rid (cache (server w2)) = Some e ->
             at_bool (committed (room e)) i = true) /\
  (forall obj, JsMap.get String.eqb rid (roomFiles (server w2)) = Some obj ->
               at_bool (pad60 false (j_committed obj)) i = true) /\
  submitted rid i (snd (step cfg w2 e')) = false.
Proof.
  intros w w1 w2 Hfiles Hgen Hsub Hw Hmint.
  rewrite forallb_forall in Hgen, Hmint.
  assert (HIw : Inv (LKeys rid) (server w)).
  { apply run_Inv; [apply Inv_boot_LKeys, Hfiles|].
    apply Forall_event_ok. intros e He. apply event_ok_LKeys, Hgen.
    apply in_or_app. left. exact He. }
  assert (Hfirst :
    (exists ws d b key r s1 tok e,
        nth_error (clients w) c = Some ws /\
        (buf = Parsed "submit_frame" d \/ exists u, buf = Faulty "submit_frame" d u) /\
        getRoom o (requestedRoomId d ws) (with_RATE_BUCKETS b (server w)) =
          (Some (key, r), s1) /\
        roomId r = rid /\
        d_frameIndex d = NInt i /\ in_range i = true /\
        at_bool (committed r) i = false /\
        d_reservationToken d = Some tok /\
        JsMap.get String.eqb tok
          (reservations (cleanupReservations (now o) (normalizePhase r))) = Some e /\
        frameIndex e = i /\ now o < expiresAt e) /\
    JsMap.get String.eqb rid (roomFiles (server w1)) <> None).
  { unfold w1. cbn [step] in Hsub |- *.
    destruct (nth_error (clients w) c) as [ws|]; [|discriminate Hsub].
    destruct (onMessage cfg o ws (server w) buf) as [[s' ws'] out] eqn:Em.
    cbn [fst snd server] in Hsub |- *.
    assert (Hsub' : submitted rid i (snd (onMessage cfg o ws (server w) buf)) = true)
      by (rewrite Em; exact Hsub).
    destruct (submitted_only_submit_frame _ _ _ _ _ _ _ Hsub') as (d & b & Hbuf & E).
    rewrite E in Em, Hsub'.
    destruct (on_submit_frame_needs _ _ _ _ _ _ Hsub')
      as (key & r & s1 & tok & e & N1 & N2 & N3 & N4 & N5 & N6 & N7 & N8 & N9 & _).
    split.
    - exists ws, d, b, key, r, s1, tok, e. repeat split; assumption.
    - replace s' with (fst (fst (on_submit_frame o d ws (with_RATE_BUCKETS b (server w)))))
        by (rewrite Em; reflexivity).
      apply (@on_submit_frame_file rid i); [|exact Hw | exact Hsub'].
      eapply Inv_frame; [| |exact HIw]; reflexivity. }
  assert (HI1 : Inv (LCommitted rid i) (server w1)).
  { unfold w1. cbn [step] in Hsub |- *.
    destruct (nth_error (clients w) c) as [ws|]; [|discriminate Hsub].
    destruct (onMessage cfg o ws (server w) buf) as [[s' ws'] out] eqn:Em.
    cbn [fst snd server] in Hsub |- *.
    assert (Hsub' : submitted rid i (snd (onMessage cfg o ws (server w) buf)) = true)
      by (rewrite Em; exact Hsub).
    destruct (submitted_only_submit_frame _ _ _ _ _ _ _ Hsub') as (d & b & _ & E).
    rewrite E in Em, Hsub'.
    replace s' with (fst (fst (on_submit_frame o d ws (with_RATE_BUCKETS b (server w)))))
      by (rewrite Em; reflexivity).
    apply on_submit_frame_first; [|exact Hw | exact Hsub'].
    eapply Inv_frame; [| |exact HIw]; reflexivity. }
  assert (HI2 : Inv (LCommitted rid i) (server (run cfg w1 es))).
  { apply run_Inv; [exact HI1|].
    apply Forall_event_ok. intros e He. apply event_ok_LCommitted.
    - apply Hgen. apply in_or_app. right. right. apply in_or_app. left. exact He.
    - apply negb_true_iff, Hmint. apply in_or_app. left. exact He. }
  destruct Hfirst as [Hneeds Hfile1].
  split; [exact Hneeds|]. split; [exact Hfile1|].
  split.
  { intros e He. destruct (proj1 HI2 rid e He) as [(_ & _ & _ & Hc) _].
    apply Hc. reflexivity. }
  split.
  { intros obj Ho. destruct (proj2 HI2 rid obj Ho) as [_ Hc].
    apply Hc. reflexivity. }
  unfold w2.
  destruct e' as [addr|c' o' buf'|t|t io|t|x mode]; try reflexivity.
  cbn [step].
  destruct (nth_error (clients (run cfg w1 es)) c') as [ws|]; [|reflexivity].
  destruct (onMessage cfg o' ws (server (run cfg w1 es)) buf') as [[s' ws'] out] eqn:Em.
  cbn [snd].
  destruct (submitted rid i out) eqn:Hs; [|reflexivity].
  assert (Hsub' : submitted rid i (snd (onMessage cfg o' ws (server (run cfg w1 es)) buf')) = true)
    by (rewrite Em; exact Hs).
  destruct (submitted_only_submit_frame _ _ _ _ _ _ _ Hsub') as (d & b & _ & E).
  rewrite E in Hsub'.
  rewrite on_submit_frame_blocked in Hsub'; [discriminate|].
  eapply Inv_frame; [| |exact HI2]; reflexivity.
Qed.

Lemma submit_frame_at_most_once_witness :
  let cfg := default_config in
  let es0 := [ EConnect "203.0.113.7"; Sample.create 1000 "0.abcdefghij";
               Sample.join_by_id 2000 "ABCDEFG" "0.tok1aaaaaa" "0.tok2bbbbbb" ] in
  let o := Sample.oracle 3000 "0.zzzzzzzzz" "0.x" "0.y" Sample.all_ok in
  let buf := Parsed "submit_frame"
               (Sample.data "ABCDEFG" (Some "tok1aaaaaa-tok2bbbbbb") (NInt 1)) in
  let es := [ EEvict 400000;
              Sample.join_by_id 400001 "ABCDEFG" "0.tok3cccccc" "0.tok4dddddd" ] in
  let e' := Sample.submit 400002 "ABCDEFG" "tok3cccccc-tok4dddddd" 1 Sample.all_ok in
  submitted "ABCDEFG" 1
    (snd (step cfg (run cfg (mkWorld (boot [] [] []) []) es0) (EMessage 0 o buf))) =
    true /\
  forallb (fun e => negb (mints "ABCDEFG" e)) (es ++ [e']) = true /\
  submitted "ABCDEFG" 1
    (snd (step cfg
            (run cfg
               (fst (step cfg (run cfg (mkWorld (boot [] [] []) []) es0)
                          (EMessage 0 o buf)))
               es)
            e')) = false.
Proof.
  intros cfg es0 o buf es e'.
  split; [vm_compute; reflexivity|].
  split; [vm_compute; reflexivity|].
  apply (@submit_frame_at_most_once cfg [] [] [] [] es0 0%nat o buf es e' "ABCDEFG" 1);
    vm_compute; reflexivity.
Defined.

(** C1, as stated, fails: two [submit_frame] requests for frame 1
    of room [ABCDEFG] both succeed, once after a save that never reached the
    disk (the room is evicted and loaded again from its older file), once
    after a second [create] drew the id of the room. And on a data
    directory with a room file that does not hold the room of its name,
    frame 0 of room [HIJKLMN] is submitted twice with every write done. *)
Lemma submit_frame_twice_counterexample :
  map (submitted "ABCDEFG" 1) (outputs default_config fresh_world Sample.lost_write) =
    [false; false; false; true; false; false; true] /\
  map (submitted "ABCDEFG" 1) (outputs default_config fresh_world Sample.reminted) =
    [false; false; false; true; false; false; true] /\
  map (submitted "HIJKLMN" 0)
      (outputs default_config Sample.misnamed_file Sample.misnamed) =
    [false; false; true; false; false; true].
Proof. repeat split; vm_compute; reflexivity. Qed.

(** ** Persistence failures (C3) *)

Lemma getRoom_writes o w x s : getRoom (with_writes w o) x s = getRoom o x s.
Proof. reflexivity. Qed.

Lemma roomFiles_getRoom o x s : roomFiles (snd (getRoom o x s)) = roomFiles s.
Proof.
  unfold getRoom.
  destruct (negb (truthy _)); [reflexivity|].
  destruct (JsMap.get String.eqb _ (cache s)) as [e|] eqn:E.
  - cbn [snd]. unfold touch. rewrite E. reflexivity.
  - destruct (roomFile _); [|reflexivity].
    destruct (JsMap.get String.eqb _ (roomFiles s)); [|reflexivity].
    destruct (deserializeRoom _ _ _); reflexivity.
Qed.

Lemma saveRoom_fst_writes o w k r s s' :
  fst (saveRoom (with_writes w o) k r s') = fst (saveRoom o k r s).
Proof.
  unfold saveRoom. cbn [now with_writes write_ok].
  destruct (roomFile _); [|reflexivity].
  unfold serializeRoom. destruct (w k), (write_ok o k); reflexivity.
Qed.

Lemma saveRoom_files_fail o k r s :
  write_ok o k = false -> roomFiles (snd (saveRoom o k r s)) = roomFiles s.
Proof.
  intros H. unfold saveRoom.
  destruct (roomFile _); [|reflexivity].
  unfold serializeRoom. rewrite H. reflexivity.
Qed.

Lemma cache_putRoom_eq key r s s' :
  cache s' = cache s -> cache (putRoom key r s') = cache (putRoom key r s).
Proof.
  intros E. unfold putRoom. rewrite E.
  destruct (JsMap.get _ _ _); cbn [cache with_cache]; rewrite ?E; reflexivity.
Qed.

(** C3, as the code has it: a failed write inside [saveRoom]
    is swallowed. [saveRoom] returns the same room and leaves the cache as
    it is, with the room file untouched, and a later [getRoom] of a
    cached room answers the room of the cache, not a reload of its file;
    and [submit_frame] sends the same envelopes, leaves the connection
    and the cache in the same state as when its writes succeed, while the
    room files stay as they were before the request. *)
Theorem persistence_failure_is_silent o w d ws s k r :
  (fst (saveRoom (with_writes w o) k r s) = fst (saveRoom o k r s) /\
   cache (snd (saveRoom (with_writes w o) k r s)) = cache s /\
   (w k = false ->
    roomFiles (snd (saveRoom (with_writes w o) k r s)) = roomFiles s) /\
   (forall key e o',
       JsMap.get String.eqb key (cache s) = Some e ->
       truthy key = true -> normalizeRoomId key = key ->
       fst (getRoom o' key (snd (saveRoom (with_writes w o) k r s))) =
       Some (key, room e))) /\
  (let ko := on_submit_frame (with_writes w o) d ws s in
   let ok := on_submit_frame o d ws s in
   snd ko = snd ok /\
   snd (fst ko) = snd (fst ok) /\
   cache (fst (fst ko)) = cache (fst (fst ok)) /\
   ((forall n, w n = false) -> roomFiles (fst (fst ko)) = roomFiles s)).
Proof.
  split.
  - split; [apply saveRoom_fst_writes|]. split; [apply saveRoom_cache|].
    split; [intros H; apply saveRoom_files_fail; exact H|].
    intros key e o' Hg Ht Hn. unfold getRoom.
    rewrite Hn, Ht, saveRoom_cache, Hg. reflexivity.
  - cbv zeta. unfold on_submit_frame.
    cbn [now with_writes]. rewrite getRoom_writes.
    destruct (negb (truthy _)); [repeat split; reflexivity|].
    destruct (JsSet.has _ _); [repeat split; reflexivity|].
    pose proof (roomFiles_getRoom o (requestedRoomId d ws) s) as Hf1.
    destruct (getRoom o _ s) as [[[key r0]|] s1]; cbn [snd] in Hf1;
      [|repeat split; auto].
    set (r1 := cleanupReservations (now o) (normalizePhase r0)).
    assert (Hf2 : roomFiles (putRoom key r1 s1) = roomFiles s)
      by (rewrite roomFiles_putRoom; exact Hf1).
    destruct (negb (String.eqb (phase r1) DRAWING)); [repeat split; auto|].
    destruct (d_frameIndex d) as [idx|fl|]; [| |repeat split; auto].
    + destruct (negb (in_range idx)); [repeat split; auto|].
      destruct (negb (truthy _)); [repeat split; auto|].
      destruct (JsMap.get _ _ _) as [e|]; [|repeat split; auto].
      destruct (expiresAt e <=? now o); [repeat split; auto|].
      destruct (negb (frameIndex e =? idx)); [repeat split; auto|].
      destruct (at_bool (committed r1) idx); [repeat split; auto|].
      destruct (negb (validatePngDataUrl _)); [repeat split; auto|].
      match goal with
      | |- context [saveRoom o 0 ?r2' ?s2'] => set (r2 := r2'); set (s2 := s2')
      end.
      pose proof (saveRoom_fst_writes o w 0 r2 s2 s2) as Hr.
      pose proof (saveRoom_cache (with_writes w o) 0 r2 s2) as Hc'.
      pose proof (saveRoom_cache o 0 r2 s2) as Hc.
      pose proof (@saveRoom_files_fail (with_writes w o) 0 r2 s2) as Hff.
      destruct (saveRoom (with_writes w o) 0 r2 s2) as [r3' s3'].
      destruct (saveRoom o 0 r2 s2) as [r3 s3].
      cbn [fst snd write_ok with_writes] in Hr, Hc', Hc, Hff. subst r3'.
      destruct (forallb (fun b => b) (committed r3)).
      * match goal with
        | |- context [saveRoom o 2 ?r4' s3] => set (r4 := r4')
        end.
        pose proof (saveRoom_fst_writes o w 2 r4 s3 s3') as Hr5.
        pose proof (saveRoom_cache (with_writes w o) 2 r4 s3') as Hc5'.
        pose proof (saveRoom_cache o 2 r4 s3) as Hc5.
        pose proof (@saveRoom_files_fail (with_writes w o) 2 r4 s3') as Hff5.
        destruct (saveRoom (with_writes w o) 2 r4 s3') as [r5' s5'].
        destruct (saveRoom o 2 r4 s3) as [r5 s5].
        cbn [fst snd write_ok with_writes] in Hr5, Hc5', Hc5, Hff5. subst r5'.
        unfold roomState. cbn [fst snd].
        split; [reflexivity|]. split; [reflexivity|]. split.
        -- apply cache_putRoom_eq. congruence.
        -- intros Hw. rewrite roomFiles_putRoom, (Hff5 (Hw _)), (Hff (Hw _)).
           exact Hf2.
      * cbn [fst snd].
        split; [reflexivity|]. split; [reflexivity|]. split.
        -- apply cache_putRoom_eq. congruence.
        -- intros Hw. rewrite roomFiles_putRoom, (Hff (Hw _)). exact Hf2.
    + destruct (negb (in_range fl)); [repeat split; auto|].
      destruct (negb (truthy _)); [repeat split; auto|].
      destruct (JsMap.get _ _ _) as [e|]; [|repeat split; auto].
      destruct (expiresAt e <=? now o); repeat split; auto.
Qed.

Lemma persistence_failure_is_silent_witness :
  let o := Sample.oracle 3000 "0.zzzzzzzzz" "0.x" "0.y" Sample.all_ok in
  let d := Sample.data "ABCDEFG" (Some "tok1aaaaaa-tok2bbbbbb") (NInt 1) in
  let ws := mkConn "ABCDEFG" "203.0.113.7" in
  let s := server (run default_config fresh_world
                       [ EConnect "203.0.113.7"; Sample.create 1000 "0.abcdefghij";
                         Sample.join_by_id 2000 "ABCDEFG" "0.tok1aaaaaa" "0.tok2bbbbbb" ]) in
  submitted "ABCDEFG" 1 (snd (on_submit_frame o d ws s)) = true /\
  snd (on_submit_frame (with_writes Sample.disk_down o) d ws s) =
    snd (on_submit_frame o d ws s) /\
  roomFiles (fst (fst (on_submit_frame (with_writes Sample.disk_down o) d ws s))) =
    roomFiles s.
Proof.
  intros o d ws s.
  destruct (persistence_failure_is_silent o Sample.disk_down d ws s 0%nat
              (mkRoom "" "" [] [] 0 0 "" [] [])) as (_ & Ho & _ & _ & Hf).
  split; [vm_compute; reflexivity|].
  split; [exact Ho | apply Hf; reflexivity].
Defined.

(** C3, as stated, fails: with every write failing, the
    [submit_frame] of frame 1 is answered with [submitted] and no [error];
    afterwards the cached room has frame 1 committed and the room file has
    not, and nothing reloads the room while it stays cached. *)
Lemma persistence_failure_counterexample :
  let out := last (outputs default_config fresh_world Sample.failed_save) [] in
  let s := server (run default_config fresh_world Sample.failed_save) in
  submitted "ABCDEFG" 1 out = true /\
  existsb is_error out = false /\
  option_map (fun e => at_bool (committed (room e)) 1)
             (JsMap.get String.eqb "ABCDEFG" (cache s)) = Some true /\
  option_map (fun j => at_bool (j_committed j) 1)
             (JsMap.get String.eqb "ABCDEFG" (roomFiles s)) = Some false.
Proof. vm_compute. repeat split; reflexivity. Qed.

(** ** Room ids *)

Lemma upper_char_idem c : upper_char (upper_char c) = upper_char c.
Proof.
  unfold upper_char at 2. destruct (is_lower c) eqn:E; [|unfold upper_char; rewrite E; reflexivity].
  unfold upper_char. destruct c as [b0 b1 b2 b3 b4 b5 b6 b7].
  destruct b0, b1, b2, b3, b4, b5, b6, b7; try discriminate E; reflexivity.
Qed.

Lemma is_space_upper_char c : is_space (upper_char c) = is_space c.
Proof.
  destruct c as [b0 b1 b2 b3 b4 b5 b6 b7].
  destruct b0, b1, b2, b3, b4, b5, b6, b7; reflexivity.
Qed.

Lemma toUpperCase_idem s : toUpperCase (toUpperCase s) = toUpperCase s.
Proof.
  induction s as [|c r IH]; [reflexivity|].
  cbn [toUpperCase map_chars] in *. rewrite upper_char_idem. f_equal. exact IH.
Qed.

Lemma trimStart_toUpperCase s : trimStart (toUpperCase s) = toUpperCase (trimStart s).
Proof.
  induction s as [|c r IH]; [reflexivity|].
  cbn [toUpperCase map_chars trimStart] in *.
  rewrite is_space_upper_char. destruct (is_space c); [exact IH | reflexivity].
Qed.

Lemma rev_string_toUpperCase s : forall acc,
  rev_string (toUpperCase acc) (toUpperCase s) = toUpperCase (rev_string acc s).
Proof.
  induction s as [|c r IH]; intros acc; [reflexivity|].
  cbn [toUpperCase map_chars rev_string].
  apply (IH (String c acc)).
Qed.

Lemma trim_toUpperCase s : trim (toUpperCase s) = toUpperCase (trim s).
Proof.
  assert (R : forall u, rev_string "" (toUpperCase u) = toUpperCase (rev_string "" u))
    by (intros u; apply (rev_string_toUpperCase u "")).
  unfold trim.
  rewrite trimStart_toUpperCase, R, trimStart_toUpperCase, R. reflexivity.
Qed.

Lemma trimStart_idem s : trimStart (trimStart s) = trimStart s.
Proof.
  induction s as [|c r IH]; [reflexivity|].
  cbn [trimStart]. destruct (is_space c) eqn:E; [exact IH|].
  cbn [trimStart]. rewrite E. reflexivity.
Qed.

Lemma trimStart_space c s : is_space c = true -> trimStart (String c s) = trimStart s.
Proof. intros H. cbn [trimStart]. rewrite H. reflexivity. Qed.

(** X1. Room ids are read leniently and stored strictly:
    [normalizeRoomId] answers the empty string or 6 to 12 characters of
    [A-Z0-9]; it is idempotent, ignores the case of its argument and
    leading white space. *)
Theorem normalizeRoomId_shape x :
  (normalizeRoomId x = "" \/
   (all_chars is_upper_alnum (normalizeRoomId x) = true /\
    (6 <= String.length (normalizeRoomId x) <= 12)%nat)) /\
  normalizeRoomId (normalizeRoomId x) = normalizeRoomId x /\
  normalizeRoomId (toUpperCase x) = normalizeRoomId x /\
  (forall c, is_space c = true -> normalizeRoomId (String c x) = normalizeRoomId x).
Proof.
  split; [|split; [apply normalizeRoomId_idempotent|split]].
  - unfold normalizeRoomId.
    destruct (ROOM_ID_RE (toUpperCase (trim x))) eqn:E; [right|left; reflexivity].
    unfold ROOM_ID_RE in E.
    apply andb_true_iff in E. destruct E as [E E3].
    apply andb_true_iff in E. destruct E as [E1 E2].
    apply Nat.leb_le in E2, E3. auto.
  - unfold normalizeRoomId. rewrite trim_toUpperCase, toUpperCase_idem. reflexivity.
  - intros c Hc. unfold normalizeRoomId, trim.
    rewrite (@trimStart_space c x Hc). reflexivity.
Qed.

(** ** The reservation sweep, again *)

Lemma swept_cleanupReservations t t' r e :
  swept t' (cleanupReservations t r) e = swept t' r e.
Proof. reflexivity. Qed.

Lemma swept_later t t' r e : t <= t' -> swept t r e = true -> swept t' r e = true.
Proof.
  unfold swept. intros Ht H.
  destruct (expiresAt e <=? t) eqn:E1.
  - apply Z.leb_le in E1.
    assert (E2 : (expiresAt e <=? t') = true) by (apply Z.leb_le; lia).
    rewrite E2. reflexivity.
  - destruct (expiresAt e <=? t'); [reflexivity | exact H].
Qed.

Lemma filter_filter_impl {A : Type} (f g : A -> bool) l :
  (forall x, g x = true -> f x = true) ->
  filter g (filter f l) = filter g l.
Proof.
  intros H. induction l as [|a l IH]; [reflexivity|].
  cbn [filter]. destruct (f a) eqn:Ef.
  - cbn [filter]. rewrite IH. reflexivity.
  - rewrite IH. destruct (g a) eqn:Eg; [|reflexivity].
    apply H in Eg. congruence.
Qed.

Lemma fold_left_id {A B : Type} (f : B -> A -> B) l : forall b,
  (forall x b', In x l -> f b' x = b') -> fold_left f l b = b.
Proof.
  induction l as [|a l IH]; intros b H; [reflexivity|].
  cbn [fold_left]. rewrite (H a b (or_introl eq_refl)).
  apply IH. intros x b' Hx. apply H. right. exact Hx.
Qed.

Lemma reservations_cleanupReservations t r :
  reservations (cleanupReservations t r) =
  filter (fun e => negb (swept t r (snd e))) (reservations r).
Proof. reflexivity. Qed.

Lemma reservedByFrame_kept t r :
  reservedByFrame (cleanupReservations t (cleanupReservations t r)) =
  reservedByFrame (cleanupReservations t r).
Proof.
  unfold cleanupReservations at 1.
  cbn [reservedByFrame with_reservations].
  apply fold_left_id. intros [tok e] b H.
  rewrite reservations_cleanupReservations in H.
  apply filter_In in H. destruct H as [_ H]. cbn [snd] in H.
  apply negb_true_iff in H. rewrite swept_cleanupReservations, H. reflexivity.
Qed.

Lemma cleanupReservations_twice t r :
  cleanupReservations t (cleanupReservations t r) = cleanupReservations t r.
Proof.
  pose proof (reservedByFrame_kept t r) as Hb.
  assert (Hr : reservations (cleanupReservations t (cleanupReservations t r)) =
               reservations (cleanupReservations t r)).
  { rewrite (reservations_cleanupReservations t (cleanupReservations t r)).
    rewrite reservations_cleanupReservations.
    apply filter_filter_impl. auto. }
  set (c := cleanupReservations t r) in *.
  assert (E : cleanupReservations t c =
              with_reservations (reservations (cleanupReservations t c))
                                (reservedByFrame (cleanupReservations t c)) c)
    by reflexivity.
  rewrite E, Hr, Hb. reflexivity.
Qed.

(** X2. The sweep is idempotent, and a later sweep makes an
    earlier one redundant for the reservations that remain. *)
Theorem cleanupReservations_idempotent t t' r :
  cleanupReservations t (cleanupReservations t r) = cleanupReservations t r /\
  (t <= t' ->
   reservations (cleanupReservations t' (cleanupReservations t r)) =
   reservations (cleanupReservations t' r)).
Proof.
  split; [apply cleanupReservations_twice|].
  intros Ht.
  rewrite (reservations_cleanupReservations t' (cleanupReservations t r)).
  rewrite !reservations_cleanupReservations.
  apply filter_filter_impl. intros [tok e]. cbn [snd].
  intros H. apply negb_true_iff in H. apply negb_true_iff.
  destruct (swept t r e) eqn:E; [|reflexivity].
  apply (swept_later _ _ Ht) in E. congruence.
Qed.

(** ** Frame assignment *)

Lemma firstEmptyFrom_spec room fuel : forall i,
  0 <= i ->
  let taken j :=
    at_bool (committed room) j || JsMap.has Z.eqb j (reservedByFrame room) in
  let k := firstEmptyFrom room i fuel in
  (k = -1 /\ forall j, i <= j < i + Z.of_nat fuel -> taken j = true) \/
  (i <= k < i + Z.of_nat fuel /\ taken k = false /\
   forall j, i <= j < k -> taken j = true).
Proof.
  induction fuel as [|fuel IH]; intros i Hi taken k.
  - left. split; [reflexivity|]. intros j Hj. lia.
  - subst k. cbn [firstEmptyFrom].
    destruct (at_bool (committed room) i) eqn:Ec.
    + destruct (IH (i + 1) ltac:(lia)) as [[Hk Hall] | (Hk & Hf & Hall)].
      * left. split; [exact Hk|]. intros j Hj.
        destruct (Z.eq_dec j i) as [->|Hne];
          [unfold taken; rewrite Ec; reflexivity | apply Hall; lia].
      * right. split; [lia|]. split; [exact Hf|]. intros j Hj.
        destruct (Z.eq_dec j i) as [->|Hne];
          [unfold taken; rewrite Ec; reflexivity | apply Hall; lia].
    + destruct (JsMap.has Z.eqb i (reservedByFrame room)) eqn:Eh.
      * destruct (IH (i + 1) ltac:(lia)) as [[Hk Hall] | (Hk & Hf & Hall)].
        -- left. split; [exact Hk|]. intros j Hj.
           destruct (Z.eq_dec j i) as [->|Hne];
             [unfold taken; rewrite Ec, Eh; reflexivity | apply Hall; lia].
        -- right. split; [lia|]. split; [exact Hf|]. intros j Hj.
           destruct (Z.eq_dec j i) as [->|Hne];
             [unfold taken; rewrite Ec, Eh; reflexivity | apply Hall; lia].
      * right. split; [lia|]. split; [unfold taken; rewrite Ec, Eh; reflexivity|].
        intros j Hj. lia.
Qed.

(** X3. [firstYoungestEmpty] sweeps the room and answers the
    lowest frame of 0..59 that is neither committed nor reserved, or -1
    exactly when every frame is committed or reserved. *)
Theorem firstYoungestEmpty_lowest_free t room :
  let room' := cleanupReservations t room in
  let taken j :=
    at_bool (committed room) j || JsMap.has Z.eqb j (reservedByFrame room') in
  let k := fst (firstYoungestEmpty t room) in
  snd (firstYoungestEmpty t room) = room' /\
  ((k = -1 /\ forall j, 0 <= j < 60 -> taken j = true) \/
   (0 <= k < 60 /\ taken k = false /\ forall j, 0 <= j < k -> taken j = true)).
Proof.
  intros room' taken k. split; [reflexivity|].
  pose proof (@firstEmptyFrom_spec (cleanupReservations t room) 60 0 ltac:(lia)) as H.
  cbv zeta in H.
  rewrite committed_cleanupReservations in H.
  exact H.
Qed.

(** ** Loading a room file *)

Lemma zget_set_eq {V : Type} k (v : V) m :
  JsMap.get Z.eqb k (JsMap.set Z.eqb k v m) = Some v.
Proof. apply get_set_eq. apply Z.eqb_eq. Qed.

Lemma zget_set_ne {V : Type} k k' (v : V) m :
  k <> k' -> JsMap.get Z.eqb k' (JsMap.set Z.eqb k v m) = JsMap.get Z.eqb k' m.
Proof. intros H. apply get_set_ne; [apply Z.eqb_eq | exact H]. Qed.

Lemma zget_delete_eq {V : Type} k (m : JsMap.t Z V) :
  JsMap.get Z.eqb k (JsMap.delete Z.eqb k m) = None.
Proof. apply get_delete_eq. Qed.

Lemma zget_delete_ne {V : Type} k k' (m : JsMap.t Z V) :
  k <> k' -> JsMap.get Z.eqb k' (JsMap.delete Z.eqb k m) = JsMap.get Z.eqb k' m.
Proof. intros H. apply get_delete_ne; [apply Z.eqb_eq | exact H]. Qed.

Lemma zget_delete_some {V : Type} k k' (m : JsMap.t Z V) v :
  JsMap.get Z.eqb k' (JsMap.delete Z.eqb k m) = Some v ->
  k <> k' /\ JsMap.get Z.eqb k' m = Some v.
Proof.
  intros H. destruct (Z.eq_dec k k') as [->|Hne].
  - rewrite zget_delete_eq in H. discriminate.
  - rewrite zget_delete_ne in H by exact Hne. auto.
Qed.

Lemma keys_set {V : Type} k (v : V) m :
  JsMap.keys (JsMap.set String.eqb k v m) =
  if JsMap.has String.eqb k m then JsMap.keys m else JsMap.keys m ++ [k].
Proof.
  unfold JsMap.has, JsMap.keys.
  induction m as [|[k' v'] m IH]; [reflexivity|].
  cbn [JsMap.set JsMap.get map fst].
  destruct (String.eqb_spec k k') as [->|Hne]; [reflexivity|].
  cbn [map fst]. rewrite IH.
  destruct (JsMap.get String.eqb k m); reflexivity.
Qed.

Lemma has_keys {V : Type} k (m : JsMap.t string V) :
  JsMap.has String.eqb k m = false -> ~ In k (JsMap.keys m).
Proof.
  unfold JsMap.has, JsMap.keys.
  induction m as [|[k' v'] m IH]; cbn [JsMap.get map fst]; [tauto|].
  destruct (String.eqb_spec k k') as [->|Hne]; [discriminate|].
  intros H [E|Hin]; [congruence | exact (IH H Hin)].
Qed.

Lemma NoDup_keys_set {V : Type} k (v : V) m :
  NoDup (JsMap.keys m) -> NoDup (JsMap.keys (JsMap.set String.eqb k v m)).
Proof.
  intros H. rewrite keys_set.
  destruct (JsMap.has String.eqb k m) eqn:E; [exact H|].
  apply NoDup_app; [exact H | repeat constructor; intros [] |].
  intros x Hx [<-|[]]. exact (has_keys _ _ E Hx).
Qed.

Lemma NoDup_keys_filter {K V : Type} (f : K * V -> bool) (m : JsMap.t K V) :
  NoDup (JsMap.keys m) -> NoDup (JsMap.keys (filter f m)).
Proof.
  unfold JsMap.keys. induction m as [|a m IH]; intros H; [constructor|].
  cbn [map] in H. inversion H as [|x l Hx Hl]; subst.
  cbn [filter]. destruct (f a); [|exact (IH Hl)].
  cbn [map]. constructor; [|exact (IH Hl)].
  intros Hin. apply Hx. apply in_map_iff in Hin. destruct Hin as (y & Ey & Hy).
  apply filter_In in Hy. apply in_map_iff. exists y. tauto.
Qed.

Lemma fold_left_invariant {A B : Type} (P : B -> Prop) (f : B -> A -> B) l :
  (forall b x, P b -> P (f b x)) -> forall b, P b -> P (fold_left f l b).
Proof.
  intros Hf. induction l as [|a l IH]; intros b Hb; [exact Hb|].
  cbn [fold_left]. apply IH, Hf, Hb.
Qed.

Lemma randTheme_truthy u : truthy (randTheme u) = true.
Proof.
  unfold randTheme.
  assert (H : (u mod List.length THEME_POOL < 18)%nat)
    by (apply Nat.mod_upper_bound; discriminate).
  revert H. generalize (u mod List.length THEME_POOL)%nat. intros n H.
  do 18 (destruct n as [|n]; [reflexivity|]). lia.
Qed.

(** The sweep only removes keys of [reservedByFrame], and a key that
    survives it was not the frame of a swept entry naming its token. *)
Lemma sweep_fold_get t room fi tok L : forall rbf,
  JsMap.get Z.eqb fi
    (fold_left
       (fun (rbf : ReservedByFrame) (e : string * Reservation) =>
          let '(tok, r) := e in
          if swept t room r then
            if in_range (frameIndex r) then
              match JsMap.get Z.eqb (frameIndex r) rbf with
              | Some curTok =>
                  if String.eqb curTok tok
                  then JsMap.delete Z.eqb (frameIndex r) rbf else rbf
              | None => rbf
              end
            else rbf
          else rbf) L rbf) = Some tok ->
  JsMap.get Z.eqb fi rbf = Some tok /\
  forall e, In (tok, e) L -> frameIndex e = fi -> in_range fi = true ->
            swept t room e = false.
Proof.
  induction L as [|[tok' e'] L IH]; intros rbf H; cbn [fold_left] in H.
  - split; [exact H|]. intros e [].
  - apply IH in H. destruct H as [Hg Hall].
    assert (Hrbf : JsMap.get Z.eqb fi rbf = Some tok).
    { destruct (swept t room e'); [|exact Hg].
      destruct (in_range (frameIndex e')); [|exact Hg].
      destruct (JsMap.get Z.eqb (frameIndex e') rbf) as [cur|]; [|exact Hg].
      destruct (String.eqb cur tok'); [|exact Hg].
      apply zget_delete_some in Hg. tauto. }
    split; [exact Hrbf|].
    intros e [E|Hin] Hfi Hr; [|exact (Hall e Hin Hfi Hr)].
    injection E as -> ->.
    destruct (swept t room e) eqn:Es; [|reflexivity].
    rewrite Hfi, Hr, Hrbf, String.eqb_refl, zget_delete_eq in Hg.
    discriminate.
Qed.

(** ** Reservation sweep (C5) *)

Lemma sweep_fold_none t room fi L rbf :
  JsMap.get Z.eqb fi rbf = None ->
  JsMap.get Z.eqb fi
    (fold_left
       (fun (rbf : ReservedByFrame) (e : string * Reservation) =>
          let '(tok, r) := e in
          if swept t room r then
            if in_range (frameIndex r) then
              match JsMap.get Z.eqb (frameIndex r) rbf with
              | Some curTok =>
                  if String.eqb curTok tok
                  then JsMap.delete Z.eqb (frameIndex r) rbf else rbf
              | None => rbf
              end
            else rbf
          else rbf) L rbf) = None.
Proof.
  intros H.
  match goal with |- ?g = None => destruct g as [x|] eqn:E; [|reflexivity] end.
  apply sweep_fold_get in E. destruct E as [E _]. congruence.
Qed.

(** An entry of [reservedByFrame] stays, or it goes with its token. *)
Lemma sweep_fold_cleared t room fi tok L : forall rbf,
  JsMap.get Z.eqb fi rbf = Some tok ->
  JsMap.get Z.eqb fi
    (fold_left
       (fun (rbf : ReservedByFrame) (e : string * Reservation) =>
          let '(tok, r) := e in
          if swept t room r then
            if in_range (frameIndex r) then
              match JsMap.get Z.eqb (frameIndex r) rbf with
              | Some curTok =>
                  if String.eqb curTok tok
                  then JsMap.delete Z.eqb (frameIndex r) rbf else rbf
              | None => rbf
              end
            else rbf
          else rbf) L rbf) = Some tok \/
  (JsMap.get Z.eqb fi
     (fold_left
       (fun (rbf : ReservedByFrame) (e : string * Reservation) =>
          let '(tok, r) := e in
          if swept t room r then
            if in_range (frameIndex r) then
              match JsMap.get Z.eqb (frameIndex r) rbf with
              | Some curTok =>
                  if String.eqb curTok tok
                  then JsMap.delete Z.eqb (frameIndex r) rbf else rbf
              | None => rbf
              end
            else rbf
          else rbf) L rbf) = None /\
   exists e, In (tok, e) L /\ frameIndex e = fi /\ in_range fi = true /\
             swept t room e = true).
Proof.
  induction L as [|[tok' e'] L IH]; intros rbf H; cbn [fold_left]; [left; exact H|].
  assert (Hstep : forall rbf1, JsMap.get Z.eqb fi rbf1 = Some tok ->
            JsMap.get Z.eqb fi
              (fold_left
                 (fun (rbf : ReservedByFrame) (e : string * Reservation) =>
          let '(tok, r) := e in
          if swept t room r then
            if in_range (frameIndex r) then
              match JsMap.get Z.eqb (frameIndex r) rbf with
              | Some curTok =>
                  if String.eqb curTok tok
                  then JsMap.delete Z.eqb (frameIndex r) rbf else rbf
              | None => rbf
              end
            else rbf
          else rbf) L rbf1) = Some tok \/
            (JsMap.get Z.eqb fi
               (fold_left
                 (fun (rbf : ReservedByFrame) (e : string * Reservation) =>
          let '(tok, r) := e in
          if swept t room r then
            if in_range (frameIndex r) then
              match JsMap.get Z.eqb (frameIndex r) rbf with
              | Some curTok =>
                  if String.eqb curTok tok
                  then JsMap.delete Z.eqb (frameIndex r) rbf else rbf
              | None => rbf
              end
            else rbf
          else rbf) L rbf1) = None /\
             exists e, In (tok, e) ((tok', e') :: L) /\ frameIndex e = fi /\
                       in_range fi = true /\ swept t room e = true)).
  { intros rbf1 H1. destruct (IH rbf1 H1) as [E | (E & e & Hin & He)];
      [left; exact E | right; split; [exact E|]; exists e; split; [right; exact Hin | exact He]]. }
  destruct (swept t room e') eqn:Es; [|apply Hstep, H].
  destruct (in_range (frameIndex e')) eqn:Er; [|apply Hstep, H].
  destruct (JsMap.get Z.eqb (frameIndex e') rbf) as [cur|] eqn:Ec; [|apply Hstep, H].
  destruct (String.eqb cur tok') eqn:Ecur; [|apply Hstep, H].
  apply String.eqb_eq in Ecur. subst cur.
  destruct (Z.eq_dec (frameIndex e') fi) as [Efi | Hne].
  - right. subst fi. rewrite H in Ec. injection Ec as <-. split.
    + apply sweep_fold_none, zget_delete_eq.
    + exists e'. split; [left; reflexivity|]. auto.
  - apply Hstep. rewrite zget_delete_ne by exact Hne. exact H.
Qed.

(** C5, as the code has it: the sweep keeps exactly the
    entries that are unexpired, in range and on an uncommitted frame; it
    never consults [reservedByFrame] to decide, so a live entry whose frame
    is mapped to another token stays. It adds and changes no entry of
    [reservedByFrame], and clears the entry of a frame exactly when that
    entry names a token that the sweep removes for that frame. *)
Theorem cleanupReservations_keeps t r :
  (forall tok e,
      In (tok, e) (reservations (cleanupReservations t r)) <->
      In (tok, e) (reservations r) /\
      t < expiresAt e /\ in_range (frameIndex e) = true /\
      at_bool (committed r) (frameIndex e) = false) /\
  (forall b,
      reservations (cleanupReservations t (with_reservations (reservations r) b r)) =
      reservations (cleanupReservations t r)) /\
  (forall fi tok,
      JsMap.get Z.eqb fi (reservedByFrame (cleanupReservations t r)) = Some tok ->
      JsMap.get Z.eqb fi (reservedByFrame r) = Some tok) /\
  (forall fi tok,
      JsMap.get Z.eqb fi (reservedByFrame r) = Some tok ->
      (JsMap.get Z.eqb fi (reservedByFrame (cleanupReservations t r)) = Some tok \/
       JsMap.get Z.eqb fi (reservedByFrame (cleanupReservations t r)) = None) /\
      (JsMap.get Z.eqb fi (reservedByFrame (cleanupReservations t r)) = None <->
       exists e, In (tok, e) (reservations r) /\ frameIndex e = fi /\
                 in_range fi = true /\
                 (expiresAt e <= t \/ at_bool (committed r) fi = true))).
Proof.
  assert (Hsw : forall e, in_range (frameIndex e) = true ->
            (swept t r e = true <->
             expiresAt e <= t \/ at_bool (committed r) (frameIndex e) = true)).
  { intros e Hr. unfold swept. rewrite Hr. cbn [negb].
    rewrite orb_false_r, orb_true_iff, Z.leb_le. reflexivity. }
  split; [|split; [reflexivity|split]].
  - intros tok e. unfold cleanupReservations. simpl.
    rewrite filter_In. simpl. unfold swept.
    destruct (in_range (frameIndex e)) eqn:Hr; simpl;
      destruct (expiresAt e <=? t) eqn:Hx; simpl;
      try destruct (at_bool (committed r) (frameIndex e)) eqn:Hc; simpl;
      try apply Z.leb_le in Hx; try apply Z.leb_gt in Hx;
      intuition (try discriminate; try lia).
  - intros fi tok Hg. apply sweep_fold_get in Hg. tauto.
  - intros fi tok Hg.
    pose proof (@sweep_fold_cleared t r fi tok (reservations r) (reservedByFrame r) Hg)
      as Hc.
    change (fold_left _ (reservations r) (reservedByFrame r))
      with (reservedByFrame (cleanupReservations t r)) in Hc.
    split.
    + destruct Hc as [E | [E _]]; [left | right]; exact E.
    + split.
      * intros En. destruct Hc as [E | (_ & e & Hin & Hfi & Hr & Hs)]; [congruence|].
        exists e. split; [exact Hin|]. split; [exact Hfi|]. split; [exact Hr|].
        subst fi. apply Hsw; assumption.
      * intros (e & Hin & Hfi & Hr & Hs).
        destruct Hc as [E | [E _]]; [|exact E]. exfalso.
        apply sweep_fold_get in E. destruct E as [_ Hall].
        specialize (Hall e Hin Hfi Hr).
        subst fi. apply Hsw in Hs; [|exact Hr]. congruence.
Qed.

(** C5 as stated fails: a room file that lists tokens [A] and [B] for the
    same frame 5 loads with [reservedByFrame[5] = B], and the sweep leaves
    the orphan [A] in [reservations]. *)
Lemma cleanupReservations_counterexample :
  match deserializeRoom 3000 0 Sample.two_tokens_json with
  | Some r =>
      let r' := cleanupReservations 3000 r in
      JsMap.get Z.eqb 5 (reservedByFrame r') = Some "B" /\
      JsMap.get String.eqb "A" (reservations r') = Some (mkReservation 5 900000)
  | None => False
  end.
Proof. vm_compute. split; reflexivity. Qed.

Lemma cleanupReservations_backed_aux t p room :
  (forall fi tok,
      JsMap.get Z.eqb fi (reservedByFrame room) = Some tok ->
      in_range fi = true /\
      exists e, In (tok, e) (reservations room) /\ frameIndex e = fi) ->
  backed (with_phase p (cleanupReservations t room)).
Proof.
  intros H fi tok Hg.
  change (reservedByFrame (with_phase p (cleanupReservations t room)))
    with (reservedByFrame (cleanupReservations t room)) in Hg.
  change (reservations (with_phase p (cleanupReservations t room)))
    with (reservations (cleanupReservations t room)).
  apply sweep_fold_get in Hg. destruct Hg as [Hg Hall].
  destruct (H fi tok Hg) as (Hr & e & Hin & Hfi).
  exists e. split; [|exact Hfi].
  rewrite reservations_cleanupReservations.
  apply filter_In. split; [exact Hin|].
  cbn [snd]. rewrite (Hall e Hin Hfi Hr). reflexivity.
Qed.

(** X4. The sweep keeps [reservedByFrame] backed by
    [reservations]: an entry that survives still names a token held for
    its frame, and the sweep adds no entry. *)
Theorem cleanupReservations_backed t room :
  (forall fi tok,
      JsMap.get Z.eqb fi (reservedByFrame room) = Some tok ->
      in_range fi = true /\
      exists e, In (tok, e) (reservations room) /\ frameIndex e = fi) ->
  backed (cleanupReservations t room) /\
  (forall fi tok,
      JsMap.get Z.eqb fi (reservedByFrame (cleanupReservations t room)) = Some tok ->
      JsMap.get Z.eqb fi (reservedByFrame room) = Some tok).
Proof.
  intros H. split.
  - intros fi tok Hg.
    apply (@cleanupReservations_backed_aux t (phase room) room H fi tok).
    exact Hg.
  - intros fi tok Hg. apply sweep_fold_get in Hg. tauto.
Qed.

Lemma cleanupReservations_backed_witness :
  backed (cleanupReservations 3000 Cases.reserved_room).
Proof.
  apply (fun H => proj1 (@cleanupReservations_backed 3000 Cases.reserved_room H)).
  intros fi tok H. cbn in H.
  destruct (Z.eqb_spec fi 5) as [->|_].
  - injection H as <-. split; [reflexivity|].
    exists (mkReservation 5 900000). split; [left; reflexivity | reflexivity].
  - destruct (Z.eqb_spec fi 7) as [->|_]; [|discriminate H].
    injection H as <-. split; [reflexivity|].
    exists (mkReservation 7 2500). split; [right; left; reflexivity | reflexivity].
Defined.


(** ** Saving and loading *)

Lemma set_fresh {V : Type} k (v : V) m :
  ~ In k (JsMap.keys m) -> JsMap.set String.eqb k v m = m ++ [(k, v)].
Proof.
  unfold JsMap.keys. induction m as [|[k' v'] m IH]; intros H; [reflexivity|].
  cbn [JsMap.set map fst app] in *.
  destruct (String.eqb_spec k k') as [->|Hne]; [exfalso; apply H; left; reflexivity|].
  rewrite IH; [reflexivity|]. intros Hin. apply H. right. exact Hin.
Qed.

Lemma fold_set_append {V : Type} (P : string * V -> Prop)
      (f : JsMap.t string V -> string * V -> JsMap.t string V) L :
  (forall m k v, P (k, v) -> f m (k, v) = JsMap.set String.eqb k v m) ->
  Forall P L ->
  forall m, NoDup (JsMap.keys m ++ JsMap.keys L) -> fold_left f L m = m ++ L.
Proof.
  intros Hf. induction 1 as [|[k v] L Hx HL IH]; intros m Hn.
  - cbn. rewrite app_nil_r. reflexivity.
  - cbn [fold_left]. rewrite (Hf m k v Hx).
    assert (Hk : ~ In k (JsMap.keys m)).
    { intros Hin. unfold JsMap.keys in *. cbn [map fst] in Hn.
      apply NoDup_remove_2 in Hn. apply Hn. apply in_or_app. left. exact Hin. }
    rewrite (@set_fresh _ k v m Hk), IH.
    + rewrite <- app_assoc. reflexivity.
    + unfold JsMap.keys in *. rewrite map_app. cbn [map fst app] in *.
      rewrite <- app_assoc. exact Hn.
Qed.

Lemma normalizeRoomId_truthy id : ROOM_ID_RE id = true -> truthy id = true.
Proof.
  unfold ROOM_ID_RE. intros H. destruct id; [|reflexivity].
  cbn in H. discriminate.
Qed.

(** X6. A room file reads back as the room that was written:
    for a room with a valid id, 60 frames and flags, a trimmed non-empty
    theme, non-zero time stamps and distinct non-empty tokens, loading the
    output of [serializeRoom] (at the same clock) gives the serialised
    room, up to a rebuilt [reservedByFrame]. *)
Theorem serialize_deserialize t u r :
  0 <= t ->
  ROOM_ID_RE (roomId r) = true ->
  List.length (frames r) = 60%nat ->
  List.length (committed r) = 60%nat ->
  truthy (theme r) = true -> trim (theme r) = theme r ->
  createdAt r <> 0 -> updatedAt r <> 0 ->
  NoDup (JsMap.keys (reservations r)) ->
  (forall tok e, In (tok, e) (reservations r) -> truthy tok = true) ->
  exists r',
    deserializeRoom t u (fst (serializeRoom t r)) = Some r' /\
    with_reservations (reservations r') [] r' =
    with_reservations (reservations (snd (serializeRoom t r))) []
                      (snd (serializeRoom t r)).
Proof.
  intros Ht Hid Hf Hc Hth Htr Hca Hua Hn Htok.
  unfold serializeRoom. cbn [fst snd].
  rewrite normalizePhase_eq.
  cbn [roomId theme frames committed createdAt updatedAt phase reservations
       with_phase cleanupReservations with_reservations].
  set (ph := if forallb (fun b => b) (committed r) then PLAYBACK else DRAWING).
  set (R := filter (fun e => negb (swept t r (snd e))) (reservations r)).
  unfold deserializeRoom.
  cbn [j_roomId j_theme j_frames j_committed j_createdAt j_updatedAt j_phase
       j_reservations].
  rewrite (@normalizeRoomId_fixed _ Hid), (@normalizeRoomId_truthy _ Hid).
  cbn [negb]. eexists. split; [reflexivity|].
  rewrite (@pad60_fixed _ None _ Hf), (@pad60_fixed _ false _ Hc), Htr, Hth.
  apply Z.eqb_neq in Hca, Hua. rewrite Hca, Hua.
  assert (Hph : truthy ph = true) by (unfold ph; destruct (forallb _ _); reflexivity).
  rewrite Hph.
  set (P := fun p : string * Reservation =>
              truthy (fst p) = true /\
              in_range (frameIndex (snd p)) = true /\ 0 < expiresAt (snd p)).
  assert (HR : Forall P R).
  { apply Forall_forall. unfold P. intros [tok e] Hin. apply filter_In in Hin.
    destruct Hin as [Hin Hs]. cbn [fst snd] in *.
    apply negb_true_iff in Hs. unfold swept in Hs.
    destruct (in_range (frameIndex e)) eqn:Er;
      [|rewrite orb_true_r in Hs; discriminate].
    apply orb_false_iff in Hs. destruct Hs as [Hs _].
    apply orb_false_iff in Hs. destruct Hs as [Hs _].
    apply Z.leb_gt in Hs.
    split; [exact (Htok _ _ Hin)|]. split; [reflexivity | lia]. }
  match goal with
  | |- context [fold_left ?f R []] =>
      assert (EA : fold_left f R [] = R);
      [apply (@fold_set_append _ P f R) with (m := []);
       [intros m k v H | exact HR | ] | ]
  end.
  { unfold P in H. cbn [fst snd] in H. destruct H as (H1 & H2 & H3).
    rewrite H1, H2. cbn [negb].
    apply Z.leb_gt in H3. rewrite H3. destruct v; reflexivity. }
  { cbn [app]. apply NoDup_keys_filter, Hn. }
  rewrite EA. rewrite normalizePhase_eq.
  cbn [roomId theme frames committed createdAt updatedAt phase reservations
       with_phase cleanupReservations with_reservations reservedByFrame].
  fold ph.
  match goal with
  | |- context [filter ?g R] => assert (E : filter g R = R)
  end.
  { unfold R. apply filter_filter_impl. auto. }
  rewrite E. reflexivity.
Qed.

Lemma serialize_deserialize_witness :
  exists r',
    deserializeRoom 3000 0 (fst (serializeRoom 3000 Cases.reserved_room)) = Some r' /\
    with_reservations (reservations r') [] r' =
    with_reservations (reservations (snd (serializeRoom 3000 Cases.reserved_room))) []
                      (snd (serializeRoom 3000 Cases.reserved_room)).
Proof.
  apply (@serialize_deserialize 3000 0 Cases.reserved_room).
  - lia.
  - reflexivity.
  - reflexivity.
  - reflexivity.
  - reflexivity.
  - reflexivity.
  - discriminate.
  - discriminate.
  - repeat constructor; cbn; intuition discriminate.
  - intros tok e [H|[H|[]]]; injection H as <- <-; reflexivity.
Defined.

(** ** The room cache *)

Lemma with_cache_same s : with_cache (cache s) s = s.
Proof. destruct s; reflexivity. Qed.

(** X7. [getRoom] changes nothing but the cache, and nothing
    at all when it answers no room; a room it answers is cached under the
    normalised id with [lastAccess] at the clock, so that a later
    [getRoom] of the same id answers the same room object whatever the
    room files hold by then. *)
Theorem getRoom_caches o o' x s :
  with_cache (cache s) (snd (getRoom o x s)) = s /\
  (fst (getRoom o x s) = None -> snd (getRoom o x s) = s) /\
  (forall key r,
      fst (getRoom o x s) = Some (key, r) ->
      key = normalizeRoomId x /\
      JsMap.get String.eqb key (cache (snd (getRoom o x s))) =
        Some (mkCacheEntry r (now o)) /\
      forall files,
        fst (getRoom o' x (with_roomFiles files (snd (getRoom o x s)))) =
        Some (key, r)).
Proof.
  assert (Hit : forall key r c,
             negb (truthy (normalizeRoomId x)) = false ->
             key = normalizeRoomId x ->
             forall files,
               fst (getRoom o' x
                      (with_roomFiles files
                         (with_cache (JsMap.set String.eqb key (mkCacheEntry r (now o)) c) s)))
               = Some (key, r)).
  { intros key r c Et -> files. unfold getRoom. rewrite Et.
    cbn [cache with_cache with_roomFiles]. rewrite sget_set_eq. reflexivity. }
  destruct (getRoom o x s) as [res s1] eqn:E. cbn [fst snd].
  unfold getRoom in E.
  destruct (negb (truthy (normalizeRoomId x))) eqn:Et.
  { injection E as <- <-. split; [apply with_cache_same|]. split; [auto|]. discriminate. }
  destruct (JsMap.get String.eqb (normalizeRoomId x) (cache s)) as [e|] eqn:Ec.
  - unfold touch in E. rewrite Ec in E. injection E as <- <-.
    split; [destruct s; reflexivity|]. split; [discriminate|].
    intros key r [= <- <-]. split; [reflexivity|].
    cbn [cache with_cache]. rewrite sget_set_eq. split; [reflexivity|].
    apply Hit; auto.
  - destruct (roomFile (normalizeRoomId x)) as [fp|];
      [|injection E as <- <-; split; [apply with_cache_same|]; split; [auto|discriminate]].
    destruct (JsMap.get String.eqb fp (roomFiles s)) as [obj|];
      [|injection E as <- <-; split; [apply with_cache_same|]; split; [auto|discriminate]].
    destruct (deserializeRoom (now o) (rnd_theme o) obj) as [room|];
      [|injection E as <- <-; split; [apply with_cache_same|]; split; [auto|discriminate]].
    injection E as <- <-.
    split; [destruct s; reflexivity|]. split; [discriminate|].
    intros key r [= <- <-]. split; [reflexivity|].
    cbn [cache with_cache]. rewrite sget_set_eq. split; [reflexivity|].
    apply Hit; auto.
Qed.

(** ** Eviction *)

Lemma insert_by_lastAccess_perm x l : Permutation (insert_by_lastAccess x l) (x :: l).
Proof.
  induction l as [|y l IH]; cbn [insert_by_lastAccess]; [reflexivity|].
  destruct (lastAccess (snd x) <=? lastAccess (snd y)); [reflexivity|].
  rewrite IH. apply perm_swap.
Qed.

Lemma sort_by_lastAccess_perm l : Permutation (sort_by_lastAccess l) l.
Proof.
  induction l as [|x l IH]; cbn [sort_by_lastAccess fold_right]; [reflexivity|].
  fold (sort_by_lastAccess l). rewrite insert_by_lastAccess_perm, IH. reflexivity.
Qed.

Lemma insert_by_lastAccess_sorted x l :
  StronglySorted older l -> StronglySorted older (insert_by_lastAccess x l).
Proof.
  induction 1 as [|y l Hl IH Hy]; cbn [insert_by_lastAccess].
  - repeat constructor.
  - destruct (lastAccess (snd x) <=? lastAccess (snd y)) eqn:E.
    + apply Z.leb_le in E. constructor; [constructor; assumption|].
      constructor; [exact E|].
      eapply Forall_impl; [|exact Hy]. unfold older. intros a Ha. lia.
    + apply Z.leb_gt in E. constructor; [exact IH|].
      eapply Permutation_Forall; [symmetry; apply insert_by_lastAccess_perm|].
      constructor; [unfold older; lia | exact Hy].
Qed.

Lemma sort_by_lastAccess_sorted l : StronglySorted older (sort_by_lastAccess l).
Proof.
  induction l as [|x l IH]; cbn [sort_by_lastAccess fold_right]; [constructor|].
  apply insert_by_lastAccess_sorted, IH.
Qed.

Lemma filter_filter_and {A : Type} (f g : A -> bool) l :
  filter f (filter g l) = filter (fun x => g x && f x) l.
Proof.
  induction l as [|a l IH]; [reflexivity|].
  cbn [filter]. destruct (g a); cbn [filter andb]; rewrite IH; reflexivity.
Qed.

Lemma fold_delete_filter {V : Type} (ks : list (string * V)) : forall c : JsMap.t string V,
  fold_left (fun c ke => JsMap.delete String.eqb (fst ke) c) ks c =
  filter (fun kv => negb (JsSet.has (fst kv) (JsMap.keys ks))) c.
Proof.
  induction ks as [|[k v] ks IH]; intros c; cbn [fold_left].
  - symmetry. apply filter_all. reflexivity.
  - rewrite IH. unfold JsMap.delete. rewrite filter_filter_and.
    apply filter_ext. intros [k' v']. cbn [fst JsMap.keys map JsSet.has existsb].
    rewrite negb_orb, (String.eqb_sym k' k). reflexivity.
Qed.

Lemma fold_drop_filter {V : Type} (p : string * V -> bool) (ks : list (string * V)) :
  forall c : JsMap.t string V,
  fold_left (fun c ke => if p ke then JsMap.delete String.eqb (fst ke) c else c) ks c =
  filter (fun kv => negb (JsSet.has (fst kv) (JsMap.keys (filter p ks)))) c.
Proof.
  induction ks as [|[k v] ks IH]; intros c; cbn [fold_left filter].
  - symmetry. apply filter_all. reflexivity.
  - rewrite IH. destruct (p (k, v)); [|reflexivity].
    unfold JsMap.delete. rewrite filter_filter_and.
    apply filter_ext. intros [k' v']. cbn [fst JsMap.keys map JsSet.has existsb].
    rewrite negb_orb, (String.eqb_sym k' k). reflexivity.
Qed.

Lemma In_keys {V : Type} k (v : V) (m : JsMap.t string V) : In (k, v) m -> In k (JsMap.keys m).
Proof. intros H. apply in_map_iff. exists (k, v). auto. Qed.

Lemma NoDup_keys_In {V : Type} k (v v' : V) (m : JsMap.t string V) :
  NoDup (JsMap.keys m) -> In (k, v) m -> In (k, v') m -> v = v'.
Proof.
  unfold JsMap.keys. induction m as [|[k0 v0] m IH]; intros Hn H1 H2; [destruct H1|].
  cbn [map fst] in Hn. inversion Hn as [|x l Hx Hl]; subst.
  destruct H1 as [E1|H1], H2 as [E2|H2].
  - congruence.
  - injection E1 as -> ->. exfalso. apply Hx. exact (In_keys _ _ _ H2).
  - injection E2 as -> ->. exfalso. apply Hx. exact (In_keys _ _ _ H1).
  - exact (IH Hl H1 H2).
Qed.

(** Dropping the keys of a prefix of a list with distinct keys leaves the
    rest. *)
Lemma filter_keys_prefix {V : Type} (a b : list (string * V)) :
  NoDup (JsMap.keys (a ++ b)) ->
  filter (fun kv => negb (JsSet.has (fst kv) (JsMap.keys a))) (a ++ b) = b.
Proof.
  intros Hn. rewrite filter_app.
  rewrite filter_none, filter_all; [reflexivity| |].
  - intros [k v] Hin. cbn [fst]. apply negb_true_iff, has_false.
    intros Hk. unfold JsMap.keys in *. rewrite map_app in Hn.
    apply NoDup_app_remove_l in Hn as Hb.
    revert Hn Hk. generalize (map fst a). intros l Hn Hk.
    induction l as [|x l IH]; [destruct Hk|].
    cbn [app] in Hn. inversion Hn as [|y l' Hy Hl]; subst.
    destruct Hk as [->|Hk]; [|exact (IH Hl Hk)].
    apply Hy. apply in_or_app. right. apply (In_keys _ _ _ Hin).
  - intros [k v] Hin. cbn [fst]. apply negb_false_iff, has_In.
    exact (In_keys _ _ _ Hin).
Qed.

Lemma in_skipn_list {A : Type} n (l : list A) x : In x (skipn n l) -> In x l.
Proof.
  intros H. rewrite <- (firstn_skipn n l). apply in_or_app. right. exact H.
Qed.

Lemma StronglySorted_firstn_skipn {A : Type} (R : A -> A -> Prop) n : forall l x y,
  StronglySorted R l -> In x (firstn n l) -> In y (skipn n l) -> R x y.
Proof.
  induction n as [|n IH]; intros l x y Hs Hx Hy; [destruct Hx|].
  destruct l as [|a l]; [destruct Hx|].
  cbn [firstn skipn] in *. inversion Hs as [|a' l' Hl Ha]; subst.
  destruct Hx as [<-|Hx].
  - rewrite Forall_forall in Ha. apply Ha.
    apply (@in_skipn_list _ n l y Hy).
  - exact (IH l x y Hl Hx Hy).
Qed.

(** X8. [evictCache] touches nothing but the cache and never
    alters an entry it keeps. Given a cache with distinct keys and a
    non-negative [ROOM_CACHE_MAX], afterwards no entry is idle for longer
    than [ROOM_CACHE_IDLE_MS], at most [ROOM_CACHE_MAX] entries remain, and
    an entry evicted for size was accessed no later than any entry kept. *)
Theorem evictCache_bounds cfg t s :
  NoDup (JsMap.keys (cache s)) ->
  0 <= ROOM_CACHE_MAX cfg ->
  let c' := cache (evictCache cfg t s) in
  with_cache (cache s) (evictCache cfg t s) = s /\
  NoDup (JsMap.keys c') /\
  JsMap.size c' <= ROOM_CACHE_MAX cfg /\
  (forall k e, In (k, e) c' ->
               In (k, e) (cache s) /\ t - lastAccess e <= ROOM_CACHE_IDLE_MS cfg) /\
  (forall k e k' e',
      In (k, e) c' -> In (k', e') (cache s) -> ~ In (k', e') c' ->
      t - lastAccess e' <= ROOM_CACHE_IDLE_MS cfg ->
      lastAccess e' <= lastAccess e).
Proof.
  intros Hn Hmax. unfold evictCache.
  set (idle := fun ke : string * CacheEntry =>
                 ROOM_CACHE_IDLE_MS cfg <? t - lastAccess (snd ke)).
  change (fold_left _ (cache s) (cache s))
    with (fold_left (fun c ke => if idle ke then JsMap.delete String.eqb (fst ke) c else c)
                    (cache s) (cache s)).
  rewrite fold_drop_filter.
  set (c := filter _ (cache s)).
  assert (Hc : forall k e, In (k, e) c <-> In (k, e) (cache s) /\ idle (k, e) = false).
  { intros k e. unfold c. rewrite filter_In. cbn [fst]. split.
    - intros [Hin Hh]. split; [exact Hin|].
      apply negb_true_iff, has_false in Hh.
      destruct (idle (k, e)) eqn:E; [|reflexivity].
      exfalso. apply Hh. apply (@In_keys _ k e). apply filter_In. auto.
    - intros [Hin Hi]. split; [exact Hin|].
      apply negb_true_iff, has_false. intros Hk.
      apply in_map_iff in Hk. destruct Hk as ([k' e'] & Ek & Hk). cbn [fst] in Ek. subst k'.
      apply filter_In in Hk. destruct Hk as [Hk Hi'].
      rewrite (@NoDup_keys_In _ k e e' _ Hn Hin Hk) in Hi. congruence. }
  assert (Hnc : NoDup (JsMap.keys c)) by (apply NoDup_keys_filter, Hn).
  assert (Hfresh : forall k e, In (k, e) c -> t - lastAccess e <= ROOM_CACHE_IDLE_MS cfg).
  { intros k e H. apply Hc in H. destruct H as [_ H]. unfold idle in H. cbn [snd] in H.
    apply Z.ltb_ge in H. exact H. }
  destruct (ROOM_CACHE_MAX cfg <? JsMap.size c) eqn:Eover; cbn [cache with_cache].
  - apply Z.ltb_lt in Eover. unfold JsMap.size in *.
    set (n := Z.to_nat (Z.of_nat (List.length c) - ROOM_CACHE_MAX cfg)).
    set (arr := sort_by_lastAccess c).
    rewrite fold_delete_filter.
    set (keep := fun kv : string * CacheEntry =>
                   negb (JsSet.has (fst kv) (JsMap.keys (firstn n arr)))).
    pose proof (sort_by_lastAccess_perm c) as Hp. fold arr in Hp.
    assert (Hna : NoDup (JsMap.keys (firstn n arr ++ skipn n arr))).
    { rewrite firstn_skipn. unfold JsMap.keys.
      eapply Permutation_NoDup; [|exact Hnc].
      apply Permutation_map. symmetry. exact Hp. }
    assert (Hk : Permutation (filter keep c) (skipn n arr)).
    { rewrite <- (@filter_keys_prefix _ _ _ Hna), firstn_skipn.
      apply perm_filter. symmetry. exact Hp. }
    split; [destruct s; reflexivity|].
    split; [apply NoDup_keys_filter, Hnc|].
    split.
    { rewrite (Permutation_length Hk), length_skipn, (Permutation_length Hp).
      unfold n. lia. }
    split.
    { intros k e H. apply filter_In in H. destruct H as [H _].
      split; [apply Hc, H | exact (Hfresh _ _ H)]. }
    intros k e k' e' Hin Hin' Hout Hf'.
    assert (Hc' : In (k', e') c).
    { apply Hc. split; [exact Hin'|]. unfold idle. cbn [snd]. apply Z.ltb_ge. exact Hf'. }
    assert (Hs : In (k, e) (skipn n arr))
      by (eapply Permutation_in; [exact Hk | exact Hin]).
    assert (Hf : In (k', e') (firstn n arr)).
    { assert (Ha : In (k', e') arr) by (eapply Permutation_in; [symmetry; exact Hp | exact Hc']).
      rewrite <- (firstn_skipn n arr) in Ha. apply in_app_or in Ha.
      destruct Ha as [Ha|Ha]; [exact Ha|].
      exfalso. apply Hout. eapply Permutation_in; [symmetry; exact Hk | exact Ha]. }
    apply (@StronglySorted_firstn_skipn _ older n arr (k', e') (k, e));
      [apply sort_by_lastAccess_sorted | exact Hf | exact Hs].
  - apply Z.ltb_ge in Eover.
    split; [destruct s; reflexivity|].
    split; [exact Hnc|].
    split; [exact Eover|].
    split.
    { intros k e H. split; [apply Hc, H | exact (Hfresh _ _ H)]. }
    intros k e k' e' Hin Hin' Hout Hf'. exfalso. apply Hout, Hc.
    split; [exact Hin'|]. unfold idle. cbn [snd]. apply Z.ltb_ge. exact Hf'.
Qed.

Lemma evictCache_bounds_witness :
  JsMap.keys (cache (evictCache Cases.small_cache 400000 Cases.four_cached)) =
    ["ROOMBBB"; "ROOMDDD"] /\
  JsMap.size (cache (evictCache Cases.small_cache 400000 Cases.four_cached)) <= 2 /\
  (forall k e k' e',
      In (k, e) (cache (evictCache Cases.small_cache 400000 Cases.four_cached)) ->
      In (k', e') (cache Cases.four_cached) ->
      ~ In (k', e') (cache (evictCache Cases.small_cache 400000 Cases.four_cached)) ->
      400000 - lastAccess e' <= 300000 ->
      lastAccess e' <= lastAccess e).
Proof.
  split; [vm_compute; reflexivity|].
  destruct (@evictCache_bounds Cases.small_cache 400000 Cases.four_cached)
    as (_ & _ & H3 & _ & H5).
  - unfold Cases.four_cached, JsMap.keys. cbn [cache with_cache map fst].
    repeat constructor; cbn [In]; intuition discriminate.
  - cbn. lia.
  - split; [exact H3 | exact H5].
Defined.

(** ** Rate limiting *)

Lemma rate_cfg_positive op : 1 <= max (rate_cfg op) /\ 0 < windowMs (rate_cfg op).
Proof.
  unfold rate_cfg, RATE_BY_OP.
  repeat match goal with
         | |- context [String.eqb ?a ?b] => destruct (String.eqb a b)
         end; cbn; lia.
Qed.

(** No name that [RATE_BY_OP] defines is an inherited one. *)
Lemma inherited_not_own op : inherited op = true -> RATE_BY_OP op = None.
Proof.
  unfold inherited, OBJECT_MEMBERS. cbn [existsb]. intros H.
  repeat match type of H with
         | (_ || _) = true => apply orb_true_iff in H; destruct H as [H | H]
         end;
    try discriminate H; apply String.eqb_eq in H; subst op; reflexivity.
Qed.

Lemma rateConfig_own op : inherited op = false -> rateConfig op = Some (rate_cfg op).
Proof.
  intros H. unfold rateConfig, rate_cfg. rewrite H.
  destruct (RATE_BY_OP op); reflexivity.
Qed.

Lemma rateConfig_inherited op : inherited op = true -> rateConfig op = None.
Proof.
  intros H. unfold rateConfig. rewrite (inherited_not_own _ H), H. reflexivity.
Qed.

Lemma checkRateLimit_live ip op t b e r :
  inherited op = false ->
  JsMap.get String.eqb (rate_key ip op) b = Some e ->
  resetAt e = Some r ->
  t < r ->
  checkRateLimit ip op t b =
  ((if max (rate_cfg op) <? count e + 1 then (false, r - t) else (true, 0)),
   JsMap.set String.eqb (rate_key ip op) (mkBucket (count e + 1) (Some r)) b).
Proof.
  intros Hop Hg Hr Ht. unfold checkRateLimit. fold (rate_key ip op).
  rewrite (rateConfig_own _ Hop), Hg, Hr.
  assert (E : (r <=? t) = false) by (apply Z.leb_gt; exact Ht).
  rewrite E, Hr. cbn [count resetAt].
  destruct (max (rate_cfg op) <? count e + 1); [|reflexivity].
  rewrite Z.max_r by lia. reflexivity.
Qed.

Lemma checkRateLimit_fresh ip op t b :
  inherited op = false ->
  match JsMap.get String.eqb (rate_key ip op) b with
  | Some e => match resetAt e with Some r => r <= t | None => True end
  | None => True
  end ->
  checkRateLimit ip op t b =
  ((true, 0),
   JsMap.set String.eqb (rate_key ip op)
             (mkBucket 1 (Some (t + windowMs (rate_cfg op)))) b).
Proof.
  intros Hop Hg. unfold checkRateLimit. fold (rate_key ip op).
  rewrite (rateConfig_own _ Hop). cbn [option_map].
  assert (E : match JsMap.get String.eqb (rate_key ip op) b with
              | Some e =>
                  match resetAt e with
                  | Some r => if r <=? t
                              then mkBucket 0 (Some (t + windowMs (rate_cfg op))) else e
                  | None => mkBucket 0 (Some (t + windowMs (rate_cfg op)))
                  end
              | None => mkBucket 0 (Some (t + windowMs (rate_cfg op)))
              end = mkBucket 0 (Some (t + windowMs (rate_cfg op)))).
  { destruct (JsMap.get String.eqb (rate_key ip op) b) as [e|]; [|reflexivity].
    destruct (resetAt e) as [r|]; [|reflexivity].
    apply Z.leb_le in Hg. rewrite Hg. reflexivity. }
  rewrite E. cbn [count resetAt].
  destruct (rate_cfg_positive op) as [Hm _].
  assert (E1 : (max (rate_cfg op) <? 0 + 1) = false) by (apply Z.ltb_ge; lia).
  rewrite E1. reflexivity.
Qed.

(** Under an inherited member every request passes, whatever the bucket. *)
Lemma checkRateLimit_inherited ip op t b :
  inherited op = true -> fst (checkRateLimit ip op t b) = (true, 0).
Proof.
  intros Hop. unfold checkRateLimit. rewrite (rateConfig_inherited _ Hop). reflexivity.
Qed.

Lemma combine_map_fst {A B C : Type} (f : A -> B) (l : list A) : forall l' : list C,
  combine (map f l) l' = map (fun p => (f (fst p), snd p)) (combine l l').
Proof.
  induction l as [|a l IH]; intros [|c l']; try reflexivity.
  cbn [map combine fst snd]. rewrite IH. reflexivity.
Qed.

Lemma rate_run_live ip op ts : forall b e r,
  inherited op = false ->
  JsMap.get String.eqb (rate_key ip op) b = Some e ->
  resetAt e = Some r ->
  (forall t, In t ts -> t < r) ->
  fst (rate_run ip op ts b) =
  map (fun it : nat * Z =>
         if max (rate_cfg op) <? count e + 1 + Z.of_nat (fst it)
         then (false, r - snd it) else (true, 0))
      (combine (seq 0 (List.length ts)) ts).
Proof.
  induction ts as [|t ts IH]; intros b e r Hop Hg Hr Ht; [reflexivity|].
  cbn [rate_run].
  rewrite (@checkRateLimit_live ip op t b e r Hop Hg Hr (Ht t (or_introl eq_refl))).
  specialize (IH (JsMap.set String.eqb (rate_key ip op)
                            (mkBucket (count e + 1) (Some r)) b)
                 (mkBucket (count e + 1) (Some r)) r Hop
                 (sget_set_eq _ _ _) eq_refl
                 (fun t' H => Ht t' (or_intror H))).
  destruct (rate_run ip op ts _) as [rs b2]. cbn [fst] in *.
  cbn [List.length seq combine map fst snd]. rewrite Z.add_0_r. f_equal.
  rewrite IH. cbn [count].
  rewrite <- seq_shift, combine_map_fst, map_map.
  apply map_ext. intros [i t']. cbn [fst snd].
  replace (count e + 1 + 1 + Z.of_nat i) with (count e + 1 + Z.of_nat (S i)) by lia.
  reflexivity.
Qed.

Lemma rate_run_inherited ip op ts : forall b,
  inherited op = true ->
  Forall (fun r => r = (true, 0)) (fst (rate_run ip op ts b)).
Proof.
  induction ts as [|t ts IH]; intros b Hop; [constructor|].
  cbn [rate_run].
  pose proof (@checkRateLimit_inherited ip op t b Hop) as E.
  destruct (checkRateLimit ip op t b) as [r b1]. cbn [fst] in E.
  specialize (IH b1 Hop).
  destruct (rate_run ip op ts b1) as [rs b2]. cbn [fst] in *.
  constructor; assumption.
Qed.

(** X9. A window of the rate limiter lets exactly its first
    [max] requests pass. For a type that is not the name of an inherited
    member of [RATE_BY_OP]: when a client's first request of the type
    arrives at [t0] with no running window, and the following ones before
    [t0 + windowMs], the [i]-th request (from 0) is allowed exactly if
    [i < max], and a refused one is told the time left to the end of the
    window; the configuration in force has [max >= 1] and a positive
    window. For a type that names an inherited member ([constructor],
    [toString], [__proto__], ...) no request is refused, whatever the
    bucket and the clocks. *)
Theorem rate_limit_window ip op b t0 ts :
  match JsMap.get String.eqb (rate_key ip op) b with
  | Some e => match resetAt e with Some r => r <= t0 | None => True end
  | None => True
  end ->
  (forall t, In t ts -> t < t0 + windowMs (rate_cfg op)) ->
  (1 <= max (rate_cfg op) /\ 0 < windowMs (rate_cfg op)) /\
  (inherited op = false ->
   fst (rate_run ip op (t0 :: ts) b) =
   map (fun it : nat * Z =>
          if Z.of_nat (fst it) <? max (rate_cfg op)
          then (true, 0)
          else (false, t0 + windowMs (rate_cfg op) - snd it))
       (combine (seq 0 (S (List.length ts))) (t0 :: ts))) /\
  (inherited op = true ->
   forall b' ts', Forall (fun r => r = (true, 0)) (fst (rate_run ip op ts' b'))).
Proof.
  intros Hb Ht. split; [apply rate_cfg_positive|]. split.
  - intros Hop. cbn [rate_run].
    rewrite (@checkRateLimit_fresh ip op t0 b Hop Hb).
    pose proof (@rate_run_live ip op ts
                  (JsMap.set String.eqb (rate_key ip op)
                             (mkBucket 1 (Some (t0 + windowMs (rate_cfg op)))) b)
                  (mkBucket 1 (Some (t0 + windowMs (rate_cfg op))))
                  (t0 + windowMs (rate_cfg op)) Hop
                  (sget_set_eq _ _ _) eq_refl Ht) as H.
    destruct (rate_run ip op ts _) as [rs b2]. cbn [fst] in *.
    cbn [seq combine map fst snd].
    destruct (rate_cfg_positive op) as [Hm _].
    assert (E0 : (Z.of_nat 0 <? max (rate_cfg op)) = true) by (apply Z.ltb_lt; lia).
    rewrite E0. f_equal.
    rewrite H. cbn [count].
    rewrite <- seq_shift, combine_map_fst, map_map.
    apply map_ext. intros [i t]. cbn [fst snd].
    destruct (max (rate_cfg op) <? 1 + 1 + Z.of_nat i) eqn:E1;
      destruct (Z.of_nat (S i) <? max (rate_cfg op)) eqn:E2; try reflexivity;
      [apply Z.ltb_lt in E1, E2 | apply Z.ltb_ge in E1, E2]; lia.
  - intros Hop b' ts'. apply rate_run_inherited, Hop.
Qed.

Lemma rate_limit_window_witness :
  fst (rate_run "203.0.113.7" "submit_frame"
         [1000; 1001; 1002; 1003; 1004; 1005; 1006; 1007; 1008; 1009; 1010; 60999]
         []) =
  [(true, 0); (true, 0); (true, 0); (true, 0); (true, 0);
   (true, 0); (true, 0); (true, 0); (true, 0); (true, 0);
   (false, 59990); (false, 1)].
Proof.
  destruct (@rate_limit_window "203.0.113.7" "submit_frame" [] 1000
              [1001; 1002; 1003; 1004; 1005; 1006; 1007; 1008; 1009; 1010; 60999])
    as (_ & H & _).
  - exact I.
  - intros t Hin. cbn in Hin.
    repeat (destruct Hin as [<- | Hin]; [reflexivity|]). destruct Hin.
  - rewrite (H eq_refl). reflexivity.
Defined.

Lemma get_filter_NoDup {V : Type} (f : string * V -> bool) k (m : JsMap.t string V) :
  NoDup (JsMap.keys m) ->
  JsMap.get String.eqb k (filter f m) =
  match JsMap.get String.eqb k m with
  | Some v => if f (k, v) then Some v else None
  | None => None
  end.
Proof.
  unfold JsMap.keys. induction m as [|[k' v'] m IH]; intros Hn; [reflexivity|].
  cbn [map fst] in Hn. inversion Hn as [|x l Hx Hl]; subst.
  cbn [filter JsMap.get].
  destruct (String.eqb_spec k k') as [->|Hne].
  - destruct (f (k', v')) eqn:Ef.
    + cbn [JsMap.get]. rewrite String.eqb_refl. reflexivity.
    + rewrite (IH Hl).
      destruct (JsMap.get String.eqb k' m) as [v|] eqn:Eg; [|reflexivity].
      exfalso. apply Hx. apply get_In in Eg; [|apply String.eqb_eq].
      apply in_map_iff. exists (k', v). auto.
  - destruct (f (k', v')).
    + cbn [JsMap.get]. destruct (String.eqb_spec k k'); [contradiction|]. apply IH, Hl.
    + apply IH, Hl.
Qed.

(** X10. The periodic sweep of the rate buckets is invisible
    to the limiter: it removes only buckets whose window has ended or
    whose [resetAt] is not finite, so a later request is answered, and
    its bucket left, exactly as without the sweep. *)
Theorem sweepRateBuckets_transparent ip op t' t b :
  NoDup (JsMap.keys b) ->
  t' <= t ->
  fst (checkRateLimit ip op t (sweepRateBuckets t' b)) =
    fst (checkRateLimit ip op t b) /\
  JsMap.get String.eqb (rate_key ip op)
            (snd (checkRateLimit ip op t (sweepRateBuckets t' b))) =
    JsMap.get String.eqb (rate_key ip op) (snd (checkRateLimit ip op t b)) /\
  (forall k e, In (k, e) (sweepRateBuckets t' b) <->
               In (k, e) b /\ exists r, resetAt e = Some r /\ t' < r).
Proof.
  intros Hn Ht.
  assert (Hsw : forall k e, In (k, e) (sweepRateBuckets t' b) <->
                            In (k, e) b /\ exists r, resetAt e = Some r /\ t' < r).
  { intros k e. unfold sweepRateBuckets. rewrite filter_In. cbn [snd].
    destruct (resetAt e) as [r|].
    - rewrite negb_true_iff, Z.leb_gt. split.
      + intros [H1 H2]. split; [exact H1 | exists r; auto].
      + intros [H1 (r' & [= <-] & H2)]. auto.
    - split; [intros [_ H]; discriminate H | intros [_ (r & H & _)]; discriminate H]. }
  set (opened := mkBucket 0 (option_map (fun c => t + windowMs c) (rateConfig op))).
  assert (E : match JsMap.get String.eqb (rate_key ip op) (sweepRateBuckets t' b) with
              | Some e =>
                  match resetAt e with
                  | Some r => if r <=? t then opened else e
                  | None => opened
                  end
              | None => opened
              end =
              match JsMap.get String.eqb (rate_key ip op) b with
              | Some e =>
                  match resetAt e with
                  | Some r => if r <=? t then opened else e
                  | None => opened
                  end
              | None => opened
              end).
  { unfold sweepRateBuckets. rewrite (@get_filter_NoDup _ _ _ _ Hn).
    destruct (JsMap.get String.eqb (rate_key ip op) b) as [e|]; [|reflexivity].
    cbn [snd]. destruct (resetAt e) as [r|] eqn:Er; [|reflexivity].
    destruct (r <=? t') eqn:E1; cbn [negb]; [|rewrite Er; reflexivity].
    apply Z.leb_le in E1.
    assert (E2 : (r <=? t) = true) by (apply Z.leb_le; lia).
    rewrite E2. reflexivity. }
  unfold checkRateLimit. fold (rate_key ip op). fold opened.
  rewrite E.
  destruct (rateConfig op) as [c|]; [destruct (max c <? _)|];
    cbn [fst snd]; rewrite !sget_set_eq; auto.
Qed.

Lemma sweepRateBuckets_transparent_witness :
  fst (checkRateLimit "203.0.113.7" "hello" 9000
         (sweepRateBuckets 8000 [("203.0.113.7|hello", mkBucket 120 (Some 7000))])) =
  fst (checkRateLimit "203.0.113.7" "hello" 9000
         [("203.0.113.7|hello", mkBucket 120 (Some 7000))]).
Proof.
  apply (@sweepRateBuckets_transparent "203.0.113.7" "hello" 8000 9000
           [("203.0.113.7|hello", mkBucket 120 (Some 7000))]).
  - repeat constructor. intros [].
  - lia.
Defined.

(** ** What the handlers answer and what they leave alone *)

Lemma assign_frame_replies cfg o noEmpty key r ws s :
  existsb is_send (snd (assign_frame cfg o noEmpty key r ws s)) = true.
Proof.
  unfold assign_frame.
  destruct (firstYoungestEmpty (now o) r) as [idx r1].
  destruct (idx <? 0).
  - destruct (saveRoom _ _ _ _) as [r2 s2]. reflexivity.
  - destruct (saveRoom _ _ _ _) as [r2 s2].
    destruct (roomState _ _) as [rs r3]. reflexivity.
Qed.

Lemma on_submit_frame_replies o d ws s :
  existsb is_send (snd (on_submit_frame o d ws s)) = true.
Proof.
  unfold on_submit_frame.
  destruct (negb (truthy _)); [reflexivity|].
  destruct (JsSet.has _ _); [reflexivity|].
  destruct (getRoom o _ s) as [[[key r]|] s1]; [|reflexivity].
  cbv zeta.
  destruct (negb (String.eqb _ DRAWING)); [reflexivity|].
  destruct (d_frameIndex d) as [idx|fl|]; [| |reflexivity].
  - destruct (negb (in_range idx)); [reflexivity|].
    destruct (negb (truthy _)); [reflexivity|].
    destruct (JsMap.get _ _ _) as [e|]; [|reflexivity].
    destruct (expiresAt e <=? now o); [reflexivity|].
    destruct (negb (frameIndex e =? idx)); [reflexivity|].
    destruct (at_bool _ idx); [reflexivity|].
    destruct (negb (validatePngDataUrl _)); [reflexivity|].
    destruct (saveRoom _ _ _ _) as [r2 s2].
    destruct (forallb _ _); [|reflexivity].
    destruct (saveRoom _ _ _ _) as [r3 s3].
    destruct (roomState _ _) as [rs r4]. reflexivity.
  - destruct (negb (in_range fl)); [reflexivity|].
    destruct (negb (truthy _)); [reflexivity|].
    destruct (JsMap.get _ _ _) as [e|]; [|reflexivity].
    destruct (expiresAt e <=? now o); reflexivity.
Qed.

Ltac as_frame d := exists d; split; [repeat split|left; reflexivity].
Ltac unanswered d := exists d; split; [repeat split|right; reflexivity].

(** X11. Which frames are answered. A frame whose type and
    fields convert is answered to its sender, unless it is a
    [get_frame]: by the reply of its handler, by an [error], or by the
    [RATE_LIMIT] error, whatever it asks and whatever the state. A frame
    that is not JSON, and a frame without a type to read, get no answer
    and change nothing. A frame with an unconvertible field is answered
    as the frame without that field is, or not at all; it is not
    answered at all when the field is the room id of a request that
    names a room and the rate limit lets it pass, and then only the
    requester's rate bucket has changed. *)
Theorem every_request_is_answered cfg o ws s t d :
  (t <> "get_frame" ->
   existsb is_send (snd (onMessage cfg o ws s (Parsed t d))) = true) /\
  onMessage cfg o ws s BadJson = (s, ws, []) /\
  onMessage cfg o ws s NoType = (s, ws, []) /\
  (forall u, exists d',
      (d_roomId d' = d_roomId d /\ d_theme d' = d_theme d /\
       d_dataUrl d' = d_dataUrl d /\ d_view d' = d_view d /\
       d_frameIndex d' = d_frameIndex d) /\
      (snd (onMessage cfg o ws s (Faulty t d u)) =
         snd (onMessage cfg o ws s (Parsed t d')) \/
       snd (onMessage cfg o ws s (Faulty t d u)) = [])) /\
  (forall u,
      u_roomId u = true ->
      In t ["resync"; "join_by_id"; "join_room"; "get_frame"; "submit_frame"] ->
      let rl := checkRateLimit (or_unknown (remoteAddr ws)) (or_unknown t) (now o)
                               (RATE_BUCKETS s) in
      fst (fst rl) = true ->
      onMessage cfg o ws s (Faulty t d u) = (with_RATE_BUCKETS (snd rl) s, ws, [])).
Proof.
  split; [|split; [reflexivity|split; [reflexivity|split]]].
  - intros Ht. unfold onMessage.
    destruct (checkRateLimit _ _ _ _) as [[ok retry] b].
    destruct (negb ok); [reflexivity|].
    destruct (String.eqb t "hello"); [reflexivity|].
    destruct (String.eqb t "resync").
    { unfold on_resync.
      destruct (negb (truthy _)); [reflexivity|].
      destruct (JsSet.has _ _); [reflexivity|].
      destruct (getRoom o _ _) as [[[key r]|] s1]; [|reflexivity].
      destruct (roomState _ _) as [rs r3]. reflexivity. }
    destruct (String.eqb t "create_public_and_submit").
    { unfold on_create_public_and_submit.
      destruct (negb (validatePngDataUrl _)); [reflexivity|].
      destruct (makeRoom _ _ _) as [r1 s1].
      destruct (saveRoom _ _ _ _) as [r2 s2].
      destruct (roomState _ _) as [rs r3]. reflexivity. }
    destruct (String.eqb t "join_random").
    { unfold on_join_random.
      destruct (findRandomOpenRoomId o _) as [x|]; [|reflexivity].
      destruct (getRoom o x _) as [[[key r]|] s1]; [|reflexivity].
      destruct (negb _); [reflexivity | apply assign_frame_replies]. }
    destruct (String.eqb t "join_by_id").
    { unfold on_join_by_id.
      destruct (negb (truthy _)); [reflexivity|].
      destruct (JsSet.has _ _); [reflexivity|].
      destruct (getRoom o _ _) as [[[key r]|] s1]; [|reflexivity].
      destruct (negb _); [reflexivity | apply assign_frame_replies]. }
    destruct (String.eqb t "join_room").
    { unfold on_join_room.
      destruct (negb (truthy _)); [reflexivity|].
      destruct (JsSet.has _ _); [reflexivity|].
      destruct (getRoom o _ _) as [[[key r]|] s1]; [|reflexivity].
      destruct (d_view d), (d_reservationToken d) as [tok|];
        try (cbv zeta; destruct (roomState _ _) as [rs r3]; reflexivity).
      cbv zeta.
      destruct (negb _); [reflexivity|].
      destruct (JsMap.get _ _ _) as [e|]; [|reflexivity].
      destruct (expiresAt e <=? now o); [reflexivity|].
      destruct (roomState _ _) as [rs r3]. reflexivity. }
    destruct (String.eqb_spec t "get_frame") as [E|_]; [contradiction|].
    destruct (String.eqb t "submit_frame"); [apply on_submit_frame_replies|].
    reflexivity.
  - intros u. unfold onMessage.
    destruct (checkRateLimit _ _ _ _) as [[ok retry] b].
    destruct (negb ok); [as_frame d|].
    destruct (String.eqb t "hello"); [as_frame d|].
    destruct (String.eqb t "resync").
    { unfold on_resync_u. destruct (u_roomId u); [unanswered d|as_frame d]. }
    destruct (String.eqb t "create_public_and_submit").
    { unfold on_create_public_and_submit_u.
      destruct (u_theme u); [unanswered d|as_frame d]. }
    destruct (String.eqb t "join_random"); [as_frame d|].
    destruct (String.eqb t "join_by_id").
    { unfold on_join_by_id_u. destruct (u_roomId u); [unanswered d|as_frame d]. }
    destruct (String.eqb t "join_room").
    { unfold on_join_room_u.
      destruct (u_roomId u); [unanswered d|].
      destruct (negb (u_reservationToken u)); [as_frame d|].
      exists (mkMsgData (d_roomId d) (d_theme d) (d_dataUrl d) (d_view d)
                        (Some "x") (d_frameIndex d)).
      split; [repeat split|].
      unfold on_join_room, requestedRoomId.
      cbn [d_roomId d_view d_reservationToken].
      destruct (negb (truthy _)); [left; reflexivity|].
      destruct (JsSet.has _ _); [left; reflexivity|].
      destruct (getRoom o _ _) as [[[key r]|] s1]; [|left; reflexivity].
      cbv zeta.
      destruct (d_view d); [left; reflexivity|].
      destruct (negb (String.eqb _ DRAWING)); [left; reflexivity|].
      right; reflexivity. }
    destruct (String.eqb t "get_frame").
    { unfold on_get_frame_u, on_get_frame.
      destruct (u_roomId u); [unanswered d|].
      destruct (negb (u_frameIndex u)); [as_frame d|].
      exists d. split; [repeat split|].
      destruct (negb (truthy _)); [left; reflexivity|].
      destruct (JsSet.has _ _); [left; reflexivity|].
      destruct (getRoom o _ _) as [[[key r]|] s1]; [|left; reflexivity].
      right; reflexivity. }
    destruct (String.eqb t "submit_frame"); [|as_frame d].
    unfold on_submit_frame_u, on_submit_frame.
    destruct (u_roomId u); [unanswered d|].
    destruct (negb (u_frameIndex u || u_reservationToken u)); [as_frame d|].
    exists d. split; [repeat split|].
    destruct (negb (truthy _)); [left; reflexivity|].
    destruct (JsSet.has _ _); [left; reflexivity|].
    destruct (getRoom o _ _) as [[[key r]|] s1]; [|left; reflexivity].
    cbv zeta.
    destruct (negb (String.eqb _ DRAWING)); [left; reflexivity|].
    right; reflexivity.
  - intros u Hu Hin. cbv zeta. intros Hok. unfold onMessage.
    destruct (checkRateLimit _ _ _ _) as [[ok retry] b].
    cbn [fst snd] in Hok |- *. subst ok. cbn [negb].
    unfold on_resync_u, on_join_by_id_u, on_join_room_u, on_get_frame_u,
      on_submit_frame_u, thrown.
    rewrite Hu.
    destruct Hin as [<-|[<-|[<-|[<-|[<-|[]]]]]]; reflexivity.
Qed.

Lemma only_cache_refl s : only_cache s s.
Proof. apply with_cache_same. Qed.

Lemma only_cache_getRoom o x s : only_cache s (snd (getRoom o x s)).
Proof.
  unfold only_cache, getRoom.
  destruct (negb (truthy _)); [apply with_cache_same|].
  destruct (JsMap.get String.eqb _ (cache s)) as [e|] eqn:E.
  - cbn [snd]. unfold touch. rewrite E. destruct s; reflexivity.
  - destruct (roomFile _); [|apply with_cache_same].
    destruct (JsMap.get String.eqb _ (roomFiles s)); [|apply with_cache_same].
    destruct (deserializeRoom _ _ _); [|apply with_cache_same].
    destruct s; reflexivity.
Qed.

Lemma only_cache_putRoom s key r s1 : only_cache s s1 -> only_cache s (putRoom key r s1).
Proof.
  unfold only_cache, putRoom. intros H.
  destruct (JsMap.get String.eqb key (cache s1)); [|exact H].
  rewrite <- H at 2. reflexivity.
Qed.

(** X12. A quarantined room is treated as absent by every
    request that names a room: [resync], [join_room], [get_frame] and
    [submit_frame] answer the one error "room not found" and leave the
    server and the connection as they are, and [join_random] never picks
    a quarantined room. *)
Theorem quarantine_hides o d ws s :
  (truthy (requestedRoomId d ws) = true ->
   JsSet.has (requestedRoomId d ws) (quarantineSet s) = true ->
   let refused := (s, ws, [error o MSG_NOT_FOUND]) in
   on_resync o d ws s = refused /\
   on_join_room o d ws s = refused /\
   on_get_frame o d ws s = refused /\
   on_submit_frame o d ws s = refused) /\
  (forall rid,
      findRandomOpenRoomId o s = Some rid ->
      JsSet.has rid (quarantineSet s) = false).
Proof.
  split.
  - intros Ht Hq. cbv zeta.
    unfold on_resync, on_join_room, on_get_frame, on_submit_frame.
    rewrite Ht, Hq. cbn [negb]. auto.
  - intros rid. unfold findRandomOpenRoomId.
    set (cands := map fst (filter _ (index s))).
    assert (Hc : forall x, In x cands -> JsSet.has x (quarantineSet s) = false).
    { intros x Hx. unfold cands in Hx. apply in_map_iff in Hx.
      destruct Hx as ([k m] & <- & Hk). apply filter_In in Hk. destruct Hk as [_ Hk].
      cbn [fst snd] in *.
      apply andb_true_iff in Hk. destruct Hk as [Hk _].
      apply andb_true_iff in Hk. destruct Hk as [Hk _].
      apply negb_true_iff in Hk. exact Hk. }
    destruct cands as [|c cs]; [discriminate|].
    intros H. injection H as H. rewrite <- H. apply Hc.
    apply (@nth_In _ (rnd_pick o mod List.length (c :: cs)) (c :: cs) c).
    apply Nat.mod_upper_bound. discriminate.
Qed.

Lemma open_room_iff s rid m :
  negb (JsSet.has rid (quarantineSet s)) && negb (m_completed m) &&
  negb (60 <=? m_filledCount m) = true <->
  JsSet.has rid (quarantineSet s) = false /\
  m_completed m = false /\ m_filledCount m < 60.
Proof. rewrite !andb_true_iff, !negb_true_iff, Z.leb_gt. tauto. Qed.

Lemma findRandomOpenRoomId_some o s rid :
  findRandomOpenRoomId o s = Some rid ->
  exists m, In (rid, m) (index s) /\
            JsSet.has rid (quarantineSet s) = false /\
            m_completed m = false /\ m_filledCount m < 60.
Proof.
  unfold findRandomOpenRoomId.
  set (open := fun km : string * IndexMeta =>
                 negb (JsSet.has (fst km) (quarantineSet s)) &&
                 negb (m_completed (snd km)) &&
                 negb (60 <=? m_filledCount (snd km))).
  destruct (map fst (filter open (index s))) as [|c cs] eqn:E; [discriminate|].
  intros Hr.
  assert (Hr' : nth (rnd_pick o mod List.length (c :: cs)) (c :: cs) c = rid)
    by congruence.
  assert (Hin : In rid (map fst (filter open (index s)))).
  { rewrite E, <- Hr'. apply nth_In. apply Nat.mod_upper_bound. discriminate. }
  apply in_map_iff in Hin. destruct Hin as ([k m] & Ek & Hk).
  cbn [fst] in Ek. rewrite <- Ek.
  apply filter_In in Hk. destruct Hk as [Hk Hopen].
  exists m. split; [exact Hk|]. apply open_room_iff, Hopen.
Qed.

(** X13. [join_random] picks only among the open rooms of the
    index: the room it picks is indexed, not quarantined, not completed
    and has fewer than 60 frames filled; it finds none exactly when the
    index holds no such room. *)
Theorem findRandomOpenRoomId_open o s :
  match findRandomOpenRoomId o s with
  | Some rid =>
      exists m, In (rid, m) (index s) /\
                JsSet.has rid (quarantineSet s) = false /\
                m_completed m = false /\ m_filledCount m < 60
  | None =>
      forall rid m, In (rid, m) (index s) ->
                    JsSet.has rid (quarantineSet s) = true \/
                    m_completed m = true \/ 60 <= m_filledCount m
  end.
Proof.
  destruct (findRandomOpenRoomId o s) as [rid|] eqn:Ef.
  - apply (findRandomOpenRoomId_some o s Ef).
  - intros rid m Hin. revert Ef. unfold findRandomOpenRoomId.
    set (open := fun km : string * IndexMeta =>
                   negb (JsSet.has (fst km) (quarantineSet s)) &&
                   negb (m_completed (snd km)) &&
                   negb (60 <=? m_filledCount (snd km))).
    destruct (map fst (filter open (index s))) as [|c cs] eqn:E; [intros _|discriminate].
    destruct (open (rid, m)) eqn:Eo.
    + exfalso. assert (Hf : In rid (map fst (filter open (index s)))).
      { apply in_map_iff. exists (rid, m). split; [reflexivity|].
        apply filter_In. auto. }
      rewrite E in Hf. exact Hf.
    + unfold open in Eo. cbn [fst snd] in Eo.
      apply andb_false_iff in Eo. destruct Eo as [Eo|Eo].
      * apply andb_false_iff in Eo. destruct Eo as [Eo|Eo];
          apply negb_false_iff in Eo; auto.
      * apply negb_false_iff, Z.leb_le in Eo. auto.
Qed.

Lemma only_cache_on_resync o d ws s : only_cache s (fst (fst (on_resync o d ws s))).
Proof.
  unfold on_resync.
  destruct (negb (truthy _)); [apply only_cache_refl|].
  destruct (JsSet.has _ _); [apply only_cache_refl|].
  pose proof (only_cache_getRoom o (requestedRoomId d ws) s) as H.
  destruct (getRoom o _ s) as [[[key r]|] s1]; [|exact H].
  destruct (roomState _ _) as [rs r3]. apply only_cache_putRoom, H.
Qed.

Lemma only_cache_on_join_room o d ws s :
  only_cache s (fst (fst (on_join_room o d ws s))).
Proof.
  unfold on_join_room.
  destruct (negb (truthy _)); [apply only_cache_refl|].
  destruct (JsSet.has _ _); [apply only_cache_refl|].
  pose proof (only_cache_getRoom o (requestedRoomId d ws) s) as H.
  destruct (getRoom o _ s) as [[[key r]|] s1]; [|exact H].
  cbn [snd] in H.
  destruct (d_view d), (d_reservationToken d) as [tok|];
    try (cbv zeta; destruct (roomState _ _) as [rs r3];
         apply only_cache_putRoom, H).
  cbv zeta.
  destruct (negb _); [apply only_cache_putRoom, H|].
  destruct (JsMap.get _ _ _) as [e|]; [|apply only_cache_putRoom, H].
  destruct (expiresAt e <=? now o); [apply only_cache_putRoom, H|].
  destruct (roomState _ _) as [rs r3]. apply only_cache_putRoom, H.
Qed.

Lemma only_cache_on_get_frame o d ws s :
  only_cache s (fst (fst (on_get_frame o d ws s))) /\
  snd (fst (on_get_frame o d ws s)) = ws.
Proof.
  unfold on_get_frame.
  destruct (negb (truthy _)); [split; [apply only_cache_refl|reflexivity]|].
  destruct (JsSet.has _ _); [split; [apply only_cache_refl|reflexivity]|].
  pose proof (only_cache_getRoom o (requestedRoomId d ws) s) as H.
  destruct (getRoom o _ s) as [[[key r]|] s1]; [|split; [exact H|reflexivity]].
  cbn [snd] in H.
  destruct (d_frameIndex d) as [idx|fl|]; [| |split; [exact H|reflexivity]].
  - destruct (negb (in_range idx)); [split; [exact H|reflexivity]|].
    destruct (negb (at_bool _ _)); [split; [exact H|reflexivity]|].
    destruct (frame_at r idx); split; try exact H; reflexivity.
  - destruct (negb (in_range fl)); split; try exact H; reflexivity.
Qed.

Lemma only_cache_on_resync_u o u d ws s :
  only_cache s (fst (fst (on_resync_u o u d ws s))).
Proof.
  unfold on_resync_u. destruct (u_roomId u);
    [apply only_cache_refl | apply only_cache_on_resync].
Qed.

Lemma only_cache_on_join_room_u o u d ws s :
  only_cache s (fst (fst (on_join_room_u o u d ws s))).
Proof.
  unfold on_join_room_u.
  destruct (u_roomId u); [apply only_cache_refl|].
  destruct (negb (u_reservationToken u)); [apply only_cache_on_join_room|].
  destruct (negb (truthy _)); [apply only_cache_refl|].
  destruct (JsSet.has _ _); [apply only_cache_refl|].
  pose proof (only_cache_getRoom o (requestedRoomId d ws) s) as H.
  destruct (getRoom o _ s) as [[[key r]|] s1]; [|exact H].
  cbn [snd] in H. cbv zeta.
  destruct (d_view d).
  - destruct (roomState _ _) as [rs r3]. apply only_cache_putRoom, H.
  - destruct (negb _); apply only_cache_putRoom, H.
Qed.

Lemma only_cache_on_get_frame_u o u d ws s :
  only_cache s (fst (fst (on_get_frame_u o u d ws s))) /\
  snd (fst (on_get_frame_u o u d ws s)) = ws.
Proof.
  unfold on_get_frame_u.
  destruct (u_roomId u); [split; [apply only_cache_refl|reflexivity]|].
  destruct (negb (u_frameIndex u)); [apply only_cache_on_get_frame|].
  destruct (negb (truthy _)); [split; [apply only_cache_refl|reflexivity]|].
  destruct (JsSet.has _ _); [split; [apply only_cache_refl|reflexivity]|].
  pose proof (only_cache_getRoom o (requestedRoomId d ws) s) as H.
  destruct (getRoom o _ s) as [[[key r]|] s1]; split; try exact H; reflexivity.
Qed.

Lemma or_unknown_twice x : or_unknown (or_unknown x) = or_unknown x.
Proof. unfold or_unknown. destruct (truthy x) eqn:E; [rewrite E|]; reflexivity. Qed.

Lemma checkRateLimit_other ip op t b k :
  k <> (or_unknown ip ++ "|" ++ or_unknown op)%string ->
  JsMap.get String.eqb k (snd (checkRateLimit ip op t b)) = JsMap.get String.eqb k b.
Proof.
  intros Hk. unfold checkRateLimit. cbv zeta.
  destruct (rateConfig op) as [c|]; [destruct (_ <? _)|]; cbn [snd];
    apply sget_set_ne; congruence.
Qed.

(** X14. The requests that only read ([hello], [resync],
    [join_room], [get_frame]) write nothing but the requester's rate
    bucket: whatever their handlers answer, the room files, the index
    and its file, the quarantine list, the dirty set, the backups and
    the rate buckets are as before, and only the cache may change; the
    request as a whole, refused by the rate limit or not, with an
    unconvertible field or not, leaves the server as the rate limiter
    left it, the cache apart, and the limiter writes no bucket but the
    one of the requester and the request type. [hello] and [get_frame]
    leave the connection as it is. *)
Theorem read_requests_write_nothing o d ws s :
  only_cache s (fst (fst (on_hello o ws s))) /\
  only_cache s (fst (fst (on_resync o d ws s))) /\
  only_cache s (fst (fst (on_join_room o d ws s))) /\
  only_cache s (fst (fst (on_get_frame o d ws s))) /\
  snd (fst (on_hello o ws s)) = ws /\
  snd (fst (on_get_frame o d ws s)) = ws /\
  (forall cfg t buf,
      frame_type buf = Some t ->
      In t ["hello"; "resync"; "join_room"; "get_frame"] ->
      let ip := or_unknown (remoteAddr ws) in
      let b := snd (checkRateLimit ip (or_unknown t) (now o) (RATE_BUCKETS s)) in
      only_cache (with_RATE_BUCKETS b s) (fst (fst (onMessage cfg o ws s buf))) /\
      (forall k, k <> (ip ++ "|" ++ or_unknown t)%string ->
                 JsMap.get String.eqb k b = JsMap.get String.eqb k (RATE_BUCKETS s)) /\
      (t = "hello" \/ t = "get_frame" ->
       snd (fst (onMessage cfg o ws s buf)) = ws)).
Proof.
  split; [apply only_cache_refl|].
  split; [apply only_cache_on_resync|].
  split; [apply only_cache_on_join_room|].
  split; [apply only_cache_on_get_frame|].
  split; [reflexivity|].
  split; [apply only_cache_on_get_frame|].
  intros cfg t buf Hf Hin. cbv zeta.
  split; [|split].
  - destruct buf as [|t' d'| |t' d' u]; cbn [frame_type] in Hf;
      try discriminate Hf; injection Hf as ->; unfold onMessage;
      destruct (checkRateLimit _ _ _ _) as [[ok retry] b]; cbn [snd];
      (destruct (negb ok); [apply only_cache_refl|]);
      destruct Hin as [<-|[<-|[<-|[<-|[]]]]].
    + apply only_cache_refl.
    + apply (only_cache_on_resync o d' ws (with_RATE_BUCKETS b s)).
    + apply (only_cache_on_join_room o d' ws (with_RATE_BUCKETS b s)).
    + apply (only_cache_on_get_frame o d' ws (with_RATE_BUCKETS b s)).
    + apply only_cache_refl.
    + apply (only_cache_on_resync_u o u d' ws (with_RATE_BUCKETS b s)).
    + apply (only_cache_on_join_room_u o u d' ws (with_RATE_BUCKETS b s)).
    + apply (only_cache_on_get_frame_u o u d' ws (with_RATE_BUCKETS b s)).
  - intros k Hk. apply checkRateLimit_other.
    rewrite !or_unknown_twice. exact Hk.
  - intros Ht.
    destruct buf as [|t' d'| |t' d' u]; cbn [frame_type] in Hf;
      try discriminate Hf; injection Hf as ->; unfold onMessage;
      destruct (checkRateLimit _ _ _ _) as [[ok retry] b];
      (destruct (negb ok); [reflexivity|]);
      destruct Ht as [->| ->].
    + reflexivity.
    + apply (only_cache_on_get_frame o d' ws (with_RATE_BUCKETS b s)).
    + reflexivity.
    + apply (only_cache_on_get_frame_u o u d' ws (with_RATE_BUCKETS b s)).
Qed.

(** X15. A [submit_frame] whose [frameIndex] is a whole
    number, or no number at all, either commits or changes nothing that
    lasts: its answer is one [error], with no file, index or dirty mark
    written, or it starts with the [frame_committed] broadcast and the
    [submitted] reply for the frame asked; in both cases the connection
    is left as it is. *)
Theorem submit_frame_commits_or_refuses o d ws s :
  is_fraction (d_frameIndex d) = false ->
  snd (fst (on_submit_frame o d ws s)) = ws /\
  ((exists m, snd (on_submit_frame o d ws s) = [error o m] /\
              only_cache s (fst (fst (on_submit_frame o d ws s)))) \/
   (exists id idx u,
       d_frameIndex d = NInt idx /\ in_range idx = true /\
       d_dataUrl d = Some u /\ validatePngDataUrl (Some u) = true /\
       firstn 2 (snd (on_submit_frame o d ws s)) =
         [Broadcast id (envelope o "frame_committed" (PFrame id idx));
          Send (envelope o "submitted" (PFrame id idx))])).
Proof.
  intros Hwhole.
  unfold on_submit_frame.
  destruct (negb (truthy _));
    [split; [reflexivity|left; eexists; split; [reflexivity|apply only_cache_refl]]|].
  destruct (JsSet.has _ _);
    [split; [reflexivity|left; eexists; split; [reflexivity|apply only_cache_refl]]|].
  pose proof (only_cache_getRoom o (requestedRoomId d ws) s) as H.
  destruct (getRoom o _ s) as [[[key r]|] s1];
    [|split; [reflexivity|left; eexists; split; [reflexivity|exact H]]].
  cbn [snd] in H. cbv zeta.
  set (r1 := cleanupReservations (now o) (normalizePhase r)).
  assert (H1 : only_cache s (putRoom key r1 s1)) by (apply only_cache_putRoom, H).
  destruct (negb (String.eqb _ DRAWING));
    [split; [reflexivity|left; eexists; split; [reflexivity|exact H1]]|].
  destruct (d_frameIndex d) as [idx|fl|];
    [| |split; [reflexivity|left; eexists; split; [reflexivity|exact H1]]].
  - destruct (negb (in_range idx)) eqn:Er;
      [split; [reflexivity|left; eexists; split; [reflexivity|exact H1]]|].
    destruct (negb (truthy _));
      [split; [reflexivity|left; eexists; split; [reflexivity|exact H1]]|].
    destruct (JsMap.get _ _ _) as [e|];
      [|split; [reflexivity|left; eexists; split; [reflexivity|exact H1]]].
    destruct (expiresAt e <=? now o);
      [split; [reflexivity|left; eexists; split; [reflexivity|exact H1]]|].
    destruct (negb (frameIndex e =? idx));
      [split; [reflexivity|left; eexists; split; [reflexivity|exact H1]]|].
    destruct (at_bool _ idx);
      [split; [reflexivity|left; eexists; split; [reflexivity|exact H1]]|].
    destruct (negb (validatePngDataUrl _)) eqn:Ev;
      [split; [reflexivity|left; eexists; split; [reflexivity|exact H1]]|].
    apply negb_false_iff in Er, Ev.
    destruct (d_dataUrl d) as [u|] eqn:Eu; [|discriminate Ev].
    destruct (saveRoom _ _ _ _) as [r2 s2].
    destruct (forallb _ _).
    + destruct (saveRoom _ _ _ _) as [r3 s3].
      destruct (roomState _ _) as [rs r4].
      split; [reflexivity|]. right. exists (roomId r2), idx, u. auto.
    + split; [reflexivity|]. right. exists (roomId r2), idx, u. auto.
  - discriminate Hwhole.
Qed.

Lemma submit_frame_commits_or_refuses_witness :
  let o := Cases.oracle 3000 in
  let d := Cases.submit "A" 5 in
  let out := on_submit_frame o d Cases.ws Cases.one_cached in
  is_fraction (d_frameIndex d) = false /\
  (snd (fst out) = Cases.ws /\
   ((exists m, snd out = [error o m] /\ only_cache Cases.one_cached (fst (fst out))) \/
    (exists id idx u,
        d_frameIndex d = NInt idx /\ in_range idx = true /\
        d_dataUrl d = Some u /\ validatePngDataUrl (Some u) = true /\
        firstn 2 (snd out) =
          [Broadcast id (envelope o "frame_committed" (PFrame id idx));
           Send (envelope o "submitted" (PFrame id idx))]))) /\
  snd out =
    [Broadcast "ABCDEFG" (envelope o "frame_committed" (PFrame "ABCDEFG" 5));
     Send (envelope o "submitted" (PFrame "ABCDEFG" 5))] /\
  option_map j_committed (JsMap.get String.eqb "ABCDEFG" (roomFiles (fst (fst out)))) =
    Some (repeat false 5 ++ true :: repeat false 54) /\
  snd (on_submit_frame (Cases.oracle 3500) d Cases.ws (fst (fst out))) =
    [error (Cases.oracle 3500) MSG_RESERVATION].
Proof.
  cbv zeta.
  split; [reflexivity|].
  split; [apply (@submit_frame_commits_or_refuses (Cases.oracle 3000)
                   (Cases.submit "A" 5) Cases.ws Cases.one_cached); reflexivity|].
  split; [vm_compute; reflexivity|].
  split; vm_compute; reflexivity.
Defined.

(** ** From a reservation to a stored frame *)

Lemma get_filter_keep {V : Type} (f : string * V -> bool) k v (m : JsMap.t string V) :
  JsMap.get String.eqb k m = Some v -> f (k, v) = true ->
  JsMap.get String.eqb k (filter f m) = Some v.
Proof.
  induction m as [|[k' v'] m IH]; intros Hg Hf; [discriminate|].
  cbn [JsMap.get filter] in *.
  destruct (String.eqb_spec k k') as [->|Hne].
  - injection Hg as ->. rewrite Hf. cbn [JsMap.get]. rewrite String.eqb_refl. reflexivity.
  - destruct (f (k', v')); [|exact (IH Hg Hf)].
    cbn [JsMap.get]. destruct (String.eqb_spec k k'); [contradiction|]. exact (IH Hg Hf).
Qed.

Lemma get_filter_none {V : Type} (f : string * V -> bool) k (m : JsMap.t string V) :
  JsMap.get String.eqb k m = None -> JsMap.get String.eqb k (filter f m) = None.
Proof.
  induction m as [|[k' v'] m IH]; intros Hg; [reflexivity|].
  cbn [JsMap.get filter] in *.
  destruct (String.eqb_spec k k') as [->|Hne]; [discriminate|].
  destruct (f (k', v')); [|exact (IH Hg)].
  cbn [JsMap.get]. destruct (String.eqb_spec k k'); [contradiction|]. exact (IH Hg).
Qed.

Lemma swept_normalizePhase t r e : swept t (normalizePhase r) e = swept t r e.
Proof. unfold swept. rewrite committed_normalizePhase. reflexivity. Qed.

Lemma swept_committed t r r' e : committed r' = committed r -> swept t r' e = swept t r e.
Proof. unfold swept. intros ->. reflexivity. Qed.

Lemma swept_live t r e :
  t < expiresAt e -> in_range (frameIndex e) = true ->
  at_bool (committed r) (frameIndex e) = false -> swept t r e = false.
Proof.
  intros H1 H2 H3. unfold swept. rewrite H2, H3. cbn [negb].
  apply Z.leb_gt in H1. rewrite H1. reflexivity.
Qed.

Lemma cleanupReservations_normalizePhase t r :
  cleanupReservations t (normalizePhase r) = normalizePhase (cleanupReservations t r).
Proof. rewrite !normalizePhase_eq. reflexivity. Qed.

Lemma normalizePhase_twice r : normalizePhase (normalizePhase r) = normalizePhase r.
Proof. rewrite !normalizePhase_eq. reflexivity. Qed.

(** The room that [saveRoom] hands back: the argument, swept and
    normalised. *)
Lemma saveRoom_fst o k r s :
  fst (saveRoom o k r s) = normalizePhase (cleanupReservations (now o) r).
Proof.
  unfold saveRoom. rewrite cleanupReservations_normalizePhase.
  destruct (roomFile _); [|reflexivity].
  unfold serializeRoom.
  rewrite cleanupReservations_normalizePhase, cleanupReservations_twice,
          normalizePhase_twice.
  destruct (write_ok o k); reflexivity.
Qed.

Lemma roomState_snd t r :
  snd (roomState t r) = normalizePhase (cleanupReservations t r).
Proof. reflexivity. Qed.

Lemma get_reservation_swept_room t r tok e :
  JsMap.get String.eqb tok (reservations r) = Some e ->
  swept t r e = false ->
  JsMap.get String.eqb tok
    (reservations (normalizePhase (cleanupReservations t r))) = Some e.
Proof.
  intros Hg Hs. rewrite reservations_normalizePhase, reservations_cleanupReservations.
  apply get_filter_keep; [exact Hg|]. cbn [snd]. rewrite Hs. reflexivity.
Qed.

Lemma get_reservation_none_room t r tok :
  JsMap.get String.eqb tok (reservations r) = None ->
  JsMap.get String.eqb tok
    (reservations (normalizePhase (cleanupReservations t r))) = None.
Proof.
  intros Hg. rewrite reservations_normalizePhase, reservations_cleanupReservations.
  apply get_filter_none, Hg.
Qed.

Lemma room_fields_swept t r :
  let r' := normalizePhase (cleanupReservations t r) in
  roomId r' = roomId r /\ frames r' = frames r /\ committed r' = committed r /\
  theme r' = theme r.
Proof. cbv zeta. rewrite normalizePhase_eq. repeat split; reflexivity. Qed.

Lemma getRoom_cached o x s key r s1 :
  getRoom o x s = (Some (key, r), s1) ->
  JsMap.get String.eqb key (cache s1) = Some (mkCacheEntry r (now o)) /\
  key = normalizeRoomId x /\
  quarantineSet s1 = quarantineSet s.
Proof.
  unfold getRoom.
  destruct (negb (truthy _)); [discriminate|].
  destruct (JsMap.get String.eqb _ (cache s)) as [e|] eqn:E.
  - intros [= <- <- <-]. unfold touch. rewrite E. cbn [cache with_cache quarantineSet].
    rewrite sget_set_eq. auto.
  - destruct (roomFile _); [|discriminate].
    destruct (JsMap.get String.eqb _ (roomFiles s)); [|discriminate].
    destruct (deserializeRoom _ _ _); [|discriminate].
    intros [= <- <- <-]. cbn [cache with_cache quarantineSet].
    rewrite sget_set_eq. auto.
Qed.

Lemma quarantineSet_saveRoom o k r s :
  quarantineSet (snd (saveRoom o k r s)) = quarantineSet s.
Proof.
  unfold saveRoom. destruct (roomFile _); [|reflexivity].
  unfold serializeRoom. destruct (write_ok o k); [|reflexivity].
  cbn [snd]. unfold saveIndex. destruct (write_ok o (S k)); reflexivity.
Qed.

Lemma quarantineSet_putRoom key r s : quarantineSet (putRoom key r s) = quarantineSet s.
Proof. unfold putRoom. destruct (JsMap.get _ _ _); reflexivity. Qed.

Lemma validatePngDataUrl_truthy u : validatePngDataUrl (Some u) = true -> truthy u = true.
Proof.
  unfold validatePngDataUrl. intros H. apply andb_true_iff in H. destruct H as [H _].
  destruct u; [discriminate H | reflexivity].
Qed.

(** What [submit_frame] does when every check passes. *)
Lemma on_submit_frame_accepts o d ws s key r s1 idx tok res u :
  truthy (requestedRoomId d ws) = true ->
  JsSet.has (requestedRoomId d ws) (quarantineSet s) = false ->
  getRoom o (requestedRoomId d ws) s = (Some (key, r), s1) ->
  forallb (fun b => b) (committed r) = false ->
  d_frameIndex d = NInt idx -> in_range idx = true ->
  d_reservationToken d = Some tok -> truthy tok = true ->
  JsMap.get String.eqb tok (reservations r) = Some res ->
  frameIndex res = idx -> now o < expiresAt res ->
  at_bool (committed r) idx = false ->
  d_dataUrl d = Some u -> validatePngDataUrl (Some u) = true ->
  exists r' rest,
    snd (on_submit_frame o d ws s) =
      [Broadcast (roomId r) (envelope o "frame_committed" (PFrame (roomId r) idx));
       Send (envelope o "submitted" (PFrame (roomId r) idx))] ++ rest /\
    snd (fst (on_submit_frame o d ws s)) = ws /\
    JsMap.get String.eqb key (cache (fst (fst (on_submit_frame o d ws s)))) =
      Some (mkCacheEntry r' (now o)) /\
    quarantineSet (fst (fst (on_submit_frame o d ws s))) = quarantineSet s /\
    roomId r' = roomId r /\
    committed r' = set_at (committed r) idx true /\
    frames r' = set_at (frames r) idx (Some u) /\
    JsMap.get String.eqb tok (reservations r') = None.
Proof.
  intros Ht Hq Hg Hdone Hi Hr Htok Htt Hres Hfi Hexp Hc Hu Hv.
  destruct (getRoom_cached _ _ _ Hg) as (Hcache & Hkey & Hqs).
  unfold on_submit_frame. rewrite Ht, Hq, Hg. cbn [negb]. cbv zeta.
  set (r1 := cleanupReservations (now o) (normalizePhase r)).
  assert (Hc1 : committed r1 = committed r)
    by (unfold r1; rewrite committed_cleanupReservations; apply committed_normalizePhase).
  assert (Hp1 : phase r1 = DRAWING).
  { unfold r1. rewrite phase_cleanupReservations, phase_normalizePhase, Hdone. reflexivity. }
  assert (Hid1 : roomId r1 = roomId r)
    by (unfold r1; rewrite roomId_cleanupReservations; apply roomId_normalizePhase).
  assert (Hf1 : frames r1 = frames r)
    by (unfold r1; rewrite normalizePhase_eq; reflexivity).
  assert (Hs : swept (now o) r res = false)
    by (apply swept_live; [exact Hexp | rewrite Hfi; exact Hr | rewrite Hfi; exact Hc]).
  assert (Hg1 : JsMap.get String.eqb tok (reservations r1) = Some res).
  { unfold r1. rewrite reservations_cleanupReservations, reservations_normalizePhase.
    apply get_filter_keep; [exact Hres|]. cbn [snd].
    rewrite swept_normalizePhase, Hs. reflexivity. }
  rewrite Hp1, Hi, Hr, Htok, Htt, Hg1. cbn [negb String.eqb].
  assert (E1 : (expiresAt res <=? now o) = false) by (apply Z.leb_gt; exact Hexp).
  assert (E2 : (frameIndex res =? idx) = true) by (apply Z.eqb_eq; exact Hfi).
  change (String.eqb DRAWING DRAWING) with true. cbn [negb].
  rewrite E1, E2, Hc1, Hc, Hu, Hv. cbn [negb].
  set (r2 := with_reservations _ _ _).
  set (s2 := putRoom key r1 s1).
  assert (Hc2 : JsMap.get String.eqb key (cache s2) = Some (mkCacheEntry r1 (now o)))
    by (unfold s2; rewrite (get_putRoom _ _ _ Hcache); reflexivity).
  assert (Hq2 : quarantineSet s2 = quarantineSet s)
    by (unfold s2; rewrite quarantineSet_putRoom; exact Hqs).
  pose proof (saveRoom_fst o 0 r2 s2) as Hr3.
  pose proof (saveRoom_cache o 0 r2 s2) as Hc3.
  pose proof (quarantineSet_saveRoom o 0 r2 s2) as Hq3.
  destruct (saveRoom o 0 r2 s2) as [r3 s3]. cbn [fst snd] in Hr3, Hc3, Hq3.
  assert (F3 : roomId r3 = roomId r /\
               committed r3 = set_at (committed r) idx true /\
               frames r3 = set_at (frames r) idx (Some u) /\
               JsMap.get String.eqb tok (reservations r3) = None).
  { rewrite Hr3. destruct (room_fields_swept (now o) r2) as (A & B & C & _).
    rewrite A, B, C. unfold r2.
    cbn [roomId frames committed with_reservations with_updatedAt with_committed
         with_frames].
    rewrite Hid1, Hc1, Hf1.
    split; [reflexivity|]. split; [reflexivity|]. split; [reflexivity|].
    apply get_reservation_none_room. cbn [reservations with_reservations].
    apply sget_delete_eq. }
  destruct F3 as (A3 & B3 & C3 & D3).
  rewrite A3.
  destruct (forallb (fun b => b) (committed r3)).
  - set (r4 := with_updatedAt _ _).
    pose proof (saveRoom_fst o 2 r4 s3) as Hr5.
    pose proof (saveRoom_cache o 2 r4 s3) as Hc5.
    pose proof (quarantineSet_saveRoom o 2 r4 s3) as Hq5.
    destruct (saveRoom o 2 r4 s3) as [r5 s5]. cbn [fst snd] in Hr5, Hc5, Hq5.
    pose proof (roomState_snd (now o) r5) as Hr6.
    destruct (roomState (now o) r5) as [rs r6]. cbn [fst snd] in *.
    assert (Hc6 : JsMap.get String.eqb key (cache s5) = Some (mkCacheEntry r1 (now o)))
      by (rewrite Hc5, Hc3; exact Hc2).
    exists r6. eexists. split; [reflexivity|]. split; [reflexivity|].
    split; [rewrite (get_putRoom _ _ _ Hc6); reflexivity|].
    split; [rewrite quarantineSet_putRoom, Hq5, Hq3; exact Hq2|].
    rewrite Hr6.
    destruct (room_fields_swept (now o) r5) as (A & B & C & _). rewrite A, B, C.
    rewrite Hr5.
    destruct (room_fields_swept (now o) r4) as (A' & B' & C' & _). rewrite A', B', C'.
    unfold r4. cbn [roomId frames committed with_updatedAt with_phase].
    split; [exact A3|]. split; [exact B3|]. split; [exact C3|].
    apply get_reservation_none_room. apply get_reservation_none_room.
    cbn [reservations with_updatedAt with_phase]. exact D3.
  - assert (Hc6 : JsMap.get String.eqb key (cache s3) = Some (mkCacheEntry r1 (now o)))
      by (rewrite Hc3; exact Hc2).
    exists r3, []. cbn [fst snd].
    split; [reflexivity|]. split; [reflexivity|].
    split; [rewrite (get_putRoom _ _ _ Hc6); reflexivity|].
    split; [rewrite quarantineSet_putRoom, Hq3; exact Hq2|].
    auto.
Qed.

Lemma nth_set_nth_eq {A : Type} (x d : A) l : forall i,
  (i < List.length l)%nat -> nth i (set_nth i x l) d = x.
Proof.
  induction l as [|a l IH]; intros i Hi; [cbn in Hi; lia|].
  destruct i as [|i]; [reflexivity|]. cbn [set_nth nth]. apply IH. cbn in Hi. lia.
Qed.

Lemma getRoom_hit o x s e :
  truthy (normalizeRoomId x) = true ->
  JsMap.get String.eqb (normalizeRoomId x) (cache s) = Some e ->
  getRoom o x s = (Some (normalizeRoomId x, room e), touch (now o) (normalizeRoomId x) s).
Proof. intros Ht Hg. unfold getRoom. rewrite Ht, Hg. reflexivity. Qed.

Lemma requestedRoomId_fixed d ws :
  normalizeRoomId (requestedRoomId d ws) = requestedRoomId d ws.
Proof. apply normalizeRoomId_idempotent. Qed.



(** X17. A submitted frame is served: after an accepted
    [submit_frame] on a room of 60 frames, a [get_frame] of that room and
    frame, from any connection, is answered with [frame_data] carrying
    the image that was submitted. *)
Theorem submitted_frame_is_served o o' d d' ws ws' s key r s1 idx tok res u :
  truthy (requestedRoomId d ws) = true ->
  JsSet.has (requestedRoomId d ws) (quarantineSet s) = false ->
  getRoom o (requestedRoomId d ws) s = (Some (key, r), s1) ->
  forallb (fun b => b) (committed r) = false ->
  d_frameIndex d = NInt idx -> in_range idx = true ->
  d_reservationToken d = Some tok -> truthy tok = true ->
  JsMap.get String.eqb tok (reservations r) = Some res ->
  frameIndex res = idx -> now o < expiresAt res ->
  at_bool (committed r) idx = false ->
  d_dataUrl d = Some u -> validatePngDataUrl (Some u) = true ->
  List.length (frames r) = 60%nat -> List.length (committed r) = 60%nat ->
  requestedRoomId d' ws' = requestedRoomId d ws ->
  d_frameIndex d' = NInt idx ->
  snd (on_get_frame o' d' ws' (fst (fst (on_submit_frame o d ws s)))) =
    [Send (envelope o' "frame_data" (PFrameData (roomId r) idx u))].
Proof.
  intros Ht Hq Hg Hdone Hi Hr Htok Htt Hres Hfi Hexp Hc Hu Hv Hlf Hlc Hrid Hi'.
  destruct (@on_submit_frame_accepts o d ws s key r s1 idx tok res u
              Ht Hq Hg Hdone Hi Hr Htok Htt Hres Hfi Hexp Hc Hu Hv)
    as (r' & rest & _ & _ & Hcache & Hqs & A & B & C & _).
  destruct (@getRoom_cached o _ s key r s1 Hg) as (_ & Hkey & _).
  rewrite requestedRoomId_fixed in Hkey. subst key.
  set (S := fst (fst (on_submit_frame o d ws s))) in *.
  unfold on_get_frame. rewrite Hrid, Ht, Hqs, Hq. cbn [negb].
  rewrite (@getRoom_hit o' (requestedRoomId d ws) S (mkCacheEntry r' (now o)));
    [|rewrite requestedRoomId_fixed; exact Ht
     |rewrite requestedRoomId_fixed; exact Hcache].
  rewrite Hi', Hr. cbn [negb room].
  rewrite B, (@at_bool_set_at_same _ idx Hr Hlc). cbn [negb].
  unfold frame_at. rewrite C.
  unfold in_range in Hr. apply andb_true_iff in Hr. destruct Hr as [Hr0 Hr1].
  apply Z.leb_le in Hr0. apply Z.ltb_lt in Hr1.
  assert (E0 : (idx <? 0) = false) by (apply Z.ltb_ge; lia).
  rewrite E0. unfold set_at. rewrite E0.
  rewrite nth_set_nth_eq by (rewrite Hlf; lia).
  rewrite (@validatePngDataUrl_truthy u Hv), A. reflexivity.
Qed.

Lemma submitted_frame_is_served_witness :
  snd (on_get_frame (Cases.oracle 4000) (Sample.data "abcdefg" None (NInt 5))
         (mkConn "" "198.51.100.9")
         (fst (fst (on_submit_frame (Cases.oracle 3000) (Cases.submit "A" 5) Cases.ws
                                    Cases.one_cached)))) =
  [Send (envelope (Cases.oracle 4000) "frame_data"
           (PFrameData "ABCDEFG" 5 "data:image/png;base64,AAAA"))].
Proof.
  apply (@submitted_frame_is_served (Cases.oracle 3000) (Cases.oracle 4000)
           (Cases.submit "A" 5) (Sample.data "abcdefg" None (NInt 5))
           Cases.ws (mkConn "" "198.51.100.9")
           Cases.one_cached "ABCDEFG" Cases.reserved_room
           (touch 3000 "ABCDEFG" Cases.one_cached) 5 "A" (mkReservation 5 900000)
           "data:image/png;base64,AAAA");
    vm_compute; reflexivity.
Defined.

Lemma token_truthy r1 r2 : truthy (token r1 r2) = true.
Proof. unfold token. destruct (slice_from 2 r1); reflexivity. Qed.

Lemma firstYoungestEmpty_eq t r :
  firstYoungestEmpty t r =
  (firstEmptyFrom (cleanupReservations t r) 0 60, cleanupReservations t r).
Proof. reflexivity. Qed.

Lemma firstYoungestEmpty_cases t r i r1 :
  firstYoungestEmpty t r = (i, r1) ->
  r1 = cleanupReservations t r /\
  ((i <? 0) = false -> in_range i = true /\ at_bool (committed r) i = false).
Proof.
  intros E.
  pose proof (@firstEmptyFrom_spec (cleanupReservations t r) 60 0 ltac:(lia)) as H.
  cbv zeta in H.
  rewrite committed_cleanupReservations in H.
  rewrite firstYoungestEmpty_eq in E.
  revert H E. generalize (firstEmptyFrom (cleanupReservations t r) 0 60). intros k H E.
  injection E as -> <-.
  split; [reflexivity|]. intros Hi.
  apply Z.ltb_ge in Hi.
  destruct H as [[Hneg _]|(Hrange & Hfree & _)]; [lia|].
  apply orb_false_iff in Hfree. destruct Hfree as [Hfree _].
  split; [|exact Hfree].
  unfold in_range. apply andb_true_iff. split; [apply Z.leb_le | apply Z.ltb_lt]; lia.
Qed.

(** The two outcomes of [assign_frame], by the frame that the scan
    answers. *)
Lemma assign_frame_full cfg o noEmpty key r ws s i r1 :
  firstYoungestEmpty (now o) r = (i, r1) -> (i <? 0) = true ->
  snd (assign_frame cfg o noEmpty key r ws s) = [error o noEmpty].
Proof.
  intros E Hi. unfold assign_frame. rewrite E, Hi.
  destruct (saveRoom _ _ _ _) as [r2 s2]. reflexivity.
Qed.

Lemma assign_frame_joined cfg o noEmpty key r ws s i r1 :
  firstYoungestEmpty (now o) r = (i, r1) -> (i <? 0) = false ->
  let tok := token (rnd_tok1 o) (rnd_tok2 o) in
  let exp := now o + RESERVATION_MS cfg in
  let r2 :=
    with_updatedAt (now o)
      (with_reservations
         (JsMap.set String.eqb tok (mkReservation i exp) (reservations r1))
         (JsMap.set Z.eqb i tok (reservedByFrame r1)) r1) in
  let saved := saveRoom o 0 r2 s in
  let st := roomState (now o) (fst saved) in
  assign_frame cfg o noEmpty key r ws s =
  (putRoom key (snd st) (snd saved), attach (roomId (fst saved)) ws,
   [Send (envelope o "room_joined"
            (PRoomJoined (roomId (fst saved)) (theme (fst saved)) i tok exp
                         (rs_filled (fst st))))]).
Proof.
  intros E Hi. cbv zeta. unfold assign_frame. rewrite E, Hi.
  destruct (saveRoom _ _ _ _) as [r3 s3]. cbn [fst snd].
  destruct (roomState _ _) as [rs r4]. reflexivity.
Qed.

(** What [join_random] and [join_by_id] leave behind when they answer
    [room_joined]. *)
Lemma assign_frame_reserves cfg o noEmpty key r ws s e0 rid th idx tok exp filled :
  JsMap.get String.eqb key (cache s) = Some e0 ->
  In (Send (envelope o "room_joined" (PRoomJoined rid th idx tok exp filled)))
     (snd (assign_frame cfg o noEmpty key r ws s)) ->
  now o < exp ->
  exists r',
    JsMap.get String.eqb key (cache (fst (fst (assign_frame cfg o noEmpty key r ws s)))) =
      Some (mkCacheEntry r' (lastAccess e0)) /\
    quarantineSet (fst (fst (assign_frame cfg o noEmpty key r ws s))) = quarantineSet s /\
    rid = roomId r /\ roomId r' = roomId r /\ committed r' = committed r /\
    in_range idx = true /\ at_bool (committed r) idx = false /\
    tok = token (rnd_tok1 o) (rnd_tok2 o) /\
    exp = now o + RESERVATION_MS cfg /\
    JsMap.get String.eqb tok (reservations r') = Some (mkReservation idx exp).
Proof.
  intros Hc Hin Hexp.
  destruct (firstYoungestEmpty (now o) r) as [i r1] eqn:Efy.
  destruct (i <? 0) eqn:Ei.
  { rewrite (@assign_frame_full cfg o noEmpty key r ws s i r1 Efy Ei) in Hin.
    destruct Hin as [Hin|[]]. discriminate Hin. }
  rewrite (@assign_frame_joined cfg o noEmpty key r ws s i r1 Efy Ei) in *.
  cbv zeta in *. cbn [fst snd] in *.
  apply firstYoungestEmpty_cases in Efy. destruct Efy as [Er1 Hfree].
  destruct (Hfree Ei) as [Hr Hfr]. clear Hfree.
  assert (Hcr1 : committed r1 = committed r)
    by (rewrite Er1; apply committed_cleanupReservations).
  assert (Hid1 : roomId r1 = roomId r)
    by (rewrite Er1; apply roomId_cleanupReservations).
  clear Er1.
  set (r2 := with_updatedAt _ _) in *.
  pose proof (saveRoom_fst o 0 r2 s) as Hr3.
  pose proof (saveRoom_cache o 0 r2 s) as Hc3.
  pose proof (quarantineSet_saveRoom o 0 r2 s) as Hq3.
  destruct (saveRoom o 0 r2 s) as [r3 s3]. cbn [fst snd] in *.
  pose proof (roomState_snd (now o) r3) as Hr4.
  destruct (roomState (now o) r3) as [rs r4]. cbn [fst snd] in *.
  destruct Hin as [Hin|[]]. injection Hin as <- <- <- <- <- <-.
  set (tok := token (rnd_tok1 o) (rnd_tok2 o)) in *.
  set (exp := now o + RESERVATION_MS cfg) in *.
  assert (Hc2 : committed r2 = committed r) by (unfold r2; cbn; exact Hcr1).
  assert (Hg2 : JsMap.get String.eqb tok (reservations r2) = Some (mkReservation i exp))
    by (unfold r2; cbn [reservations with_updatedAt with_reservations];
        apply sget_set_eq).
  assert (Hs2 : forall r', committed r' = committed r ->
                           swept (now o) r' (mkReservation i exp) = false).
  { intros r' Hr'. apply swept_live; cbn [frameIndex expiresAt];
      [exact Hexp | exact Hr | rewrite Hr'; exact Hfr]. }
  destruct (room_fields_swept (now o) r2) as (A & _ & C & _).
  destruct (room_fields_swept (now o) r3) as (A' & _ & C' & _).
  exists r4.
  assert (Hc' : JsMap.get String.eqb key (cache s3) = Some e0)
    by (rewrite Hc3; exact Hc).
  split; [rewrite (@get_putRoom key r4 s3 e0 Hc'); reflexivity|].
  split; [rewrite quarantineSet_putRoom; exact Hq3|].
  rewrite Hr4, A', C', Hr3, A, C.
  split; [unfold r2; cbn; exact Hid1|].
  split; [unfold r2; cbn; exact Hid1|].
  split; [exact Hc2|].
  split; [exact Hr|].
  split; [exact Hfr|].
  split; [reflexivity|]. split; [reflexivity|].
  apply get_reservation_swept_room; [apply get_reservation_swept_room|].
  - exact Hg2.
  - apply Hs2, Hc2.
  - apply Hs2. rewrite C. exact Hc2.
Qed.

Lemma on_join_by_id_cases cfg o d ws s :
  (exists m, on_join_by_id cfg o d ws s = (s, ws, [error o m])) \/
  (exists m key r s1, snd (on_join_by_id cfg o d ws s) = [error o m] /\
                      getRoom o (normalizeRoomId (d_roomId d)) s = (Some (key, r), s1) /\
                      forallb (fun b => b) (committed r) = true) \/
  (exists m s1, on_join_by_id cfg o d ws s = (s1, ws, [error o m]) /\
                getRoom o (normalizeRoomId (d_roomId d)) s = (None, s1)) \/
  (exists key r s1,
      truthy (normalizeRoomId (d_roomId d)) = true /\
      JsSet.has (normalizeRoomId (d_roomId d)) (quarantineSet s) = false /\
      getRoom o (normalizeRoomId (d_roomId d)) s = (Some (key, r), s1) /\
      forallb (fun b => b) (committed r) = false /\
      on_join_by_id cfg o d ws s =
      assign_frame cfg o "空きコマがありません" key (normalizePhase r) ws s1).
Proof.
  unfold on_join_by_id.
  destruct (truthy (normalizeRoomId (d_roomId d))) eqn:Et; cbn [negb];
    [|left; eexists; reflexivity].
  destruct (JsSet.has _ (quarantineSet s)) eqn:Eq; [left; eexists; reflexivity|].
  destruct (getRoom o _ s) as [[[key r]|] s1] eqn:Eg.
  - rewrite phase_normalizePhase.
    destruct (forallb (fun b => b) (committed r)) eqn:Ed.
    + right. left. exists MSG_NOT_FOUND, key, r, s1. auto.
    + right. right. right. exists key, r, s1. auto.
  - right. right. left. exists MSG_NOT_FOUND, s1. auto.
Qed.

(** X18. A token handed out by [join_by_id] works: when the
    request is answered [room_joined] with frame [idx], token [tok] and
    expiry [exp], a following [submit_frame] of that room, frame and
    token with an image data URL, at a clock before [exp], is answered
    [submitted]. *)
Theorem join_then_submit cfg o1 o2 d1 d2 ws1 ws2 s rid th idx tok exp filled u :
  In (Send (envelope o1 "room_joined" (PRoomJoined rid th idx tok exp filled)))
     (snd (on_join_by_id cfg o1 d1 ws1 s)) ->
  requestedRoomId d2 ws2 = normalizeRoomId (d_roomId d1) ->
  d_frameIndex d2 = NInt idx ->
  d_reservationToken d2 = Some tok ->
  d_dataUrl d2 = Some u -> validatePngDataUrl (Some u) = true ->
  now o1 <= now o2 -> now o2 < exp ->
  submitted rid idx
    (snd (on_submit_frame o2 d2 ws2 (fst (fst (on_join_by_id cfg o1 d1 ws1 s))))) = true.
Proof.
  intros Hin Hrid Hi Htok Hu Hv Hmono Hexp.
  set (x := normalizeRoomId (d_roomId d1)) in *.
  destruct (on_join_by_id_cases cfg o1 d1 ws1 s)
    as [(m & E)|[(m & key & r & s1 & E & _)|[(m & s1 & E & _)|
        (key & r & s1 & Et & Eq & Eg & Hdone & E)]]].
  { rewrite E in Hin. destruct Hin as [Hin|[]]. discriminate Hin. }
  { rewrite E in Hin. destruct Hin as [Hin|[]]. discriminate Hin. }
  { rewrite E in Hin. destruct Hin as [Hin|[]]. discriminate Hin. }
  fold x in Et, Eq, Eg.
  rewrite E in *. clear E.
  destruct (@getRoom_cached o1 x s key r s1 Eg) as (Hcache & Hkey & Hqs).
  assert (Hx : normalizeRoomId x = x) by apply normalizeRoomId_idempotent.
  rewrite Hx in Hkey. subst key.
  destruct (@assign_frame_reserves cfg o1 _ x (normalizePhase r) ws1 s1 _
              rid th idx tok exp filled Hcache Hin ltac:(lia))
    as (r' & Hc' & Hq' & Erid & Eid & Ecm & Hr & Hfree & Etok & _ & Hres).
  set (S := fst (fst (assign_frame cfg o1 _ x (normalizePhase r) ws1 s1))) in *.
  rewrite committed_normalizePhase in Ecm, Hfree.
  rewrite roomId_normalizePhase in Erid, Eid.
  assert (Hg2 : getRoom o2 (requestedRoomId d2 ws2) S =
                (Some (x, r'), touch (now o2) x S)).
  { rewrite Hrid.
    pose proof (@getRoom_hit o2 x S
                  (mkCacheEntry r' (lastAccess (mkCacheEntry r (now o1))))) as G.
    rewrite Hx in G. apply G; [exact Et | exact Hc']. }
  destruct (@on_submit_frame_accepts o2 d2 ws2 S x r' (touch (now o2) x S) idx tok
              (mkReservation idx exp) u)
    as (r'' & rest & Hout & _); try assumption.
  - rewrite Hrid. exact Et.
  - rewrite Hrid, Hq', Hqs. exact Eq.
  - rewrite Ecm. exact Hdone.
  - rewrite Etok. apply token_truthy.
  - reflexivity.
  - rewrite Ecm. exact Hfree.
  - rewrite Hout, Eid, <- Erid. unfold submitted.
    cbn [app existsb is_submitted envelope].
    rewrite !String.eqb_refl, Z.eqb_refl. cbn. reflexivity.
Qed.

Lemma join_then_submit_witness :
  submitted "ABCDEFG" 0
    (snd (on_submit_frame (Cases.oracle 3000)
            (Cases.submit "tok1aaaaaa-tok2bbbbbb" 0) Cases.ws
            (fst (fst (on_join_by_id default_config (Cases.oracle 2000) Cases.join
                                     Cases.ws Cases.one_cached))))) = true.
Proof.
  apply (@join_then_submit default_config (Cases.oracle 2000) (Cases.oracle 3000)
           Cases.join (Cases.submit "tok1aaaaaa-tok2bbbbbb" 0) Cases.ws Cases.ws
           Cases.one_cached "ABCDEFG" "walking dog" 0 "tok1aaaaaa-tok2bbbbbb"
           182000 (repeat false 60) "data:image/png;base64,AAAA");
    try (vm_compute; reflexivity).
  - vm_compute. left. reflexivity.
  - vm_compute. discriminate.
Defined.

(** ** What a save records *)

Lemma filledCountOf_acc c : forall a,
  fold_left (fun a (b : bool) => a + (if b then 1 else 0)) c a =
  a + filledCountOf c.
Proof.
  unfold filledCountOf. induction c as [|b c IH]; intros a; cbn [fold_left]; [lia|].
  rewrite IH, (IH (0 + _)). lia.
Qed.

Lemma filledCountOf_cons b c :
  filledCountOf (b :: c) = (if b : bool then 1 else 0) + filledCountOf c.
Proof. unfold filledCountOf at 1. cbn [fold_left]. apply filledCountOf_acc. Qed.

Lemma filledCountOf_bounds c :
  0 <= filledCountOf c <= Z.of_nat (List.length c) /\
  (filledCountOf c = Z.of_nat (List.length c) <-> forallb (fun b => b) c = true).
Proof.
  induction c as [|b c [IH1 IH2]]; [cbn; split; [lia|tauto]|].
  rewrite filledCountOf_cons. cbn [List.length forallb].
  rewrite Nat2Z.inj_succ. destruct b; cbn [andb].
  - split; [lia|]. rewrite <- IH2. split; lia.
  - split; [lia|]. split; [lia|discriminate].
Qed.

Lemma index_saveRoom o k r s :
  index (snd (saveRoom o k r s)) =
  JsMap.set String.eqb (roomId r)
    (mkIndexMeta (roomId r) (theme r) (createdAt r) (updatedAt r)
                 (filledCountOf (committed r))
                 (forallb (fun b => b) (committed r)))
    (index s).
Proof.
  assert (E : index (updateIndexFromRoom (cleanupReservations (now o) (normalizePhase r)) s) =
              JsMap.set String.eqb (roomId r)
                (mkIndexMeta (roomId r) (theme r) (createdAt r) (updatedAt r)
                   (filledCountOf (committed r))
                   (forallb (fun b => b) (committed r)))
                (index s)).
  { unfold updateIndexFromRoom. rewrite normalizePhase_eq.
    cbn [index with_index roomId theme createdAt updatedAt committed phase
         cleanupReservations with_reservations with_phase].
    destruct (forallb (fun b => b) (committed r)); reflexivity. }
  unfold saveRoom. destruct (roomFile _); [|exact E].
  unfold serializeRoom. destruct (write_ok o k); [|exact E].
  cbn [snd]. unfold saveIndex. destruct (write_ok o (S k)); exact E.
Qed.

(** X19. Every [saveRoom], also one whose write fails, leaves
    the index entry of the room in step with the room: [filledCount] is
    the number of committed frames and [completed] tells whether all are
    committed; no other entry changes. For a room of 60 frames the two
    tests of [join_random] agree ([completed] iff [filledCount = 60]), and
    with distinct index keys a completed room is not picked by
    [join_random] after the save. *)
Theorem saveRoom_indexes o o' k r s :
  let s' := snd (saveRoom o k r s) in
  let meta := mkIndexMeta (roomId r) (theme r) (createdAt r) (updatedAt r)
                          (filledCountOf (committed r))
                          (forallb (fun b => b) (committed r)) in
  JsMap.get String.eqb (roomId r) (index s') = Some meta /\
  (forall id, id <> roomId r ->
              JsMap.get String.eqb id (index s') = JsMap.get String.eqb id (index s)) /\
  0 <= m_filledCount meta <= Z.of_nat (List.length (committed r)) /\
  (List.length (committed r) = 60%nat ->
   (m_completed meta = true <-> m_filledCount meta = 60)) /\
  (NoDup (JsMap.keys (index s)) ->
   forallb (fun b => b) (committed r) = true ->
   findRandomOpenRoomId o' s' <> Some (roomId r)).
Proof.
  cbv zeta. rewrite index_saveRoom.
  destruct (filledCountOf_bounds (committed r)) as [Hb Hall].
  split; [apply sget_set_eq|].
  split; [intros id Hne; apply sget_set_ne; congruence|].
  split; [exact Hb|].
  split.
  { intros Hl. cbn [m_completed m_filledCount]. rewrite Hl in Hall.
    change (Z.of_nat 60) with 60 in Hall. symmetry. exact Hall. }
  intros Hn Hdone Hpick.
  destruct (findRandomOpenRoomId_some o' (snd (saveRoom o k r s)) Hpick)
    as (m & Hin & _ & Hc & _).
  rewrite index_saveRoom in Hin.
  assert (Hn' : NoDup (JsMap.keys (JsMap.set String.eqb (roomId r)
                  (mkIndexMeta (roomId r) (theme r) (createdAt r) (updatedAt r)
                     (filledCountOf (committed r))
                     (forallb (fun b => b) (committed r))) (index s))))
    by (apply NoDup_keys_set, Hn).
  set (meta := mkIndexMeta (roomId r) (theme r) (createdAt r) (updatedAt r)
                 (filledCountOf (committed r))
                 (forallb (fun b => b) (committed r))) in *.
  assert (Hin' : In (roomId r, meta) (JsMap.set String.eqb (roomId r) meta (index s))).
  { eapply get_In; [apply String.eqb_eq | apply sget_set_eq]. }
  rewrite (@NoDup_keys_In _ (roomId r) m meta _ Hn' Hin Hin') in Hc.
  unfold meta in Hc. cbn [m_completed] in Hc. congruence.
Qed.

Lemma serializeRoom_fst_swept t r :
  fst (serializeRoom t (cleanupReservations t (normalizePhase r))) = fst (serializeRoom t r).
Proof.
  assert (E : normalizePhase (cleanupReservations t
                 (cleanupReservations t (normalizePhase r))) =
              normalizePhase (cleanupReservations t r)).
  { rewrite !cleanupReservations_normalizePhase, cleanupReservations_twice,
            !normalizePhase_twice.
    reflexivity. }
  unfold serializeRoom. cbn [fst]. rewrite E. reflexivity.
Qed.

(** The file that a successful save writes. *)
Lemma roomFiles_saveRoom o k r s fp :
  write_ok o k = true -> roomFile (roomId r) = Some fp ->
  roomFiles (snd (saveRoom o k r s)) =
  JsMap.set String.eqb fp (fst (serializeRoom (now o) r)) (roomFiles s).
Proof.
  intros Hw Hf. unfold saveRoom.
  rewrite roomId_cleanupReservations, roomId_normalizePhase, Hf.
  rewrite <- (serializeRoom_fst_swept (now o) r).
  destruct (serializeRoom (now o) (cleanupReservations (now o) (normalizePhase r)))
    as [json room].
  rewrite Hw. cbn [fst snd]. unfold saveIndex.
  destruct (write_ok o (S k)); reflexivity.
Qed.

(** X20. A saved room survives the loss of the cache: after a
    [saveRoom] whose room-file write succeeds, for a room with a valid
    id, 60 frames and flags, a trimmed non-empty theme and non-zero time
    stamps, a [getRoom] that finds no cache entry reads the file back
    into a room with the same id, theme, frames, committed flags, time
    stamps and phase, at any later clock. *)
Theorem saved_room_reloads o o' k r s s' :
  write_ok o k = true ->
  ROOM_ID_RE (roomId r) = true ->
  List.length (frames r) = 60%nat ->
  List.length (committed r) = 60%nat ->
  truthy (theme r) = true -> trim (theme r) = theme r ->
  createdAt r <> 0 -> updatedAt r <> 0 ->
  roomFiles s' = roomFiles (snd (saveRoom o k r s)) ->
  JsMap.get String.eqb (roomId r) (cache s') = None ->
  exists r',
    fst (getRoom o' (roomId r) s') = Some (roomId r, r') /\
    roomId r' = roomId r /\ theme r' = theme r /\
    frames r' = frames r /\ committed r' = committed r /\
    createdAt r' = createdAt r /\ updatedAt r' = updatedAt r /\
    phase r' = phase (fst (saveRoom o k r s)).
Proof.
  intros Hw Hid Hf Hc Hth Htr Hca Hua Hfiles Hmiss.
  pose proof (@normalizeRoomId_fixed _ Hid) as Hn.
  pose proof (@normalizeRoomId_truthy _ Hid) as Ht.
  assert (Hrf : roomFile (roomId r) = Some (roomId r))
    by (unfold roomFile; rewrite Hn, Ht; reflexivity).
  rewrite (roomFiles_saveRoom o k r s Hw Hrf) in Hfiles.
  unfold getRoom. rewrite Hn, Ht, Hmiss, Hrf, Hfiles, sget_set_eq. cbn [negb].
  unfold serializeRoom, deserializeRoom. cbn [fst].
  rewrite !normalizePhase_eq.
  cbn [j_roomId j_theme j_frames j_committed j_createdAt j_updatedAt j_phase
       j_reservations roomId theme frames committed createdAt updatedAt phase
       reservations with_phase cleanupReservations with_reservations].
  rewrite Hn, Ht. cbn [negb].
  eexists. split; [reflexivity|].
  rewrite saveRoom_fst, !normalizePhase_eq.
  cbn [roomId theme frames committed createdAt updatedAt phase
       with_phase cleanupReservations with_reservations].
  rewrite (@pad60_fixed _ None _ Hf), (@pad60_fixed _ false _ Hc), Htr, Hth.
  apply Z.eqb_neq in Hca, Hua. rewrite Hca, Hua.
  repeat split; reflexivity.
Qed.

Lemma saved_room_reloads_witness :
  exists r',
    fst (getRoom (Cases.oracle 500000) "ABCDEFG"
           (with_cache []
              (snd (saveRoom (Cases.oracle 3000) 0 Cases.reserved_room Cases.one_cached))))
      = Some ("ABCDEFG", r') /\
    frames r' = repeat None 60 /\ committed r' = repeat false 60.
Proof.
  destruct (@saved_room_reloads (Cases.oracle 3000) (Cases.oracle 500000) 0
              Cases.reserved_room Cases.one_cached
              (with_cache []
                 (snd (saveRoom (Cases.oracle 3000) 0 Cases.reserved_room
                                Cases.one_cached))))
    as (r' & Hg & _ & _ & Hf & Hc & _); try reflexivity; try discriminate.
  exists r'. auto.
Defined.

(** ** Creating a room *)

Lemma makeRoom_fresh o th s :
  let id := id7 (rnd_id o) in
  let room0 :=
    mkRoom id (if truthy (trim th) then trim th else randTheme (rnd_theme o))
           (repeat None 60) (repeat false 60) (now o) (now o) DRAWING [] [] in
  fst (makeRoom o th s) = room0 /\
  JsMap.get String.eqb id (cache (snd (makeRoom o th s))) =
    Some (mkCacheEntry room0 (now o)) /\
  quarantineSet (snd (makeRoom o th s)) = quarantineSet s.
Proof.
  cbv zeta. unfold makeRoom.
  set (id := id7 (rnd_id o)).
  set (room0 := mkRoom id _ _ _ _ _ _ _ _).
  set (s0 := updateIndexFromRoom room0 _).
  pose proof (saveRoom_fst o 0 room0 s0) as Hr.
  pose proof (saveRoom_cache o 0 room0 s0) as Hc.
  pose proof (quarantineSet_saveRoom o 0 room0 s0) as Hq.
  destruct (saveRoom o 0 room0 s0) as [r1 s1]. cbn [fst snd] in *.
  assert (E : normalizePhase (cleanupReservations (now o) room0) = room0)
    by reflexivity.
  rewrite E in Hr. rewrite Hr. clear Hr E r1.
  assert (Hg : JsMap.get String.eqb id (cache s1) = Some (mkCacheEntry room0 (now o)))
    by (rewrite Hc; unfold s0, updateIndexFromRoom; cbn [cache with_index with_cache];
        apply sget_set_eq).
  cbn [fst snd].
  split; [reflexivity|].
  split; [rewrite (@get_putRoom id room0 s1 _ Hg); reflexivity|].
  rewrite quarantineSet_putRoom, Hq. reflexivity.
Qed.

(** X21. [create_public_and_submit] refuses a value that is
    not an image data URL with one error and no change. Otherwise it
    creates the room under the minted id, attaches the connection to it
    and answers [created_public] and the [frame_committed] broadcast of
    frame 0; the state sent shows a [DRAWING] room with exactly frame 0
    filled, and the cached room holds the image as frame 0, no other
    frame and no reservation. *)
Theorem create_public_and_submit_creates o d ws s :
  (validatePngDataUrl (d_dataUrl d) = false ->
   on_create_public_and_submit o d ws s = (s, ws, [error o MSG_BAD_DATAURL])) /\
  (forall u,
      d_dataUrl d = Some u -> validatePngDataUrl (Some u) = true ->
      let id := id7 (rnd_id o) in
      exists rs r',
        snd (on_create_public_and_submit o d ws s) =
          [Send (envelope o "created_public" (PRoomState rs));
           Broadcast id (envelope o "frame_committed" (PFrame id 0))] /\
        snd (fst (on_create_public_and_submit o d ws s)) = attach id ws /\
        _roomId (snd (fst (on_create_public_and_submit o d ws s))) = id /\
        remoteAddr (snd (fst (on_create_public_and_submit o d ws s))) =
          remoteAddr ws /\
        rs_roomId rs = id /\ rs_phase rs = DRAWING /\ rs_completed rs = false /\
        rs_filled rs = true :: repeat false 59 /\
        rs_createdAt rs = now o /\ rs_updatedAt rs = now o /\
        JsMap.get String.eqb id
          (cache (fst (fst (on_create_public_and_submit o d ws s)))) =
          Some (mkCacheEntry r' (now o)) /\
        roomId r' = id /\
        committed r' = true :: repeat false 59 /\
        frames r' = Some u :: repeat None 59 /\
        reservations r' = [] /\
        quarantineSet (fst (fst (on_create_public_and_submit o d ws s))) =
          quarantineSet s).
Proof.
  split.
  - intros Hv. unfold on_create_public_and_submit. rewrite Hv. reflexivity.
  - intros u Hu Hv. cbv zeta.
    unfold on_create_public_and_submit. rewrite Hu, Hv. cbn [negb].
    set (th := if truthy (trim (d_theme d)) then trim (d_theme d)
               else randTheme (rnd_theme o)).
    destruct (makeRoom_fresh o th s) as (Hr0 & Hc0 & Hq0). cbv zeta in Hr0, Hc0.
    destruct (makeRoom o th s) as [r0 s0]. cbn [fst snd] in Hr0, Hc0, Hq0.
    subst r0.
    cbn [roomId frames committed with_frames with_committed with_updatedAt].
    set (r1 := with_updatedAt _ _).
    pose proof (saveRoom_fst o 2 r1 s0) as Hr2.
    pose proof (saveRoom_cache o 2 r1 s0) as Hc2.
    pose proof (quarantineSet_saveRoom o 2 r1 s0) as Hq2.
    destruct (saveRoom o 2 r1 s0) as [r2 s2]. cbn [fst snd] in Hr2, Hc2, Hq2.
    assert (E2 : normalizePhase (cleanupReservations (now o) r1) = r1)
      by reflexivity.
    rewrite E2 in Hr2. rewrite Hr2. clear Hr2 E2 r2.
    assert (Hg2 : JsMap.get String.eqb (id7 (rnd_id o)) (cache s2) = Some _)
      by (rewrite Hc2; exact Hc0).
    eexists. eexists.
    split; [reflexivity|]. split; [reflexivity|].
    split; [reflexivity|]. split; [reflexivity|].
    cbn [fst snd roomState].
    split; [reflexivity|]. split; [reflexivity|]. split; [reflexivity|].
    split; [reflexivity|]. split; [reflexivity|]. split; [reflexivity|].
    split; [rewrite (@get_putRoom _ _ s2 _ Hg2); reflexivity|].
    split; [reflexivity|]. split; [reflexivity|]. split; [reflexivity|].
    split; [reflexivity|].
    rewrite quarantineSet_putRoom, Hq2, Hq0. reflexivity.
Qed.

(** ** The quarantine list *)

Lemma JsSet_add_In x y q : In y (JsSet.add x q) <-> y = x \/ In y q.
Proof.
  unfold JsSet.add. destruct (JsSet.has x q) eqn:E.
  - apply has_In in E. split; [auto|]. intros [->|H]; assumption.
  - rewrite in_app_iff. cbn [In]. split; [intros [H|[H|[]]]; auto | intros [->|H]; auto].
Qed.

Lemma JsSet_delete_In x y q : In y (JsSet.delete x q) <-> y <> x /\ In y q.
Proof.
  unfold JsSet.delete. rewrite filter_In, negb_true_iff.
  destruct (String.eqb_spec x y) as [->|Hne].
  - split; [intros [_ H]; discriminate H | intros [H _]; contradiction H; reflexivity].
  - split; [intros [H _]; split; [congruence | exact H]
           |intros [_ H]; split; [exact H | reflexivity]].
Qed.

Lemma quarantine_ok_add x q :
  ROOM_ID_RE x = true -> quarantine_ok q -> quarantine_ok (JsSet.add x q).
Proof.
  intros Hx [Hn Hf]. unfold JsSet.add.
  destruct (JsSet.has x q) eqn:E; [split; assumption|].
  apply has_false in E. split.
  - apply NoDup_app; [exact Hn | repeat constructor; intros [] |].
    intros y Hy [<-|[]]. exact (E Hy).
  - apply Forall_app. split; [exact Hf | repeat constructor; exact Hx].
Qed.

Lemma quarantine_ok_delete x q : quarantine_ok q -> quarantine_ok (JsSet.delete x q).
Proof.
  intros [Hn Hf]. split; [apply NoDup_filter_keep, Hn | apply Forall_filter_keep, Hf].
Qed.

Lemma normalizeRoomId_valid x :
  truthy (normalizeRoomId x) = true -> ROOM_ID_RE (normalizeRoomId x) = true.
Proof.
  unfold normalizeRoomId.
  destruct (ROOM_ID_RE (toUpperCase (trim x))) eqn:E; [intros _; exact E | discriminate].
Qed.

Lemma loadQuarantineSet_spec ids : forall q0,
  quarantine_ok q0 ->
  let q := fold_left (fun (set : JsSet.t) x =>
                        let rid := normalizeRoomId x in
                        if truthy rid then JsSet.add rid set else set) ids q0 in
  quarantine_ok q /\
  forall rid, In rid q <->
              In rid q0 \/
              (truthy rid = true /\ exists x, In x ids /\ normalizeRoomId x = rid).
Proof.
  induction ids as [|x ids IH]; intros q0 H0; cbn [fold_left].
  - split; [exact H0|]. intros rid. split; [auto|]. intros [H|(_ & y & [] & _)]. exact H.
  - cbv zeta in *.
    destruct (truthy (normalizeRoomId x)) eqn:Et.
    + destruct (IH (JsSet.add (normalizeRoomId x) q0)) as [Hok Hin].
      { apply quarantine_ok_add; [apply normalizeRoomId_valid, Et | exact H0]. }
      split; [exact Hok|]. intros rid. rewrite Hin, JsSet_add_In. split.
      * intros [[->|H]|(Ht & y & Hy & E)]; auto.
        -- right. split; [exact Et|]. exists x. split; [left|]; reflexivity.
        -- right. split; [exact Ht|]. exists y. split; [right|]; assumption.
      * intros [H|(Ht & y & [<-|Hy] & E)]; auto.
        right. split; [exact Ht|]. exists y. auto.
    + destruct (IH q0 H0) as [Hok Hin].
      split; [exact Hok|]. intros rid. rewrite Hin. split.
      * intros [H|(Ht & y & Hy & E)]; auto.
        right. split; [exact Ht|]. exists y. split; [right|]; assumption.
      * intros [H|(Ht & y & [<-|Hy] & E)]; auto.
        -- rewrite E in Et. congruence.
        -- right. split; [exact Ht|]. exists y. auto.
Qed.

Lemma loadQuarantineSet_fixed q : forall q0,
  NoDup (q0 ++ q) -> Forall (fun id => ROOM_ID_RE id = true) q ->
  fold_left (fun (set : JsSet.t) x =>
               let rid := normalizeRoomId x in
               if truthy rid then JsSet.add rid set else set) q q0 = q0 ++ q.
Proof.
  induction q as [|x q IH]; intros q0 Hn Hf; cbn [fold_left].
  - rewrite app_nil_r. reflexivity.
  - inversion Hf as [|y l Hx Hq]; subst. cbv zeta.
    rewrite (@normalizeRoomId_fixed _ Hx), (@normalizeRoomId_truthy _ Hx).
    assert (Hfresh : JsSet.has x q0 = false).
    { apply has_false. intros Hin. apply NoDup_remove_2 in Hn.
      apply Hn. apply in_or_app. left. exact Hin. }
    unfold JsSet.add. rewrite Hfresh.
    rewrite IH; [rewrite <- app_assoc; reflexivity | | exact Hq].
    rewrite <- app_assoc. exact Hn.
Qed.

(** X22. The quarantine list holds valid room ids, each once:
    [loadQuarantineSet] keeps exactly the entries of the file that
    normalise, normalised and without repetition, and reads back
    unchanged what [saveQuarantineSet] wrote for such a list. *)
Theorem loadQuarantineSet_valid ids :
  quarantine_ok (loadQuarantineSet ids) /\
  (forall rid,
      JsSet.has rid (loadQuarantineSet ids) = true <->
      truthy rid = true /\ exists x, In x ids /\ normalizeRoomId x = rid) /\
  (forall q file,
      quarantine_ok q ->
      loadQuarantineSet (saveQuarantineSet true q file) = q).
Proof.
  destruct (@loadQuarantineSet_spec ids [] (conj (NoDup_nil _) (Forall_nil _)))
    as [Hok Hin].
  split; [exact Hok|]. split.
  - intros rid. rewrite has_In. unfold loadQuarantineSet. rewrite Hin.
    split; [intros [[]|H]; exact H | auto].
  - intros q file [Hn Hf]. unfold saveQuarantineSet, loadQuarantineSet.
    apply (@loadQuarantineSet_fixed q []); assumption.
Qed.

Lemma has_add_same x q : JsSet.has x (JsSet.add x q) = true.
Proof. apply has_In, JsSet_add_In. left. reflexivity. Qed.

Lemma has_delete_same x q : JsSet.has x (JsSet.delete x q) = false.
Proof. apply has_false. rewrite JsSet_delete_In. intros [H _]. apply H. reflexivity. Qed.

Lemma has_add_other x y q : y <> x -> JsSet.has y (JsSet.add x q) = JsSet.has y q.
Proof.
  intros Hne. destruct (JsSet.has y q) eqn:E.
  - apply has_In, JsSet_add_In. right. apply has_In, E.
  - apply has_false. rewrite JsSet_add_In. intros [H|H]; [exact (Hne H)|].
    apply has_false in E. exact (E H).
Qed.

Lemma has_delete_other x y q : y <> x -> JsSet.has y (JsSet.delete x q) = JsSet.has y q.
Proof.
  intros Hne. destruct (JsSet.has y q) eqn:E.
  - apply has_In, JsSet_delete_In. split; [exact Hne | apply has_In, E].
  - apply has_false. rewrite JsSet_delete_In. intros [_ H].
    apply has_false in E. exact (E H).
Qed.

(** X23. The [/admin/quarantine] endpoint. With an
    [ADMIN_KEY] configured a request is served exactly when its [key]
    parameter or its [x-admin-key] header equals the key (a local peer
    address does not help); without one, exactly when the peer is local.
    A refused request (404) and one with an invalid [roomId] (400) change
    nothing. A served request changes nothing but the quarantine list,
    and there only the membership of the room asked: the reply tells the
    membership and the size after the change, [mode=on] adds the room,
    [mode=off] removes it, any other mode toggles it, the list keeps
    holding valid ids once each, and from then on [join_by_id] treats a
    quarantined room as not found. *)
Theorem admin_quarantine_endpoint KEY ok req s file cfg o d ws :
  let reply := fst (fst (admin_quarantine KEY ok req s file)) in
  let s' := snd (fst (admin_quarantine KEY ok req s file)) in
  let file' := snd (admin_quarantine KEY ok req s file) in
  let rid := normalizeRoomId (a_roomId req) in
  let mode := toLowerCase (if truthy (a_mode req) then a_mode req else "toggle") in
  with_quarantineSet (quarantineSet s) s' = s /\
  (truthy KEY = true ->
   (reply = Reply404 <-> a_key req <> KEY /\ a_header req <> KEY)) /\
  (truthy KEY = false ->
   (reply = Reply404 <-> isLocalAddress (a_remote req) = false)) /\
  (reply = Reply404 \/ (exists c m, reply = Reply400 c m) -> s' = s /\ file' = file) /\
  (reply <> Reply404 ->
   (truthy rid = false <-> exists c m, reply = Reply400 c m)) /\
  (forall id b n,
      reply = Reply200 id b n ->
      id = rid /\ truthy rid = true /\
      b = JsSet.has rid (quarantineSet s') /\
      n = JsSet.size (quarantineSet s') /\
      (mode = "on" -> b = true) /\ (mode = "off" -> b = false) /\
      (mode <> "on" -> mode <> "off" -> b = negb (JsSet.has rid (quarantineSet s))) /\
      (forall other, other <> rid ->
                     JsSet.has other (quarantineSet s') =
                     JsSet.has other (quarantineSet s)) /\
      (quarantine_ok (quarantineSet s) -> quarantine_ok (quarantineSet s')) /\
      (ok = true -> file' = quarantineSet s') /\
      (b = true -> normalizeRoomId (d_roomId d) = rid ->
       on_join_by_id cfg o d ws s' = (s', ws, [error o MSG_NOT_FOUND]))).
Proof.
  cbv zeta. unfold admin_quarantine.
  assert (Hauth : truthy KEY = true ->
            (isAdminAuthorized KEY req = false <->
             a_key req <> KEY /\ a_header req <> KEY)).
  { intros HK. unfold isAdminAuthorized. rewrite HK.
    destruct (String.eqb_spec (a_key req) KEY) as [E1|N1];
      destruct (String.eqb_spec (a_header req) KEY) as [E2|N2];
      rewrite ?E1, ?E2, ?HK, ?andb_true_r, ?andb_false_r, ?orb_true_r; cbn [orb];
      split; try discriminate; try tauto; intros [A B]; congruence. }
  assert (Hloc : truthy KEY = false ->
            isAdminAuthorized KEY req = isLocalAddress (a_remote req))
    by (intros HK; unfold isAdminAuthorized; rewrite HK; reflexivity).
  destruct (isAdminAuthorized KEY req) eqn:Ea; cbn [negb fst snd].
  2:{ split; [destruct s; reflexivity|].
      split; [intros HK; split; [intros _; apply (Hauth HK); reflexivity | reflexivity]|].
      split; [intros HK; split; [intros _; rewrite <- (Hloc HK); reflexivity | reflexivity]|].
      split; [auto|].
      split; [intros H; contradiction H; reflexivity|].
      intros id b n H. discriminate H. }
  destruct (truthy (normalizeRoomId (a_roomId req))) eqn:Et; cbn [negb fst snd].
  2:{ split; [destruct s; reflexivity|].
      split; [intros HK; split; [discriminate|]; intros H; apply (Hauth HK) in H; discriminate H|].
      split; [intros HK; split; [discriminate|]; intros H; rewrite <- (Hloc HK) in H; discriminate H|].
      split; [auto|].
      split; [intros _; split; [intros _; eexists; eexists; reflexivity | reflexivity]|].
      intros id b n H. discriminate H. }
  set (rid := normalizeRoomId (a_roomId req)) in *.
  set (mode := toLowerCase (if truthy (a_mode req) then a_mode req else "toggle")).
  set (b := if String.eqb mode "on" then true
            else if String.eqb mode "off" then false
            else negb (JsSet.has rid (quarantineSet s))).
  set (q := if b then JsSet.add rid (quarantineSet s)
            else JsSet.delete rid (quarantineSet s)).
  split; [destruct s; reflexivity|].
  split; [intros HK; split; [discriminate|]; intros H; apply (Hauth HK) in H; discriminate H|].
  split; [intros HK; split; [discriminate|]; intros H; rewrite <- (Hloc HK) in H; discriminate H|].
  split; [intros [H|(c & m & H)]; discriminate H|].
  split; [intros _; split; [discriminate | intros (c & m & H); discriminate H]|].
  intros id b' n [= <- <- <-]. cbn [quarantineSet with_quarantineSet].
  assert (Hb : JsSet.has rid q = b)
    by (unfold q; destruct b; [apply has_add_same | apply has_delete_same]).
  split; [reflexivity|]. split; [reflexivity|].
  split; [symmetry; exact Hb|]. split; [reflexivity|].
  split; [intros E; unfold b; rewrite E; reflexivity|].
  split.
  { intros E. unfold b. rewrite E. reflexivity. }
  split.
  { intros N1 N2. unfold b.
    destruct (String.eqb_spec mode "on"); [contradiction|].
    destruct (String.eqb_spec mode "off"); [contradiction|]. reflexivity. }
  split.
  { intros other Hne. unfold q.
    destruct b; [apply has_add_other | apply has_delete_other]; exact Hne. }
  split.
  { intros Hok. unfold q. destruct b;
      [apply quarantine_ok_add; [apply normalizeRoomId_valid, Et | exact Hok]
      |apply quarantine_ok_delete, Hok]. }
  split; [intros ->; reflexivity|].
  intros Hbt Hd. unfold on_join_by_id. rewrite Hd, Et. cbn [negb quarantineSet with_quarantineSet].
  rewrite Hb, Hbt. reflexivity.
Qed.

(** ** The rebuilt index *)

Lemma substring_skip_append a : forall suf,
  substring (String.length a) (String.length suf) (a ++ suf) = suf.
Proof.
  induction a as [|c a IH]; intros suf; cbn [String.length append substring].
  - induction suf as [|d suf IHs]; [reflexivity|].
    cbn [String.length substring]. rewrite IHs. reflexivity.
  - apply IH.
Qed.

Lemma endsWith_append a suf : endsWith suf (a ++ suf) = true.
Proof.
  unfold endsWith. rewrite length_append.
  replace (String.length a + String.length suf - String.length suf)%nat
    with (String.length a) by lia.
  rewrite substring_skip_append, String.eqb_refl.
  assert (H : (String.length suf <=? String.length a + String.length suf)%nat = true)
    by (apply Nat.leb_le; lia).
  rewrite H. reflexivity.
Qed.

(** X24. [rebuildIndexFromDisk] lists room ids only: every
    entry sits under a valid room id, carries that id, and is marked
    completed whenever 60 or more frames are filled; ids are listed once.
    For a room with a valid id, 60 flags and a trimmed theme, the index
    rebuilt from the file that [serializeRoom] produces is the entry that
    [saveRoom] records for that room. A loaded index that is not empty is
    used as it is. *)
Theorem rebuildIndexFromDisk_agrees files :
  Forall rebuilt_ok (rebuildIndexFromDisk files) /\
  NoDup (JsMap.keys (rebuildIndexFromDisk files)) /\
  (forall o k r s,
      ROOM_ID_RE (roomId r) = true ->
      List.length (committed r) = 60%nat ->
      trim (theme r) = theme r ->
      JsMap.get String.eqb (roomId r)
        (rebuildIndexFromDisk
           [mkDiskFile (roomId r ++ ".json") (Some (fst (serializeRoom (now o) r))) None]) =
      JsMap.get String.eqb (roomId r) (index (snd (saveRoom o k r s)))) /\
  (forall loaded, loaded <> [] -> startIndex loaded files = loaded) /\
  startIndex [] files = rebuildIndexFromDisk files.
Proof.
  assert (Hinv : Forall rebuilt_ok (rebuildIndexFromDisk files) /\
                 NoDup (JsMap.keys (rebuildIndexFromDisk files))).
  { unfold rebuildIndexFromDisk.
    apply fold_left_invariant with
      (P := fun out : Index => Forall rebuilt_ok out /\ NoDup (JsMap.keys out));
      [|split; constructor].
    intros out f [Hf Hn].
    destruct (negb (endsWith ".json" (f_name f))); [auto|].
    destruct (f_json f) as [obj|]; [|auto].
    cbv zeta.
    set (rid := normalizeRoomId _).
    destruct (truthy rid) eqn:Et; cbn [negb]; [|auto].
    split; [|apply NoDup_keys_set, Hn].
    apply Forall_set; [exact Hf|].
    unfold rebuilt_ok. cbn [fst snd m_roomId m_filledCount m_completed].
    split; [apply normalizeRoomId_valid, Et|]. split; [reflexivity|].
    split; [apply filledCountOf_bounds|].
    intros H. apply Z.leb_le in H. rewrite H. apply orb_true_r. }
  destruct Hinv as [Hf Hn].
  split; [exact Hf|]. split; [exact Hn|]. split; [|split].
  - intros o k r s Hid Hl Htr.
    rewrite index_saveRoom, sget_set_eq.
    unfold rebuildIndexFromDisk. cbn [fold_left f_name f_json f_filled].
    rewrite endsWith_append. cbn [negb]. cbv zeta.
    unfold serializeRoom. cbn [fst].
    rewrite !normalizePhase_eq.
    cbn [j_roomId j_theme j_createdAt j_updatedAt j_phase j_committed
         roomId theme createdAt updatedAt phase committed with_phase
         cleanupReservations with_reservations].
    rewrite (@normalizeRoomId_truthy _ Hid), (@normalizeRoomId_fixed _ Hid),
            (@normalizeRoomId_truthy _ Hid), Htr.
    cbn [negb]. rewrite sget_set_eq. f_equal. f_equal.
    destruct (filledCountOf_bounds (committed r)) as [_ Hall].
    rewrite Hl in Hall. change (Z.of_nat 60) with 60 in Hall.
    destruct (forallb (fun b => b) (committed r)) eqn:Ed; [reflexivity|].
    cbn [String.eqb Ascii.eqb Bool.eqb orb].
    destruct (filledCountOf_bounds (committed r)) as [[_ Hub] _].
    rewrite Hl in Hub. change (Z.of_nat 60) with 60 in Hub.
    apply Z.leb_gt.
    assert (filledCountOf (committed r) <> 60) by (intros E; apply Hall in E; discriminate).
    lia.
  - intros loaded Hne. unfold startIndex. destruct loaded; [contradiction|reflexivity].
  - unfold startIndex. cbn [List.length Nat.eqb].
    destruct (rebuildIndexFromDisk files); reflexivity.
Qed.

(** ** Monitoring *)

Lemma metric_char_of_safe c : is_metric_char (metric_char_of c) = true.
Proof. unfold metric_char_of. destruct (is_metric_char c) eqn:E; [exact E | reflexivity]. Qed.

Lemma metric_char_of_fixed c : is_metric_char c = true -> metric_char_of c = c.
Proof. unfold metric_char_of. intros ->. reflexivity. Qed.

Lemma map_chars_safe s : all_chars is_metric_char (map_chars metric_char_of s) = true.
Proof.
  induction s as [|c s IH]; [reflexivity|].
  cbn [map_chars all_chars]. rewrite metric_char_of_safe, IH. reflexivity.
Qed.

Lemma map_chars_fixed s :
  all_chars is_metric_char s = true -> map_chars metric_char_of s = s.
Proof.
  induction s as [|c s IH]; [reflexivity|].
  cbn [map_chars all_chars]. intros H. apply andb_true_iff in H. destruct H as [Hc Hs].
  rewrite (metric_char_of_fixed _ Hc), (IH Hs). reflexivity.
Qed.

Lemma length_map_chars f s : String.length (map_chars f s) = String.length s.
Proof. induction s as [|c s IH]; [reflexivity|]. cbn. rewrite IH. reflexivity. Qed.

Lemma metricKey_eq s : metricKey s = map_chars metric_char_of (or_unknown s).
Proof. reflexivity. Qed.

Lemma or_unknown_truthy s : truthy (or_unknown s) = true.
Proof. unfold or_unknown. destruct s; reflexivity. Qed.

Lemma or_unknown_fixed s : truthy s = true -> or_unknown s = s.
Proof. unfold or_unknown. intros ->. reflexivity. Qed.

Lemma truthy_map_chars f s : truthy (map_chars f s) = truthy s.
Proof. destruct s; reflexivity. Qed.

(** X25. A metric name is always safe to print: [metricKey]
    answers a non-empty string of [a-zA-Z0-9_] of the length of its
    argument (of ["unknown"] for an empty one); it is idempotent and
    leaves a non-empty safe name as it is. *)
Theorem metricKey_safe s :
  all_chars is_metric_char (metricKey s) = true /\
  truthy (metricKey s) = true /\
  String.length (metricKey s) = String.length (or_unknown s) /\
  metricKey (metricKey s) = metricKey s /\
  (truthy s = true -> all_chars is_metric_char s = true -> metricKey s = s) /\
  metricKey "" = "unknown".
Proof.
  rewrite !metricKey_eq.
  split; [apply map_chars_safe|].
  split; [rewrite truthy_map_chars; apply or_unknown_truthy|].
  split; [apply length_map_chars|].
  split.
  { rewrite or_unknown_fixed
      by (rewrite truthy_map_chars; apply or_unknown_truthy).
    apply map_chars_fixed, map_chars_safe. }
  split; [|reflexivity].
  intros Ht Hs. rewrite (or_unknown_fixed _ Ht). apply map_chars_fixed, Hs.
Qed.

Lemma observe_all_snoc op l ms :
  observe_all op (l ++ [ms]) = observeMs op ms (observe_all op l).
Proof. unfold observe_all. rewrite fold_left_app. reflexivity. Qed.

(** X26. The timing of an operation summarises its
    observations: after the observations [l] (not empty) on a fresh
    table, the entry of the operation holds their number, their sum and
    the greatest of them, or 0 when none is positive; no other entry
    exists. *)
Theorem observeMs_summarises op l :
  l <> [] ->
  observe_all op l =
  [(metricKey op,
    mkMsStat (Z.of_nat (List.length l)) (fold_right Z.add 0 l) (fold_right Z.max 0 l))].
Proof.
  induction l as [|ms l IH] using rev_ind; [contradiction|]. intros _.
  rewrite observe_all_snoc.
  assert (Hsum : fold_right Z.add 0 (l ++ [ms]) = fold_right Z.add 0 l + ms).
  { clear. induction l as [|a l IH]; cbn [app fold_right]; [lia|]. rewrite IH. lia. }
  assert (Hmax : fold_right Z.max 0 (l ++ [ms]) = Z.max (fold_right Z.max 0 l) ms).
  { clear. induction l as [|a l IH]; cbn [app fold_right]; [lia|]. rewrite IH. lia. }
  rewrite Hsum, Hmax, length_app, Nat2Z.inj_add. cbn [List.length].
  destruct l as [|a l].
  - cbn [observe_all fold_left observeMs JsMap.get JsMap.set app List.length fold_right].
    unfold observeMs. cbn [JsMap.get JsMap.set ms_count ms_sum ms_max].
    f_equal. f_equal. f_equal; try lia.
    destruct (0 <? ms) eqn:E; [apply Z.ltb_lt in E|apply Z.ltb_ge in E]; lia.
  - rewrite IH by discriminate. unfold observeMs.
    cbn [JsMap.get JsMap.set]. rewrite String.eqb_refl.
    cbn [ms_count ms_sum ms_max]. f_equal. f_equal. f_equal; try lia.
    destruct (_ <? ms) eqn:E; [apply Z.ltb_lt in E|apply Z.ltb_ge in E]; lia.
Qed.

Lemma observeMs_summarises_witness :
  observe_all "ws_hello" [3; 0; 7; 2] = [("ws_hello", mkMsStat 4 12 7)].
Proof.
  apply (@observeMs_summarises "ws_hello" [3; 0; 7; 2]). discriminate.
Defined.

Lemma counter_inc k name n c :
  counter k (inc name n c) =
  counter k c + (if String.eqb (metricKey name) k then n else 0).
Proof.
  unfold inc. destruct (String.eqb (metricKey name) k) eqn:E.
  - apply String.eqb_eq in E. subst k. unfold counter at 1.
    rewrite sget_set_eq. reflexivity.
  - apply String.eqb_neq in E. unfold counter at 1.
    rewrite (sget_set_ne _ _ E). fold (counter k c). lia.
Qed.

Lemma metric_char_of_eqb c x :
  is_metric_char x = true -> x <> "_"%char ->
  Ascii.eqb (metric_char_of c) x = Ascii.eqb c x.
Proof.
  intros Hx Hu. unfold metric_char_of. destruct (is_metric_char c) eqn:E; [reflexivity|].
  transitivity false.
  - apply Ascii.eqb_neq. congruence.
  - symmetry. apply Ascii.eqb_neq. intros ->. congruence.
Qed.

Lemma map_chars_eqb s : forall s',
  all_chars (fun x => is_metric_char x && negb (Ascii.eqb x "_")) s' = true ->
  String.eqb (map_chars metric_char_of s) s' = String.eqb s s'.
Proof.
  induction s as [|c s IH]; intros [|x s'] H; try reflexivity.
  cbn [all_chars] in H. apply andb_true_iff in H. destruct H as [Hx Hs].
  apply andb_true_iff in Hx. destruct Hx as [Hm Hu].
  apply negb_true_iff, Ascii.eqb_neq in Hu.
  cbn [map_chars String.eqb]. rewrite (metric_char_of_eqb c Hm Hu), (IH _ Hs).
  reflexivity.
Qed.

Lemma metricKey_error t :
  truthy t = true -> String.eqb (metricKey t) "error" = String.eqb t "error".
Proof.
  intros Ht. rewrite metricKey_eq, (or_unknown_fixed _ Ht).
  apply map_chars_eqb. reflexivity.
Qed.

Lemma count_actions_cons p a l :
  count_actions p (a :: l) = (if p a then 1 else 0) + count_actions p l.
Proof.
  unfold count_actions. cbn [filter]. destruct (p a); cbn [List.length]; lia.
Qed.

Lemma meter_send_counts t e M :
  let M' := meter_send t e M in
  counter "errors_total" (counters M') =
    counter "errors_total" (counters M) + (if error_sent (Send e) then 1 else 0) /\
  counter "ws_send_total" (counters M') =
    counter "ws_send_total" (counters M) + (if typed_send (Send e) then 1 else 0) /\
  counter "ws_messages_total" (counters M') = counter "ws_messages_total" (counters M) /\
  counter "ws_bad_json_total" (counters M') = counter "ws_bad_json_total" (counters M) /\
  counter "rate_limited_total" (counters M') = counter "rate_limited_total" (counters M) /\
  (error_sent (Send e) = false -> LAST_ERROR M' = LAST_ERROR M).
Proof.
  cbn zeta. unfold meter_send. cbn [error_sent typed_send].
  destruct (truthy (e_t e)) eqn:Ht; cbn [negb].
  - rewrite (metricKey_error _ Ht).
    assert (N1 : forall x, String.eqb (metricKey ("ws_send_type_" ++ x)) "errors_total" = false)
      by (intros x; vm_compute; reflexivity).
    assert (N2 : forall x, String.eqb (metricKey ("ws_send_type_" ++ x)) "ws_send_total" = false)
      by (intros x; vm_compute; reflexivity).
    assert (N3 : forall x, String.eqb (metricKey ("ws_send_type_" ++ x)) "ws_messages_total" = false)
      by (intros x; vm_compute; reflexivity).
    assert (N4 : forall x, String.eqb (metricKey ("ws_send_type_" ++ x)) "ws_bad_json_total" = false)
      by (intros x; vm_compute; reflexivity).
    assert (N5 : forall x, String.eqb (metricKey ("ws_send_type_" ++ x)) "rate_limited_total" = false)
      by (intros x; vm_compute; reflexivity).
    destruct (String.eqb (e_t e) "error") eqn:Ee.
    + destruct (match e_data e with
                | PError code message _ =>
                    (match code with Some c => c | None => "" end, message)
                | _ => ("", "")
                end) as [code message].
      cbn [counters LAST_ERROR]. rewrite !counter_inc, N1, N2, N3, N4, N5.
      change (String.eqb (metricKey "errors_total") "errors_total") with true.
      change (String.eqb (metricKey "errors_total") "ws_send_total") with false.
      change (String.eqb (metricKey "errors_total") "ws_messages_total") with false.
      change (String.eqb (metricKey "errors_total") "ws_bad_json_total") with false.
      change (String.eqb (metricKey "errors_total") "rate_limited_total") with false.
      change (String.eqb (metricKey "ws_send_total") "errors_total") with false.
      change (String.eqb (metricKey "ws_send_total") "ws_send_total") with true.
      change (String.eqb (metricKey "ws_send_total") "ws_messages_total") with false.
      change (String.eqb (metricKey "ws_send_total") "ws_bad_json_total") with false.
      change (String.eqb (metricKey "ws_send_total") "rate_limited_total") with false.
      repeat split; try lia; try discriminate.
    + cbn [counters LAST_ERROR]. rewrite !counter_inc, N1, N2, N3, N4, N5.
      change (String.eqb (metricKey "ws_send_total") "errors_total") with false.
      change (String.eqb (metricKey "ws_send_total") "ws_send_total") with true.
      change (String.eqb (metricKey "ws_send_total") "ws_messages_total") with false.
      change (String.eqb (metricKey "ws_send_total") "ws_bad_json_total") with false.
      change (String.eqb (metricKey "ws_send_total") "rate_limited_total") with false.
      repeat split; lia.
  - assert (Ee : String.eqb (e_t e) "error" = false)
      by (destruct (e_t e); [reflexivity | discriminate]).
    rewrite Ee. repeat split; lia.
Qed.

Lemma meter_fold_counts t l : forall M,
  let M' := fold_left (meter_action t) l M in
  counter "errors_total" (counters M') =
    counter "errors_total" (counters M) + count_actions error_sent l /\
  counter "ws_send_total" (counters M') =
    counter "ws_send_total" (counters M) + count_actions typed_send l /\
  counter "ws_messages_total" (counters M') = counter "ws_messages_total" (counters M) /\
  counter "ws_bad_json_total" (counters M') = counter "ws_bad_json_total" (counters M) /\
  counter "rate_limited_total" (counters M') = counter "rate_limited_total" (counters M) /\
  (count_actions error_sent l = 0 -> LAST_ERROR M' = LAST_ERROR M).
Proof.
  induction l as [|a l IH]; intros M; cbn zeta.
  - cbn [fold_left]. unfold count_actions. cbn. repeat split; lia.
  - cbn [fold_left]. rewrite !count_actions_cons.
    destruct (IH (meter_action t M a)) as (I1 & I2 & I3 & I4 & I5 & I6).
    cbn zeta in *. rewrite I1, I2, I3, I4, I5.
    assert (P0 : forall p, 0 <= count_actions p l) by (intros p; unfold count_actions; lia).
    destruct a as [e|rid e].
    + cbn [meter_action] in *.
      destruct (meter_send_counts t e M) as (S1 & S2 & S3 & S4 & S5 & S6).
      cbn zeta in *. rewrite S1, S2, S3, S4, S5.
      repeat split; try lia.
      intros H0. pose proof (P0 error_sent) as P1.
      destruct (error_sent (Send e)) eqn:Ee; [lia|].
      rewrite I6 by lia. apply S6. reflexivity.
    + cbn [meter_action error_sent typed_send] in *.
      repeat split; try lia. intros H0. apply I6. lia.
Qed.

(** The counters after a frame with a type: [c0] before, [ok] the
    answer of the limiter, [out] what the handler sent. *)
Lemma counted_frame (now : Z) (name : string) (ok : bool) (out : list Action)
      c0 tm le :
  let c := inc ("ws_msg_type_" ++ name) 1 (inc "ws_messages_total" 1 c0) in
  let c := if ok then c else inc "rate_limited_total" 1 c in
  let M1 := fold_left (meter_action now) out (mkMetrics c tm le) in
  counter "errors_total" (counters M1) =
    counter "errors_total" c0 + count_actions error_sent out /\
  counter "ws_send_total" (counters M1) =
    counter "ws_send_total" c0 + count_actions typed_send out /\
  counter "ws_messages_total" (counters M1) = counter "ws_messages_total" c0 + 1 /\
  counter "ws_bad_json_total" (counters M1) = counter "ws_bad_json_total" c0 + 0 /\
  counter "rate_limited_total" (counters M1) =
    counter "rate_limited_total" c0 + (if negb ok then 1 else 0) /\
  (count_actions error_sent out = 0 -> LAST_ERROR M1 = le).
Proof.
  cbn zeta.
  match goal with
  | |- context [fold_left (meter_action now) out ?M0] =>
      destruct (meter_fold_counts now out M0) as (F1 & F2 & F3 & F4 & F5 & F6)
  end.
  cbn zeta in *. cbn [counters LAST_ERROR] in *.
  rewrite F1, F2, F3, F4, F5.
  assert (N1 : forall x, String.eqb (metricKey ("ws_msg_type_" ++ x)) "errors_total" = false)
    by (intros x; vm_compute; reflexivity).
  assert (N2 : forall x, String.eqb (metricKey ("ws_msg_type_" ++ x)) "ws_send_total" = false)
    by (intros x; vm_compute; reflexivity).
  assert (N3 : forall x, String.eqb (metricKey ("ws_msg_type_" ++ x)) "ws_messages_total" = false)
    by (intros x; vm_compute; reflexivity).
  assert (N4 : forall x, String.eqb (metricKey ("ws_msg_type_" ++ x)) "ws_bad_json_total" = false)
    by (intros x; vm_compute; reflexivity).
  assert (N5 : forall x, String.eqb (metricKey ("ws_msg_type_" ++ x)) "rate_limited_total" = false)
    by (intros x; vm_compute; reflexivity).
  destruct ok; cbn [negb]; rewrite !counter_inc, ?N1, ?N2, ?N3, ?N4, ?N5;
    change (String.eqb (metricKey "ws_messages_total") "errors_total") with false;
    change (String.eqb (metricKey "ws_messages_total") "ws_send_total") with false;
    change (String.eqb (metricKey "ws_messages_total") "ws_messages_total") with true;
    change (String.eqb (metricKey "ws_messages_total") "ws_bad_json_total") with false;
    change (String.eqb (metricKey "ws_messages_total") "rate_limited_total") with false;
    change (String.eqb (metricKey "rate_limited_total") "errors_total") with false;
    change (String.eqb (metricKey "rate_limited_total") "ws_send_total") with false;
    change (String.eqb (metricKey "rate_limited_total") "ws_messages_total") with false;
    change (String.eqb (metricKey "rate_limited_total") "ws_bad_json_total") with false;
    change (String.eqb (metricKey "rate_limited_total") "rate_limited_total") with true;
    repeat split; try lia; exact F6.
Qed.

(** X27. The counters of the [message] listener are exact:
    the bookkeeping changes nothing of what the listener does, and one
    frame raises [errors_total] by the number of [error] envelopes sent
    to the client, [ws_send_total] by the number of envelopes sent to
    it, [ws_messages_total] by one when the frame has a type to read
    (it parses to a value other than [null] and [m.t] converts),
    [ws_bad_json_total] by one when it is not JSON, and neither of the
    two when the listener throws for want of a type;
    [rate_limited_total] rises by one exactly when [checkRateLimit]
    refuses the frame, which it never does for a type that names an
    inherited member of [RATE_BY_OP]; a frame answered without an error
    leaves [LAST_ERROR] as it was. *)
Theorem message_counters_exact cfg o elapsed ws s M buf :
  let out := onMessage cfg o ws s buf in
  let M' := snd (onMessageMetered cfg o elapsed ws s M buf) in
  let refused :=
    match frame_type buf with
    | Some t =>
        negb (fst (fst (checkRateLimit (or_unknown (remoteAddr ws)) (or_unknown t)
                                       (now o) (RATE_BUCKETS s))))
    | None => false
    end in
  fst (onMessageMetered cfg o elapsed ws s M buf) = out /\
  counter "errors_total" (counters M') =
    counter "errors_total" (counters M) + count_actions error_sent (snd out) /\
  counter "ws_send_total" (counters M') =
    counter "ws_send_total" (counters M) + count_actions typed_send (snd out) /\
  counter "ws_messages_total" (counters M') =
    counter "ws_messages_total" (counters M) +
    (match frame_type buf with Some _ => 1 | None => 0 end) /\
  counter "ws_bad_json_total" (counters M') =
    counter "ws_bad_json_total" (counters M) +
    (match buf with BadJson => 1 | _ => 0 end) /\
  counter "rate_limited_total" (counters M') =
    counter "rate_limited_total" (counters M) + (if refused then 1 else 0) /\
  (count_actions error_sent (snd out) = 0 -> LAST_ERROR M' = LAST_ERROR M) /\
  (forall t, frame_type buf = Some t -> inherited (or_unknown t) = true ->
             refused = false).
Proof.
  cbn zeta.
  assert (Hinh : forall t, frame_type buf = Some t -> inherited (or_unknown t) = true ->
            match frame_type buf with
            | Some t =>
                negb (fst (fst (checkRateLimit (or_unknown (remoteAddr ws)) (or_unknown t)
                                               (now o) (RATE_BUCKETS s))))
            | None => false
            end = false).
  { intros t E Hop. rewrite E.
    rewrite (@checkRateLimit_inherited _ _ _ _ Hop). reflexivity. }
  destruct buf as [|t d| |t d u].
  - cbn [onMessageMetered fst snd counters LAST_ERROR onMessage frame_type].
    rewrite !counter_inc.
    change (String.eqb (metricKey "ws_bad_json_total") "errors_total") with false.
    change (String.eqb (metricKey "ws_bad_json_total") "ws_send_total") with false.
    change (String.eqb (metricKey "ws_bad_json_total") "ws_messages_total") with false.
    change (String.eqb (metricKey "ws_bad_json_total") "ws_bad_json_total") with true.
    change (String.eqb (metricKey "ws_bad_json_total") "rate_limited_total") with false.
    unfold count_actions. cbn [filter List.length Z.of_nat].
    repeat split; try lia; try exact Hinh.
  - split; [reflexivity|]. revert Hinh.
    match goal with
    | |- ?H -> ?A /\ ?B /\ ?C /\ ?D /\ ?E /\ ?F /\ ?G =>
        intros Hinh; cut (A /\ B /\ C /\ D /\ E /\ F);
          [intros (H1 & H2 & H3 & H4 & H5 & H6); repeat split; assumption|]
    end.
    clear Hinh. unfold onMessageMetered. cbn [fst snd counters LAST_ERROR frame_type].
    apply counted_frame.
  - cbn [onMessageMetered fst snd counters LAST_ERROR onMessage thrown frame_type].
    unfold count_actions. cbn [filter List.length Z.of_nat].
    repeat split; try lia; try exact Hinh.
  - split; [reflexivity|]. revert Hinh.
    match goal with
    | |- ?H -> ?A /\ ?B /\ ?C /\ ?D /\ ?E /\ ?F /\ ?G =>
        intros Hinh; cut (A /\ B /\ C /\ D /\ E /\ F);
          [intros (H1 & H2 & H3 & H4 & H5 & H6); repeat split; assumption|]
    end.
    clear Hinh. unfold onMessageMetered. cbn [fst snd counters LAST_ERROR frame_type].
    apply counted_frame.
Qed.

Lemma all_chars_append p a b :
  all_chars p (a ++ b) = all_chars p a && all_chars p b.
Proof.
  induction a as [|c a IH]; [reflexivity|].
  cbn [append all_chars]. rewrite IH, andb_assoc. reflexivity.
Qed.

Lemma esc_char_cases c :
  (c = "&"%char /\ esc_char c = "&amp;") \/
  (c = "<"%char /\ esc_char c = "&lt;") \/
  (c = ">"%char /\ esc_char c = "&gt;") \/
  (c = dquote /\ esc_char c = "&quot;") \/
  (c = "'"%char /\ esc_char c = "&#39;") \/
  (is_special c = false /\ esc_char c = String c "").
Proof.
  unfold esc_char, is_special, is_markup.
  destruct (Ascii.eqb c "&") eqn:E1;
    [apply Ascii.eqb_eq in E1; left; split; [exact E1 | reflexivity] | right].
  destruct (Ascii.eqb c "<") eqn:E2;
    [apply Ascii.eqb_eq in E2; left; split; [exact E2 | reflexivity] | right].
  destruct (Ascii.eqb c ">") eqn:E3;
    [apply Ascii.eqb_eq in E3; left; split; [exact E3 | reflexivity] | right].
  destruct (Ascii.eqb c dquote) eqn:E4;
    [apply Ascii.eqb_eq in E4; left; split; [exact E4 | reflexivity] | right].
  destruct (Ascii.eqb c "'") eqn:E5;
    [apply Ascii.eqb_eq in E5; left; split; [exact E5 | reflexivity] | right].
  split; reflexivity.
Qed.

Lemma esc_char_safe c : all_chars (fun x => negb (is_markup x)) (esc_char c) = true.
Proof.
  destruct (esc_char_cases c) as [[_ ->]|[[_ ->]|[[_ ->]|[[_ ->]|[[_ ->]|[H ->]]]]]];
    try reflexivity.
  cbn [all_chars]. unfold is_special in H. apply orb_false_iff in H.
  destruct H as [_ ->]. reflexivity.
Qed.

Lemma esc_plain s : all_chars (fun x => negb (is_special x)) s = true -> esc s = s.
Proof.
  induction s as [|c s IH]; [reflexivity|]. cbn [all_chars esc]. intros H.
  apply andb_true_iff in H. destruct H as [Hc Hs]. apply negb_true_iff in Hc.
  rewrite (IH Hs).
  destruct (esc_char_cases c) as [[-> _]|[[-> _]|[[-> _]|[[-> _]|[[-> _]|[_ ->]]]]]];
    try discriminate.
  reflexivity.
Qed.

Lemma esc_injective s : forall s', esc s = esc s' -> s = s'.
Proof.
  induction s as [|c s IH]; intros [|c' s'] H.
  - reflexivity.
  - cbn [esc] in H.
    destruct (esc_char_cases c') as [[_ E]|[[_ E]|[[_ E]|[[_ E]|[[_ E]|[_ E]]]]]];
      rewrite E in H; discriminate.
  - cbn [esc] in H.
    destruct (esc_char_cases c) as [[_ E]|[[_ E]|[[_ E]|[[_ E]|[[_ E]|[_ E]]]]]];
      rewrite E in H; discriminate.
  - cbn [esc] in H.
    destruct (esc_char_cases c) as [[-> E]|[[-> E]|[[-> E]|[[-> E]|[[-> E]|[P E]]]]]];
      destruct (esc_char_cases c') as [[-> E']|[[-> E']|[[-> E']|[[-> E']|[[-> E']|[P' E']]]]]];
      rewrite ?E, ?E' in H; cbn [append] in H;
      try discriminate;
      try (injection H as H; f_equal; apply IH; exact H);
      try (injection H as Hc H; subst; discriminate).
    injection H as -> H. f_equal. apply IH. exact H.
Qed.

(** X28. Escaped text cannot leave its place in the page:
    [esc] answers a text with none of the characters [<], [>], the double
    quote and the apostrophe, whatever it is given; it loses nothing (two
    different texts have different escapes) and leaves a text without
    markup characters and [&] as it is. *)
Theorem esc_neutralises s :
  all_chars (fun x => negb (is_markup x)) (esc s) = true /\
  (forall s', esc s = esc s' -> s = s') /\
  (all_chars (fun x => negb (is_special x)) s = true -> esc s = s).
Proof.
  split; [|split; [apply esc_injective | apply esc_plain]].
  induction s as [|c s IH]; [reflexivity|].
  cbn [esc]. rewrite all_chars_append, esc_char_safe, IH. reflexivity.
Qed.

(** ** What the clients cannot change *)

Lemma quarantineSet_getRoom o x s :
  quarantineSet (snd (getRoom o x s)) = quarantineSet s.
Proof.
  unfold getRoom. destruct (negb _); [reflexivity|].
  destruct (JsMap.get _ _ (cache s)) as [e|].
  - cbn [snd]. unfold touch. destruct (JsMap.get _ _ _); reflexivity.
  - destruct (roomFile _) as [fp|]; [|reflexivity].
    destruct (JsMap.get _ _ _) as [obj|]; [|reflexivity].
    destruct (deserializeRoom _ _ _); reflexivity.
Qed.

Ltac q_save :=
  match goal with
  | |- context [saveRoom ?o ?k ?r ?s] =>
      let Q := fresh "Q" in
      pose proof (quarantineSet_saveRoom o k r s) as Q;
      destruct (saveRoom o k r s) as [? ?]; cbn [snd] in Q
  end.

Ltac q_get :=
  match goal with
  | |- context [getRoom ?o ?x ?s] =>
      let Q := fresh "Q" in
      pose proof (quarantineSet_getRoom o x s) as Q;
      destruct (getRoom o x s) as [[[? ?]|] ?]; cbn [snd] in Q
  end.

Ltac q_done :=
  cbn [fst snd]; rewrite ?quarantineSet_putRoom;
  unfold updateIndexFromRoom, with_indexFile, with_index, with_cache; cbn [quarantineSet];
  try reflexivity; try congruence;
  repeat match goal with
         | Q : quarantineSet _ = _ |- _ => rewrite Q; clear Q
         end;
  reflexivity.

Lemma quarantineSet_makeRoom o th s :
  quarantineSet (snd (makeRoom o th s)) = quarantineSet s.
Proof.
  unfold makeRoom. q_save. q_done.
Qed.

Lemma quarantineSet_assign_frame cfg o noEmpty key r ws s :
  quarantineSet (fst (fst (assign_frame cfg o noEmpty key r ws s))) = quarantineSet s.
Proof.
  unfold assign_frame.
  destruct (firstYoungestEmpty (now o) r) as [idx r1].
  destruct (idx <? 0).
  - q_save. q_done.
  - q_save. destruct (roomState _ _) as [rs r3]. q_done.
Qed.

Lemma quarantineSet_on_resync o d ws s :
  quarantineSet (fst (fst (on_resync o d ws s))) = quarantineSet s.
Proof.
  unfold on_resync.
  destruct (negb (truthy _)); [reflexivity|].
  destruct (JsSet.has _ _); [reflexivity|].
  q_get; [|q_done]. destruct (roomState _ _) as [rs r3]. q_done.
Qed.

Lemma quarantineSet_on_create_public_and_submit o d ws s :
  quarantineSet (fst (fst (on_create_public_and_submit o d ws s))) = quarantineSet s.
Proof.
  unfold on_create_public_and_submit.
  destruct (negb (validatePngDataUrl _)); [reflexivity|].
  pose proof (quarantineSet_makeRoom o
    (if truthy (trim (d_theme d)) then trim (d_theme d) else randTheme (rnd_theme o)) s)
    as Qm.
  destruct (makeRoom _ _ _) as [r1 s1]. cbn [snd] in Qm.
  q_save. destruct (roomState _ _) as [rs r3]. q_done.
Qed.

Lemma quarantineSet_on_join_random cfg o ws s :
  quarantineSet (fst (fst (on_join_random cfg o ws s))) = quarantineSet s.
Proof.
  unfold on_join_random.
  destruct (findRandomOpenRoomId o s) as [x|]; [|reflexivity].
  q_get.
  - destruct (negb _).
    + unfold saveIndex. destruct (write_ok o 0); q_done.
    + rewrite quarantineSet_assign_frame. exact Q.
  - unfold saveIndex. destruct (write_ok o 0); q_done.
Qed.

Lemma quarantineSet_on_join_by_id cfg o d ws s :
  quarantineSet (fst (fst (on_join_by_id cfg o d ws s))) = quarantineSet s.
Proof.
  unfold on_join_by_id.
  destruct (negb (truthy _)); [reflexivity|].
  destruct (JsSet.has _ _); [reflexivity|].
  q_get; [|q_done].
  destruct (negb _); [q_done|].
  rewrite quarantineSet_assign_frame. exact Q.
Qed.

Lemma quarantineSet_on_join_room o d ws s :
  quarantineSet (fst (fst (on_join_room o d ws s))) = quarantineSet s.
Proof.
  unfold on_join_room.
  destruct (negb (truthy _)); [reflexivity|].
  destruct (JsSet.has _ _); [reflexivity|].
  q_get; [|q_done].
  destruct (d_view d), (d_reservationToken d) as [tok|];
    try (cbv zeta; destruct (roomState _ _) as [rs r3]; q_done).
  cbv zeta.
  destruct (negb _); [q_done|].
  destruct (JsMap.get _ _ _) as [e|]; [|q_done].
  destruct (expiresAt e <=? now o); [q_done|].
  destruct (roomState _ _) as [rs r3]. q_done.
Qed.

Lemma quarantineSet_on_get_frame o d ws s :
  quarantineSet (fst (fst (on_get_frame o d ws s))) = quarantineSet s.
Proof.
  unfold on_get_frame.
  destruct (negb (truthy _)); [reflexivity|].
  destruct (JsSet.has _ _); [reflexivity|].
  q_get; [|q_done].
  destruct (d_frameIndex d) as [idx|fl|]; [| |q_done].
  - destruct (negb (in_range idx)); [q_done|].
    destruct (negb (at_bool _ _)); [q_done|].
    destruct (frame_at _ idx); q_done.
  - destruct (negb (in_range fl)); q_done.
Qed.

Lemma quarantineSet_on_submit_frame o d ws s :
  quarantineSet (fst (fst (on_submit_frame o d ws s))) = quarantineSet s.
Proof.
  unfold on_submit_frame.
  destruct (negb (truthy _)); [reflexivity|].
  destruct (JsSet.has _ _); [reflexivity|].
  q_get; [|q_done].
  cbv zeta.
  destruct (negb (String.eqb _ DRAWING)); [q_done|].
  destruct (d_frameIndex d) as [idx|fl|]; [| |q_done].
  - destruct (negb (in_range idx)); [q_done|].
    destruct (negb (truthy _)); [q_done|].
    destruct (JsMap.get _ _ _) as [e|]; [|q_done].
    destruct (expiresAt e <=? now o); [q_done|].
    destruct (negb (frameIndex e =? idx)); [q_done|].
    destruct (at_bool _ idx); [q_done|].
    destruct (negb (validatePngDataUrl _)); [q_done|].
    match goal with
    | |- context [saveRoom o 0 ?r ?s1] =>
        pose proof (quarantineSet_saveRoom o 0 r s1) as Q1;
        destruct (saveRoom o 0 r s1) as [rA sA]; cbn [snd] in Q1
    end.
    rewrite quarantineSet_putRoom in Q1.
    destruct (forallb _ _); [|q_done].
    q_save. destruct (roomState _ _) as [rs r3]. q_done.
  - destruct (negb (in_range fl)); [q_done|].
    destruct (negb (truthy _)); [q_done|].
    destruct (JsMap.get _ _ _) as [e|]; [|q_done].
    destruct (expiresAt e <=? now o); q_done.
Qed.

Lemma quarantineSet_on_join_room_u o u d ws s :
  quarantineSet (fst (fst (on_join_room_u o u d ws s))) = quarantineSet s.
Proof.
  unfold on_join_room_u, thrown.
  destruct (u_roomId u); [reflexivity|].
  destruct (negb (u_reservationToken u)); [apply quarantineSet_on_join_room|].
  destruct (negb (truthy _)); [reflexivity|].
  destruct (JsSet.has _ _); [reflexivity|].
  q_get; [|q_done].
  destruct (d_view d).
  - destruct (roomState _ _) as [rs r3]. q_done.
  - destruct (negb _); q_done.
Qed.

Lemma quarantineSet_on_get_frame_u o u d ws s :
  quarantineSet (fst (fst (on_get_frame_u o u d ws s))) = quarantineSet s.
Proof.
  unfold on_get_frame_u, thrown.
  destruct (u_roomId u); [reflexivity|].
  destruct (negb (u_frameIndex u)); [apply quarantineSet_on_get_frame|].
  destruct (negb (truthy _)); [reflexivity|].
  destruct (JsSet.has _ _); [reflexivity|].
  q_get; q_done.
Qed.

Lemma quarantineSet_on_submit_frame_u o u d ws s :
  quarantineSet (fst (fst (on_submit_frame_u o u d ws s))) = quarantineSet s.
Proof.
  unfold on_submit_frame_u, thrown.
  destruct (u_roomId u); [reflexivity|].
  destruct (negb (u_frameIndex u || u_reservationToken u));
    [apply quarantineSet_on_submit_frame|].
  destruct (negb (truthy _)); [reflexivity|].
  destruct (JsSet.has _ _); [reflexivity|].
  q_get; [|q_done].
  cbv zeta. destruct (negb _); q_done.
Qed.

Lemma quarantineSet_onMessage cfg o ws s buf :
  quarantineSet (fst (fst (onMessage cfg o ws s buf))) = quarantineSet s.
Proof.
  unfold onMessage, thrown.
  destruct buf as [|t d| |t d u]; [reflexivity| |reflexivity|];
    destruct (checkRateLimit _ _ _ _) as [[ok retry] b];
    set (s0 := with_RATE_BUCKETS b s);
    assert (E0 : quarantineSet s0 = quarantineSet s) by reflexivity;
    rewrite <- E0; clearbody s0; clear E0;
    (destruct (negb ok); [reflexivity|]);
    (destruct (String.eqb t "hello"); [reflexivity|]).
  - destruct (String.eqb t "resync"); [apply quarantineSet_on_resync|].
    destruct (String.eqb t "create_public_and_submit");
      [apply quarantineSet_on_create_public_and_submit|].
    destruct (String.eqb t "join_random"); [apply quarantineSet_on_join_random|].
    destruct (String.eqb t "join_by_id"); [apply quarantineSet_on_join_by_id|].
    destruct (String.eqb t "join_room"); [apply quarantineSet_on_join_room|].
    destruct (String.eqb t "get_frame"); [apply quarantineSet_on_get_frame|].
    destruct (String.eqb t "submit_frame");
      [apply quarantineSet_on_submit_frame | reflexivity].
  - destruct (String.eqb t "resync").
    { unfold on_resync_u, thrown. destruct (u_roomId u);
        [reflexivity | apply quarantineSet_on_resync]. }
    destruct (String.eqb t "create_public_and_submit").
    { unfold on_create_public_and_submit_u, thrown. destruct (u_theme u);
        [reflexivity | apply quarantineSet_on_create_public_and_submit]. }
    destruct (String.eqb t "join_random"); [apply quarantineSet_on_join_random|].
    destruct (String.eqb t "join_by_id").
    { unfold on_join_by_id_u, thrown. destruct (u_roomId u);
        [reflexivity | apply quarantineSet_on_join_by_id]. }
    destruct (String.eqb t "join_room"); [apply quarantineSet_on_join_room_u|].
    destruct (String.eqb t "get_frame"); [apply quarantineSet_on_get_frame_u|].
    destruct (String.eqb t "submit_frame");
      [apply quarantineSet_on_submit_frame_u | reflexivity].
Qed.

Lemma quarantineSet_evictCache cfg t s :
  quarantineSet (evictCache cfg t s) = quarantineSet s.
Proof. unfold evictCache. cbv zeta. destruct (_ <? _); reflexivity. Qed.

Lemma quarantineSet_doBackup cfg t io s :
  quarantineSet (doBackup cfg t io s) = quarantineSet s.
Proof.
  unfold doBackup.
  destruct (_ <? _); [reflexivity|].
  destruct (_ =? _); [reflexivity|].
  destruct io; reflexivity.
Qed.

Lemma quarantineSet_step cfg w e :
  not_admin e = true ->
  quarantineSet (server (fst (step cfg w e))) = quarantineSet (server w).
Proof.
  destruct e as [addr|c o buf|t|t io|t|rid mode]; intros H; try discriminate H;
    cbn [step fst server].
  - reflexivity.
  - destruct (nth_error (clients w) c) as [ws|]; [|reflexivity].
    pose proof (quarantineSet_onMessage cfg o ws (server w) buf) as Q.
    destruct (onMessage cfg o ws (server w) buf) as [[s1 ws1] out].
    exact Q.
  - apply quarantineSet_evictCache.
  - apply quarantineSet_doBackup.
  - reflexivity.
Qed.

(** X29. Only the administrator changes the quarantine: along
    a run in which no [/admin/quarantine] request arrives (whatever the
    clients send, whatever the timers do, whether the disk works or not)
    the quarantine set stays what it was; so a room put in quarantine
    stays hidden until the administrator lifts it. *)
Theorem quarantine_only_by_admin cfg es : forall w,
  forallb not_admin es = true ->
  quarantineSet (server (run cfg w es)) = quarantineSet (server w).
Proof.
  induction es as [|e es IH]; intros w H; [reflexivity|].
  cbn [forallb] in H. apply andb_true_iff in H. destruct H as [He Hes].
  cbn [run]. rewrite (IH _ Hes). apply quarantineSet_step, He.
Qed.

Lemma quarantine_only_by_admin_witness :
  quarantineSet
    (server (run default_config
               (mkWorld (with_quarantineSet ["ABCDEFG"] Cases.one_cached) [])
               [EConnect "203.0.113.7";
                EMessage 0 (Cases.oracle 2000) (Parsed "join_by_id" Cases.join);
                EMessage 0 (Cases.oracle 2500)
                  (Parsed "create_public_and_submit"
                     (Sample.data "" None NNaN));
                EEvict 400000;
                EBackup 1767229200000 (BackupCompletes None);
                ERateSweep 1767229200000])) =
  ["ABCDEFG"].
Proof.
  apply (@quarantine_only_by_admin default_config
           [EConnect "203.0.113.7";
            EMessage 0 (Cases.oracle 2000) (Parsed "join_by_id" Cases.join);
            EMessage 0 (Cases.oracle 2500)
              (Parsed "create_public_and_submit"
                 (Sample.data "" None NNaN));
            EEvict 400000;
            EBackup 1767229200000 (BackupCompletes None);
            ERateSweep 1767229200000]
           (mkWorld (with_quarantineSet ["ABCDEFG"] Cases.one_cached) [])).
  vm_compute. reflexivity.
Defined.

(** ** The backup that was just taken *)

Lemma greatest_not_in_firstn x : forall n L,
  StronglySorted str_le L -> NoDup L ->
  (forall y, In y L -> str_le y x) ->
  (n < List.length L)%nat ->
  ~ In x (firstn n L).
Proof.
  induction n as [|n IH]; intros L Hs Hn Hmax Hlen; [intros []|].
  destruct L as [|a L]; [cbn in Hlen; lia|].
  cbn [List.length] in Hlen. cbn [firstn].
  inversion Hs as [|a' L' Hs' Ha]; subst.
  inversion Hn as [|a' L' Hna Hn']; subst.
  intros [E | Hin].
  - subst a. destruct L as [|z L]; [cbn in Hlen; lia|].
    apply Hna. left.
    apply str_le_antisym.
    + apply Hmax. right. left. reflexivity.
    + inversion Ha; subst. assumption.
  - revert Hin. apply IH; try assumption; [|lia].
    intros y Hy. apply Hmax. right. exact Hy.
Qed.

Lemma In_mkdir n x dir : In n (mkdir x dir) <-> In n dir \/ n = x.
Proof.
  unfold mkdir. destruct (JsSet.has x dir) eqn:E.
  - apply has_In in E. split; [auto | intros [H | ->]; assumption].
  - rewrite in_app_iff. cbn [In]. split.
    + intros [H | [<- | []]]; [left; exact H | right; reflexivity].
    + intros [H | ->]; [left; exact H | right; left; reflexivity].
Qed.

Lemma NoDup_mkdir x dir : NoDup dir -> NoDup (mkdir x dir).
Proof.
  intros H. unfold mkdir. destruct (JsSet.has x dir) eqn:E; [exact H|].
  apply has_false in E.
  apply (Permutation_NoDup (Permutation_cons_append dir x)).
  constructor; assumption.
Qed.

(** X30. The backup that was just taken is kept: when a
    backup is due and completes (whether or not the pruning is cut short),
    [BACKUP_KEEP] is at least 1, the directory listing has no duplicates
    and no visible entry of [backups/] sorts after the new time stamp
    (the clock did not go back), then the new directory is still there
    after the pruning, the dirty set is empty, [lastBackupAt] is the clock
    and the pruning has added nothing else. *)
Theorem new_backup_survives cfg t rmFailsAt s :
  backupDue cfg t s = true ->
  1 <= BACKUP_KEEP cfg ->
  NoDup (backups s) ->
  (forall n, In n (backups s) -> hidden n = false -> str_le n (isoStamp t)) ->
  let s' := doBackup cfg t (BackupCompletes rmFailsAt) s in
  In (isoStamp t) (backups s') /\
  dirtyRoomIds s' = [] /\
  lastBackupAt s' = t /\
  (forall n, In n (backups s') -> In n (backups s) \/ n = isoStamp t).
Proof.
  intros Hdue Hkeep Hnd Hmax. cbn zeta.
  unfold backupDue in Hdue. apply andb_true_iff in Hdue. destruct Hdue as [H1 H2].
  apply negb_true_iff in H1. apply negb_true_iff in H2.
  unfold doBackup. rewrite H1, H2.
  cbn [backups dirtyRoomIds lastBackupAt with_backup].
  set (stamp := isoStamp t) in *.
  set (dir := mkdir stamp (backups s)).
  assert (Hin : In stamp dir) by (apply In_mkdir; right; reflexivity).
  split; [|split; [reflexivity | split; [reflexivity|]]].
  - unfold pruneBackups. apply filter_In. split; [exact Hin|].
    apply negb_true_iff, has_false.
    set (dirs := sort_names (filter (fun n => negb (hidden n)) dir)).
    assert (Hv : In stamp dirs).
    { apply (Permutation_in _ (Permutation_sym (sort_names_perm _))).
      apply filter_In. split; [exact Hin|].
      unfold stamp. rewrite isoStamp_visible. reflexivity. }
    assert (Hpos : (0 < List.length dirs)%nat).
    { destruct dirs; [destruct Hv | cbn; lia]. }
    apply greatest_not_in_firstn.
    + apply sort_names_sorted.
    + apply (Permutation_NoDup (Permutation_sym (sort_names_perm _))).
      apply NoDup_filter_keep, NoDup_mkdir, Hnd.
    + intros y Hy.
      apply (Permutation_in _ (sort_names_perm _)) in Hy.
      apply filter_In in Hy. destruct Hy as [Hy Hh].
      apply negb_true_iff in Hh.
      apply In_mkdir in Hy. destruct Hy as [Hy | ->].
      * apply Hmax; assumption.
      * destruct (str_le_total stamp stamp); assumption.
    + destruct rmFailsAt as [k|]; lia.
  - intros n Hn. unfold pruneBackups in Hn. apply filter_In in Hn.
    destruct Hn as [Hn _]. apply In_mkdir in Hn. exact Hn.
Qed.

Lemma new_backup_survives_witness :
  In (isoStamp 1767229200000)
     (backups (doBackup (mkConfig 80 300000 180000 1800000 2) 1767229200000
                 (BackupCompletes None)
                 (with_backup ["ABCDEFG"] 0
                    ["2026-01-01T00-00-00-000Z"; ".cache"; "2025-12-31T00-00-00-000Z"]
                    (boot [] [] [])))) /\
  dirtyRoomIds
    (doBackup (mkConfig 80 300000 180000 1800000 2) 1767229200000
       (BackupCompletes None)
       (with_backup ["ABCDEFG"] 0
          ["2026-01-01T00-00-00-000Z"; ".cache"; "2025-12-31T00-00-00-000Z"]
          (boot [] [] []))) = [] /\
  lastBackupAt
    (doBackup (mkConfig 80 300000 180000 1800000 2) 1767229200000
       (BackupCompletes None)
       (with_backup ["ABCDEFG"] 0
          ["2026-01-01T00-00-00-000Z"; ".cache"; "2025-12-31T00-00-00-000Z"]
          (boot [] [] []))) = 1767229200000 /\
  (forall n,
     In n (backups
             (doBackup (mkConfig 80 300000 180000 1800000 2) 1767229200000
                (BackupCompletes None)
                (with_backup ["ABCDEFG"] 0
                   ["2026-01-01T00-00-00-000Z"; ".cache"; "2025-12-31T00-00-00-000Z"]
                   (boot [] [] [])))) ->
     In n (backups
             (with_backup ["ABCDEFG"] 0
                ["2026-01-01T00-00-00-000Z"; ".cache"; "2025-12-31T00-00-00-000Z"]
                (boot [] [] []))) \/
     n = isoStamp 1767229200000).
Proof.
  apply (@new_backup_survives (mkConfig 80 300000 180000 1800000 2) 1767229200000 None
           (with_backup ["ABCDEFG"] 0
              ["2026-01-01T00-00-00-000Z"; ".cache"; "2025-12-31T00-00-00-000Z"]
              (boot [] [] []))).
  - vm_compute. reflexivity.
  - vm_compute. discriminate.
  - repeat constructor; cbn; intuition discriminate.
  - intros n [<- | [<- | [<- | []]]] Hh; vm_compute; try reflexivity; discriminate Hh.
Defined.
